(** * BUK protocol: booking orchestrator and per-supplier token ledgers

    A shallow embedding of the Solidity contracts [BukTrips] (the factory /
    booking orchestrator), [SupplierContract] (the token ledger of a
    supplier), [SupplierUtilityContract] (the proof-of-stay ledger) and the
    two deployer contracts, followed by the properties of the booking state
    machine, of the payment collection of [bookRoom] and of the transfer
    gates.

    Conventions of the embedding.
    - [uint256], [uint8] and [address] are integers ([Z]).  Solidity 0.8.9
      checks arithmetic: an overflow or underflow does not wrap, it reverts
      with [Panic(0x11)]; an array access out of bounds reverts with
      [Panic(0x32)].  Both are written out.
    - A Solidity [mapping] is a finite map ([gmap]) read with the zero value
      of its range as default.
    - A call runs in the monad [M]: it reads and writes the [World] (the
      storage of every contract of the protocol, and the trace of the calls
      sent to the currency ledger and to the treasury) and either returns or
      reverts.  A reverted call leaves the world as it was ([after]).
    - Events carry no state and are left out.  The [nonReentrant] modifier is
      transparent: the collaborators are asked for their answer only and do
      not call back.
    - The contracts inherit OpenZeppelin's [ERC1155] and [AccessControl]
      (contracts 4.x), which the repository imports; what they inherit is
      written after the library. *)

From Stdlib Require Import ZArith List String Bool Lia.
From stdpp Require Import base decidable countable gmap list.
Import ListNotations.
Local Open Scope Z_scope.

(** ** Machine integers *)

Abbreviation uint256 := Z (only parsing).
Abbreviation address := Z (only parsing).

Definition MAX_UINT256 : Z := 2 ^ 256 - 1.
Definition MAX_UINT8 : Z := 255.

(** ** Errors *)

(** The error classes of the specification (section 7); [Fault] collects what
    the specification does not name (arithmetic panics, failed external
    calls). *)
Inductive ErrorClass :=
| AuthorizationError
| StateError
| ValidationError
| TransferRejected
| PaymentFailure
| Fault.

(** What a revert carries.  [Require] is a failed [require(cond, msg)]: the
    message is the source's, the class is the kind of condition that was
    checked (Solidity itself only carries the message). *)
Inductive Error :=
| Require (c : ErrorClass) (msg : string)
| MissingRole (account : address)
| NonTransferable (msg : string)
| Panic (code : Z)
| CallFailed (callee : address).

Definition error_class (e : Error) : ErrorClass :=
  match e with
  | Require c _ => c
  | MissingRole _ => AuthorizationError
  | NonTransferable _ => TransferRejected
  | Panic _ => Fault
  | CallFailed _ => Fault
  end.

Definition ARITHMETIC : Z := 17.       (* Panic(0x11) *)
Definition OUT_OF_BOUNDS : Z := 50.    (* Panic(0x32) *)

Inductive Result (A : Type) :=
| Ok (a : A)
| Revert (e : Error).
Arguments Ok {A} a.
Arguments Revert {A} e.

(** ** Storage of the orchestrator *)

Module BookingStatus.
Inductive t := nil | booked | confirmed | cancelled | expired.

Definition eqb (a b : t) : bool :=
    match a, b with
    | nil, nil | booked, booked | confirmed, confirmed
    | cancelled, cancelled | expired, expired => true
    | _, _ => false
    end.

Lemma eqb_eq a b : eqb a b = true <-> a = b.
  Proof. destruct a, b; simpl; split; congruence. Qed.
End BookingStatus.

Module Booking.
Record t := mk {
    id : uint256;
    status : BookingStatus.t;
    tokenID : uint256;
    owner : address;
    supplierId : uint256;
    checkin : uint256;
    checkout : uint256;
    total : uint256;
    baseRate : uint256
  }.

  (** The value of an unwritten slot of [BookingDetails]. *)
Definition zero : t := mk 0 BookingStatus.nil 0 0 0 0 0 0 0.

Definition set_status (s : BookingStatus.t) (b : t) : t :=
    mk (id b) s (tokenID b) (owner b) (supplierId b) (checkin b) (checkout b)
       (total b) (baseRate b).

Definition set_tokenID (k : uint256) (b : t) : t :=
    mk (id b) (status b) k (owner b) (supplierId b) (checkin b) (checkout b)
       (total b) (baseRate b).
End Booking.

Module SupplierDetails.
Record t := mk {
    id : uint256;
    status : bool;
    supplier_contract : address;
    supplier_owner : address;
    utility_contract : address
  }.

Definition zero : t := mk 0 false 0 0 0.
End SupplierDetails.

(** The roles of OpenZeppelin's [AccessControl] that the contracts declare,
    and the library's own [DEFAULT_ADMIN_ROLE]. *)
Inductive Role :=
| ADMIN_ROLE
| SUPPLIER_OWNER_ROLE
| FACTORY_CONTRACT_ROLE
| UPDATE_CONTRACT_ROLE
| SUPPLIER_CONTRACT_ROLE
| DEFAULT_ADMIN_ROLE.

Definition role_code (r : Role) : nat :=
  match r with
  | ADMIN_ROLE => 0
  | SUPPLIER_OWNER_ROLE => 1
  | FACTORY_CONTRACT_ROLE => 2
  | UPDATE_CONTRACT_ROLE => 3
  | SUPPLIER_CONTRACT_ROLE => 4
  | DEFAULT_ADMIN_ROLE => 5
  end%nat.

Definition role_of_code (n : nat) : option Role :=
  match n with
  | 0 => Some ADMIN_ROLE
  | 1 => Some SUPPLIER_OWNER_ROLE
  | 2 => Some FACTORY_CONTRACT_ROLE
  | 3 => Some UPDATE_CONTRACT_ROLE
  | 4 => Some SUPPLIER_CONTRACT_ROLE
  | 5 => Some DEFAULT_ADMIN_ROLE
  | _ => None
  end%nat.

#[global] Instance Role_eq_dec : EqDecision Role.
Proof. solve_decision. Defined.

#[global] Instance Role_countable : Countable Role.
Proof.
  apply (inj_countable role_code role_of_code).
  intros []; reflexivity.
Defined.

(** [_roles] of [AccessControl]: the pairs (role, member). *)
Definition hasRole (roles : gset (Role * address)) (r : Role) (a : address) : bool :=
  bool_decide ((r, a) ∈ roles).

Definition _grantRole (r : Role) (a : address) (roles : gset (Role * address))
  : gset (Role * address) :=
  {[ (r, a) ]} ∪ roles.

Definition _revokeRole (r : Role) (a : address) (roles : gset (Role * address))
  : gset (Role * address) :=
  roles ∖ {[ (r, a) ]}.

Module Storage.

Module BukTrips.
Record t := mk {
      buk_wallet : address;
      currency : address;
      treasury : address;
      supplier_deployer : address;
      utility_deployer : address;
      commission : Z;                       (* uint8, initially 5 *)
      _supplierIds : uint256;
      _bookingIds : uint256;
      BookingDetails : gmap Z Booking.t;
      TimeLocks : gmap (Z * Z) uint256;
      Suppliers : gmap Z SupplierDetails.t;
      _roles : gset (Role * address)
    }.

Definition set_deployers (sd ud : address) (s : t) : t :=
      mk (buk_wallet s) (currency s) (treasury s) sd ud (commission s)
         (_supplierIds s) (_bookingIds s) (BookingDetails s) (TimeLocks s)
         (Suppliers s) (_roles s).

Definition set_treasury (a : address) (s : t) : t :=
      mk (buk_wallet s) (currency s) a (supplier_deployer s) (utility_deployer s)
         (commission s) (_supplierIds s) (_bookingIds s) (BookingDetails s)
         (TimeLocks s) (Suppliers s) (_roles s).

Definition set_commission (c : Z) (s : t) : t :=
      mk (buk_wallet s) (currency s) (treasury s) (supplier_deployer s)
         (utility_deployer s) c (_supplierIds s) (_bookingIds s)
         (BookingDetails s) (TimeLocks s) (Suppliers s) (_roles s).

Definition set_supplierIds (n : uint256) (s : t) : t :=
      mk (buk_wallet s) (currency s) (treasury s) (supplier_deployer s)
         (utility_deployer s) (commission s) n (_bookingIds s)
         (BookingDetails s) (TimeLocks s) (Suppliers s) (_roles s).

Definition set_bookingIds (n : uint256) (s : t) : t :=
      mk (buk_wallet s) (currency s) (treasury s) (supplier_deployer s)
         (utility_deployer s) (commission s) (_supplierIds s) n
         (BookingDetails s) (TimeLocks s) (Suppliers s) (_roles s).

Definition set_BookingDetails (m : gmap Z Booking.t) (s : t) : t :=
      mk (buk_wallet s) (currency s) (treasury s) (supplier_deployer s)
         (utility_deployer s) (commission s) (_supplierIds s) (_bookingIds s)
         m (TimeLocks s) (Suppliers s) (_roles s).

Definition set_TimeLocks (m : gmap (Z * Z) uint256) (s : t) : t :=
      mk (buk_wallet s) (currency s) (treasury s) (supplier_deployer s)
         (utility_deployer s) (commission s) (_supplierIds s) (_bookingIds s)
         (BookingDetails s) m (Suppliers s) (_roles s).

Definition set_Suppliers (m : gmap Z SupplierDetails.t) (s : t) : t :=
      mk (buk_wallet s) (currency s) (treasury s) (supplier_deployer s)
         (utility_deployer s) (commission s) (_supplierIds s) (_bookingIds s)
         (BookingDetails s) (TimeLocks s) m (_roles s).

Definition set_roles (r : gset (Role * address)) (s : t) : t :=
      mk (buk_wallet s) (currency s) (treasury s) (supplier_deployer s)
         (utility_deployer s) (commission s) (_supplierIds s) (_bookingIds s)
         (BookingDetails s) (TimeLocks s) (Suppliers s) r.

    (** [constructor(_treasury, _currency, _buk_wallet)], deployed by
        [deployer]. *)
Definition constructor (deployer _treasury _currency _buk_wallet : address) : t :=
      mk _buk_wallet _currency _treasury 0 0 5 0 0 ∅ ∅ ∅
         (_grantRole ADMIN_ROLE deployer ∅).
End BukTrips.

  (** Balances, approvals (OpenZeppelin's [ERC1155]) and roles are shared by
      the two ledgers. *)
Module SupplierContract.
Record t := mk {
      utility_contract : address;
      contract_uri : string;
      factory_contract : address;
      Details : uint256 * string;
      bookingTickets : gmap Z string;
      transferable : gmap Z bool;
      _balances : gmap (Z * address) uint256;
      _operatorApprovals : gset (address * address);
      _roles : gset (Role * address)
    }.

Definition set_contract_uri (u : string) (s : t) : t :=
      mk (utility_contract s) u (factory_contract s) (Details s)
         (bookingTickets s) (transferable s) (_balances s)
         (_operatorApprovals s) (_roles s).

Definition set_Details (d : uint256 * string) (s : t) : t :=
      mk (utility_contract s) (contract_uri s) (factory_contract s) d
         (bookingTickets s) (transferable s) (_balances s)
         (_operatorApprovals s) (_roles s).

Definition set_bookingTickets (m : gmap Z string) (s : t) : t :=
      mk (utility_contract s) (contract_uri s) (factory_contract s) (Details s)
         m (transferable s) (_balances s) (_operatorApprovals s) (_roles s).

Definition set_transferable (m : gmap Z bool) (s : t) : t :=
      mk (utility_contract s) (contract_uri s) (factory_contract s) (Details s)
         (bookingTickets s) m (_balances s) (_operatorApprovals s) (_roles s).

Definition set_balances (m : gmap (Z * address) uint256) (s : t) : t :=
      mk (utility_contract s) (contract_uri s) (factory_contract s) (Details s)
         (bookingTickets s) (transferable s) m (_operatorApprovals s) (_roles s).

Definition set_operatorApprovals (m : gset (address * address)) (s : t) : t :=
      mk (utility_contract s) (contract_uri s) (factory_contract s) (Details s)
         (bookingTickets s) (transferable s) (_balances s) m (_roles s).

Definition set_roles (r : gset (Role * address)) (s : t) : t :=
      mk (utility_contract s) (contract_uri s) (factory_contract s) (Details s)
         (bookingTickets s) (transferable s) (_balances s) (_operatorApprovals s) r.

    (** [constructor(_id, _name, _supplier_owner, _utility_contract,
        _factory_contract, _contract_uri)]. *)
Definition constructor (_id : uint256) (_name : string)
        (_supplier_owner _utility_contract _factory_contract : address)
        (_contract_uri : string) : t :=
      mk _utility_contract _contract_uri _factory_contract (_id, _name) ∅ ∅ ∅ ∅
         (_grantRole UPDATE_CONTRACT_ROLE _factory_contract
           (_grantRole UPDATE_CONTRACT_ROLE _supplier_owner
             (_grantRole FACTORY_CONTRACT_ROLE _factory_contract
               (_grantRole SUPPLIER_OWNER_ROLE _supplier_owner ∅)))).
End SupplierContract.

Module SupplierUtilityContract.
Record t := mk {
      supplier_contract : address;
      contract_uri : string;
      Details : uint256 * string;
      bookingTickets : gmap Z string;
      _balances : gmap (Z * address) uint256;
      _operatorApprovals : gset (address * address);
      _roles : gset (Role * address)
    }.

Definition set_supplier_contract (a : address) (s : t) : t :=
      mk a (contract_uri s) (Details s) (bookingTickets s) (_balances s)
         (_operatorApprovals s) (_roles s).

Definition set_contract_uri (u : string) (s : t) : t :=
      mk (supplier_contract s) u (Details s) (bookingTickets s) (_balances s)
         (_operatorApprovals s) (_roles s).

Definition set_Details (d : uint256 * string) (s : t) : t :=
      mk (supplier_contract s) (contract_uri s) d (bookingTickets s)
         (_balances s) (_operatorApprovals s) (_roles s).

Definition set_bookingTickets (m : gmap Z string) (s : t) : t :=
      mk (supplier_contract s) (contract_uri s) (Details s) m (_balances s)
         (_operatorApprovals s) (_roles s).

Definition set_balances (m : gmap (Z * address) uint256) (s : t) : t :=
      mk (supplier_contract s) (contract_uri s) (Details s) (bookingTickets s)
         m (_operatorApprovals s) (_roles s).

Definition set_operatorApprovals (m : gset (address * address)) (s : t) : t :=
      mk (supplier_contract s) (contract_uri s) (Details s) (bookingTickets s)
         (_balances s) m (_roles s).

Definition set_roles (r : gset (Role * address)) (s : t) : t :=
      mk (supplier_contract s) (contract_uri s) (Details s) (bookingTickets s)
         (_balances s) (_operatorApprovals s) r.

    (** [constructor(_id, _name, _factory_contract, _contract_uri)]. *)
Definition constructor (_id : uint256) (_name : string)
        (_factory_contract : address) (_contract_uri : string) : t :=
      mk 0 _contract_uri (_id, _name) ∅ ∅ ∅
         (_grantRole FACTORY_CONTRACT_ROLE _factory_contract ∅).
End SupplierUtilityContract.

  (** [BukSupplierDeployer] and [BukSupplierUtilityDeployer] have the same
      storage; [nonce] is the account nonce that the EVM uses to derive the
      address of a contract created with [new]. *)
Module Deployer.
Record t := mk {
      admin : address;
      factory_contract : address;
      nonce : Z
    }.

Definition constructor (deployer _factory_contract : address) : t :=
      mk deployer _factory_contract 1.
End Deployer.

End Storage.

(** ** The world *)

(** A call sent to a collaborator that is not part of the repository: the
    currency ledger ([IERC20.transferFrom]) or the treasury
    ([ITreasury.cancelUSDCRefund]).  The caller is the orchestrator. *)
Inductive ExtCall :=
| transferFrom (token sender recipient : address) (amount : uint256)
| cancelUSDCRefund (callee : address) (amount : uint256) (recipient : address).

(** The answer of a collaborator: it returns ([transferFrom] returns a
    boolean, [cancelUSDCRefund] returns nothing and its [b] is ignored) or it
    reverts. *)
Inductive Answer :=
| returns (b : bool)
| reverts.

(** What the protocol does not decide: the answers of the collaborators, given
    the calls they have received so far; the address the EVM gives to a
    contract created by [creator] at a [nonce]; and whether a recipient of
    ERC1155 tokens passes OpenZeppelin's acceptance check (an account without
    code always does, a contract does when its [onERC1155Received] returns the
    magic value). *)
Record Env := {
  answer : list ExtCall -> ExtCall -> Answer;
  create_address : address -> Z -> address;
  accepts_erc1155 : address -> bool
}.

(** The code that lives at an address. *)
Inductive Contract :=
| SupplierLedger (s : Storage.SupplierContract.t)
| UtilityLedger (s : Storage.SupplierUtilityContract.t)
| SupplierDeployer (s : Storage.Deployer.t)
| UtilityDeployer (s : Storage.Deployer.t).

Record World := {
  env : Env;
  buk_address : address;                 (* address(this) of BukTrips *)
  buk : Storage.BukTrips.t;
  contracts : gmap address Contract;
  calls : list ExtCall                   (* oldest first *)
}.

Definition set_buk (b : Storage.BukTrips.t) (w : World) : World :=
  {| env := env w; buk_address := buk_address w; buk := b;
     contracts := contracts w; calls := calls w |}.

Definition set_contracts (c : gmap address Contract) (w : World) : World :=
  {| env := env w; buk_address := buk_address w; buk := buk w;
     contracts := c; calls := calls w |}.

Definition set_calls (l : list ExtCall) (w : World) : World :=
  {| env := env w; buk_address := buk_address w; buk := buk w;
     contracts := contracts w; calls := l |}.

(** ** The monad of a call *)

Definition M (A : Type) : Type := World -> Result (A * World).

Definition ret {A} (a : A) : M A := fun w => Ok (a, w).

Definition bind {A B} (m : M A) (k : A -> M B) : M B :=
  fun w => match m w with
           | Ok (a, w') => k a w'
           | Revert e => Revert e
           end.

Definition revert {A} (e : Error) : M A := fun _ => Revert e.

Notation "'let*' x ':=' m 'in' k" := (bind m (fun x => k))
  (at level 10, x pattern, m at level 100, k at level 200).
Notation "m ';;' k" := (bind m (fun _ => k))
  (at level 100, k at level 200, right associativity).

Definition require (cond : bool) (c : ErrorClass) (msg : string) : M unit :=
  if cond then ret tt else revert (Require c msg).

Definition get_buk : M Storage.BukTrips.t := fun w => Ok (buk w, w).
Definition put_buk (b : Storage.BukTrips.t) : M unit := fun w => Ok (tt, set_buk b w).
Definition this : M address := fun w => Ok (buk_address w, w).

(** The world after a call: a revert rolls everything back. *)
Definition after {A} (r : Result (A * World)) (w : World) : World :=
  match r with
  | Ok (_, w') => w'
  | Revert _ => w
  end.

(** Checked arithmetic of Solidity 0.8. *)
Definition checked_add (a b : Z) : M Z :=
  if a + b <=? MAX_UINT256 then ret (a + b) else revert (Panic ARITHMETIC).

Definition checked_sub (a b : Z) : M Z :=
  if b <=? a then ret (a - b) else revert (Panic ARITHMETIC).

Definition checked_mul (a b : Z) : M Z :=
  if a * b <=? MAX_UINT256 then ret (a * b) else revert (Panic ARITHMETIC).

(** [array[i]] on a memory array. *)
Definition index {A} (l : list A) (i : Z) : M A :=
  match l !! Z.to_nat i with
  | Some x => ret x
  | None => revert (Panic OUT_OF_BOUNDS)
  end.

(** [for (uint8 i = 0; i < len; ++i) body]: the counter is a [uint8], so the
    increment that follows the body at [i = 255] overflows and reverts.  The
    loop carries the local variables [s] of the enclosing function.  The
    fuel, 256, is never exhausted. *)
Fixpoint for_uint8_from {S} (fuel : nat) (i len : Z) (body : Z -> S -> M S) (s : S)
  : M S :=
  if i <? len then
    match fuel with
    | O => revert (Panic ARITHMETIC)
    | Datatypes.S fuel' =>
        let* s' := body i s in
        if i =? MAX_UINT8 then revert (Panic ARITHMETIC)
        else for_uint8_from fuel' (i + 1) len body s'
    end
  else ret s.

Definition for_uint8 {S} (len : Z) (body : Z -> S -> M S) (s : S) : M S :=
  for_uint8_from 256 0 len body s.

(** A call to a collaborator.  An address that holds one of the protocol's own
    contracts has neither [transferFrom] nor [cancelUSDCRefund], so the call
    reverts; otherwise the environment answers and the call is recorded. *)
Definition external_call (callee : address) (c : ExtCall) : M bool :=
  fun w =>
    if bool_decide (callee = buk_address w) then Revert (CallFailed callee)
    else match contracts w !! callee with
         | Some _ => Revert (CallFailed callee)
         | None =>
             match answer (env w) (calls w) c with
             | returns b => Ok (b, set_calls (calls w ++ [c]) w)
             | reverts => Revert (CallFailed callee)
             end
         end.

(** ** OpenZeppelin's ERC1155 (contracts 4.x)

    The two ledgers inherit [ERC1155]; the repository imports it and does not
    contain it.  Its internal functions are written here on the balance
    table [_balances[id][account]], after the library's source. *)
Module ERC1155.

Definition balanceOf (bal : gmap (Z * address) uint256) (account : address)
      (id : uint256) : uint256 :=
    default 0 (bal !! (id, account)).

Definition isApprovedForAll (app : gset (address * address))
      (account operator : address) : bool :=
    bool_decide ((account, operator) ∈ app).

Definition _doSafeTransferAcceptanceCheck (to : address) : M unit :=
    fun w =>
      if accepts_erc1155 (env w) to then Ok (tt, w)
      else Revert (Require Fault "ERC1155: transfer to non-ERC1155Receiver implementer").

Definition _mint (bal : gmap (Z * address) uint256) (to : address)
      (id amount : uint256) : M (gmap (Z * address) uint256) :=
    require (negb (to =? 0)) ValidationError "ERC1155: mint to the zero address";;
    let* b := checked_add (balanceOf bal to id) amount in
    _doSafeTransferAcceptanceCheck to;;
    ret (<[(id, to) := b]> bal).

Definition _burn (bal : gmap (Z * address) uint256) (from : address)
      (id amount : uint256) : M (gmap (Z * address) uint256) :=
    require (negb (from =? 0)) ValidationError "ERC1155: burn from the zero address";;
    let fromBalance := balanceOf bal from id in
    require (amount <=? fromBalance) Fault "ERC1155: burn amount exceeds balance";;
    ret (<[(id, from) := fromBalance - amount]> bal).

Definition _safeTransferFrom (bal : gmap (Z * address) uint256)
      (from to : address) (id amount : uint256) : M (gmap (Z * address) uint256) :=
    require (negb (to =? 0)) ValidationError "ERC1155: transfer to the zero address";;
    let fromBalance := balanceOf bal from id in
    require (amount <=? fromBalance) Fault "ERC1155: insufficient balance for transfer";;
    let bal := <[(id, from) := fromBalance - amount]> bal in
    let* b := checked_add (balanceOf bal to id) amount in
    _doSafeTransferAcceptanceCheck to;;
    ret (<[(id, to) := b]> bal).

Fixpoint _transferEach (bal : gmap (Z * address) uint256) (from to : address)
      (ids amounts : list uint256) : M (gmap (Z * address) uint256) :=
    match ids, amounts with
    | id :: ids', amount :: amounts' =>
        let fromBalance := balanceOf bal from id in
        require (amount <=? fromBalance) Fault "ERC1155: insufficient balance for transfer";;
        let bal := <[(id, from) := fromBalance - amount]> bal in
        let* b := checked_add (balanceOf bal to id) amount in
        _transferEach (<[(id, to) := b]> bal) from to ids' amounts'
    | _, _ => ret bal
    end.

Definition _safeBatchTransferFrom (bal : gmap (Z * address) uint256)
      (from to : address) (ids amounts : list uint256)
      : M (gmap (Z * address) uint256) :=
    require (length ids =? length amounts)%nat ValidationError
            "ERC1155: ids and amounts length mismatch";;
    require (negb (to =? 0)) ValidationError "ERC1155: transfer to the zero address";;
    let* bal := _transferEach bal from to ids amounts in
    _doSafeTransferAcceptanceCheck to;;
    ret bal.

Definition _setApprovalForAll (app : gset (address * address))
      (owner operator : address) (approved : bool) : M (gset (address * address)) :=
    require (negb (owner =? operator)) ValidationError
            "ERC1155: setting approval status for self";;
    ret (if approved then {[ (owner, operator) ]} ∪ app
         else app ∖ {[ (owner, operator) ]}).

End ERC1155.

(** [onlyRole(role)] of [AccessControl]. *)
Definition onlyRole (roles : gset (Role * address)) (r : Role) (_msgSender : address)
  : M unit :=
  if hasRole roles r _msgSender then ret tt else revert (MissingRole _msgSender).

(** The public functions of [AccessControl] (OpenZeppelin contracts 4.x),
    which the orchestrator and the two ledgers inherit; the repository imports
    the library and does not contain it.  No contract calls [_setRoleAdmin]:
    the admin of every role is [DEFAULT_ADMIN_ROLE], which no constructor
    grants.  A role that no contract declares guards nothing and is left
    out. *)
Module AccessControl.

Definition getRoleAdmin (role : Role) : Role := DEFAULT_ADMIN_ROLE.

Definition grantRole (roles : gset (Role * address)) (_msgSender : address)
      (role : Role) (account : address) : M (gset (Role * address)) :=
    onlyRole roles (getRoleAdmin role) _msgSender;;
    ret (_grantRole role account roles).

Definition revokeRole (roles : gset (Role * address)) (_msgSender : address)
      (role : Role) (account : address) : M (gset (Role * address)) :=
    onlyRole roles (getRoleAdmin role) _msgSender;;
    ret (_revokeRole role account roles).

Definition renounceRole (roles : gset (Role * address)) (_msgSender : address)
      (role : Role) (account : address) : M (gset (Role * address)) :=
    require (bool_decide (account = _msgSender)) AuthorizationError
            "AccessControl: can only renounce roles for self";;
    ret (_revokeRole role account roles).

End AccessControl.

Definition put_contract (a : address) (c : Contract) : M unit :=
  fun w => Ok (tt, set_contracts (<[a := c]> (contracts w)) w).

(** ** SupplierUtilityContract *)

(** Every external function takes the address [self] of the instance that is
    called and the caller [_msgSender]; a call to an address that does not
    hold the contract reverts. *)
Module SupplierUtilityContract.
Module S := Storage.SupplierUtilityContract.

Definition load (self : address) : M S.t :=
    fun w => match contracts w !! self with
             | Some (UtilityLedger s) => Ok (s, w)
             | _ => Revert (CallFailed self)
             end.

Definition store (self : address) (s : S.t) : M unit :=
    put_contract self (UtilityLedger s).

Definition _setURI (id : uint256) (newuri : string) (s : S.t) : S.t :=
    S.set_bookingTickets (<[id := newuri]> (S.bookingTickets s)) s.

Definition uri (s : S.t) (id : uint256) : string :=
    default ""%string (S.bookingTickets s !! id).

Definition grantSupplierRole (self _msgSender _supplier_contract : address) : M unit :=
    let* s := load self in
    onlyRole (S._roles s) FACTORY_CONTRACT_ROLE _msgSender;;
    store self
      (S.set_roles (_grantRole SUPPLIER_CONTRACT_ROLE _supplier_contract (S._roles s))
         (S.set_supplier_contract _supplier_contract s)).

Definition setContractURI (self _msgSender : address) (_contract_uri : string) : M unit :=
    let* s := load self in
    onlyRole (S._roles s) SUPPLIER_CONTRACT_ROLE _msgSender;;
    store self (S.set_contract_uri _contract_uri s).

Definition updateSupplierDetails (self _msgSender : address) (name : string) : M unit :=
    let* s := load self in
    onlyRole (S._roles s) SUPPLIER_CONTRACT_ROLE _msgSender;;
    store self (S.set_Details (fst (S.Details s), name) s).

Definition setURI (self _msgSender : address) (_id : uint256) (_newuri : string)
    : M unit :=
    let* s := load self in
    onlyRole (S._roles s) FACTORY_CONTRACT_ROLE _msgSender;;
    store self (_setURI _id _newuri s).

Definition mint (self _msgSender account : address) (_id amount : uint256)
      (_newuri : string) : M unit :=
    let* s := load self in
    onlyRole (S._roles s) SUPPLIER_CONTRACT_ROLE _msgSender;;
    let* bal := ERC1155._mint (S._balances s) account _id amount in
    store self (_setURI _id _newuri (S.set_balances bal s)).

  (** The two overrides that disable transfers. *)
Definition _safeTransferFrom (s : S.t) (from to : address) (id amount : uint256)
    : M S.t :=
    revert (NonTransferable "Token transfer not allowed.").

Definition _safeBatchTransferFrom (s : S.t) (from to : address)
      (ids amounts : list uint256) : M S.t :=
    revert (NonTransferable "Token transfer not allowed.").

  (** The public entry points are inherited from [ERC1155]: they check the
      operator and call the internal function. *)
Definition safeTransferFrom (self _msgSender from to : address) (id amount : uint256)
    : M unit :=
    let* s := load self in
    require (bool_decide (from = _msgSender)
             || ERC1155.isApprovedForAll (S._operatorApprovals s) from _msgSender)
            AuthorizationError "ERC1155: caller is not token owner or approved";;
    let* s := _safeTransferFrom s from to id amount in
    store self s.

Definition safeBatchTransferFrom (self _msgSender from to : address)
      (ids amounts : list uint256) : M unit :=
    let* s := load self in
    require (bool_decide (from = _msgSender)
             || ERC1155.isApprovedForAll (S._operatorApprovals s) from _msgSender)
            AuthorizationError "ERC1155: caller is not token owner or approved";;
    let* s := _safeBatchTransferFrom s from to ids amounts in
    store self s.

Definition setApprovalForAll (self _msgSender operator : address) (approved : bool)
    : M unit :=
    let* s := load self in
    let* app := ERC1155._setApprovalForAll (S._operatorApprovals s) _msgSender
                  operator approved in
    store self (S.set_operatorApprovals app s).

  (** Inherited from [AccessControl]. *)
Definition grantRole (self _msgSender : address) (role : Role) (account : address)
    : M unit :=
    let* s := load self in
    let* roles := AccessControl.grantRole (S._roles s) _msgSender role account in
    store self (S.set_roles roles s).

Definition revokeRole (self _msgSender : address) (role : Role) (account : address)
    : M unit :=
    let* s := load self in
    let* roles := AccessControl.revokeRole (S._roles s) _msgSender role account in
    store self (S.set_roles roles s).

Definition renounceRole (self _msgSender : address) (role : Role) (account : address)
    : M unit :=
    let* s := load self in
    let* roles := AccessControl.renounceRole (S._roles s) _msgSender role account in
    store self (S.set_roles roles s).

End SupplierUtilityContract.

(** ** SupplierContract *)

Module SupplierContract.
Module S := Storage.SupplierContract.

Definition load (self : address) : M S.t :=
    fun w => match contracts w !! self with
             | Some (SupplierLedger s) => Ok (s, w)
             | _ => Revert (CallFailed self)
             end.

Definition store (self : address) (s : S.t) : M unit :=
    put_contract self (SupplierLedger s).

Definition _setURI (id : uint256) (newuri : string) (s : S.t) : S.t :=
    S.set_bookingTickets (<[id := newuri]> (S.bookingTickets s)) s.

Definition uri (s : S.t) (_id : uint256) : string :=
    default ""%string (S.bookingTickets s !! _id).

Definition is_transferable (s : S.t) (_id : uint256) : bool :=
    default false (S.transferable s !! _id).

Definition setContractURI (self _msgSender : address) (_contract_uri : string) : M unit :=
    let* s := load self in
    onlyRole (S._roles s) FACTORY_CONTRACT_ROLE _msgSender;;
    store self (S.set_contract_uri _contract_uri s);;
    SupplierUtilityContract.setContractURI (S.utility_contract s) self _contract_uri.

Definition updateSupplierDetails (self _msgSender : address) (_name : string) : M unit :=
    let* s := load self in
    onlyRole (S._roles s) UPDATE_CONTRACT_ROLE _msgSender;;
    store self (S.set_Details (fst (S.Details s), _name) s);;
    SupplierUtilityContract.updateSupplierDetails (S.utility_contract s) self _name.

Definition setURI (self _msgSender : address) (_id : uint256) (_newuri : string)
    : M unit :=
    let* s := load self in
    onlyRole (S._roles s) FACTORY_CONTRACT_ROLE _msgSender;;
    store self (_setURI _id _newuri s).

Definition toggleNFTStatus (self _msgSender : address) (_id : uint256) (_status : bool)
    : M unit :=
    let* s := load self in
    onlyRole (S._roles s) FACTORY_CONTRACT_ROLE _msgSender;;
    store self (S.set_transferable (<[_id := _status]> (S.transferable s)) s).

Definition mint (self _msgSender : address) (_id : uint256) (account : address)
      (amount : uint256) (_uri : string) (_status : bool) : M uint256 :=
    let* s := load self in
    onlyRole (S._roles s) FACTORY_CONTRACT_ROLE _msgSender;;
    let s := S.set_transferable (<[_id := _status]> (S.transferable s)) s in
    let* bal := ERC1155._mint (S._balances s) account _id amount in
    store self (_setURI _id _uri (S.set_balances bal s));;
    ret _id.

Definition burn (self _msgSender account : address) (id amount : uint256)
      (utility : bool) : M unit :=
    let* s := load self in
    onlyRole (S._roles s) FACTORY_CONTRACT_ROLE _msgSender;;
    let uri_ := uri s id in
    store self (S.set_bookingTickets (<[id := ""%string]> (S.bookingTickets s)) s);;
    (if utility
     then SupplierUtilityContract.mint (S.utility_contract s) self account id amount uri_
     else ret tt);;
    let* s := load self in
    let* bal := ERC1155._burn (S._balances s) account id amount in
    store self (S.set_balances bal s).

Definition safeTransferFrom (self _msgSender from to : address) (id amount : uint256)
    : M unit :=
    let* s := load self in
    require (is_transferable s id) TransferRejected "This NFT is non transferable";;
    require (bool_decide (from = _msgSender)
             || ERC1155.isApprovedForAll (S._operatorApprovals s) from _msgSender)
            AuthorizationError "ERC1155: caller is not token owner or approved";;
    let* bal := ERC1155._safeTransferFrom (S._balances s) from to id amount in
    store self (S.set_balances bal s).

  (** The loop of [safeBatchTransferFrom] runs on a [uint] counter below 11
      items: it checks every id in order. *)
Definition safeBatchTransferFrom (self _msgSender from to : address)
      (ids amounts : list uint256) : M unit :=
    let* s := load self in
    require (Z.of_nat (length ids) <? 11) ValidationError
            "Exceeds max room booking limit";;
    require (forallb (is_transferable s) ids) TransferRejected
            "One of these NFT is non-transferable";;
    require (bool_decide (from = _msgSender)
             || ERC1155.isApprovedForAll (S._operatorApprovals s) from _msgSender)
            AuthorizationError "ERC1155: caller is not token owner or approved";;
    let* bal := ERC1155._safeBatchTransferFrom (S._balances s) from to ids amounts in
    store self (S.set_balances bal s).

Definition setApprovalForAll (self _msgSender operator : address) (approved : bool)
    : M unit :=
    let* s := load self in
    let* app := ERC1155._setApprovalForAll (S._operatorApprovals s) _msgSender
                  operator approved in
    store self (S.set_operatorApprovals app s).

  (** Inherited from [AccessControl]. *)
Definition grantRole (self _msgSender : address) (role : Role) (account : address)
    : M unit :=
    let* s := load self in
    let* roles := AccessControl.grantRole (S._roles s) _msgSender role account in
    store self (S.set_roles roles s).

Definition revokeRole (self _msgSender : address) (role : Role) (account : address)
    : M unit :=
    let* s := load self in
    let* roles := AccessControl.revokeRole (S._roles s) _msgSender role account in
    store self (S.set_roles roles s).

Definition renounceRole (self _msgSender : address) (role : Role) (account : address)
    : M unit :=
    let* s := load self in
    let* roles := AccessControl.renounceRole (S._roles s) _msgSender role account in
    store self (S.set_roles roles s).

End SupplierContract.

(** ** The deployers *)

(** [new C(...)]: the EVM derives the address of the created contract from
    the creator and its nonce; the creation fails when the address is taken. *)
Definition new_contract (creator : address) (nonce : Z) (c : Contract) : M address :=
  fun w =>
    let a := create_address (env w) creator nonce in
    if bool_decide (a = buk_address w) then Revert (CallFailed a)
    else match contracts w !! a with
         | Some _ => Revert (CallFailed a)
         | None => Ok (a, set_contracts (<[a := c]> (contracts w)) w)
         end.

Module BukSupplierUtilityDeployer.
Module S := Storage.Deployer.

Definition load (self : address) : M S.t :=
    fun w => match contracts w !! self with
             | Some (UtilityDeployer s) => Ok (s, w)
             | _ => Revert (CallFailed self)
             end.

Definition store (self : address) (s : S.t) : M unit :=
    put_contract self (UtilityDeployer s).

Definition updateFactory (self _msgSender _factory_contract : address) : M unit :=
    let* s := load self in
    require (bool_decide (_msgSender = S.admin s)) AuthorizationError
            "Only Admin contract has the access";;
    store self (S.mk (S.admin s) _factory_contract (S.nonce s)).

Definition deploySupplierUtility (self _msgSender : address) (id : uint256)
      (_name _contract_uri : string) : M address :=
    let* s := load self in
    require (bool_decide (_msgSender = S.factory_contract s)) AuthorizationError
            "Only Factory contract has the access";;
    let* supplier :=
      new_contract self (S.nonce s)
        (UtilityLedger
           (Storage.SupplierUtilityContract.constructor id _name
              (S.factory_contract s) _contract_uri)) in
    store self (S.mk (S.admin s) (S.factory_contract s) (S.nonce s + 1));;
    ret supplier.
End BukSupplierUtilityDeployer.

Module BukSupplierDeployer.
Module S := Storage.Deployer.

Definition load (self : address) : M S.t :=
    fun w => match contracts w !! self with
             | Some (SupplierDeployer s) => Ok (s, w)
             | _ => Revert (CallFailed self)
             end.

Definition store (self : address) (s : S.t) : M unit :=
    put_contract self (SupplierDeployer s).

Definition updateFactory (self _msgSender _factory_contract : address) : M unit :=
    let* s := load self in
    require (bool_decide (_msgSender = S.admin s)) AuthorizationError
            "Only Admin contract has the access";;
    store self (S.mk (S.admin s) _factory_contract (S.nonce s)).

  (** [_contract_name] is received and, with the constructor of
      [SupplierContract] that the repository holds, not passed on. *)
Definition deploySupplier (self _msgSender : address) (_contract_name : string)
      (id : uint256) (_name : string) (_supplier_owner _utility_contract_addr : address)
      (_contract_uri : string) : M address :=
    let* s := load self in
    require (bool_decide (_msgSender = S.factory_contract s)) AuthorizationError
            "Only Factory contract has the access";;
    let* supplier :=
      new_contract self (S.nonce s)
        (SupplierLedger
           (Storage.SupplierContract.constructor id _name _supplier_owner
              _utility_contract_addr (S.factory_contract s) _contract_uri)) in
    store self (S.mk (S.admin s) (S.factory_contract s) (S.nonce s + 1));;
    ret supplier.
End BukSupplierDeployer.

(** ** BukTrips, the booking orchestrator *)

Module BukTrips.
Module S := Storage.BukTrips.

  (** Reads of the three mappings. *)
Definition getBooking (s : S.t) (k : uint256) : Booking.t :=
    default Booking.zero (S.BookingDetails s !! k).

Definition getSupplier (s : S.t) (k : uint256) : SupplierDetails.t :=
    default SupplierDetails.zero (S.Suppliers s !! k).

Definition getTimeLock (s : S.t) (supplier nft : uint256) : uint256 :=
    default 0 (S.TimeLocks s !! (supplier, nft)).

Definition setBooking (k : uint256) (b : Booking.t) (s : S.t) : S.t :=
    S.set_BookingDetails (<[k := b]> (S.BookingDetails s)) s.

  (** [BookingDetails[k].status = st] and [BookingDetails[k].tokenID = n]. *)
Definition write_status (k : uint256) (st : BookingStatus.t) : M unit :=
    let* s := get_buk in
    put_buk (setBooking k (Booking.set_status st (getBooking s k)) s).

Definition write_tokenID (k n : uint256) : M unit :=
    let* s := get_buk in
    put_buk (setBooking k (Booking.set_tokenID n (getBooking s k)) s).

Definition onlyAdmin (_msgSender : address) : M unit :=
    let* s := get_buk in
    onlyRole (S._roles s) ADMIN_ROLE _msgSender.

Definition checkAccess (_msgSender : address) (_booking_id : uint256) : M unit :=
    let* s := get_buk in
    require (hasRole (S._roles s) ADMIN_ROLE _msgSender
             || bool_decide (_msgSender = Booking.owner (getBooking s _booking_id)))
            AuthorizationError "Caller does not have access".

Definition supplierRegistered (_supplierId : uint256) : M unit :=
    let* s := get_buk in
    require (SupplierDetails.status (getSupplier s _supplierId)) ValidationError
            "Supplier not registered".

Definition setDeployers (_msgSender _supplier_deployer _utility_deployer : address)
    : M unit :=
    onlyAdmin _msgSender;;
    let* s := get_buk in
    put_buk (S.set_deployers _supplier_deployer _utility_deployer s).

Definition setTreasury (_msgSender _treasury : address) : M unit :=
    onlyAdmin _msgSender;;
    let* s := get_buk in
    put_buk (S.set_treasury _treasury s).

Definition updateSupplierDetails (_msgSender : address) (_supplierId : uint256)
      (_name : string) : M unit :=
    onlyAdmin _msgSender;;
    let* s := get_buk in
    let* me := this in
    SupplierContract.updateSupplierDetails
      (SupplierDetails.supplier_contract (getSupplier s _supplierId)) me _name.

  (** The argument is a [uint8]: calldata that does not fit is refused when
      it is decoded. *)
Definition setCommission (_msgSender : address) (_commission : Z) : M unit :=
    (if (0 <=? _commission) && (_commission <=? MAX_UINT8) then ret tt
     else revert (CallFailed 0));;
    onlyAdmin _msgSender;;
    let* s := get_buk in
    put_buk (S.set_commission _commission s).

Definition setTransferLock (_msgSender : address) (_supplierId _nft_id _time_lock : uint256)
    : M unit :=
    onlyAdmin _msgSender;;
    let* lock := checked_mul 3600 _time_lock in
    let* s := get_buk in
    put_buk (S.set_TimeLocks (<[(_supplierId, _nft_id) := lock]> (S.TimeLocks s)) s).

  (** [block_timestamp] is [block.timestamp]. *)
Definition toggleNFTStatus (_msgSender : address) (block_timestamp : uint256)
      (_id : uint256) (status : bool) : M unit :=
    checkAccess _msgSender _id;;
    let* s := get_buk in
    let b := getBooking s _id in
    require (0 <? Booking.tokenID b) StateError "NFT does not exist";;
    let* threshold :=
      checked_sub (Booking.checkin b) (getTimeLock s (Booking.supplierId b) _id) in
    require (block_timestamp <? threshold) StateError "NFT toggle not possible now";;
    let* me := this in
    SupplierContract.toggleNFTStatus
      (SupplierDetails.supplier_contract (getSupplier s (Booking.supplierId b)))
      me _id status.

  (** The utility deployer of the repository takes no [_contract_name]; the
      supplier deployer does. *)
Definition registerSupplier (_msgSender : address) (_contract_name _name : string)
      (_supplier_owner : address) (_contract_uri : string) : M unit :=
    onlyAdmin _msgSender;;
    let* s := get_buk in
    let* n := checked_add (S._supplierIds s) 1 in
    put_buk (S.set_supplierIds n s);;
    let* me := this in
    let* utility_contract_addr :=
      BukSupplierUtilityDeployer.deploySupplierUtility (S.utility_deployer s) me n
        _name _contract_uri in
    let* supplier_contract_addr :=
      BukSupplierDeployer.deploySupplier (S.supplier_deployer s) me _contract_name n
        _name _supplier_owner utility_contract_addr _contract_uri in
    SupplierUtilityContract.grantSupplierRole utility_contract_addr me
      supplier_contract_addr;;
    let* s := get_buk in
    put_buk (S.set_Suppliers
               (<[n := SupplierDetails.mk n true supplier_contract_addr
                         _supplier_owner utility_contract_addr]> (S.Suppliers s)) s).

  (** One round of the loop of [bookRoom]; the locals it carries are [total]
      and [commissionTotal]. *)
Definition bookRoom_body (_msgSender : address) (_supplierId : uint256)
      (_total _baseRate : list uint256) (_checkin _checkout : uint256)
      (i : Z) (acc : uint256 * uint256) : M (uint256 * uint256) :=
    let* s := get_buk in
    let* n := checked_add (S._bookingIds s) 1 in
    let* t := index _total i in
    let* r := index _baseRate i in
    put_buk (setBooking n
               (Booking.mk n BookingStatus.booked 0 _msgSender _supplierId
                  _checkin _checkout t r)
               (S.set_bookingIds n s));;
    let* total := checked_add (fst acc) t in
    let* c := checked_mul r (S.commission s) in
    let* commissionTotal := checked_add (snd acc) (c / 100) in
    ret (total, commissionTotal).

Definition bookRoom (_msgSender : address) (_supplierId _count : uint256)
      (_total _baseRate : list uint256) (_checkin _checkout : uint256) : M bool :=
    supplierRegistered _supplierId;;
    let* acc :=
      for_uint8 _count
        (bookRoom_body _msgSender _supplierId _total _baseRate _checkin _checkout)
        (0, 0) in
    let total := fst acc in
    let commissionTotal := snd acc in
    let* s := get_buk in
    let currency := S.currency s in
    let* collectCommission :=
      external_call currency
        (transferFrom currency _msgSender (S.buk_wallet s) commissionTotal) in
    if collectCommission then
      let* collectPayment :=
        external_call currency
          (transferFrom currency _msgSender (S.treasury s) total) in
      if collectPayment then ret true
      else
        external_call currency
          (transferFrom currency (S.buk_wallet s) _msgSender commissionTotal);;
        external_call currency
          (transferFrom currency (S.treasury s) _msgSender total);;
        ret false
    else
      external_call currency
        (transferFrom currency (S.buk_wallet s) _msgSender commissionTotal);;
      ret false.

Definition bookingRefund (_msgSender : address) (_supplierId : uint256)
      (_ids : list uint256) (_owner : address) : M unit :=
    onlyAdmin _msgSender;;
    supplierRegistered _supplierId;;
    let len := Z.of_nat (length _ids) in
    for_uint8 len
      (fun i _ =>
         let* id := index _ids i in
         let* s := get_buk in
         require (BookingStatus.eqb (Booking.status (getBooking s id))
                    BookingStatus.booked)
                 StateError "Check the Booking status") tt;;
    for_uint8 len
      (fun i _ =>
         let* id := index _ids i in
         let* s := get_buk in
         require (bool_decide (Booking.owner (getBooking s id) = _owner))
                 ValidationError "Check the booking owner") tt;;
    let* total :=
      for_uint8 len
        (fun i total =>
           let* id := index _ids i in
           write_status id BookingStatus.cancelled;;
           let* s := get_buk in
           let b := getBooking s id in
           let* c := checked_mul (Booking.baseRate b) (S.commission s) in
           let* x := checked_add (Booking.total b) (c / 100) in
           checked_add total x) 0 in
    let* s := get_buk in
    external_call (S.treasury s) (cancelUSDCRefund (S.treasury s) total _owner);;
    ret tt.

Definition confirmRoom (_msgSender : address) (_supplierId : uint256)
      (_ids : list uint256) (_uri : list string) (_status : bool) : M unit :=
    supplierRegistered _supplierId;;
    let len := Z.of_nat (length _ids) in
    for_uint8 len
      (fun i _ =>
         let* id := index _ids i in
         let* s := get_buk in
         require (BookingStatus.eqb (Booking.status (getBooking s id))
                    BookingStatus.booked)
                 StateError "Check the Booking status";;
         require (bool_decide (Booking.owner (getBooking s id) = _msgSender))
                 AuthorizationError "Only booking owner has access") tt;;
    require (len =? Z.of_nat (length _uri)) ValidationError "Check Ids and URIs size";;
    require (len <? 11) ValidationError "Exceeds max room booking limit";;
    let* s := get_buk in
    let _SupplierContract :=
      SupplierDetails.supplier_contract (getSupplier s _supplierId) in
    let* me := this in
    for_uint8 len
      (fun i _ =>
         let* id := index _ids i in
         write_status id BookingStatus.confirmed;;
         let* s := get_buk in
         let* u := index _uri i in
         SupplierContract.mint _SupplierContract me id
           (Booking.owner (getBooking s id)) 1 u _status;;
         write_tokenID id id) tt.

Definition checkout (_msgSender : address) (_supplierId : uint256)
      (_ids : list uint256) : M unit :=
    onlyAdmin _msgSender;;
    supplierRegistered _supplierId;;
    let len := Z.of_nat (length _ids) in
    require (len <? 11) ValidationError "Exceeds max room booking limit";;
    for_uint8 len
      (fun i _ =>
         let* id := index _ids i in
         let* s := get_buk in
         require (BookingStatus.eqb (Booking.status (getBooking s id))
                    BookingStatus.confirmed)
                 StateError "Check the Booking status") tt;;
    let* me := this in
    for_uint8 len
      (fun i _ =>
         let* id := index _ids i in
         write_status id BookingStatus.expired;;
         let* s := get_buk in
         SupplierContract.burn
           (SupplierDetails.supplier_contract (getSupplier s _supplierId)) me
           (Booking.owner (getBooking s id)) id 1 true) tt.

  (** The message of the second [require] is the source's. *)
Definition cancelRoom (_msgSender : address) (_supplierId _id : uint256)
      (_penalty _refund _charges : uint256) : M unit :=
    onlyAdmin _msgSender;;
    supplierRegistered _supplierId;;
    let* s := get_buk in
    require (BookingStatus.eqb (Booking.status (getBooking s _id))
               BookingStatus.confirmed)
            StateError "Supplier not registered";;
    let _SupplierContract :=
      SupplierDetails.supplier_contract (getSupplier s _supplierId) in
    write_status _id BookingStatus.cancelled;;
    let* s := get_buk in
    let b := getBooking s _id in
    let treasury := S.treasury s in
    external_call treasury
      (cancelUSDCRefund treasury _penalty
         (SupplierDetails.supplier_owner (getSupplier s (Booking.supplierId b))));;
    external_call treasury (cancelUSDCRefund treasury _refund (Booking.owner b));;
    external_call treasury (cancelUSDCRefund treasury _charges (S.buk_wallet s));;
    let* me := this in
    SupplierContract.burn _SupplierContract me (Booking.owner b) _id 1 false.

  (** Inherited from [AccessControl]. *)
Definition grantRole (_msgSender : address) (role : Role) (account : address) : M unit :=
    let* s := get_buk in
    let* roles := AccessControl.grantRole (S._roles s) _msgSender role account in
    put_buk (S.set_roles roles s).

Definition revokeRole (_msgSender : address) (role : Role) (account : address) : M unit :=
    let* s := get_buk in
    let* roles := AccessControl.revokeRole (S._roles s) _msgSender role account in
    put_buk (S.set_roles roles s).

Definition renounceRole (_msgSender : address) (role : Role) (account : address)
    : M unit :=
    let* s := get_buk in
    let* roles := AccessControl.renounceRole (S._roles s) _msgSender role account in
    put_buk (S.set_roles roles s).

End BukTrips.

(** ** Transactions *)

(** The external functions of the protocol that write state, those that the
    contracts inherit from [ERC1155] (the transfers and [setApprovalForAll])
    and from [AccessControl] ([grantRole], [revokeRole], [renounceRole])
    included.  A ledger or deployer function names the instance it is sent
    to. *)
Inductive Op :=
| setDeployers (_supplier_deployer _utility_deployer : address)
| setTreasury (_treasury : address)
| updateSupplierDetails (_supplierId : uint256) (_name : string)
| setCommission (_commission : Z)
| setTransferLock (_supplierId _nft_id _time_lock : uint256)
| toggleNFTStatus (_id : uint256) (status : bool)
| registerSupplier (_contract_name _name : string) (_supplier_owner : address)
    (_contract_uri : string)
| bookRoom (_supplierId _count : uint256) (_total _baseRate : list uint256)
    (_checkin _checkout : uint256)
| bookingRefund (_supplierId : uint256) (_ids : list uint256) (_owner : address)
| confirmRoom (_supplierId : uint256) (_ids : list uint256) (_uri : list string)
    (_status : bool)
| checkout (_supplierId : uint256) (_ids : list uint256)
| cancelRoom (_supplierId _id _penalty _refund _charges : uint256)
| grantRole (role : Role) (account : address)
| revokeRole (role : Role) (account : address)
| renounceRole (role : Role) (account : address)
| ledger_setContractURI (ledger : address) (_contract_uri : string)
| ledger_updateSupplierDetails (ledger : address) (_name : string)
| ledger_setURI (ledger : address) (_id : uint256) (_newuri : string)
| ledger_toggleNFTStatus (ledger : address) (_id : uint256) (_status : bool)
| ledger_mint (ledger : address) (_id : uint256) (account : address) (amount : uint256)
    (_uri : string) (_status : bool)
| ledger_burn (ledger account : address) (id amount : uint256) (utility : bool)
| ledger_safeTransferFrom (ledger from to : address) (id amount : uint256)
| ledger_safeBatchTransferFrom (ledger from to : address) (ids amounts : list uint256)
| ledger_setApprovalForAll (ledger operator : address) (approved : bool)
| ledger_grantRole (ledger : address) (role : Role) (account : address)
| ledger_revokeRole (ledger : address) (role : Role) (account : address)
| ledger_renounceRole (ledger : address) (role : Role) (account : address)
| utility_grantSupplierRole (ledger _supplier_contract : address)
| utility_setContractURI (ledger : address) (_contract_uri : string)
| utility_updateSupplierDetails (ledger : address) (name : string)
| utility_setURI (ledger : address) (_id : uint256) (_newuri : string)
| utility_mint (ledger account : address) (_id amount : uint256) (_newuri : string)
| utility_safeTransferFrom (ledger from to : address) (id amount : uint256)
| utility_safeBatchTransferFrom (ledger from to : address) (ids amounts : list uint256)
| utility_setApprovalForAll (ledger operator : address) (approved : bool)
| utility_grantRole (ledger : address) (role : Role) (account : address)
| utility_revokeRole (ledger : address) (role : Role) (account : address)
| utility_renounceRole (ledger : address) (role : Role) (account : address)
| deployer_updateFactory (deployer _factory_contract : address)
| deployer_deploySupplier (deployer : address) (_contract_name : string) (id : uint256)
    (_name : string) (_supplier_owner _utility_contract_addr : address)
    (_contract_uri : string)
| utility_deployer_updateFactory (deployer _factory_contract : address)
| utility_deployer_deploySupplierUtility (deployer : address) (id : uint256)
    (_name _contract_uri : string).

Definition done {A} (m : M A) : M bool := m;; ret true.

(** A transaction sent by [_msgSender] in a block of time [block_timestamp].
    [bookRoom] returns its boolean, the other functions return [true]. *)
Definition exec (_msgSender : address) (block_timestamp : uint256) (op : Op) : M bool :=
  match op with
  | setDeployers sd ud => done (BukTrips.setDeployers _msgSender sd ud)
  | setTreasury t => done (BukTrips.setTreasury _msgSender t)
  | updateSupplierDetails sid n => done (BukTrips.updateSupplierDetails _msgSender sid n)
  | setCommission c => done (BukTrips.setCommission _msgSender c)
  | setTransferLock sid nft l => done (BukTrips.setTransferLock _msgSender sid nft l)
  | toggleNFTStatus id st =>
      done (BukTrips.toggleNFTStatus _msgSender block_timestamp id st)
  | registerSupplier cn n o u => done (BukTrips.registerSupplier _msgSender cn n o u)
  | bookRoom sid count totals rates ci co =>
      BukTrips.bookRoom _msgSender sid count totals rates ci co
  | bookingRefund sid ids o => done (BukTrips.bookingRefund _msgSender sid ids o)
  | confirmRoom sid ids uris st => done (BukTrips.confirmRoom _msgSender sid ids uris st)
  | checkout sid ids => done (BukTrips.checkout _msgSender sid ids)
  | cancelRoom sid id p r c => done (BukTrips.cancelRoom _msgSender sid id p r c)
  | grantRole r a => done (BukTrips.grantRole _msgSender r a)
  | revokeRole r a => done (BukTrips.revokeRole _msgSender r a)
  | renounceRole r a => done (BukTrips.renounceRole _msgSender r a)
  | ledger_setContractURI l u => done (SupplierContract.setContractURI l _msgSender u)
  | ledger_updateSupplierDetails l n =>
      done (SupplierContract.updateSupplierDetails l _msgSender n)
  | ledger_setURI l id u => done (SupplierContract.setURI l _msgSender id u)
  | ledger_toggleNFTStatus l id st =>
      done (SupplierContract.toggleNFTStatus l _msgSender id st)
  | ledger_mint l id a n u st => done (SupplierContract.mint l _msgSender id a n u st)
  | ledger_burn l a id n u => done (SupplierContract.burn l _msgSender a id n u)
  | ledger_safeTransferFrom l f t id n =>
      done (SupplierContract.safeTransferFrom l _msgSender f t id n)
  | ledger_safeBatchTransferFrom l f t ids ns =>
      done (SupplierContract.safeBatchTransferFrom l _msgSender f t ids ns)
  | ledger_setApprovalForAll l o b =>
      done (SupplierContract.setApprovalForAll l _msgSender o b)
  | ledger_grantRole l r a => done (SupplierContract.grantRole l _msgSender r a)
  | ledger_revokeRole l r a => done (SupplierContract.revokeRole l _msgSender r a)
  | ledger_renounceRole l r a => done (SupplierContract.renounceRole l _msgSender r a)
  | utility_grantSupplierRole l a =>
      done (SupplierUtilityContract.grantSupplierRole l _msgSender a)
  | utility_setContractURI l u =>
      done (SupplierUtilityContract.setContractURI l _msgSender u)
  | utility_updateSupplierDetails l n =>
      done (SupplierUtilityContract.updateSupplierDetails l _msgSender n)
  | utility_setURI l id u => done (SupplierUtilityContract.setURI l _msgSender id u)
  | utility_mint l a id n u => done (SupplierUtilityContract.mint l _msgSender a id n u)
  | utility_safeTransferFrom l f t id n =>
      done (SupplierUtilityContract.safeTransferFrom l _msgSender f t id n)
  | utility_safeBatchTransferFrom l f t ids ns =>
      done (SupplierUtilityContract.safeBatchTransferFrom l _msgSender f t ids ns)
  | utility_setApprovalForAll l o b =>
      done (SupplierUtilityContract.setApprovalForAll l _msgSender o b)
  | utility_grantRole l r a => done (SupplierUtilityContract.grantRole l _msgSender r a)
  | utility_revokeRole l r a => done (SupplierUtilityContract.revokeRole l _msgSender r a)
  | utility_renounceRole l r a =>
      done (SupplierUtilityContract.renounceRole l _msgSender r a)
  | deployer_updateFactory d f => done (BukSupplierDeployer.updateFactory d _msgSender f)
  | deployer_deploySupplier d cn id n o u c =>
      done (BukSupplierDeployer.deploySupplier d _msgSender cn id n o u c)
  | utility_deployer_updateFactory d f =>
      done (BukSupplierUtilityDeployer.updateFactory d _msgSender f)
  | utility_deployer_deploySupplierUtility d id n c =>
      done (BukSupplierUtilityDeployer.deploySupplierUtility d _msgSender id n c)
  end.

Record Tx := {
  tx_sender : address;
  tx_timestamp : uint256;
  tx_op : Op
}.

Definition step (tx : Tx) (w : World) : World :=
  after (exec (tx_sender tx) (tx_timestamp tx) (tx_op tx) w) w.

Definition run (txs : list Tx) (w : World) : World :=
  fold_left (fun w tx => step tx w) txs w.

(** The orchestrator as its constructor leaves it; the other contracts of the
    world and the environment are arbitrary. *)
Definition initial (w : World) : Prop :=
  exists deployer _treasury _currency _buk_wallet,
    buk w = Storage.BukTrips.constructor deployer _treasury _currency _buk_wallet.

(** The address [a] is outside the protocol: it holds none of its
    contracts. *)
Definition outside (w : World) (a : address) : Prop :=
  a <> buk_address w /\ contracts w !! a = None.

Definition is_outside (w : World) (a : address) : bool :=
  negb (a =? buk_address w)
  && match contracts w !! a with None => true | Some _ => false end.

(** A transaction is sent from outside the protocol: its contracts send
    calls from their code only, which the functions above contain. *)
Inductive reachable : World -> Prop :=
| reachable_initial w : initial w -> reachable w
| reachable_step w tx :
    reachable w -> outside w (tx_sender tx) -> reachable (step tx w).

(** Every transaction of the list is sent from outside the world it runs
    in. *)
Fixpoint sent_from_outside (txs : list Tx) (w : World) : bool :=
  match txs with
  | [] => true
  | tx :: txs => is_outside w (tx_sender tx) && sent_from_outside txs (step tx w)
  end.

(** ** A concrete deployment, for the examples

    Accounts: the admin 100, a guest 200, a hotel owner 300; the protocol
    wallet 400, the treasury 500 and the currency ledger 600 are outside the
    protocol; the orchestrator is at 1000, the two deployers at 2000 and
    3000, and a contract created by [d] at nonce [n] is at [d + n]. *)
Module Demo.
Definition admin : address := 100.
Definition guest : address := 200.
Definition hotel : address := 300.
Definition wallet : address := 400.
Definition treasury : address := 500.
Definition currency : address := 600.
Definition orchestrator : address := 1000.
Definition supplier_deployer : address := 2000.
Definition utility_deployer : address := 3000.

  (** A currency ledger that accepts every transfer, one that refuses every
      transfer, and one that accepts the first transfer of the trace only. *)
Definition paying : Env :=
    {| answer := fun _ _ => returns true;
       create_address := fun d n => d + n;
       accepts_erc1155 := fun _ => true |}.

Definition refusing : Env :=
    {| answer := fun _ c => match c with
                            | transferFrom _ _ _ _ => returns false
                            | cancelUSDCRefund _ _ _ => returns true
                            end;
       create_address := fun d n => d + n;
       accepts_erc1155 := fun _ => true |}.

Definition paying_once : Env :=
    {| answer := fun past c => match c, past with
                               | transferFrom _ _ _ _, [] => returns true
                               | transferFrom _ _ _ _, _ => returns false
                               | cancelUSDCRefund _ _ _, _ => returns true
                               end;
       create_address := fun d n => d + n;
       accepts_erc1155 := fun _ => true |}.

Definition genesis (e : Env) : World :=
    {| env := e;
       buk_address := orchestrator;
       buk := Storage.BukTrips.constructor admin treasury currency wallet;
       contracts :=
         <[supplier_deployer :=
             SupplierDeployer (Storage.Deployer.constructor admin orchestrator)]>
           (<[utility_deployer :=
                UtilityDeployer (Storage.Deployer.constructor admin orchestrator)]> ∅);
       calls := [] |}.

Definition tx (sender : address) (op : Op) : Tx :=
    {| tx_sender := sender; tx_timestamp := 1000; tx_op := op |}.

  (** The deployers are set and two suppliers are registered. *)
Definition setup : list Tx :=
    [ tx admin (setDeployers supplier_deployer utility_deployer);
      tx admin (registerSupplier "BUK" "Acme" hotel "ipfs://acme");
      tx admin (registerSupplier "BUK" "Bolt" hotel "ipfs://bolt") ].

Definition ready (e : Env) : World := run setup (genesis e).

Definition status_of (w : World) (k : uint256) : BookingStatus.t :=
    Booking.status (BukTrips.getBooking (buk w) k).

Definition tokenID_of (w : World) (k : uint256) : uint256 :=
    Booking.tokenID (BukTrips.getBooking (buk w) k).

Definition ledger_of (w : World) (supplier : uint256) : address :=
    SupplierDetails.supplier_contract (BukTrips.getSupplier (buk w) supplier).

Definition ledger_balance (w : World) (ledger account : address) (id : uint256)
    : uint256 :=
    match contracts w !! ledger with
    | Some (SupplierLedger s) =>
        ERC1155.balanceOf (Storage.SupplierContract._balances s) account id
    | Some (UtilityLedger s) =>
        ERC1155.balanceOf (Storage.SupplierUtilityContract._balances s) account id
    | _ => 0
    end.
End Demo.

(** * Reasoning about calls *)

Section MonadLaws.
Context {A B : Type}.

Lemma bind_Ok (m : M A) (k : A -> M B) w b w' :
    bind m k w = Ok (b, w') <->
    exists a w1, m w = Ok (a, w1) /\ k a w1 = Ok (b, w').
  Proof.
    unfold bind. split.
    - destruct (m w) as [[a w1]|e]; [eauto | discriminate].
    - intros (a & w1 & -> & H). exact H.
  Qed.

Lemma bind_Revert (m : M A) (k : A -> M B) w e :
    bind m k w = Revert e <->
    m w = Revert e \/ exists a w1, m w = Ok (a, w1) /\ k a w1 = Revert e.
  Proof.
    unfold bind. split.
    - destruct (m w) as [[a w1]|e']; [eauto | intros [= ->]; auto].
    - intros [-> | (a & w1 & -> & H)]; auto.
  Qed.

Lemma bind_step (m : M A) (k : A -> M B) w a w1 :
    m w = Ok (a, w1) -> bind m k w = k a w1.
  Proof. unfold bind. intros ->. reflexivity. Qed.

Lemma bind_fail (m : M A) (k : A -> M B) w e :
    m w = Revert e -> bind m k w = Revert e.
  Proof. unfold bind. intros ->. reflexivity. Qed.
End MonadLaws.

Lemma require_Ok c cls msg w u w' :
  require c cls msg w = Ok (u, w') <-> c = true /\ w' = w.
Proof.
  unfold require, ret, revert. destruct c, u; split.
  - intros [= ->]. auto.
  - intros [_ ->]. reflexivity.
  - discriminate.
  - intros [? _]. discriminate.
Qed.

Lemma require_true c cls msg w : c = true -> require c cls msg w = Ok (tt, w).
Proof. intros ->. reflexivity. Qed.

Lemma require_false c cls msg w :
  c = false -> require c cls msg w = Revert (Require cls msg).
Proof. intros ->. reflexivity. Qed.

Lemma checked_add_Ok a b w x w' :
  checked_add a b w = Ok (x, w') <-> a + b <= MAX_UINT256 /\ x = a + b /\ w' = w.
Proof.
  unfold checked_add, ret, revert. destruct (Z.leb_spec (a + b) MAX_UINT256); split.
  - intros [= <- <-]. auto.
  - intros (_ & -> & ->). reflexivity.
  - discriminate.
  - intros (? & _). lia.
Qed.

Lemma checked_mul_Ok a b w x w' :
  checked_mul a b w = Ok (x, w') <-> a * b <= MAX_UINT256 /\ x = a * b /\ w' = w.
Proof.
  unfold checked_mul, ret, revert. destruct (Z.leb_spec (a * b) MAX_UINT256); split.
  - intros [= <- <-]. auto.
  - intros (_ & -> & ->). reflexivity.
  - discriminate.
  - intros (? & _). lia.
Qed.

Lemma checked_sub_Ok a b w x w' :
  checked_sub a b w = Ok (x, w') <-> b <= a /\ x = a - b /\ w' = w.
Proof.
  unfold checked_sub, ret, revert. destruct (Z.leb_spec b a); split.
  - intros [= <- <-]. auto.
  - intros (_ & -> & ->). reflexivity.
  - discriminate.
  - intros (? & _). lia.
Qed.

Lemma index_Ok {A} (l : list A) i w x w' :
  index l i w = Ok (x, w') <-> l !! Z.to_nat i = Some x /\ w' = w.
Proof.
  unfold index, ret, revert. destruct (l !! Z.to_nat i); split.
  - intros [= <- <-]. auto.
  - intros ([= ->] & ->). reflexivity.
  - discriminate.
  - intros (? & _). discriminate.
Qed.

Lemma put_buk_Ok b w u w' : put_buk b w = Ok (u, w') <-> w' = set_buk b w.
Proof.
  unfold put_buk. destruct u. split; [intros [= <-] | intros ->]; reflexivity.
Qed.

(** Takes a hypothesis [m w = Ok (a, w')] apart, along the binds of [m]. *)
Ltac inv_Ok H :=
  lazymatch type of H with
  | bind _ _ _ = Ok (_, _) =>
      let a := fresh "a" in
      let w := fresh "w" in
      let H1 := fresh "H" in
      let H2 := fresh "H" in
      apply bind_Ok in H; destruct H as (a & w & H1 & H2);
      inv_Ok H1; inv_Ok H2
  | require _ _ _ _ = Ok (_, _) =>
      let H1 := fresh "H" in
      apply require_Ok in H; destruct H as [H1 ->]
  | checked_add _ _ _ = Ok (_, _) =>
      let H1 := fresh "H" in
      apply checked_add_Ok in H; destruct H as (H1 & -> & ->)
  | checked_mul _ _ _ = Ok (_, _) =>
      let H1 := fresh "H" in
      apply checked_mul_Ok in H; destruct H as (H1 & -> & ->)
  | checked_sub _ _ _ = Ok (_, _) =>
      let H1 := fresh "H" in
      apply checked_sub_Ok in H; destruct H as (H1 & -> & ->)
  | index _ _ _ = Ok (_, _) =>
      let H1 := fresh "H" in
      apply index_Ok in H; destruct H as (H1 & ->)
  | ret _ _ = Ok (_, _) => unfold ret in H; injection H as <- <-
  | get_buk _ = Ok (_, _) => unfold get_buk in H; injection H as <- <-
  | this _ = Ok (_, _) => unfold this in H; injection H as <- <-
  | put_buk _ _ = Ok (_, _) =>
      apply put_buk_Ok in H; match type of H with ?x = _ => subst x end
  | revert _ _ = Ok (_, _) => discriminate H
  | _ => idtac
  end.

(** ** The loop rules *)

Section Loops.
Context {S : Type}.
Variable len : Z.
Variable body : Z -> S -> M S.
Variable P : Z -> S -> World -> Prop.

Hypothesis body_keeps :
    forall j s w s' w',
      0 <= j < len -> P j s w -> body j s w = Ok (s', w') -> P (j + 1) s' w'.

  (** An invariant holds when the loop returns. *)
Lemma for_uint8_from_inv fuel i s w s' w' :
    0 <= i <= len -> P i s w ->
    for_uint8_from fuel i len body s w = Ok (s', w') -> P len s' w'.
  Proof.
    revert i s w. induction fuel as [|fuel IH]; intros i s w Hi HP; simpl.
    - destruct (Z.ltb_spec i len); [discriminate|].
      unfold ret. intros [= <- <-]. replace len with i by lia. exact HP.
    - destruct (Z.ltb_spec i len).
      + intros H1. apply bind_Ok in H1 as (s1 & w1 & Hb & H1).
        destruct (i =? MAX_UINT8); [discriminate|].
        apply (IH (i + 1) s1 w1); [lia | | exact H1].
        apply (body_keeps i s w); [lia | exact HP | exact Hb].
      + unfold ret. intros [= <- <-]. replace len with i by lia. exact HP.
  Qed.

Lemma for_uint8_inv s w s' w' :
    0 <= len -> P 0 s w -> for_uint8 len body s w = Ok (s', w') -> P len s' w'.
  Proof. intros Hl. apply for_uint8_from_inv. lia. Qed.

  (** A loop that returns made at most 255 rounds. *)
Lemma for_uint8_from_bound fuel i s w s' w' :
    0 <= i <= MAX_UINT8 ->
    for_uint8_from fuel i len body s w = Ok (s', w') -> len <= MAX_UINT8.
  Proof.
    revert i s w. induction fuel as [|fuel IH]; intros i s w Hi; simpl.
    - destruct (Z.ltb_spec i len); [discriminate|]. lia.
    - destruct (Z.ltb_spec i len); [|lia].
      intros H1. apply bind_Ok in H1 as (s1 & w1 & Hb & H1).
      destruct (Z.eqb_spec i MAX_UINT8); [discriminate|].
      apply (IH (i + 1) s1 w1); [lia | exact H1].
  Qed.

Lemma for_uint8_bound s w s' w' :
    for_uint8 len body s w = Ok (s', w') -> len <= MAX_UINT8.
  Proof. apply for_uint8_from_bound. unfold MAX_UINT8. lia. Qed.

  (** When the loop reverts, a round reverted, or the counter overflowed. *)
Lemma for_uint8_from_Revert fuel i s w e :
    0 <= i <= len -> P i s w ->
    for_uint8_from fuel i len body s w = Revert e ->
    (exists j s1 w1, i <= j < len /\ P j s1 w1 /\ body j s1 w1 = Revert e)
    \/ (e = Panic ARITHMETIC /\ (MAX_UINT8 < len \/ Z.of_nat fuel < len - i)).
  Proof.
    revert i s w. induction fuel as [|fuel IH]; intros i s w Hi HP; simpl.
    - destruct (Z.ltb_spec i len); [|discriminate].
      unfold revert. intros [= <-]. right. split; [reflexivity|]. right. lia.
    - destruct (Z.ltb_spec i len); [|discriminate].
      intros H1. apply bind_Revert in H1 as [Hb | (s1 & w1 & Hb & H1)].
      + left. exists i, s, w. split; [lia|]. auto.
      + destruct (Z.eqb_spec i MAX_UINT8).
        * injection H1 as <-. right. split; [reflexivity|]. left. lia.
        * apply (IH (i + 1) s1 w1) in H1; [| lia |].
          -- destruct H1 as [(j & s2 & w2 & Hj & H2) | (-> & H2)].
             ++ left. exists j, s2, w2. split; [lia | exact H2].
             ++ right. split; [reflexivity|]. lia.
          -- apply (body_keeps i s w); [lia | exact HP | exact Hb].
  Qed.

Lemma for_uint8_Revert s w e :
    0 <= len <= MAX_UINT8 -> P 0 s w ->
    for_uint8 len body s w = Revert e ->
    exists j s1 w1, 0 <= j < len /\ P j s1 w1 /\ body j s1 w1 = Revert e.
  Proof.
    unfold MAX_UINT8. intros Hl HP H.
    apply for_uint8_from_Revert in H; [| lia | exact HP].
    destruct H as [H | (_ & [H | H])]; [exact H | |]; unfold MAX_UINT8 in *; lia.
  Qed.

  (** The loop returns when it has at most 255 rounds and every round
      returns. *)
Hypothesis body_returns :
    forall j s w,
      0 <= j < len -> P j s w -> exists s' w', body j s w = Ok (s', w').

Lemma for_uint8_from_Ok fuel i s w :
    0 <= i <= len -> len <= MAX_UINT8 -> len - i <= Z.of_nat fuel -> P i s w ->
    exists s' w', for_uint8_from fuel i len body s w = Ok (s', w') /\ P len s' w'.
  Proof.
    unfold MAX_UINT8.
    revert i s w. induction fuel as [|fuel IH]; intros i s w Hi Hl Hf HP; simpl.
    - destruct (Z.ltb_spec i len); [lia|].
      exists s, w. split; [reflexivity|]. replace len with i by lia. exact HP.
    - destruct (Z.ltb_spec i len).
      + destruct (body_returns i s w) as (s1 & w1 & Hb); [lia | exact HP |].
        rewrite (bind_step _ _ _ _ _ Hb).
        destruct (Z.eqb_spec i MAX_UINT8); [unfold MAX_UINT8 in *; lia|].
        apply IH; [lia | lia | lia |].
        apply (body_keeps i s w); [lia | exact HP | exact Hb].
      + exists s, w. split; [reflexivity|]. replace len with i by lia. exact HP.
  Qed.

Lemma for_uint8_Ok s w :
    0 <= len <= MAX_UINT8 -> P 0 s w ->
    exists s' w', for_uint8 len body s w = Ok (s', w') /\ P len s' w'.
  Proof.
    unfold MAX_UINT8. intros Hl HP.
    apply for_uint8_from_Ok; unfold MAX_UINT8; [lia | lia | lia | exact HP].
  Qed.
End Loops.

(** ** What the ledgers and the deployers leave alone *)

(** A call into a ledger or a deployer does not write the storage of the
    orchestrator and sends nothing to the collaborators. *)
Definition ledger_frame (w w' : World) : Prop :=
  env w' = env w /\ buk_address w' = buk_address w /\ buk w' = buk w
  /\ calls w' = calls w.

Definition ledger_only {A} (m : M A) : Prop :=
  forall w a w', m w = Ok (a, w') -> ledger_frame w w'.

Lemma ledger_frame_refl w : ledger_frame w w.
Proof. repeat split. Qed.

Lemma ledger_frame_trans w1 w2 w3 :
  ledger_frame w1 w2 -> ledger_frame w2 w3 -> ledger_frame w1 w3.
Proof. unfold ledger_frame. intros (? & ? & ? & ?) (? & ? & ? & ?). repeat split; congruence. Qed.

Lemma ledger_only_bind {A B} (m : M A) (k : A -> M B) :
  ledger_only m -> (forall a, ledger_only (k a)) -> ledger_only (bind m k).
Proof.
  intros Hm Hk w b w' H. apply bind_Ok in H as (a & w1 & H1 & H2).
  eapply ledger_frame_trans; [eapply Hm | eapply Hk]; eassumption.
Qed.

Lemma ledger_only_ret {A} (a : A) : ledger_only (ret a).
Proof. intros w a' w' [= <- <-]. apply ledger_frame_refl. Qed.

Lemma ledger_only_revert {A} e : ledger_only (@revert A e).
Proof. intros w a w' H. discriminate H. Qed.

Lemma ledger_only_require c cls msg : ledger_only (require c cls msg).
Proof. intros w a w' H. apply require_Ok in H as [_ ->]. apply ledger_frame_refl. Qed.

Lemma ledger_only_onlyRole roles r a : ledger_only (onlyRole roles r a).
Proof.
  unfold onlyRole. destruct (hasRole roles r a);
    [apply ledger_only_ret | apply ledger_only_revert].
Qed.

Lemma ledger_only_checked_add a b : ledger_only (checked_add a b).
Proof. intros w x w' H. apply checked_add_Ok in H as (_ & _ & ->). apply ledger_frame_refl. Qed.

Lemma ledger_only_put_contract a c : ledger_only (put_contract a c).
Proof. intros w x w'. unfold put_contract. intros [= <- <-]. repeat split. Qed.

Lemma ledger_only_new_contract a n c : ledger_only (new_contract a n c).
Proof.
  intros w x w'. unfold new_contract.
  destruct (bool_decide _); [discriminate|].
  destruct (contracts w !! _); [discriminate|].
  intros [= <- <-]. repeat split.
Qed.

Lemma ledger_only_acceptance to : ledger_only (ERC1155._doSafeTransferAcceptanceCheck to).
Proof.
  intros w x w'. unfold ERC1155._doSafeTransferAcceptanceCheck.
  destruct (accepts_erc1155 _ _); [|discriminate].
  intros [= <- <-]. apply ledger_frame_refl.
Qed.

Create HintDb ledger.
#[export] Hint Resolve ledger_only_ret ledger_only_revert ledger_only_require
  ledger_only_onlyRole ledger_only_checked_add ledger_only_put_contract
  ledger_only_new_contract ledger_only_acceptance : ledger.

(** Splits a goal [ledger_only m] along the binds and the branches of [m]. *)
Ltac ledger_only :=
  repeat first
    [ solve [auto with ledger]
    | apply ledger_only_bind; [| intros ?]
    | match goal with
      | |- ledger_only (if ?c then _ else _) => destruct c
      | |- ledger_only (match ?x with _ => _ end) => destruct x
      | |- ledger_only (let x := _ in _) => cbv zeta
      end ].

Lemma ledger_only_mint bal to id amount : ledger_only (ERC1155._mint bal to id amount).
Proof. unfold ERC1155._mint. ledger_only. Qed.

Lemma ledger_only_burn bal from id amount : ledger_only (ERC1155._burn bal from id amount).
Proof. unfold ERC1155._burn. ledger_only. Qed.

Lemma ledger_only_transfer bal from to id amount :
  ledger_only (ERC1155._safeTransferFrom bal from to id amount).
Proof. unfold ERC1155._safeTransferFrom. ledger_only. Qed.

Lemma ledger_only_transferEach ids : forall bal from to amounts,
  ledger_only (ERC1155._transferEach bal from to ids amounts).
Proof.
  induction ids as [|id ids IH]; intros bal from to [|amount amounts]; simpl;
    try apply ledger_only_ret.
  ledger_only.
Qed.

Lemma ledger_only_batchTransfer bal from to ids amounts :
  ledger_only (ERC1155._safeBatchTransferFrom bal from to ids amounts).
Proof.
  unfold ERC1155._safeBatchTransferFrom.
  pose proof ledger_only_transferEach. ledger_only.
Qed.

Lemma ledger_only_setApproval app o op b :
  ledger_only (ERC1155._setApprovalForAll app o op b).
Proof. unfold ERC1155._setApprovalForAll. ledger_only. Qed.

Lemma ledger_only_grantRole roles a r b : ledger_only (AccessControl.grantRole roles a r b).
Proof. unfold AccessControl.grantRole. ledger_only. Qed.

Lemma ledger_only_revokeRole roles a r b :
  ledger_only (AccessControl.revokeRole roles a r b).
Proof. unfold AccessControl.revokeRole. ledger_only. Qed.

Lemma ledger_only_renounceRole roles a r b :
  ledger_only (AccessControl.renounceRole roles a r b).
Proof. unfold AccessControl.renounceRole. ledger_only. Qed.

#[export] Hint Resolve ledger_only_mint ledger_only_burn ledger_only_transfer
  ledger_only_batchTransfer ledger_only_setApproval ledger_only_grantRole
  ledger_only_revokeRole ledger_only_renounceRole : ledger.

Lemma ledger_only_utility_load self : ledger_only (SupplierUtilityContract.load self).
Proof.
  intros w a w'. unfold SupplierUtilityContract.load.
  destruct (contracts w !! self) as [[]|]; try discriminate.
  intros [= <- <-]. apply ledger_frame_refl.
Qed.

Lemma ledger_only_supplier_load self : ledger_only (SupplierContract.load self).
Proof.
  intros w a w'. unfold SupplierContract.load.
  destruct (contracts w !! self) as [[]|]; try discriminate.
  intros [= <- <-]. apply ledger_frame_refl.
Qed.

Lemma ledger_only_deployer_load self : ledger_only (BukSupplierDeployer.load self).
Proof.
  intros w a w'. unfold BukSupplierDeployer.load.
  destruct (contracts w !! self) as [[]|]; try discriminate.
  intros [= <- <-]. apply ledger_frame_refl.
Qed.

Lemma ledger_only_utility_deployer_load self :
  ledger_only (BukSupplierUtilityDeployer.load self).
Proof.
  intros w a w'. unfold BukSupplierUtilityDeployer.load.
  destruct (contracts w !! self) as [[]|]; try discriminate.
  intros [= <- <-]. apply ledger_frame_refl.
Qed.

#[export] Hint Resolve ledger_only_utility_load ledger_only_supplier_load
  ledger_only_deployer_load ledger_only_utility_deployer_load : ledger.

#[export] Hint Unfold SupplierUtilityContract.store SupplierContract.store
  BukSupplierDeployer.store BukSupplierUtilityDeployer.store : ledger.

Ltac ledger_fun f := unfold f; autounfold with ledger; ledger_only.

Module UtilityFrame.
Import SupplierUtilityContract.
Lemma utility_grantSupplierRole_frame a b c : ledger_only (grantSupplierRole a b c).
  Proof. ledger_fun grantSupplierRole. Qed.
Lemma utility_setContractURI_frame a b c : ledger_only (setContractURI a b c).
  Proof. ledger_fun setContractURI. Qed.
Lemma utility_updateSupplierDetails_frame a b c : ledger_only (updateSupplierDetails a b c).
  Proof. ledger_fun updateSupplierDetails. Qed.
Lemma utility_setURI_frame a b c d : ledger_only (setURI a b c d).
  Proof. ledger_fun setURI. Qed.
Lemma utility_mint_frame a b c d e f : ledger_only (mint a b c d e f).
  Proof. ledger_fun mint. Qed.
Lemma utility_safeTransferFrom_frame a b c d e f : ledger_only (safeTransferFrom a b c d e f).
  Proof. ledger_fun safeTransferFrom. unfold _safeTransferFrom. ledger_only. Qed.
Lemma utility_safeBatchTransferFrom_frame a b c d e f :
    ledger_only (safeBatchTransferFrom a b c d e f).
  Proof. ledger_fun safeBatchTransferFrom. unfold _safeBatchTransferFrom. ledger_only. Qed.
Lemma utility_setApprovalForAll_frame a b c d : ledger_only (setApprovalForAll a b c d).
  Proof. ledger_fun setApprovalForAll. Qed.
Lemma utility_grantRole_frame a b c d : ledger_only (grantRole a b c d).
  Proof. ledger_fun grantRole. Qed.
Lemma utility_revokeRole_frame a b c d : ledger_only (revokeRole a b c d).
  Proof. ledger_fun revokeRole. Qed.
Lemma utility_renounceRole_frame a b c d : ledger_only (renounceRole a b c d).
  Proof. ledger_fun renounceRole. Qed.
End UtilityFrame.

#[export] Hint Resolve UtilityFrame.utility_grantSupplierRole_frame
  UtilityFrame.utility_setContractURI_frame UtilityFrame.utility_updateSupplierDetails_frame
  UtilityFrame.utility_setURI_frame UtilityFrame.utility_mint_frame
  UtilityFrame.utility_safeTransferFrom_frame UtilityFrame.utility_safeBatchTransferFrom_frame
  UtilityFrame.utility_setApprovalForAll_frame UtilityFrame.utility_grantRole_frame
  UtilityFrame.utility_revokeRole_frame UtilityFrame.utility_renounceRole_frame : ledger.

Module SupplierFrame.
Import SupplierContract.
Lemma supplier_setContractURI_frame a b c : ledger_only (setContractURI a b c).
  Proof. ledger_fun setContractURI. Qed.
Lemma supplier_updateSupplierDetails_frame a b c : ledger_only (updateSupplierDetails a b c).
  Proof. ledger_fun updateSupplierDetails. Qed.
Lemma supplier_setURI_frame a b c d : ledger_only (setURI a b c d).
  Proof. ledger_fun setURI. Qed.
Lemma supplier_toggleNFTStatus_frame a b c d : ledger_only (toggleNFTStatus a b c d).
  Proof. ledger_fun toggleNFTStatus. Qed.
Lemma supplier_mint_frame a b c d e f g : ledger_only (mint a b c d e f g).
  Proof. ledger_fun mint. Qed.
Lemma supplier_burn_frame a b c d e f : ledger_only (burn a b c d e f).
  Proof. ledger_fun burn. Qed.
Lemma supplier_safeTransferFrom_frame a b c d e f : ledger_only (safeTransferFrom a b c d e f).
  Proof. ledger_fun safeTransferFrom. Qed.
Lemma supplier_safeBatchTransferFrom_frame a b c d e f :
    ledger_only (safeBatchTransferFrom a b c d e f).
  Proof. ledger_fun safeBatchTransferFrom. Qed.
Lemma supplier_setApprovalForAll_frame a b c d : ledger_only (setApprovalForAll a b c d).
  Proof. ledger_fun setApprovalForAll. Qed.
Lemma supplier_grantRole_frame a b c d : ledger_only (grantRole a b c d).
  Proof. ledger_fun grantRole. Qed.
Lemma supplier_revokeRole_frame a b c d : ledger_only (revokeRole a b c d).
  Proof. ledger_fun revokeRole. Qed.
Lemma supplier_renounceRole_frame a b c d : ledger_only (renounceRole a b c d).
  Proof. ledger_fun renounceRole. Qed.
End SupplierFrame.

#[export] Hint Resolve SupplierFrame.supplier_setContractURI_frame
  SupplierFrame.supplier_updateSupplierDetails_frame SupplierFrame.supplier_setURI_frame
  SupplierFrame.supplier_toggleNFTStatus_frame SupplierFrame.supplier_mint_frame
  SupplierFrame.supplier_burn_frame SupplierFrame.supplier_safeTransferFrom_frame
  SupplierFrame.supplier_safeBatchTransferFrom_frame
  SupplierFrame.supplier_setApprovalForAll_frame SupplierFrame.supplier_grantRole_frame
  SupplierFrame.supplier_revokeRole_frame SupplierFrame.supplier_renounceRole_frame
  : ledger.

Module DeployerFrame.
Lemma updateFactory_frame a b c : ledger_only (BukSupplierDeployer.updateFactory a b c).
  Proof. ledger_fun BukSupplierDeployer.updateFactory. Qed.
Lemma deploySupplier_frame a b c d e f g h :
    ledger_only (BukSupplierDeployer.deploySupplier a b c d e f g h).
  Proof. ledger_fun BukSupplierDeployer.deploySupplier. Qed.
Lemma utility_updateFactory_frame a b c :
    ledger_only (BukSupplierUtilityDeployer.updateFactory a b c).
  Proof. ledger_fun BukSupplierUtilityDeployer.updateFactory. Qed.
Lemma deploySupplierUtility_frame a b c d e :
    ledger_only (BukSupplierUtilityDeployer.deploySupplierUtility a b c d e).
  Proof. ledger_fun BukSupplierUtilityDeployer.deploySupplierUtility. Qed.
End DeployerFrame.

#[export] Hint Resolve DeployerFrame.updateFactory_frame
  DeployerFrame.deploySupplier_frame DeployerFrame.utility_updateFactory_frame
  DeployerFrame.deploySupplierUtility_frame : ledger.

(** ** Loops that only check *)

Section CheckLoop.
Variable ids : list uint256.
Variable chk : uint256 -> M unit.
Variable Q : uint256 -> World -> Prop.

Let loop : M unit :=
    for_uint8 (Z.of_nat (length ids)) (fun i _ => let* id := index ids i in chk id) tt.

Lemma check_loop_Ok w u w' :
    (forall id w u w', chk id w = Ok (u, w') -> w' = w /\ Q id w) ->
    loop w = Ok (u, w') ->
    w' = w /\ (forall id, id ∈ ids -> Q id w) /\ Z.of_nat (length ids) <= MAX_UINT8.
  Proof.
    intros Hchk H. unfold loop in H.
    pose proof (for_uint8_bound _ _ _ _ _ _ H) as Hlen.
    apply (for_uint8_inv _ _
             (fun j _ w1 => w1 = w /\
                forall i id, 0 <= i < j -> ids !! Z.to_nat i = Some id -> Q id w))
      in H; [| | lia |].
    - destruct H as [-> H]. split; [reflexivity|]. split; [|exact Hlen].
      intros id Hin. apply list_elem_of_lookup in Hin as [n Hn].
      apply (H (Z.of_nat n)); [| rewrite Nat2Z.id; exact Hn].
      apply lookup_lt_Some in Hn. lia.
    - intros j [] w1 [] w2 Hj [-> HQ] Hb. inv_Ok Hb.
      match goal with
      | Hc : chk _ _ = Ok _ |- _ => apply Hchk in Hc as [-> Hq]
      end.
      split; [reflexivity|].
      intros i id Hi Hid. destruct (Z.eq_dec i j) as [->|].
      + congruence.
      + apply (HQ i); [lia | exact Hid].
    - split; [reflexivity|]. intros; lia.
  Qed.

Lemma check_loop_pass w :
    Z.of_nat (length ids) <= MAX_UINT8 ->
    (forall id, id ∈ ids -> chk id w = Ok (tt, w)) ->
    loop w = Ok (tt, w).
  Proof.
    intros Hlen Hchk. unfold loop.
    destruct (for_uint8_Ok (Z.of_nat (length ids))
                (fun i (_ : unit) => let* id := index ids i in chk id)
                (fun _ _ w1 => w1 = w)) with (s := tt) (w := w)
      as ([] & w' & H & ->); [| | lia | reflexivity | exact H].
    - intros j [] w1 [] w2 Hj -> Hb. inv_Ok Hb.
      match goal with
      | Hc : chk ?id _ = Ok _ |- _ =>
          assert (id ∈ ids) as Hin by (apply list_elem_of_lookup; eauto);
          rewrite (Hchk _ Hin) in Hc; congruence
      end.
    - intros j [] w1 Hj ->.
      destruct (lookup_lt_is_Some_2 ids (Z.to_nat j)) as [id Hid]; [lia|].
      exists tt, w. apply bind_Ok. exists id, w. split.
      + apply index_Ok. auto.
      + apply Hchk. apply list_elem_of_lookup. eauto.
  Qed.

Lemma check_loop_Revert w e :
    (forall id w u w', chk id w = Ok (u, w') -> w' = w) ->
    loop w = Revert e ->
    (exists id, id ∈ ids /\ chk id w = Revert e)
    \/ (e = Panic ARITHMETIC /\ MAX_UINT8 < Z.of_nat (length ids)).
  Proof.
    intros Hchk H. unfold loop, for_uint8 in H.
    apply (for_uint8_from_Revert _ _ (fun _ _ w1 => w1 = w)) in H;
      [| | lia | reflexivity].
    - destruct H as [(j & [] & w1 & Hj & -> & Hb) | (-> & [H | H])].
      + apply bind_Revert in Hb as [Hb | (id & w1 & Hb & Hc)].
        * unfold index in Hb.
          destruct (lookup_lt_is_Some_2 ids (Z.to_nat j)) as [id Hid]; [lia|].
          rewrite Hid in Hb. discriminate.
        * inv_Ok Hb. left. exists id. split; [|exact Hc].
          apply list_elem_of_lookup. eauto.
      + right. auto.
      + right. split; [reflexivity|]. unfold MAX_UINT8.
        change (Z.of_nat 256) with 256 in H. lia.
    - intros j [] w1 [] w2 Hj -> Hb. inv_Ok Hb. eapply Hchk. eassumption.
  Qed.
End CheckLoop.

(** ** Reading the orchestrator *)

Definition getB (w : World) (k : uint256) : Booking.t := BukTrips.getBooking (buk w) k.

Definition status_of (w : World) (k : uint256) : BookingStatus.t :=
  Booking.status (getB w k).

Definition tokenID_of (w : World) (k : uint256) : uint256 :=
  Booking.tokenID (getB w k).

Definition active (w : World) (supplier : uint256) : Prop :=
  SupplierDetails.status (BukTrips.getSupplier (buk w) supplier) = true.

Definition is_admin (w : World) (a : address) : Prop :=
  hasRole (Storage.BukTrips._roles (buk w)) ADMIN_ROLE a = true.

Lemma getBooking_setBooking k b s k' :
  BukTrips.getBooking (BukTrips.setBooking k b s) k' =
  if decide (k = k') then b else BukTrips.getBooking s k'.
Proof.
  unfold BukTrips.getBooking, BukTrips.setBooking. destruct s; simpl.
  rewrite lookup_insert. destruct (decide (k = k')); reflexivity.
Qed.

Lemma external_call_Ok callee c w b w' :
  external_call callee c w = Ok (b, w') <->
  outside w callee /\ answer (env w) (calls w) c = returns b
  /\ w' = set_calls (calls w ++ [c]) w.
Proof.
  unfold external_call, outside. case_bool_decide as Hself.
  - split; [discriminate | intros ([? _] & _); contradiction].
  - destruct (contracts w !! callee).
    + split; [discriminate | intros ([_ ?] & _); discriminate].
    + destruct (answer (env w) (calls w) c) as [b'|].
      * split.
        -- intros [= <- <-]. auto.
        -- intros (_ & [= ->] & ->). reflexivity.
      * split; [discriminate | intros (_ & ? & _); discriminate].
Qed.

Lemma external_call_returns callee c w b :
  outside w callee -> answer (env w) (calls w) c = returns b ->
  external_call callee c w = Ok (b, set_calls (calls w ++ [c]) w).
Proof. intros. apply external_call_Ok. auto. Qed.

Lemma supplierRegistered_Ok sid w u w' :
  BukTrips.supplierRegistered sid w = Ok (u, w') <-> active w sid /\ w' = w.
Proof.
  unfold BukTrips.supplierRegistered, active. split.
  - intros H. inv_Ok H. auto.
  - intros [H ->]. destruct u. unfold bind, get_buk. rewrite H. reflexivity.
Qed.

Lemma onlyAdmin_Ok a w u w' :
  BukTrips.onlyAdmin a w = Ok (u, w') <-> is_admin w a /\ w' = w.
Proof.
  unfold BukTrips.onlyAdmin, is_admin, onlyRole, bind, get_buk. destruct u.
  destruct (hasRole _ _ _); split.
  - intros [= <-]. auto.
  - intros [_ ->]. reflexivity.
  - discriminate.
  - intros [? _]. discriminate.
Qed.

Lemma supplierRegistered_pass sid w :
  active w sid -> BukTrips.supplierRegistered sid w = Ok (tt, w).
Proof. intros. apply supplierRegistered_Ok. auto. Qed.

Lemma onlyAdmin_pass a w : is_admin w a -> BukTrips.onlyAdmin a w = Ok (tt, w).
Proof. intros. apply onlyAdmin_Ok. auto. Qed.

(** ** The loop of [bookRoom] *)

Definition sum_list (l : list Z) : Z := foldr Z.add 0 l.

(** The commission of one room: [baseRate * commission / 100]. *)
Definition room_commission (commission baseRate : Z) : Z := baseRate * commission / 100.

Lemma sum_list_app l1 l2 : sum_list (l1 ++ l2) = sum_list l1 + sum_list l2.
Proof. unfold sum_list. induction l1 as [|x l1 IH]; simpl; lia. Qed.

Lemma sum_list_nonneg l : Forall (fun x => 0 <= x) l -> 0 <= sum_list l.
Proof. unfold sum_list. induction 1; simpl; lia. Qed.

Lemma sum_list_take_le l n :
  Forall (fun x => 0 <= x) l -> sum_list (take n l) <= sum_list l.
Proof.
  intros H. rewrite <- (take_drop n l) at 2. rewrite sum_list_app.
  assert (0 <= sum_list (drop n l)); [|lia].
  apply sum_list_nonneg. apply Forall_drop. exact H.
Qed.

Section BookRoomLoop.
Variables (sender : address) (sid : uint256) (totals rates : list uint256)
            (ci co : uint256).
Variable w0 : World.

Let n0 := Storage.BukTrips._bookingIds (buk w0).
Let c := Storage.BukTrips.commission (buk w0).
Let body := BukTrips.bookRoom_body sender sid totals rates ci co.

  (** The record that the round [k - n0 - 1] writes at [k]. *)
Definition booked_record (k : uint256) : Booking.t :=
    Booking.mk k BookingStatus.booked 0 sender sid ci co
      (nth (Z.to_nat (k - n0 - 1)) totals 0) (nth (Z.to_nat (k - n0 - 1)) rates 0).

  (** The world after [j] rounds that carry [acc]. *)
Definition after_rounds (j : Z) (acc : uint256 * uint256) (w : World) : Prop :=
    env w = env w0 /\ buk_address w = buk_address w0 /\ contracts w = contracts w0
    /\ calls w = calls w0
    /\ (exists m, buk w = Storage.BukTrips.set_BookingDetails m
                            (Storage.BukTrips.set_bookingIds (n0 + j) (buk w0)))
    /\ (forall k, getB w k = if (n0 <? k) && (k <=? n0 + j) then booked_record k
                             else getB w0 k)
    /\ fst acc = sum_list (take (Z.to_nat j) totals)
    /\ snd acc = sum_list (room_commission c <$> take (Z.to_nat j) rates).

Lemma after_rounds_start : after_rounds 0 (0, 0) w0.
  Proof.
    unfold after_rounds. repeat split; try reflexivity.
    - exists (Storage.BukTrips.BookingDetails (buk w0)).
      replace (n0 + 0) with n0 by lia. subst n0. destruct (buk w0); reflexivity.
    - intros k. destruct (Z.ltb_spec n0 k), (Z.leb_spec k (n0 + 0)); simpl;
        try reflexivity; lia.
  Qed.

Lemma bookRoom_body_Ok j acc w acc' w' :
    0 <= j -> after_rounds j acc w ->
    body j acc w = Ok (acc', w') <->
    exists t r,
      totals !! Z.to_nat j = Some t /\ rates !! Z.to_nat j = Some r
      /\ n0 + j + 1 <= MAX_UINT256 /\ fst acc + t <= MAX_UINT256
      /\ r * c <= MAX_UINT256 /\ snd acc + room_commission c r <= MAX_UINT256
      /\ acc' = (fst acc + t, snd acc + room_commission c r)
      /\ w' = set_buk
                (BukTrips.setBooking (n0 + j + 1)
                   (Booking.mk (n0 + j + 1) BookingStatus.booked 0 sender sid ci co t r)
                   (Storage.BukTrips.set_bookingIds (n0 + j + 1) (buk w))) w.
  Proof.
    intros Hj (_ & _ & _ & _ & (m & Hm) & _).
    assert (Storage.BukTrips._bookingIds (buk w) = n0 + j) as Hn by (rewrite Hm; reflexivity).
    assert (Storage.BukTrips.commission (buk w) = c) as Hc by (rewrite Hm; reflexivity).
    unfold body, BukTrips.bookRoom_body. split.
    - intros H. inv_Ok H. rewrite Hn, Hc in *. unfold room_commission.
      eexists _, _. repeat split; try eassumption; reflexivity.
    - intros (t & r & Ht & Hr & H1 & H2 & H3 & H4 & -> & ->).
      unfold bind at 1. unfold get_buk. rewrite Hn, Hc.
      rewrite (bind_step _ _ _ _ _ (proj2 (checked_add_Ok _ _ _ _ _)
                 (conj H1 (conj eq_refl eq_refl)))).
      rewrite (bind_step _ _ _ _ _ (proj2 (index_Ok _ _ _ _ _) (conj Ht eq_refl))).
      rewrite (bind_step _ _ _ _ _ (proj2 (index_Ok _ _ _ _ _) (conj Hr eq_refl))).
      unfold bind at 1. unfold put_buk.
      rewrite (bind_step _ _ _ _ _ (proj2 (checked_add_Ok _ _ _ _ _)
                 (conj H2 (conj eq_refl eq_refl)))).
      rewrite (bind_step _ _ _ _ _ (proj2 (checked_mul_Ok _ _ _ _ _)
                 (conj H3 (conj eq_refl eq_refl)))).
      unfold room_commission in H4.
      rewrite (bind_step _ _ _ _ _ (proj2 (checked_add_Ok _ _ _ _ _)
                 (conj H4 (conj eq_refl eq_refl)))).
      reflexivity.
  Qed.

Lemma after_rounds_next j acc w acc' w' :
    0 <= j -> after_rounds j acc w -> body j acc w = Ok (acc', w') ->
    after_rounds (j + 1) acc' w'.
  Proof.
    intros Hj HP Hb. pose proof HP as (He & Ha & Hct & Hcl & (m & Hm) & Hk & Hf & Hs).
    apply (bookRoom_body_Ok j acc w acc' w' Hj HP) in Hb
      as (t & r & Ht & Hr & _ & _ & _ & _ & -> & ->).
    unfold after_rounds. simpl. repeat split; try assumption.
    - eexists. rewrite Hm. unfold BukTrips.setBooking. simpl.
      replace (n0 + (j + 1)) with (n0 + j + 1) by lia. reflexivity.
    - intros k. unfold getB. simpl. rewrite getBooking_setBooking.
      case_decide as Hne; [subst k|].
      + destruct (Z.ltb_spec n0 (n0 + j + 1)); [|lia].
        destruct (Z.leb_spec (n0 + j + 1) (n0 + (j + 1))); [|lia]. simpl.
        unfold booked_record. replace (n0 + j + 1 - n0 - 1) with j by lia.
        rewrite (nth_lookup_Some _ _ _ _ Ht), (nth_lookup_Some _ _ _ _ Hr).
        reflexivity.
      + replace (BukTrips.getBooking (Storage.BukTrips.set_bookingIds (n0 + j + 1)
                   (buk w)) k) with (getB w k)
          by (unfold getB, BukTrips.getBooking; destruct (buk w); reflexivity).
        rewrite Hk.
        destruct (Z.ltb_spec n0 k), (Z.leb_spec k (n0 + j)),
          (Z.leb_spec k (n0 + (j + 1))); simpl; try reflexivity; lia.
    - rewrite Hf. replace (Z.to_nat (j + 1)) with (Datatypes.S (Z.to_nat j)) by lia.
      rewrite (take_S_r _ _ _ Ht), sum_list_app. unfold sum_list. simpl. lia.
    - rewrite Hs. replace (Z.to_nat (j + 1)) with (Datatypes.S (Z.to_nat j)) by lia.
      rewrite (take_S_r _ _ _ Hr), fmap_app, sum_list_app. unfold sum_list. simpl. lia.
  Qed.

  (** Whenever the loop returns, it has written [count] records and carries
      the two sums. *)
Lemma bookRoom_loop_inv count acc w :
    0 <= count ->
    for_uint8 count body (0, 0) w0 = Ok (acc, w) -> after_rounds count acc w.
  Proof.
    intros Hc H.
    apply (for_uint8_inv count body (fun j acc w => 0 <= j /\ after_rounds j acc w))
      in H; [tauto | | lia |].
    - intros j s w1 s' w' Hj [_ HP] Hb. split; [lia|].
      apply (after_rounds_next j s w1); [lia | assumption..].
    - split; [lia | apply after_rounds_start].
  Qed.

  (** The inputs on which the loop returns: at most 255 rooms, arrays that
      are long enough, and no overflow of the counter or of the two sums. *)
Record bookable (count : uint256) : Prop := {
    bookable_count : 0 <= count <= MAX_UINT8;
    bookable_totals : (Z.to_nat count <= length totals)%nat;
    bookable_rates : (Z.to_nat count <= length rates)%nat;
    bookable_ids : n0 + count <= MAX_UINT256;
    bookable_commission : 0 <= c;
    bookable_totals_pos : Forall (fun t => 0 <= t) (take (Z.to_nat count) totals);
    bookable_rates_pos :
      Forall (fun r => 0 <= r /\ r * c <= MAX_UINT256) (take (Z.to_nat count) rates);
    bookable_total : sum_list (take (Z.to_nat count) totals) <= MAX_UINT256;
    bookable_commissionTotal :
      sum_list (room_commission c <$> take (Z.to_nat count) rates) <= MAX_UINT256
  }.

Lemma bookRoom_loop_Ok count :
    bookable count ->
    exists acc w,
      for_uint8 count body (0, 0) w0 = Ok (acc, w) /\ after_rounds count acc w.
  Proof.
    intros [Hc Ht Hr Hi Hcm Htp Hrp Hts Hcs].
    destruct (for_uint8_Ok count body (fun j acc w => 0 <= j /\ after_rounds j acc w))
      with (s := (0, 0)) (w := w0) as (acc & w & H & _ & HP).
    - intros j s w1 s' w' Hj [_ HP] Hb. split; [lia|].
      apply (after_rounds_next j s w1); [lia | assumption..].
    - intros j s w1 Hj [_ HP].
      destruct (lookup_lt_is_Some_2 totals (Z.to_nat j)) as [t Ht']; [lia|].
      destruct (lookup_lt_is_Some_2 rates (Z.to_nat j)) as [r Hr']; [lia|].
      pose proof HP as (_ & _ & _ & _ & _ & _ & Hf & Hs).
      assert (take (Datatypes.S (Z.to_nat j)) (take (Z.to_nat count) totals)
              = take (Z.to_nat j) totals ++ [t]) as Et.
      { rewrite take_take, Nat.min_l by lia. apply take_S_r. exact Ht'. }
      assert (take (Datatypes.S (Z.to_nat j)) (take (Z.to_nat count) rates)
              = take (Z.to_nat j) rates ++ [r]) as Er.
      { rewrite take_take, Nat.min_l by lia. apply take_S_r. exact Hr'. }
      assert (0 <= r /\ r * c <= MAX_UINT256) as [Hr0 Hrc].
      { rewrite Forall_forall in Hrp. apply Hrp.
        apply list_elem_of_lookup. exists (Z.to_nat j).
        rewrite lookup_take_lt by lia. exact Hr'. }
      eexists _, _. apply (bookRoom_body_Ok j s w1); [lia | exact HP |].
      exists t, r. repeat split; try eassumption; try lia.
      + pose proof (sum_list_take_le _ (Datatypes.S (Z.to_nat j)) Htp) as Hle.
        rewrite Et, sum_list_app in Hle. unfold sum_list at 2 in Hle.
        simpl in Hle. lia.
      + assert (Forall (fun x => 0 <= x)
                  (room_commission c <$> take (Z.to_nat count) rates)) as Hpos.
        { apply Forall_fmap. eapply Forall_impl; [exact Hrp|].
          intros x [Hx _]. simpl. unfold room_commission.
          apply Z.div_pos; [|lia]. apply Z.mul_nonneg_nonneg; lia. }
        pose proof (sum_list_take_le _ (Datatypes.S (Z.to_nat j)) Hpos) as Hle.
        rewrite <- fmap_take, Er, fmap_app, sum_list_app in Hle.
        unfold sum_list at 2 in Hle. simpl in Hle. lia.
    - unfold MAX_UINT8 in *. lia.
    - split; [lia | apply after_rounds_start].
    - eauto.
  Qed.
End BookRoomLoop.

(** ** [bookRoom] *)

Lemma set_calls_frame l w :
  env (set_calls l w) = env w /\ buk_address (set_calls l w) = buk_address w
  /\ buk (set_calls l w) = buk w /\ contracts (set_calls l w) = contracts w.
Proof. repeat split. Qed.

Lemma for_uint8_negative {S} len (body : Z -> S -> M S) s w :
  len <= 0 -> for_uint8 len body s w = Ok (s, w).
Proof.
  intros H. unfold for_uint8. simpl.
  destruct (Z.ltb_spec 0 len); [lia | reflexivity].
Qed.

(** The trace that a call of [bookRoom] which returns leaves: it starts with
    the transfer of the commission. *)
Lemma bookRoom_Ok_inv sender sid count totals rates ci co w r w' :
  BukTrips.bookRoom sender sid count totals rates ci co w = Ok (r, w') ->
  active w sid /\
  exists acc w1 rest,
    for_uint8 count (BukTrips.bookRoom_body sender sid totals rates ci co) (0, 0) w
      = Ok (acc, w1)
    /\ buk w' = buk w1
    /\ calls w' = calls w1 ++
         transferFrom (Storage.BukTrips.currency (buk w1)) sender
           (Storage.BukTrips.buk_wallet (buk w1)) (snd acc) :: rest.
Proof.
  unfold BukTrips.bookRoom. intros H.
  apply bind_Ok in H as ([] & w0 & Hs & H). apply supplierRegistered_Ok in Hs as [Ha ->].
  apply bind_Ok in H as (acc & w1 & Hloop & H).
  apply bind_Ok in H as (s & w2 & Hg & H). inv_Ok Hg.
  apply bind_Ok in H as (b1 & w2 & Hc1 & H).
  apply external_call_Ok in Hc1 as (_ & _ & ->).
  split; [exact Ha|]. exists acc, w1.
  destruct b1.
  - apply bind_Ok in H as (b2 & w3 & Hc2 & H).
    apply external_call_Ok in Hc2 as (_ & _ & ->).
    destruct b2.
    + inv_Ok H. eexists. split; [exact Hloop|]. split; [reflexivity|].
      simpl. rewrite <- !app_assoc. reflexivity.
    + apply bind_Ok in H as (b3 & w4 & Hc3 & H).
      apply external_call_Ok in Hc3 as (_ & _ & ->).
      apply bind_Ok in H as (b4 & w5 & Hc4 & H).
      apply external_call_Ok in Hc4 as (_ & _ & ->).
      inv_Ok H. eexists. split; [exact Hloop|]. split; [reflexivity|].
      simpl. rewrite <- !app_assoc. reflexivity.
  - apply bind_Ok in H as (b3 & w4 & Hc3 & H).
    apply external_call_Ok in Hc3 as (_ & _ & ->).
    inv_Ok H. eexists. split; [exact Hloop|]. split; [reflexivity|].
    simpl. rewrite <- !app_assoc. reflexivity.
Qed.

(** The call when the currency ledger refuses the commission and answers the
    transfer that the code sends next. *)
Lemma bookRoom_refused sender sid count totals rates ci co w acc w1 b :
  let cur := Storage.BukTrips.currency (buk w) in
  let wallet := Storage.BukTrips.buk_wallet (buk w) in
  let c1 := transferFrom cur sender wallet (snd acc) in
  let c2 := transferFrom cur wallet sender (snd acc) in
  active w sid ->
  for_uint8 count (BukTrips.bookRoom_body sender sid totals rates ci co) (0, 0) w
    = Ok (acc, w1) ->
  after_rounds sender sid totals rates ci co w count acc w1 ->
  outside w cur ->
  answer (env w) (calls w) c1 = returns false ->
  answer (env w) (calls w ++ [c1]) c2 = returns b ->
  BukTrips.bookRoom sender sid count totals rates ci co w
    = Ok (false, set_calls (calls w ++ [c1; c2]) w1).
Proof.
  intros cur wallet c1 c2 Ha Hloop (He & Hb & Hct & Hcl & (m & Hm) & _) Hout A1 A2.
  subst c1 c2 cur wallet.
  assert (Storage.BukTrips.currency (buk w1) = Storage.BukTrips.currency (buk w))
    as Ecur by (rewrite Hm; reflexivity).
  assert (Storage.BukTrips.buk_wallet (buk w1) = Storage.BukTrips.buk_wallet (buk w))
    as Ewal by (rewrite Hm; reflexivity).
  assert (outside w1 (Storage.BukTrips.currency (buk w))) as Hout1.
  { destruct Hout. split; [rewrite Hb | rewrite Hct]; assumption. }
  rewrite <- He, <- Hcl in A1, A2.
  unfold BukTrips.bookRoom.
  rewrite (bind_step _ _ _ _ _ (supplierRegistered_pass _ _ Ha)).
  rewrite (bind_step _ _ _ _ _ Hloop).
  unfold bind at 1. unfold get_buk. cbv zeta. rewrite Ecur, Ewal.
  rewrite (bind_step _ _ _ _ _ (external_call_returns _ _ w1 false Hout1 A1)).
  cbv iota.
  rewrite (bind_step _ _ _ _ _
             (external_call_returns _ _ (set_calls (calls w1 ++ [_]) w1) b Hout1 A2)).
  unfold ret. simpl. rewrite Hcl, <- app_assoc. reflexivity.
Qed.

(** Closed facts about the demo deployment are decided by evaluation. *)
Ltac evaluate :=
  cbv zeta;
  repeat match goal with |- _ /\ _ => split end;
  vm_compute; reflexivity.

(** * The payment legs of [bookRoom] *)

(** C1 (as amended).  When the supplier is active, the loop of [bookRoom]
    completes (at most 255 rooms, arrays long enough, no overflow), the
    currency ledger refuses the transfer of the commission and answers the
    call that the code sends next, [bookRoom] returns [false] and keeps the
    records that its loop has written: the booking counter is advanced by
    [count], every new id holds a record in [booked] status with token id 0,
    and no other record changes. *)
Theorem bookRoom_commission_refused_keeps_bookings
    sender sid count totals rates ci co w b :
  let n0 := Storage.BukTrips._bookingIds (buk w) in
  let cur := Storage.BukTrips.currency (buk w) in
  let wallet := Storage.BukTrips.buk_wallet (buk w) in
  let commissionTotal :=
    sum_list (room_commission (Storage.BukTrips.commission (buk w))
                <$> take (Z.to_nat count) rates) in
  active w sid ->
  bookable totals rates w count ->
  outside w cur ->
  answer (env w) (calls w) (transferFrom cur sender wallet commissionTotal)
    = returns false ->
  answer (env w) (calls w ++ [transferFrom cur sender wallet commissionTotal])
    (transferFrom cur wallet sender commissionTotal) = returns b ->
  exists w',
    BukTrips.bookRoom sender sid count totals rates ci co w = Ok (false, w')
    /\ Storage.BukTrips._bookingIds (buk w') = n0 + count
    /\ (forall k, n0 < k <= n0 + count ->
          getB w' k = booked_record sender sid totals rates ci co w k
          /\ status_of w' k = BookingStatus.booked /\ tokenID_of w' k = 0)
    /\ (forall k, ~ (n0 < k <= n0 + count) -> getB w' k = getB w k).
Proof.
  intros n0 cur wallet commissionTotal Ha Hbk Hout A1 A2.
  destruct (bookRoom_loop_Ok sender sid totals rates ci co w count Hbk)
    as (acc & w1 & Hloop & HP).
  pose proof HP as (_ & _ & _ & _ & (m & Hm) & Hk & _ & Hs).
  subst commissionTotal. rewrite <- Hs in A1, A2.
  eexists. split.
  - apply (bookRoom_refused sender sid count totals rates ci co w acc w1 b);
      assumption.
  - subst n0. simpl. split; [rewrite Hm; reflexivity|]. split.
    + intros k Hr. unfold status_of, tokenID_of. change (getB (set_calls ?l w1) k)
        with (getB w1 k). rewrite Hk.
      destruct (Z.ltb_spec (Storage.BukTrips._bookingIds (buk w)) k); [|lia].
      destruct (Z.leb_spec k (Storage.BukTrips._bookingIds (buk w) + count)); [|lia].
      simpl. auto.
    + intros k Hr. change (getB (set_calls ?l w1) k) with (getB w1 k). rewrite Hk.
      destruct (Z.ltb_spec (Storage.BukTrips._bookingIds (buk w)) k),
        (Z.leb_spec k (Storage.BukTrips._bookingIds (buk w) + count));
        simpl; try reflexivity.
      exfalso. apply Hr. lia.
Qed.

Lemma bookable_demo :
  bookable [100] [101] (Demo.ready Demo.refusing) 1.
Proof.
  split.
  - vm_compute; split; intros; discriminate.
  - vm_compute; lia.
  - vm_compute; lia.
  - vm_compute; intros; discriminate.
  - vm_compute; intros; discriminate.
  - constructor; [vm_compute; intros; discriminate | constructor].
  - constructor; [split; vm_compute; intros; discriminate | constructor].
  - vm_compute; intros; discriminate.
  - vm_compute; intros; discriminate.
Qed.

Lemma bookRoom_commission_refused_keeps_bookings_witness :
  exists w',
    BukTrips.bookRoom Demo.guest 1 1 [100] [101] 5000 6000 (Demo.ready Demo.refusing)
      = Ok (false, w')
    /\ Storage.BukTrips._bookingIds (buk w') = 0 + 1
    /\ (forall k, 0 < k <= 0 + 1 ->
          getB w' k = booked_record Demo.guest 1 [100] [101] 5000 6000
                        (Demo.ready Demo.refusing) k
          /\ status_of w' k = BookingStatus.booked /\ tokenID_of w' k = 0)
    /\ (forall k, ~ (0 < k <= 0 + 1) -> getB w' k = getB (Demo.ready Demo.refusing) k).
Proof.
  apply (bookRoom_commission_refused_keeps_bookings Demo.guest 1 1 [100] [101]
           5000 6000 (Demo.ready Demo.refusing) false).
  - reflexivity.
  - apply bookable_demo.
  - split; [vm_compute; discriminate | reflexivity].
  - reflexivity.
  - reflexivity.
Defined.

(** C1 (as stated) fails: in the demo deployment with a currency ledger that
    refuses every transfer, a guest books one room; the commission transfer
    is answered [false] and [bookRoom] returns [false], yet booking 1, absent
    before the call, is in [booked] status after it and the counter went from
    0 to 1. *)
Lemma bookRoom_commission_refused_creates_bookings :
  let w := Demo.ready Demo.refusing in
  let r := BukTrips.bookRoom Demo.guest 1 1 [100] [101] 5000 6000 w in
  answer (env w) (calls w)
    (transferFrom Demo.currency Demo.guest Demo.wallet 5) = returns false
  /\ (exists w', r = Ok (false, w'))
  /\ Storage.BukTrips._bookingIds (buk w) = 0
  /\ Storage.BukTrips._bookingIds (buk (after r w)) = 1
  /\ status_of w 1 = BookingStatus.nil
  /\ status_of (after r w) 1 = BookingStatus.booked
  /\ Storage.BukTrips.BookingDetails (buk (after r w))
     <> Storage.BukTrips.BookingDetails (buk w).
Proof.
  cbv zeta. split; [reflexivity|].
  split; [eexists; vm_compute; reflexivity|].
  split; [reflexivity|]. split; [vm_compute; reflexivity|].
  split; [reflexivity|]. split; [vm_compute; reflexivity|].
  intros H.
  assert (Storage.BukTrips.BookingDetails
            (buk (after (BukTrips.bookRoom Demo.guest 1 1 [100] [101] 5000 6000
                           (Demo.ready Demo.refusing)) (Demo.ready Demo.refusing)))
          !! 1 = Storage.BukTrips.BookingDetails (buk (Demo.ready Demo.refusing)) !! 1)
    as H1 by (rewrite H; reflexivity).
  vm_compute in H1. discriminate.
Qed.

(** The transfers of a call of [bookRoom] that returns, whatever the world
    and the batch: the commission, then the principal when the commission was
    collected; when a transfer is refused the call returns [false] after it
    has sent the inverse of every transfer it attempted, the refused one
    included. *)
Lemma bookRoom_transfers sender sid count totals rates ci co w r w' :
  let cur := Storage.BukTrips.currency (buk w) in
  let wallet := Storage.BukTrips.buk_wallet (buk w) in
  let treasury := Storage.BukTrips.treasury (buk w) in
  let total := sum_list (take (Z.to_nat count) totals) in
  let commissionTotal :=
    sum_list (room_commission (Storage.BukTrips.commission (buk w))
                <$> take (Z.to_nat count) rates) in
  let c1 := transferFrom cur sender wallet commissionTotal in
  let c2 := transferFrom cur sender treasury total in
  let c3 := transferFrom cur wallet sender commissionTotal in
  let c4 := transferFrom cur treasury sender total in
  BukTrips.bookRoom sender sid count totals rates ci co w = Ok (r, w') ->
  (answer (env w) (calls w) c1 = returns true
   /\ answer (env w) (calls w ++ [c1]) c2 = returns true
   /\ r = true /\ calls w' = calls w ++ [c1; c2])
  \/ (answer (env w) (calls w) c1 = returns true
      /\ answer (env w) (calls w ++ [c1]) c2 = returns false
      /\ r = false /\ calls w' = calls w ++ [c1; c2; c3; c4])
  \/ (answer (env w) (calls w) c1 = returns false
      /\ r = false /\ calls w' = calls w ++ [c1; c3]).
Proof.
  intros cur wallet treasury total commissionTotal c1 c2 c3 c4 H.
  unfold BukTrips.bookRoom in H.
  apply bind_Ok in H as ([] & w0 & Hs & H). apply supplierRegistered_Ok in Hs as [_ ->].
  apply bind_Ok in H as (acc & w1 & Hloop & H).
  assert (env w1 = env w /\ calls w1 = calls w
          /\ Storage.BukTrips.currency (buk w1) = cur
          /\ Storage.BukTrips.buk_wallet (buk w1) = wallet
          /\ Storage.BukTrips.treasury (buk w1) = treasury
          /\ fst acc = total /\ snd acc = commissionTotal)
    as (He & Hc & Hcur & Hwal & Htre & Ht & Hcm).
  { destruct (Z.le_gt_cases 0 count) as [Hcount | Hcount].
    - apply bookRoom_loop_inv in Hloop as (He & _ & _ & Hc & (m & Hm) & _ & Ht & Hcm);
        [|exact Hcount].
      rewrite Hm. repeat split; assumption.
    - rewrite for_uint8_negative in Hloop by lia. injection Hloop as <- <-.
      subst total commissionTotal. replace (Z.to_nat count) with 0%nat by lia.
      repeat split. }
  apply bind_Ok in H as (s & w2 & Hg & H). inv_Ok Hg.
  cbv zeta in H. rewrite Hcur, Hwal, Htre, Ht, Hcm in H.
  fold c1 c2 c3 c4 in H.
  apply bind_Ok in H as (b1 & w2 & Hc1 & H).
  apply external_call_Ok in Hc1 as (_ & A1 & ->). rewrite He, Hc in A1.
  destruct b1.
  - apply bind_Ok in H as (b2 & w3 & Hc2 & H).
    apply external_call_Ok in Hc2 as (_ & A2 & ->). simpl in A2. rewrite He, Hc in A2.
    destruct b2.
    + inv_Ok H. left. simpl. rewrite Hc, <- app_assoc. auto.
    + apply bind_Ok in H as (b3 & w4 & Hc3 & H).
      apply external_call_Ok in Hc3 as (_ & _ & ->).
      apply bind_Ok in H as (b4 & w5 & Hc4 & H).
      apply external_call_Ok in Hc4 as (_ & _ & ->).
      inv_Ok H. right. left. simpl. rewrite Hc, <- !app_assoc. auto.
  - apply bind_Ok in H as (b3 & w4 & Hc3 & H).
    apply external_call_Ok in Hc3 as (_ & _ & ->).
    inv_Ok H. right. right. simpl. rewrite Hc, <- !app_assoc. auto.
Qed.

(** The demo deployment after a guest has booked one room (total 100, base
    rate 101, commission 5) with a currency ledger that accepts the commission
    and refuses the principal, and with one that refuses the commission. *)
Definition demo_principal_refused : World :=
  after (BukTrips.bookRoom Demo.guest 1 1 [100] [101] 5000 6000
           (Demo.ready Demo.paying_once)) (Demo.ready Demo.paying_once).

Definition demo_commission_refused : World :=
  after (BukTrips.bookRoom Demo.guest 1 1 [100] [101] 5000 6000
           (Demo.ready Demo.refusing)) (Demo.ready Demo.refusing).

(** C3.  The code evaluated where the claim fails.  When the currency ledger
    accepts the commission and refuses the principal, [bookRoom] returns
    [false], keeps booking 1 and has sent two inverse transfers: the
    commission from the wallet back to the guest, and the principal, which
    was never collected, from the treasury to the guest.  When the ledger
    refuses the commission, [bookRoom] still sends a transfer of the
    commission from the wallet to the guest. *)
Theorem bookRoom_reverses_uncollected_transfers :
  let book := BukTrips.bookRoom Demo.guest 1 1 [100] [101] 5000 6000 in
  book (Demo.ready Demo.paying_once) = Ok (false, demo_principal_refused)
  /\ status_of demo_principal_refused 1 = BookingStatus.booked
  /\ calls demo_principal_refused
     = [ transferFrom Demo.currency Demo.guest Demo.wallet 5;
         transferFrom Demo.currency Demo.guest Demo.treasury 100;
         transferFrom Demo.currency Demo.wallet Demo.guest 5;
         transferFrom Demo.currency Demo.treasury Demo.guest 100 ]
  /\ book (Demo.ready Demo.refusing) = Ok (false, demo_commission_refused)
  /\ calls demo_commission_refused
     = [ transferFrom Demo.currency Demo.guest Demo.wallet 5;
         transferFrom Demo.currency Demo.wallet Demo.guest 5 ].
Proof.
  evaluate.
Qed.

(** The demo deployment after a guest has booked 11 rooms in one call, and
    after the admin has then refunded the 11 bookings in one call. *)
Definition eleven : list Z := [1; 2; 3; 4; 5; 6; 7; 8; 9; 10; 11].

Definition demo_eleven_booked : World :=
  after (BukTrips.bookRoom Demo.guest 1 11 (repeat 100 11) (repeat 50 11) 5000 6000
           (Demo.ready Demo.paying)) (Demo.ready Demo.paying).

Definition demo_eleven_refunded : World :=
  after (BukTrips.bookingRefund Demo.admin 1 eleven Demo.guest demo_eleven_booked)
    demo_eleven_booked.

(** C4.  The code evaluated where the claim fails.  [bookRoom] over 11 rooms
    returns [true] and the counter reaches 11; [bookingRefund] over the 11
    bookings returns and all are cancelled.  The sibling operations do have
    the ceiling: with the same 11 bookings, [confirmRoom] and [checkout]
    revert with "Exceeds max room booking limit". *)
Theorem bookRoom_and_bookingRefund_accept_eleven :
  let limit := Require ValidationError "Exceeds max room booking limit" in
  BukTrips.bookRoom Demo.guest 1 11 (repeat 100 11) (repeat 50 11) 5000 6000
    (Demo.ready Demo.paying) = Ok (true, demo_eleven_booked)
  /\ Storage.BukTrips._bookingIds (buk demo_eleven_booked) = 11
  /\ status_of demo_eleven_booked <$> eleven = repeat BookingStatus.booked 11
  /\ BukTrips.bookingRefund Demo.admin 1 eleven Demo.guest demo_eleven_booked
     = Ok (tt, demo_eleven_refunded)
  /\ status_of demo_eleven_refunded <$> eleven = repeat BookingStatus.cancelled 11
  /\ BukTrips.confirmRoom Demo.guest 1 eleven (repeat "uri"%string 11) true
       demo_eleven_booked = Revert limit
  /\ BukTrips.checkout Demo.admin 1 eleven demo_eleven_booked = Revert limit.
Proof.
  evaluate.
Qed.

(** * The commission of [bookRoom] *)

Lemma room_commission_floor c baseRate :
  100 * room_commission c baseRate <= baseRate * c
  < 100 * room_commission c baseRate + 100.
Proof.
  unfold room_commission.
  pose proof (Z.mul_div_le (baseRate * c) 100).
  pose proof (Z.mul_succ_div_gt (baseRate * c) 100). lia.
Qed.

(** The world after a guest has booked two rooms of base rates 100 and 200. *)
Definition demo_two_rooms : World :=
  after (BukTrips.bookRoom Demo.guest 1 2 [1000; 2000] [100; 200] 5000 6000
           (Demo.ready Demo.paying)) (Demo.ready Demo.paying).

(** The world after a guest has booked one room of base rate 101. *)
Definition demo_one_room : World :=
  after (BukTrips.bookRoom Demo.guest 1 1 [1000] [101] 5000 6000
           (Demo.ready Demo.paying)) (Demo.ready Demo.paying).

(** C7.  Whenever [bookRoom] returns, the first transfer it has sent moves,
    from the caller to the protocol wallet, the sum over the [count] rooms of
    [baseRate * commission / 100], each term divided on its own and rounded
    down (which, on unsigned operands, is truncation); the totals play no
    part.  Base rates 100 and 200 at 5 percent give 15, a base rate of 101
    gives 5, also in the transfers that the demo deployment records. *)
Theorem bookRoom_commission_total sender sid count totals rates ci co w r w' :
  let c := Storage.BukTrips.commission (buk w) in
  let commissionTotal := sum_list (room_commission c <$> take (Z.to_nat count) rates) in
  BukTrips.bookRoom sender sid count totals rates ci co w = Ok (r, w') ->
  (exists rest,
     calls w' = calls w ++
       transferFrom (Storage.BukTrips.currency (buk w)) sender
         (Storage.BukTrips.buk_wallet (buk w)) commissionTotal :: rest)
  /\ (forall baseRate,
        100 * room_commission c baseRate <= baseRate * c
        < 100 * room_commission c baseRate + 100)
  /\ (forall baseRate,
        0 <= baseRate -> 0 <= c -> room_commission c baseRate = (baseRate * c) ÷ 100)
  /\ sum_list (room_commission 5 <$> [100; 200]) = 15
  /\ room_commission 5 101 = 5
  /\ hd_error (calls demo_two_rooms)
     = Some (transferFrom Demo.currency Demo.guest Demo.wallet 15)
  /\ hd_error (calls demo_one_room)
     = Some (transferFrom Demo.currency Demo.guest Demo.wallet 5).
Proof.
  intros c commissionTotal H.
  split; [| split; [| split; [| split; [| split; [| split]]]]].
  - apply bookRoom_Ok_inv in H as (_ & acc & w1 & rest & Hloop & _ & Hcalls).
    exists rest. rewrite Hcalls. subst commissionTotal c.
    destruct (Z.le_gt_cases 0 count) as [Hc | Hc].
    + apply bookRoom_loop_inv in Hloop as (_ & _ & _ & -> & (m & ->) & _ & _ & ->);
        [reflexivity | exact Hc].
    + rewrite for_uint8_negative in Hloop by lia. injection Hloop as <- <-.
      replace (Z.to_nat count) with 0%nat by lia. reflexivity.
  - intros baseRate. apply room_commission_floor.
  - intros baseRate Hb Hc. unfold room_commission.
    symmetry. apply Z.quot_div_nonneg; [|lia]. apply Z.mul_nonneg_nonneg; assumption.
  - reflexivity.
  - reflexivity.
  - vm_compute. reflexivity.
  - vm_compute. reflexivity.
Qed.

Lemma bookRoom_commission_total_witness :
  exists rest,
    calls demo_two_rooms = calls (Demo.ready Demo.paying) ++
      transferFrom (Storage.BukTrips.currency (buk (Demo.ready Demo.paying)))
        Demo.guest (Storage.BukTrips.buk_wallet (buk (Demo.ready Demo.paying)))
        (sum_list (room_commission
                     (Storage.BukTrips.commission (buk (Demo.ready Demo.paying)))
                   <$> take (Z.to_nat 2) [100; 200])) :: rest.
Proof.
  apply (bookRoom_commission_total Demo.guest 1 2 [1000; 2000] [100; 200] 5000 6000
           (Demo.ready Demo.paying) true demo_two_rooms).
  vm_compute. reflexivity.
Defined.

(** * The utility ledger never transfers *)

Lemma run_app txs1 txs2 w : run (txs1 ++ txs2) w = run txs2 (run txs1 w).
Proof. unfold run. apply fold_left_app. Qed.

(** The public entry points of the utility ledger, in closed form. *)
Lemma utility_safeTransferFrom_eq self sender from to id amount w :
  SupplierUtilityContract.safeTransferFrom self sender from to id amount w =
  match contracts w !! self with
  | Some (UtilityLedger s) =>
      if bool_decide (from = sender)
         || ERC1155.isApprovedForAll
              (Storage.SupplierUtilityContract._operatorApprovals s) from sender
      then Revert (NonTransferable "Token transfer not allowed.")
      else Revert (Require AuthorizationError
                     "ERC1155: caller is not token owner or approved")
  | _ => Revert (CallFailed self)
  end.
Proof.
  unfold SupplierUtilityContract.safeTransferFrom, SupplierUtilityContract.load, bind.
  destruct (contracts w !! self) as [[]|]; try reflexivity.
  destruct (_ || _); reflexivity.
Qed.

Lemma utility_safeBatchTransferFrom_eq self sender from to ids amounts w :
  SupplierUtilityContract.safeBatchTransferFrom self sender from to ids amounts w =
  match contracts w !! self with
  | Some (UtilityLedger s) =>
      if bool_decide (from = sender)
         || ERC1155.isApprovedForAll
              (Storage.SupplierUtilityContract._operatorApprovals s) from sender
      then Revert (NonTransferable "Token transfer not allowed.")
      else Revert (Require AuthorizationError
                     "ERC1155: caller is not token owner or approved")
  | _ => Revert (CallFailed self)
  end.
Proof.
  unfold SupplierUtilityContract.safeBatchTransferFrom, SupplierUtilityContract.load, bind.
  destruct (contracts w !! self) as [[]|]; try reflexivity.
  destruct (_ || _); reflexivity.
Qed.

Lemma step_Revert tx w e :
  exec (tx_sender tx) (tx_timestamp tx) (tx_op tx) w = Revert e -> step tx w = w.
Proof. unfold step. intros ->. reflexivity. Qed.

Lemma done_Revert {A} (m : M A) w e : m w = Revert e -> done m w = Revert e.
Proof. unfold done. apply bind_fail. Qed.

(** C9 (as stated) fails for a caller that is neither the holder nor an
    operator it approved: in the demo deployment the hotel asks the utility
    ledger of supplier 1 to move a token of the guest.  The single and the
    batch transfer revert, as every transfer does, but with the operator
    error of the inherited entry point, not with [NonTransferable]: the
    overridden function is not reached. *)
Lemma utility_transfer_by_a_stranger :
  let w := demo_two_rooms in
  let refusal :=
    Require AuthorizationError "ERC1155: caller is not token owner or approved" in
  (exists u, contracts w !! 3001 = Some (UtilityLedger u))
  /\ SupplierUtilityContract.safeTransferFrom 3001 Demo.hotel Demo.guest Demo.hotel 1 1 w
     = Revert refusal
  /\ SupplierUtilityContract.safeBatchTransferFrom 3001 Demo.hotel Demo.guest Demo.hotel
       [1] [1] w
     = Revert refusal
  /\ exec Demo.hotel 1000 (utility_safeTransferFrom 3001 Demo.guest Demo.hotel 1 1) w
     = Revert refusal
  /\ refusal <> NonTransferable "Token transfer not allowed.".
Proof.
  cbv zeta.
  split; [eexists; vm_compute; reflexivity|].
  split; [vm_compute; reflexivity|]. split; [vm_compute; reflexivity|].
  split; [vm_compute; reflexivity|]. discriminate.
Qed.

(** C9 (as amended).  On a utility ledger, after any sequence of
    transactions from any world, the single and the batch transfer revert
    for every caller, whatever the parties, the token ids and the amounts,
    and change nothing: with [NonTransferable] when the caller is the holder
    [from] or an operator that [from] approved, and with the operator error
    of the inherited entry point, which is checked first, for every other
    caller.  The two functions that the contract overrides revert with
    [NonTransferable] whatever the storage, so nothing that is written to the
    ledger makes a token transferable. *)
Theorem utility_transfers_always_revert
    (u : Storage.SupplierUtilityContract.t) (w0 : World) (txs : list Tx)
    (self sender from to id amount now : Z) (ids amounts : list Z) :
  let w := run txs w0 in
  let approved :=
    ERC1155.isApprovedForAll (Storage.SupplierUtilityContract._operatorApprovals u)
      from sender in
  let e := if bool_decide (from = sender) || approved
           then NonTransferable "Token transfer not allowed."
           else Require AuthorizationError
                  "ERC1155: caller is not token owner or approved" in
  contracts w !! self = Some (UtilityLedger u) ->
  SupplierUtilityContract.safeTransferFrom self sender from to id amount w = Revert e
  /\ SupplierUtilityContract.safeBatchTransferFrom self sender from to ids amounts w
     = Revert e
  /\ (from = sender \/ approved = true ->
      e = NonTransferable "Token transfer not allowed.")
  /\ (from <> sender -> approved = false ->
      e = Require AuthorizationError "ERC1155: caller is not token owner or approved")
  /\ (forall s' w',
        SupplierUtilityContract._safeTransferFrom s' from to id amount w'
        = Revert (NonTransferable "Token transfer not allowed.")
        /\ SupplierUtilityContract._safeBatchTransferFrom s' from to ids amounts w'
           = Revert (NonTransferable "Token transfer not allowed."))
  /\ step {| tx_sender := sender; tx_timestamp := now;
             tx_op := utility_safeTransferFrom self from to id amount |} w = w
  /\ step {| tx_sender := sender; tx_timestamp := now;
             tx_op := utility_safeBatchTransferFrom self from to ids amounts |} w = w.
Proof.
  intros w approved e Hl.
  assert (SupplierUtilityContract.safeTransferFrom self sender from to id amount w
          = Revert e) as H1.
  { rewrite utility_safeTransferFrom_eq, Hl. unfold e, approved.
    destruct (_ || _); reflexivity. }
  assert (SupplierUtilityContract.safeBatchTransferFrom self sender from to ids amounts w
          = Revert e) as H2.
  { rewrite utility_safeBatchTransferFrom_eq, Hl. unfold e, approved.
    destruct (_ || _); reflexivity. }
  split; [exact H1|]. split; [exact H2|].
  split; [|split; [|split; [|split]]].
  - intros [-> | Ha]; unfold e.
    + rewrite bool_decide_eq_true_2 by reflexivity. reflexivity.
    + rewrite Ha, orb_true_r. reflexivity.
  - intros Hne Ha. unfold e.
    rewrite bool_decide_eq_false_2, Ha by exact Hne. reflexivity.
  - intros s' w'. split; reflexivity.
  - eapply step_Revert. simpl. apply done_Revert. exact H1.
  - eapply step_Revert. simpl. apply done_Revert. exact H2.
Qed.

Lemma utility_transfers_always_revert_witness :
  let txs := [ Demo.tx Demo.guest (bookRoom 1 2 [100; 100] [50; 50] 5000 6000);
               Demo.tx Demo.guest (confirmRoom 1 [1; 2] ["uriA"; "uriB"]%string false);
               Demo.tx Demo.admin (checkout 1 [1]) ] in
  let w := run txs (Demo.ready Demo.paying) in
  (exists u,
     contracts w !! 3001 = Some (UtilityLedger u)
     /\ ERC1155.balanceOf (Storage.SupplierUtilityContract._balances u) Demo.guest 1 = 1)
  /\ SupplierUtilityContract.safeTransferFrom 3001 Demo.guest Demo.guest Demo.hotel 1 1 w
     = Revert (NonTransferable "Token transfer not allowed.")
  /\ SupplierUtilityContract.safeBatchTransferFrom 3001 Demo.guest Demo.guest Demo.hotel
       [1] [1] w
     = Revert (NonTransferable "Token transfer not allowed.")
  /\ step {| tx_sender := Demo.guest; tx_timestamp := 1000;
             tx_op := utility_safeTransferFrom 3001 Demo.guest Demo.hotel 1 1 |} w = w.
Proof.
  cbv zeta.
  split; [eexists; split; vm_compute; reflexivity|].
  destruct (utility_transfers_always_revert
              (match contracts
                       (run [ Demo.tx Demo.guest
                                (bookRoom 1 2 [100; 100] [50; 50] 5000 6000);
                              Demo.tx Demo.guest
                                (confirmRoom 1 [1; 2] ["uriA"; "uriB"]%string false);
                              Demo.tx Demo.admin (checkout 1 [1]) ]
                          (Demo.ready Demo.paying)) !! 3001 with
               | Some (UtilityLedger u) => u
               | _ => Storage.SupplierUtilityContract.constructor 0 "" 0 ""
               end)
              (Demo.ready Demo.paying)
              [ Demo.tx Demo.guest (bookRoom 1 2 [100; 100] [50; 50] 5000 6000);
                Demo.tx Demo.guest (confirmRoom 1 [1; 2] ["uriA"; "uriB"]%string false);
                Demo.tx Demo.admin (checkout 1 [1]) ]
              3001 Demo.guest Demo.guest Demo.hotel 1 1 1000 [1] [1])
    as (H1 & H2 & _ & _ & _ & H3 & _).
  - vm_compute. reflexivity.
  - split; [exact H1|]. split; [exact H2|]. exact H3.
Defined.

(** * A supplier ledger that serves the orchestrator *)

(** The supplier ledger holds [s] at [ledger] and grants the factory role to
    the orchestrator. *)
Definition serves (w : World) (ledger : Z) (s : Storage.SupplierContract.t) : Prop :=
  contracts w !! ledger = Some (SupplierLedger s)
  /\ hasRole (Storage.SupplierContract._roles s) FACTORY_CONTRACT_ROLE (buk_address w)
     = true.

Lemma supplier_load_Ok ledger s w :
  contracts w !! ledger = Some (SupplierLedger s) ->
  SupplierContract.load ledger w = Ok (s, w).
Proof. unfold SupplierContract.load. intros ->. reflexivity. Qed.

Lemma onlyRole_pass roles r a w :
  hasRole roles r a = true -> onlyRole roles r a w = Ok (tt, w).
Proof. unfold onlyRole. intros ->. reflexivity. Qed.

Lemma supplier_toggle_Ok ledger s w id st :
  serves w ledger s ->
  SupplierContract.toggleNFTStatus ledger (buk_address w) id st w =
  Ok (tt, set_contracts
            (<[ledger := SupplierLedger
                 (Storage.SupplierContract.set_transferable
                    (<[id := st]> (Storage.SupplierContract.transferable s)) s)]>
               (contracts w)) w).
Proof.
  intros [Hl Hr]. unfold SupplierContract.toggleNFTStatus.
  rewrite (bind_step _ _ _ _ _ (supplier_load_Ok _ _ _ Hl)).
  rewrite (bind_step _ _ _ _ _ (onlyRole_pass _ _ _ _ Hr)).
  reflexivity.
Qed.

Lemma checkAccess_pass sender id w :
  is_admin w sender \/ sender = Booking.owner (getB w id) ->
  BukTrips.checkAccess sender id w = Ok (tt, w).
Proof.
  intros H. unfold BukTrips.checkAccess, bind, get_buk.
  apply require_true. apply orb_true_iff.
  destruct H as [H | H]; [left; exact H | right].
  apply bool_decide_eq_true_2. exact H.
Qed.

(** The transferability flag of token [id] on the ledger at [ledger]. *)
Definition transferable_at (w : World) (ledger id : Z) : bool :=
  match contracts w !! ledger with
  | Some (SupplierLedger s) => SupplierContract.is_transferable s id
  | _ => false
  end.

(** The demo deployment after a guest has booked two rooms (check-in at
    5000) and confirmed them with non-transferable tokens. *)
Definition demo_confirmed : World :=
  run [ Demo.tx Demo.guest (bookRoom 1 2 [100; 100] [50; 50] 5000 6000);
        Demo.tx Demo.guest (confirmRoom 1 [1; 2] ["uriA"; "uriB"]%string false) ]
      (Demo.ready Demo.paying).

(** The storage of the supplier ledger at [a]. *)
Definition supplier_storage (w : World) (a : Z) : Storage.SupplierContract.t :=
  match contracts w !! a with
  | Some (SupplierLedger s) => s
  | _ => Storage.SupplierContract.constructor 0 "" 0 0 0 ""
  end.

(** * What a call does to the booking table *)

Lemma write_status_eq k st w :
  BukTrips.write_status k st w =
  Ok (tt, set_buk (BukTrips.setBooking k (Booking.set_status st (getB w k)) (buk w)) w).
Proof. reflexivity. Qed.

Lemma write_tokenID_eq k n w :
  BukTrips.write_tokenID k n w =
  Ok (tt, set_buk (BukTrips.setBooking k (Booking.set_tokenID n (getB w k)) (buk w)) w).
Proof. reflexivity. Qed.

Lemma getB_setBooking k b w k' :
  getB (set_buk (BukTrips.setBooking k b (buk w)) w) k' =
  if decide (k = k') then b else getB w k'.
Proof. unfold getB. simpl. apply getBooking_setBooking. Qed.

(** The orchestrator's storage but for the booking table. *)
Definition config (s : Storage.BukTrips.t) : Storage.BukTrips.t :=
  Storage.BukTrips.set_BookingDetails ∅ s.

Lemma config_setBooking k b s : config (BukTrips.setBooking k b s) = config s.
Proof. reflexivity. Qed.

(** The booking table and the counter are kept. *)
Definition bookings_kept (w w' : World) : Prop :=
  Storage.BukTrips.BookingDetails (buk w') = Storage.BukTrips.BookingDetails (buk w)
  /\ Storage.BukTrips._bookingIds (buk w') = Storage.BukTrips._bookingIds (buk w).

Lemma bookings_kept_refl w : bookings_kept w w.
Proof. split; reflexivity. Qed.

Lemma bookings_kept_trans w1 w2 w3 :
  bookings_kept w1 w2 -> bookings_kept w2 w3 -> bookings_kept w1 w3.
Proof. unfold bookings_kept. intros [? ?] [? ?]. split; congruence. Qed.

Lemma bookings_kept_getB w w' k : bookings_kept w w' -> getB w' k = getB w k.
Proof. intros [H _]. unfold getB, BukTrips.getBooking. rewrite H. reflexivity. Qed.

Lemma ledger_frame_kept w w' : ledger_frame w w' -> bookings_kept w w'.
Proof. intros (_ & _ & H & _). unfold bookings_kept. rewrite H. split; reflexivity. Qed.

Lemma ledger_only_kept {A} (m : M A) w a w' :
  ledger_only m -> m w = Ok (a, w') -> bookings_kept w w'.
Proof. intros Hm H. apply ledger_frame_kept. eapply Hm. exact H. Qed.

Lemma done_Ok {A} (m : M A) w b w' :
  done m w = Ok (b, w') <-> b = true /\ exists a, m w = Ok (a, w').
Proof.
  unfold done. split.
  - intros H. apply bind_Ok in H as (a & w1 & H1 & H2). inv_Ok H2. eauto.
  - intros [-> [a H]]. rewrite (bind_step _ _ _ _ _ H). reflexivity.
Qed.

Lemma external_call_kept callee c w b w' :
  external_call callee c w = Ok (b, w') -> buk w' = buk w.
Proof. intros H. apply external_call_Ok in H as (_ & _ & ->). reflexivity. Qed.

Lemma setDeployers_kept a b c w u w' :
  BukTrips.setDeployers a b c w = Ok (u, w') -> bookings_kept w w'.
Proof.
  unfold BukTrips.setDeployers. intros H. inv_Ok H.
  match goal with
  | H : BukTrips.onlyAdmin _ _ = Ok _ |- _ => apply onlyAdmin_Ok in H as [_ ->]
  end.
  split; reflexivity.
Qed.

Lemma setTreasury_kept a b w u w' :
  BukTrips.setTreasury a b w = Ok (u, w') -> bookings_kept w w'.
Proof.
  unfold BukTrips.setTreasury. intros H. inv_Ok H.
  match goal with
  | H : BukTrips.onlyAdmin _ _ = Ok _ |- _ => apply onlyAdmin_Ok in H as [_ ->]
  end.
  split; reflexivity.
Qed.

Lemma setCommission_kept a b w u w' :
  BukTrips.setCommission a b w = Ok (u, w') -> bookings_kept w w'.
Proof.
  unfold BukTrips.setCommission. intros H. inv_Ok H.
  match goal with
  | H : BukTrips.onlyAdmin _ _ = Ok _ |- _ => apply onlyAdmin_Ok in H as [_ ->]
  end.
  match goal with
  | H : (if ?c then _ else _) _ = Ok _ |- _ => destruct c; [inv_Ok H | discriminate]
  end.
  split; reflexivity.
Qed.

Lemma setTransferLock_kept a b c d w u w' :
  BukTrips.setTransferLock a b c d w = Ok (u, w') -> bookings_kept w w'.
Proof.
  unfold BukTrips.setTransferLock. intros H. inv_Ok H.
  match goal with
  | H : BukTrips.onlyAdmin _ _ = Ok _ |- _ => apply onlyAdmin_Ok in H as [_ ->]
  end.
  split; reflexivity.
Qed.

Lemma grantRole_kept a b c w u w' :
  BukTrips.grantRole a b c w = Ok (u, w') -> bookings_kept w w'.
Proof.
  unfold BukTrips.grantRole. intros H. inv_Ok H.
  match goal with
  | H : AccessControl.grantRole _ _ _ _ _ = Ok _ |- _ =>
      apply ledger_only_grantRole in H as (_ & _ & H & _)
  end.
  split; reflexivity.
Qed.

Lemma revokeRole_kept a b c w u w' :
  BukTrips.revokeRole a b c w = Ok (u, w') -> bookings_kept w w'.
Proof.
  unfold BukTrips.revokeRole. intros H. inv_Ok H.
  match goal with
  | H : AccessControl.revokeRole _ _ _ _ _ = Ok _ |- _ =>
      apply ledger_only_revokeRole in H as (_ & _ & H & _)
  end.
  split; reflexivity.
Qed.

Lemma renounceRole_kept a b c w u w' :
  BukTrips.renounceRole a b c w = Ok (u, w') -> bookings_kept w w'.
Proof.
  unfold BukTrips.renounceRole. intros H. inv_Ok H.
  match goal with
  | H : AccessControl.renounceRole _ _ _ _ _ = Ok _ |- _ =>
      apply ledger_only_renounceRole in H as (_ & _ & H & _)
  end.
  split; reflexivity.
Qed.

Lemma checkAccess_Ok a b w u w' :
  BukTrips.checkAccess a b w = Ok (u, w') -> w' = w.
Proof. unfold BukTrips.checkAccess. intros H. inv_Ok H. reflexivity. Qed.

Lemma updateSupplierDetails_kept a b c w u w' :
  BukTrips.updateSupplierDetails a b c w = Ok (u, w') -> bookings_kept w w'.
Proof.
  unfold BukTrips.updateSupplierDetails. intros H. inv_Ok H.
  match goal with
  | H : BukTrips.onlyAdmin _ _ = Ok _ |- _ => apply onlyAdmin_Ok in H as [_ ->]
  end.
  eapply ledger_only_kept; [apply SupplierFrame.supplier_updateSupplierDetails_frame|].
  eassumption.
Qed.

Lemma toggleNFTStatus_kept a b c d w u w' :
  BukTrips.toggleNFTStatus a b c d w = Ok (u, w') -> bookings_kept w w'.
Proof.
  unfold BukTrips.toggleNFTStatus. intros H. inv_Ok H.
  match goal with
  | H : BukTrips.checkAccess _ _ _ = Ok _ |- _ => apply checkAccess_Ok in H as ->
  end.
  eapply ledger_only_kept; [apply SupplierFrame.supplier_toggleNFTStatus_frame|].
  eassumption.
Qed.

Lemma registerSupplier_kept a b c d e w u w' :
  BukTrips.registerSupplier a b c d e w = Ok (u, w') -> bookings_kept w w'.
Proof.
  unfold BukTrips.registerSupplier. intros H. inv_Ok H.
  match goal with
  | H : BukTrips.onlyAdmin _ _ = Ok _ |- _ => apply onlyAdmin_Ok in H as [_ ->]
  end.
  repeat match goal with
  | H : BukSupplierUtilityDeployer.deploySupplierUtility _ _ _ _ _ _ = Ok _ |- _ =>
      apply DeployerFrame.deploySupplierUtility_frame in H as (_ & _ & ? & _)
  | H : BukSupplierDeployer.deploySupplier _ _ _ _ _ _ _ _ _ = Ok _ |- _ =>
      apply DeployerFrame.deploySupplier_frame in H as (_ & _ & ? & _)
  | H : SupplierUtilityContract.grantSupplierRole _ _ _ _ = Ok _ |- _ =>
      apply UtilityFrame.utility_grantSupplierRole_frame in H as (_ & _ & ? & _)
  end.
  unfold bookings_kept. simpl.
  repeat match goal with H : buk _ = _ |- _ => rewrite H; clear H end.
  split; reflexivity.
Qed.

(** ** Loops that rewrite bookings *)

(** [F id] is applied to the record at [id], and nothing else of the
    orchestrator's storage moves. *)
Definition moves_one (F : Z -> Booking.t -> Booking.t) (id : Z) (w w' : World) : Prop :=
  config (buk w') = config (buk w)
  /\ forall k, getB w' k = if decide (id = k) then F id (getB w id) else getB w k.

Definition moves_all (F : Z -> Booking.t -> Booking.t) (ids : list Z) (w w' : World)
  : Prop :=
  config (buk w') = config (buk w)
  /\ forall k, getB w' k = if decide (k ∈ ids) then F k (getB w k) else getB w k.

Lemma moves_all_nil F w : moves_all F [] w w.
Proof.
  split; [reflexivity|]. intros k.
  rewrite decide_False by apply not_elem_of_nil. reflexivity.
Qed.

Lemma moves_all_snoc F ids id w w1 w2 :
  (forall k b, F k (F k b) = F k b) ->
  moves_all F ids w w1 -> moves_one F id w1 w2 -> moves_all F (ids ++ [id]) w w2.
Proof.
  intros Hidem [Hc1 H1] [Hc2 H2]. split; [congruence|].
  intros k. rewrite H2. destruct (decide (id = k)) as [->|Hne].
  - rewrite H1.
    rewrite (decide_True (P := k ∈ ids ++ [k]))
      by (apply elem_of_app; right; apply list_elem_of_singleton; reflexivity).
    destruct (decide (k ∈ ids)); [apply Hidem | reflexivity].
  - rewrite H1. destruct (decide (k ∈ ids)) as [Hin | Hin].
    + rewrite (decide_True (P := k ∈ ids ++ [id]))
        by (apply elem_of_app; left; exact Hin).
      reflexivity.
    + rewrite (decide_False (P := k ∈ ids ++ [id])); [reflexivity|].
      intros [H | H]%elem_of_app; [contradiction|].
      apply list_elem_of_singleton in H. congruence.
Qed.

Lemma ledger_frame_moves w w' : ledger_frame w w' -> buk w' = buk w.
Proof. intros (_ & _ & H & _). exact H. Qed.

Lemma moves_one_write F id st w :
  (forall b, F id b = Booking.set_status st b) ->
  moves_one F id w
    (set_buk (BukTrips.setBooking id (Booking.set_status st (getB w id)) (buk w)) w).
Proof.
  intros HF. split; [reflexivity|]. intros k. rewrite getB_setBooking.
  destruct (decide (id = k)); [rewrite HF|]; reflexivity.
Qed.

Lemma moves_one_buk F id w w1 w2 :
  moves_one F id w w1 -> buk w2 = buk w1 -> moves_one F id w w2.
Proof.
  intros [Hc H] E. unfold moves_one, getB in *. rewrite E. split; assumption.
Qed.

Section MutationLoop.
  Context {S : Type}.
  Variable F : Z -> Booking.t -> Booking.t.
  Variable ids : list Z.
  Variable body : Z -> S -> M S.

  Hypothesis F_idempotent : forall k b, F k (F k b) = F k b.
  Hypothesis body_moves :
    forall j s w1 s' w2 id,
      0 <= j -> ids !! Z.to_nat j = Some id -> body j s w1 = Ok (s', w2) ->
      moves_one F id w1 w2.

Lemma mutation_loop s w s' w' :
  for_uint8 (Z.of_nat (length ids)) body s w = Ok (s', w') -> moves_all F ids w w'.
Proof.
  intros H.
  apply (for_uint8_inv _ _
           (fun j _ w1 => 0 <= j /\ moves_all F (take (Z.to_nat j) ids) w w1))
    in H; [| | lia |].
  - destruct H as [_ H]. rewrite Nat2Z.id, firstn_all in H. exact H.
  - intros j s1 w1 s2 w2 Hj [_ HP] Hb. split; [lia|].
    destruct (lookup_lt_is_Some_2 ids (Z.to_nat j)) as [id Hid]; [lia|].
    replace (Z.to_nat (j + 1)) with (Datatypes.S (Z.to_nat j)) by lia.
    rewrite (take_S_r _ _ _ Hid).
    apply (moves_all_snoc F _ id w w1 w2 F_idempotent HP).
    apply (body_moves j s1 w1 s2 w2 id); [lia | exact Hid | exact Hb].
  - split; [lia|]. apply moves_all_nil.
Qed.
End MutationLoop.

(** ** The five operations that move bookings *)

Definition confirmed_record (k : Z) (b : Booking.t) : Booking.t :=
  Booking.set_tokenID k (Booking.set_status BookingStatus.confirmed b).

Definition expired_record (k : Z) (b : Booking.t) : Booking.t :=
  Booking.set_status BookingStatus.expired b.

Definition cancelled_record (k : Z) (b : Booking.t) : Booking.t :=
  Booking.set_status BookingStatus.cancelled b.

Lemma confirmRoom_Ok_inv sender sid ids uris st w u w' :
  BukTrips.confirmRoom sender sid ids uris st w = Ok (u, w') ->
  active w sid
  /\ (forall id, id ∈ ids ->
        status_of w id = BookingStatus.booked /\ Booking.owner (getB w id) = sender)
  /\ length ids = length uris
  /\ Z.of_nat (length ids) < 11
  /\ moves_all confirmed_record ids w w'.
Proof.
  unfold BukTrips.confirmRoom. intros H.
  apply bind_Ok in H as ([] & w1 & Hs & H). apply supplierRegistered_Ok in Hs as [Ha ->].
  apply bind_Ok in H as ([] & w1 & Hv & H).
  apply (check_loop_Ok ids _
           (fun id w => status_of w id = BookingStatus.booked
                        /\ Booking.owner (getB w id) = sender)) in Hv
    as (-> & Hv & _).
  2:{ intros id w2 u2 w3 Hc. inv_Ok Hc. split; [reflexivity|].
      repeat match goal with
      | H : BookingStatus.eqb _ _ = true |- _ => apply BookingStatus.eqb_eq in H
      | H : bool_decide _ = true |- _ => apply bool_decide_eq_true_1 in H
      end. auto. }
  apply bind_Ok in H as ([] & w1 & Hu & H). apply require_Ok in Hu as [Hu ->].
  apply bind_Ok in H as ([] & w1 & Hl & H). apply require_Ok in Hl as [Hl ->].
  apply bind_Ok in H as (s & w1 & Hg & H). inv_Ok Hg.
  apply bind_Ok in H as (me & w1 & Hg & H). inv_Ok Hg.
  split; [exact Ha|]. split; [exact Hv|].
  split; [apply Z.eqb_eq in Hu; lia|]. split; [apply Z.ltb_lt in Hl; exact Hl|].
  destruct u. apply (mutation_loop confirmed_record ids _) in H; [exact H | |].
  - intros k b. destruct b. reflexivity.
  - intros j [] w1 [] w2 id Hj Hid Hb.
    apply bind_Ok in Hb as (id' & w3 & Hi & Hb). inv_Ok Hi.
    assert (id' = id) as -> by congruence.
    rewrite (bind_step _ _ _ _ _ (write_status_eq _ _ _)) in Hb.
    apply bind_Ok in Hb as (s1 & w3 & Hg & Hb). inv_Ok Hg.
    apply bind_Ok in Hb as (uri & w3 & Hi & Hb). inv_Ok Hi.
    apply bind_Ok in Hb as (n & w3 & Hm & Hb).
    apply SupplierFrame.supplier_mint_frame in Hm. apply ledger_frame_moves in Hm.
    rewrite write_tokenID_eq in Hb. injection Hb as <-.
    assert (forall k, getB w3 k =
              if decide (id = k)
              then Booking.set_status BookingStatus.confirmed (getB w1 id)
              else getB w1 k) as Hg.
    { intros k. unfold getB at 1. rewrite Hm. apply getB_setBooking. }
    split; [simpl; rewrite Hm; reflexivity|].
    intros k. rewrite getB_setBooking. rewrite !Hg.
    destruct (decide (id = k)) as [->|Hne].
    + rewrite decide_True by reflexivity. reflexivity.
    + reflexivity.
Qed.

Lemma checkout_Ok_inv sender sid ids w u w' :
  BukTrips.checkout sender sid ids w = Ok (u, w') ->
  is_admin w sender /\ active w sid
  /\ Z.of_nat (length ids) < 11
  /\ (forall id, id ∈ ids -> status_of w id = BookingStatus.confirmed)
  /\ moves_all expired_record ids w w'.
Proof.
  unfold BukTrips.checkout. intros H.
  apply bind_Ok in H as ([] & w1 & Hs & H). apply onlyAdmin_Ok in Hs as [Had ->].
  apply bind_Ok in H as ([] & w1 & Hs & H). apply supplierRegistered_Ok in Hs as [Ha ->].
  apply bind_Ok in H as ([] & w1 & Hl & H). apply require_Ok in Hl as [Hl ->].
  apply bind_Ok in H as ([] & w1 & Hv & H).
  apply (check_loop_Ok ids _
           (fun id w => status_of w id = BookingStatus.confirmed)) in Hv
    as (-> & Hv & _).
  2:{ intros id w2 u2 w3 Hc. inv_Ok Hc. split; [reflexivity|].
      match goal with
      | H : BookingStatus.eqb _ _ = true |- _ => apply BookingStatus.eqb_eq in H
      end. assumption. }
  apply bind_Ok in H as (me & w1 & Hg & H). inv_Ok Hg.
  split; [exact Had|]. split; [exact Ha|].
  split; [apply Z.ltb_lt in Hl; exact Hl|]. split; [exact Hv|].
  destruct u. apply (mutation_loop expired_record ids _) in H; [exact H | |].
  - intros k b. destruct b. reflexivity.
  - intros j [] w1 [] w2 id Hj Hid Hb.
    apply bind_Ok in Hb as (id' & w3 & Hi & Hb). inv_Ok Hi.
    assert (id' = id) as -> by congruence.
    rewrite (bind_step _ _ _ _ _ (write_status_eq _ _ _)) in Hb.
    apply bind_Ok in Hb as (s1 & w3 & Hg & Hb). inv_Ok Hg.
    apply SupplierFrame.supplier_burn_frame in Hb. apply ledger_frame_moves in Hb.
    eapply moves_one_buk; [|exact Hb].
    apply moves_one_write. reflexivity.
Qed.

Lemma bookingRefund_Ok_inv sender sid ids owner w u w' :
  BukTrips.bookingRefund sender sid ids owner w = Ok (u, w') ->
  is_admin w sender /\ active w sid
  /\ (forall id, id ∈ ids ->
        status_of w id = BookingStatus.booked /\ Booking.owner (getB w id) = owner)
  /\ moves_all cancelled_record ids w w'.
Proof.
  unfold BukTrips.bookingRefund. intros H.
  apply bind_Ok in H as ([] & w1 & Hs & H). apply onlyAdmin_Ok in Hs as [Had ->].
  apply bind_Ok in H as ([] & w1 & Hs & H). apply supplierRegistered_Ok in Hs as [Ha ->].
  apply bind_Ok in H as ([] & w1 & Hv & H).
  apply (check_loop_Ok ids _
           (fun id w => status_of w id = BookingStatus.booked)) in Hv
    as (-> & Hv & _).
  2:{ intros id w2 u2 w3 Hc. inv_Ok Hc. split; [reflexivity|].
      match goal with
      | H : BookingStatus.eqb _ _ = true |- _ => apply BookingStatus.eqb_eq in H
      end. assumption. }
  apply bind_Ok in H as ([] & w1 & Hv' & H).
  apply (check_loop_Ok ids _
           (fun id w => Booking.owner (getB w id) = owner)) in Hv'
    as (-> & Hv' & _).
  2:{ intros id w2 u2 w3 Hc. inv_Ok Hc. split; [reflexivity|].
      match goal with
      | H : bool_decide _ = true |- _ => apply bool_decide_eq_true_1 in H
      end. assumption. }
  apply bind_Ok in H as (total & w1 & Hloop & H).
  apply bind_Ok in H as (s & w2 & Hg & H). inv_Ok Hg.
  apply bind_Ok in H as (b & w3 & Hc & H). apply external_call_kept in Hc.
  inv_Ok H.
  split; [exact Had|]. split; [exact Ha|]. split; [auto|].
  apply (mutation_loop cancelled_record ids _) in Hloop.
  - destruct Hloop as [Hcf Hk]. unfold moves_all, getB in *. rewrite Hc.
    split; assumption.
  - intros k b'. destruct b'. reflexivity.
  - intros j s1 w4 s2 w5 id Hj Hid Hb.
    apply bind_Ok in Hb as (id' & w6 & Hi & Hb). inv_Ok Hi.
    assert (id' = id) as -> by congruence.
    rewrite (bind_step _ _ _ _ _ (write_status_eq _ _ _)) in Hb.
    inv_Ok Hb. apply moves_one_write. reflexivity.
Qed.

Lemma cancelRoom_Ok_inv sender sid id penalty refund charges w u w' :
  BukTrips.cancelRoom sender sid id penalty refund charges w = Ok (u, w') ->
  is_admin w sender /\ active w sid
  /\ status_of w id = BookingStatus.confirmed
  /\ moves_one cancelled_record id w w'.
Proof.
  unfold BukTrips.cancelRoom. intros H.
  apply bind_Ok in H as ([] & w1 & Hs & H). apply onlyAdmin_Ok in Hs as [Had ->].
  apply bind_Ok in H as ([] & w1 & Hs & H). apply supplierRegistered_Ok in Hs as [Ha ->].
  apply bind_Ok in H as (s & w1 & Hg & H). inv_Ok Hg.
  apply bind_Ok in H as ([] & w1 & Hst & H). apply require_Ok in Hst as [Hst ->].
  apply BookingStatus.eqb_eq in Hst.
  rewrite (bind_step _ _ _ _ _ (write_status_eq _ _ _)) in H.
  apply bind_Ok in H as (s1 & w1 & Hg & H). inv_Ok Hg.
  apply bind_Ok in H as (b1 & w1 & Hc1 & H). apply external_call_kept in Hc1.
  apply bind_Ok in H as (b2 & w2 & Hc2 & H). apply external_call_kept in Hc2.
  apply bind_Ok in H as (b3 & w3 & Hc3 & H). apply external_call_kept in Hc3.
  apply bind_Ok in H as (me & w4 & Hg & H). inv_Ok Hg.
  apply SupplierFrame.supplier_burn_frame in H. apply ledger_frame_moves in H.
  split; [exact Had|]. split; [exact Ha|]. split; [exact Hst|].
  eapply moves_one_buk; [apply (moves_one_write _ _ BookingStatus.cancelled); reflexivity|].
  congruence.
Qed.

(** [bookRoom] writes [n] fresh records above the counter and touches no
    other. *)
Lemma bookRoom_moves sender sid count totals rates ci co w r w' :
  BukTrips.bookRoom sender sid count totals rates ci co w = Ok (r, w') ->
  let n0 := Storage.BukTrips._bookingIds (buk w) in
  exists n,
    0 <= n
    /\ Storage.BukTrips._bookingIds (buk w') = n0 + n
    /\ forall k,
         getB w' k = if (n0 <? k) && (k <=? n0 + n)
                     then booked_record sender sid totals rates ci co w k
                     else getB w k.
Proof.
  intros H n0. apply bookRoom_Ok_inv in H as (_ & acc & w1 & rest & Hloop & Hb & _).
  destruct (Z.le_gt_cases 0 count) as [Hc | Hc].
  - apply bookRoom_loop_inv in Hloop as (_ & _ & _ & _ & (m & Hm) & Hk & _);
      [|exact Hc].
    exists count. split; [exact Hc|]. split.
    + rewrite Hb, Hm. reflexivity.
    + intros k. unfold getB at 1. rewrite Hb. apply Hk.
  - rewrite for_uint8_negative in Hloop by lia. injection Hloop as <- <-.
    exists 0. split; [lia|]. split.
    + rewrite Hb. subst n0. lia.
    + intros k. unfold getB at 1. rewrite Hb.
      destruct (Z.ltb_spec n0 k), (Z.leb_spec k (n0 + 0)); simpl;
        try reflexivity; lia.
Qed.

(** * The booking state machine *)

(** How the operation [op] may rewrite the record [b] at [k] into [b']. *)
Definition edge (op : Op) (k : Z) (b b' : Booking.t) : Prop :=
  match op with
  | bookRoom _ _ _ _ _ _ =>
      b = Booking.zero /\ Booking.status b' = BookingStatus.booked
      /\ Booking.tokenID b' = 0
  | confirmRoom _ ids _ _ =>
      k ∈ ids /\ Booking.status b = BookingStatus.booked /\ b' = confirmed_record k b
  | checkout _ ids =>
      k ∈ ids /\ Booking.status b = BookingStatus.confirmed /\ b' = expired_record k b
  | cancelRoom _ id _ _ _ =>
      k = id /\ Booking.status b = BookingStatus.confirmed /\ b' = cancelled_record k b
  | bookingRefund _ ids _ =>
      k ∈ ids /\ Booking.status b = BookingStatus.booked /\ b' = cancelled_record k b
  | _ => False
  end.

(** The counter is the highest id in use: ids are positive and a slot above
    the counter is unwritten. *)
Definition counter_bounds (w : World) : Prop :=
  0 <= Storage.BukTrips._bookingIds (buk w)
  /\ forall k, k <= 0 \/ Storage.BukTrips._bookingIds (buk w) < k ->
               getB w k = Booking.zero.

Lemma config_bookingIds s s' :
  config s' = config s ->
  Storage.BukTrips._bookingIds s' = Storage.BukTrips._bookingIds s.
Proof.
  intros H. change (Storage.BukTrips._bookingIds (config s')
                    = Storage.BukTrips._bookingIds (config s)).
  rewrite H. reflexivity.
Qed.

Lemma kept_edges op w w' :
  bookings_kept w w' -> counter_bounds w ->
  counter_bounds w' /\ forall k, getB w' k = getB w k \/ edge op k (getB w k) (getB w' k).
Proof.
  intros Hk [H0 Hz]. pose proof Hk as [_ Hn]. split.
  - split; [rewrite Hn; exact H0|]. intros k Hr.
    rewrite (bookings_kept_getB _ _ _ Hk). apply Hz. rewrite <- Hn. exact Hr.
  - intros k. left. apply bookings_kept_getB. exact Hk.
Qed.

Lemma moves_all_edges (F : Z -> Booking.t -> Booking.t) ids w w' :
  moves_all F ids w w' ->
  (forall k, k ∈ ids -> getB w k <> Booking.zero) ->
  (forall k b, b <> Booking.zero -> F k b <> Booking.zero) ->
  counter_bounds w ->
  counter_bounds w'
  /\ forall k, getB w' k = getB w k \/ (k ∈ ids /\ getB w' k = F k (getB w k)).
Proof.
  intros [Hc Hk] Hnz HF [H0 Hz]. apply config_bookingIds in Hc. split.
  - split; [rewrite Hc; exact H0|]. intros k Hr. rewrite Hk.
    destruct (decide (k ∈ ids)) as [Hin|].
    + exfalso. apply (Hnz k Hin). apply Hz. rewrite <- Hc. exact Hr.
    + apply Hz. rewrite <- Hc. exact Hr.
  - intros k. rewrite Hk. destruct (decide (k ∈ ids)); auto.
Qed.

Lemma status_not_zero b st :
  Booking.status b = st -> st <> BookingStatus.nil -> b <> Booking.zero.
Proof. intros H Hst ->. apply Hst. symmetry. exact H. Qed.

(** One transaction that returns keeps the counter bound and moves every
    record along an edge of its operation, or not at all. *)
Lemma exec_edges sender now op w r w' :
  counter_bounds w ->
  exec sender now op w = Ok (r, w') ->
  counter_bounds w'
  /\ forall k, getB w' k = getB w k \/ edge op k (getB w k) (getB w' k).
Proof.
  intros Hcb H.
  destruct op; simpl in H;
    try (apply done_Ok in H as [_ [a H]]);
    try (apply kept_edges; [|exact Hcb];
         first [ eapply setDeployers_kept; eassumption
               | eapply setTreasury_kept; eassumption
               | eapply updateSupplierDetails_kept; eassumption
               | eapply setCommission_kept; eassumption
               | eapply setTransferLock_kept; eassumption
               | eapply toggleNFTStatus_kept; eassumption
               | eapply registerSupplier_kept; eassumption
               | eapply grantRole_kept; eassumption
               | eapply revokeRole_kept; eassumption
               | eapply renounceRole_kept; eassumption
               | eapply ledger_only_kept; [|eassumption]; solve [auto with ledger] ]).
  - (* bookRoom *)
    apply bookRoom_moves in H as (n & Hn & Hids & Hk). destruct Hcb as [H0 Hz]. split.
    + split; [lia|]. intros k Hr. rewrite Hk.
      destruct (Z.ltb_spec (Storage.BukTrips._bookingIds (buk w)) k),
        (Z.leb_spec k (Storage.BukTrips._bookingIds (buk w) + n)); simpl;
        try (apply Hz; lia); lia.
    + intros k. rewrite Hk.
      destruct (Z.ltb_spec (Storage.BukTrips._bookingIds (buk w)) k),
        (Z.leb_spec k (Storage.BukTrips._bookingIds (buk w) + n)); simpl; auto.
  - (* bookingRefund *)
    apply bookingRefund_Ok_inv in H as (_ & _ & Hv & Hm).
    apply (moves_all_edges cancelled_record) in Hm as [Hcb' Hk]; [| | |exact Hcb].
    + split; [exact Hcb'|]. intros k. destruct (Hk k) as [E | [Hin E]]; auto.
      right. split; [exact Hin|]. split; [apply (Hv k Hin) | exact E].
    + intros k Hin. eapply status_not_zero; [apply (Hv k Hin) | discriminate].
    + intros k b Hb E. destruct b. discriminate.
  - (* confirmRoom *)
    apply confirmRoom_Ok_inv in H as (_ & Hv & _ & _ & Hm).
    apply (moves_all_edges confirmed_record) in Hm as [Hcb' Hk]; [| | |exact Hcb].
    + split; [exact Hcb'|]. intros k. destruct (Hk k) as [E | [Hin E]]; auto.
      right. split; [exact Hin|]. split; [apply (Hv k Hin) | exact E].
    + intros k Hin. eapply status_not_zero; [apply (Hv k Hin) | discriminate].
    + intros k b Hb E. destruct b. discriminate.
  - (* checkout *)
    apply checkout_Ok_inv in H as (_ & _ & _ & Hv & Hm).
    apply (moves_all_edges expired_record) in Hm as [Hcb' Hk]; [| | |exact Hcb].
    + split; [exact Hcb'|]. intros k. destruct (Hk k) as [E | [Hin E]]; auto.
      right. split; [exact Hin|]. split; [apply (Hv k Hin) | exact E].
    + intros k Hin. eapply status_not_zero; [apply (Hv k Hin) | discriminate].
    + intros k b Hb E. destruct b. discriminate.
  - (* cancelRoom *)
    apply cancelRoom_Ok_inv in H as (_ & _ & Hst & [Hc Hk]).
    apply config_bookingIds in Hc. destruct Hcb as [H0 Hz]. split.
    + split; [rewrite Hc; exact H0|]. intros k Hr. rewrite Hk.
      destruct (decide (_id = k)) as [<-|].
      * exfalso. apply (status_not_zero _ _ Hst); [discriminate|].
        apply Hz. rewrite <- Hc. exact Hr.
      * apply Hz. rewrite <- Hc. exact Hr.
    + intros k. rewrite Hk. destruct (decide (_id = k)) as [<-|]; auto.
      right. split; [reflexivity|]. split; [exact Hst | reflexivity].
Qed.

Lemma step_edges tx w :
  counter_bounds w ->
  counter_bounds (step tx w)
  /\ forall k, getB (step tx w) k = getB w k
               \/ edge (tx_op tx) k (getB w k) (getB (step tx w) k).
Proof.
  intros Hcb. unfold step.
  destruct (exec (tx_sender tx) (tx_timestamp tx) (tx_op tx) w) as [[r w']|e] eqn:E.
  - simpl. eapply exec_edges; eassumption.
  - simpl. split; [exact Hcb | auto].
Qed.

Lemma initial_counter_bounds w : initial w -> counter_bounds w.
Proof.
  intros (d & t & c & b & H). unfold counter_bounds, getB. rewrite H. simpl.
  split; [lia|]. intros k _. reflexivity.
Qed.

Lemma reachable_counter_bounds w : reachable w -> counter_bounds w.
Proof.
  induction 1 as [w Hi | w tx _ IH].
  - apply initial_counter_bounds. exact Hi.
  - apply step_edges. exact IH.
Qed.

Lemma is_outside_true w a : is_outside w a = true -> outside w a.
Proof.
  unfold is_outside, outside. intros [H1 H2]%andb_true_iff. split.
  - apply Z.eqb_neq, negb_true_iff. exact H1.
  - destruct (contracts w !! a); [discriminate | reflexivity].
Qed.

Lemma reachable_run txs : forall w,
  reachable w -> sent_from_outside txs w = true -> reachable (run txs w).
Proof.
  unfold run. induction txs as [|tx txs IH]; intros w Hw Hs; simpl.
  - exact Hw.
  - simpl in Hs. apply andb_true_iff in Hs as [H1 H2].
    apply IH; [|exact H2]. apply reachable_step; [exact Hw|].
    apply is_outside_true. exact H1.
Qed.

Lemma reachable_genesis e : reachable (Demo.genesis e).
Proof. apply reachable_initial. unfold initial. simpl. eauto. Qed.

Lemma reachable_ready : reachable (Demo.ready Demo.paying).
Proof. apply reachable_run; [apply reachable_genesis | vm_compute; reflexivity]. Qed.

(** ** Token ids along the state machine *)

Definition token_follows_status (w : World) (k : Z) : Prop :=
  match status_of w k with
  | BookingStatus.nil | BookingStatus.booked => tokenID_of w k = 0
  | BookingStatus.confirmed | BookingStatus.expired => tokenID_of w k = k /\ 0 < k
  | BookingStatus.cancelled => tokenID_of w k = 0 \/ (tokenID_of w k = k /\ 0 < k)
  end.

Lemma written_id_positive w k :
  counter_bounds w -> status_of w k <> BookingStatus.nil -> 0 < k.
Proof.
  intros [_ Hz] Hst. destruct (Z.lt_ge_cases 0 k) as [H | H]; [exact H|].
  exfalso. apply Hst. unfold status_of. rewrite Hz by lia. reflexivity.
Qed.

Lemma token_follows_status_step tx w k :
  counter_bounds w -> token_follows_status w k -> token_follows_status (step tx w) k.
Proof.
  intros Hcb Hinv. destruct (step_edges tx w Hcb) as [_ He].
  unfold token_follows_status, status_of, tokenID_of in *.
  destruct (He k) as [-> | Hedge]; [exact Hinv|].
  assert (Booking.status (getB w k) <> BookingStatus.nil -> 0 < k) as Hpos
    by apply (written_id_positive w k Hcb).
  destruct (tx_op tx); simpl in Hedge; try contradiction.
  - destruct Hedge as (_ & -> & ->). reflexivity.
  - destruct Hedge as (_ & Hst & ->). rewrite Hst in Hinv. simpl. auto.
  - destruct Hedge as (_ & Hst & ->). simpl. split; [reflexivity|].
    apply Hpos. rewrite Hst. discriminate.
  - destruct Hedge as (_ & Hst & ->). rewrite Hst in Hinv. simpl. exact Hinv.
  - destruct Hedge as (_ & Hst & ->). rewrite Hst in Hinv. simpl. auto.
Qed.

Lemma reachable_token_follows_status w :
  reachable w -> forall k, token_follows_status w k.
Proof.
  induction 1 as [w (d & t & c & b & Hi) | w tx Hr IH]; intros k.
  - unfold token_follows_status, status_of, tokenID_of, getB. rewrite Hi. reflexivity.
  - apply token_follows_status_step; [apply reachable_counter_bounds; exact Hr | apply IH].
Qed.

(** The demo deployment after the admin has cancelled the confirmed
    booking 1. *)
Definition demo_cancelled : World :=
  step (Demo.tx Demo.admin (cancelRoom 1 1 10 80 10)) demo_confirmed.

Lemma reachable_demo_confirmed : reachable demo_confirmed.
Proof. apply reachable_run; [apply reachable_ready | vm_compute; reflexivity]. Qed.

Lemma reachable_demo_cancelled : reachable demo_cancelled.
Proof.
  apply reachable_step; [apply reachable_demo_confirmed|].
  apply is_outside_true. vm_compute. reflexivity.
Qed.

(** C2 (as stated) fails: in the demo deployment a guest books and confirms
    booking 1 and the admin cancels it with [cancelRoom]; the record is then
    cancelled and its token id is still 1. *)
Lemma cancelRoom_keeps_token_id :
  reachable demo_cancelled
  /\ status_of demo_cancelled 1 = BookingStatus.cancelled
  /\ tokenID_of demo_cancelled 1 = 1
  /\ ~ (tokenID_of demo_cancelled 1 <> 0 <->
        status_of demo_cancelled 1 = BookingStatus.confirmed
        \/ status_of demo_cancelled 1 = BookingStatus.expired).
Proof.
  split; [apply reachable_demo_cancelled|].
  assert (status_of demo_cancelled 1 = BookingStatus.cancelled) as Hs
    by (vm_compute; reflexivity).
  assert (tokenID_of demo_cancelled 1 = 1) as Ht by (vm_compute; reflexivity).
  split; [exact Hs|]. split; [exact Ht|].
  rewrite Hs, Ht. intros [H _].
  destruct H as [H | H]; [discriminate | discriminate H | discriminate H].
Qed.

(** C2 (as amended).  In every world that a sequence of transactions
    reaches, a record in [confirmed] or [expired] status has a non-zero token
    id, equal to its booking id, and a record in [booked] status (or an
    unwritten one) has token id 0; a cancelled record has token id 0 or its
    booking id.  When a transaction cancels a booking, its token id is 0 if
    the transaction is a [bookingRefund] and is its non-zero booking id if
    the transaction is a [cancelRoom], which does not reset it. *)
Theorem token_id_follows_status w k :
  reachable w ->
  token_follows_status w k
  /\ (tokenID_of w k <> 0 ->
        status_of w k = BookingStatus.confirmed
        \/ status_of w k = BookingStatus.expired
        \/ status_of w k = BookingStatus.cancelled)
  /\ forall tx,
       status_of w k <> BookingStatus.cancelled ->
       status_of (step tx w) k = BookingStatus.cancelled ->
       match tx_op tx with
       | bookingRefund _ _ _ =>
           status_of w k = BookingStatus.booked /\ tokenID_of (step tx w) k = 0
       | cancelRoom _ _ _ _ _ =>
           status_of w k = BookingStatus.confirmed
           /\ tokenID_of (step tx w) k = k /\ 0 < k
       | _ => False
       end.
Proof.
  intros Hr. pose proof (reachable_token_follows_status w Hr k) as Hinv.
  split; [exact Hinv|]. split.
  - unfold token_follows_status in Hinv.
    destruct (status_of w k); auto; intros Hne; contradiction.
  - intros tx Hnc Hc.
    pose proof (reachable_counter_bounds w Hr) as Hcb.
    destruct (step_edges tx w Hcb) as [_ He].
    unfold token_follows_status, status_of, tokenID_of in *.
    destruct (He k) as [E | Hedge]; [rewrite E in Hc; contradiction|].
    destruct (tx_op tx); simpl in Hedge; try contradiction.
    + destruct Hedge as (_ & Hb & _). rewrite Hb in Hc. discriminate.
    + destruct Hedge as (_ & Hst & E). rewrite E. rewrite Hst in Hinv.
      split; [exact Hst | exact Hinv].
    + destruct Hedge as (_ & _ & E). rewrite E in Hc. discriminate.
    + destruct Hedge as (_ & _ & E). rewrite E in Hc. discriminate.
    + destruct Hedge as (_ & Hst & E). rewrite E. rewrite Hst in Hinv.
      split; [exact Hst | exact Hinv].
Qed.

Lemma token_id_follows_status_witness :
  token_follows_status demo_cancelled 1
  /\ (tokenID_of demo_cancelled 1 <> 0 ->
        status_of demo_cancelled 1 = BookingStatus.confirmed
        \/ status_of demo_cancelled 1 = BookingStatus.expired
        \/ status_of demo_cancelled 1 = BookingStatus.cancelled).
Proof.
  destruct (token_id_follows_status demo_cancelled 1) as (H1 & H2 & _).
  - apply reachable_demo_cancelled.
  - split; [exact H1 | exact H2].
Defined.

(** ** Rejection from a wrong state *)

Lemma check_loop_fails ids (chk : Z -> M unit) w e0 :
  Z.of_nat (length ids) <= MAX_UINT8 ->
  (forall id w u w', chk id w = Ok (u, w') -> w' = w) ->
  (exists id, id ∈ ids /\ forall u w', chk id w <> Ok (u, w')) ->
  (forall id e, id ∈ ids -> chk id w = Revert e -> e = e0) ->
  for_uint8 (Z.of_nat (length ids)) (fun i _ => let* id := index ids i in chk id) tt w
    = Revert e0.
Proof.
  intros Hlen Hpure (id & Hin & Hbad) Hall.
  destruct (for_uint8 _ _ tt w) as [[[] w']|e] eqn:E.
  - apply (check_loop_Ok ids chk (fun id w => chk id w = Ok (tt, w))) in E
      as (_ & E & _).
    + exfalso. apply (Hbad tt w). apply E. exact Hin.
    + intros id' w1 [] w2 H. pose proof (Hpure _ _ _ _ H) as ->. auto.
  - apply check_loop_Revert in E as [(id' & Hin' & E) | (_ & E)]; [| lia | exact Hpure].
    rewrite (Hall id' e Hin' E). reflexivity.
Qed.

Definition status_check (expected : BookingStatus.t) (id : Z) : M unit :=
  let* s := get_buk in
  require (BookingStatus.eqb (Booking.status (BukTrips.getBooking s id)) expected)
          StateError "Check the Booking status".

Lemma status_check_Ok expected id w u w' :
  status_check expected id w = Ok (u, w') <-> status_of w id = expected /\ w' = w.
Proof.
  unfold status_check, bind, get_buk. rewrite require_Ok, BookingStatus.eqb_eq.
  reflexivity.
Qed.

Lemma status_check_Revert expected id w e :
  status_check expected id w = Revert e ->
  e = Require StateError "Check the Booking status".
Proof.
  unfold status_check, bind, get_buk, require.
  destruct (BookingStatus.eqb _ _); [discriminate|]. intros [= <-]. reflexivity.
Qed.

Lemma checkout_wrong_state sender sid ids w :
  is_admin w sender -> active w sid -> Z.of_nat (length ids) < 11 ->
  (exists id, id ∈ ids /\ status_of w id <> BookingStatus.confirmed) ->
  BukTrips.checkout sender sid ids w
    = Revert (Require StateError "Check the Booking status").
Proof.
  intros Had Ha Hlen (id & Hin & Hst). unfold BukTrips.checkout.
  rewrite (bind_step _ _ _ _ _ (onlyAdmin_pass _ _ Had)).
  rewrite (bind_step _ _ _ _ _ (supplierRegistered_pass _ _ Ha)).
  rewrite (bind_step _ _ _ _ _ (require_true _ _ _ _ (proj2 (Z.ltb_lt _ _) Hlen))).
  apply bind_fail.
  apply (check_loop_fails ids (status_check BookingStatus.confirmed)).
  - unfold MAX_UINT8. lia.
  - intros id' w1 u w2 H. apply status_check_Ok in H as [_ ->]. reflexivity.
  - exists id. split; [exact Hin|]. intros u w' H.
    apply status_check_Ok in H as [H _]. contradiction.
  - intros id' e _ H. eapply status_check_Revert. exact H.
Qed.

Lemma bookingRefund_wrong_state sender sid ids owner w :
  is_admin w sender -> active w sid -> Z.of_nat (length ids) <= MAX_UINT8 ->
  (exists id, id ∈ ids /\ status_of w id <> BookingStatus.booked) ->
  BukTrips.bookingRefund sender sid ids owner w
    = Revert (Require StateError "Check the Booking status").
Proof.
  intros Had Ha Hlen (id & Hin & Hst). unfold BukTrips.bookingRefund.
  rewrite (bind_step _ _ _ _ _ (onlyAdmin_pass _ _ Had)).
  rewrite (bind_step _ _ _ _ _ (supplierRegistered_pass _ _ Ha)).
  apply bind_fail.
  apply (check_loop_fails ids (status_check BookingStatus.booked)).
  - exact Hlen.
  - intros id' w1 u w2 H. apply status_check_Ok in H as [_ ->]. reflexivity.
  - exists id. split; [exact Hin|]. intros u w' H.
    apply status_check_Ok in H as [H _]. contradiction.
  - intros id' e _ H. eapply status_check_Revert. exact H.
Qed.

Lemma confirmRoom_wrong_state sender sid ids uris st w :
  active w sid -> Z.of_nat (length ids) <= MAX_UINT8 ->
  (exists id, id ∈ ids /\ status_of w id <> BookingStatus.booked) ->
  (forall id, id ∈ ids -> status_of w id = BookingStatus.booked ->
              Booking.owner (getB w id) = sender) ->
  BukTrips.confirmRoom sender sid ids uris st w
    = Revert (Require StateError "Check the Booking status").
Proof.
  intros Ha Hlen (id & Hin & Hst) Hown. unfold BukTrips.confirmRoom.
  rewrite (bind_step _ _ _ _ _ (supplierRegistered_pass _ _ Ha)).
  apply bind_fail.
  apply (check_loop_fails ids
           (fun id =>
              let* s := get_buk in
              require (BookingStatus.eqb (Booking.status (BukTrips.getBooking s id))
                         BookingStatus.booked)
                      StateError "Check the Booking status";;
              require (bool_decide (Booking.owner (BukTrips.getBooking s id) = sender))
                      AuthorizationError "Only booking owner has access")).
  - exact Hlen.
  - intros id' w1 u w2 H. inv_Ok H. reflexivity.
  - exists id. split; [exact Hin|]. intros u w' H. inv_Ok H.
    match goal with
    | H : BookingStatus.eqb _ _ = true |- _ => apply BookingStatus.eqb_eq in H
    end. contradiction.
  - intros id' e Hin' H. unfold bind, get_buk, require in H.
    destruct (BookingStatus.eqb _ _) eqn:Eb.
    + apply BookingStatus.eqb_eq in Eb.
      rewrite (bool_decide_eq_true_2 _ (Hown id' Hin' Eb)) in H. discriminate.
    + injection H as <-. reflexivity.
Qed.

Lemma cancelRoom_wrong_state sender sid id penalty refund charges w :
  is_admin w sender -> active w sid ->
  status_of w id <> BookingStatus.confirmed ->
  BukTrips.cancelRoom sender sid id penalty refund charges w
    = Revert (Require StateError "Supplier not registered").
Proof.
  intros Had Ha Hst. unfold BukTrips.cancelRoom.
  rewrite (bind_step _ _ _ _ _ (onlyAdmin_pass _ _ Had)).
  rewrite (bind_step _ _ _ _ _ (supplierRegistered_pass _ _ Ha)).
  unfold bind at 1. unfold get_buk.
  apply bind_fail. apply require_false.
  destruct (BookingStatus.eqb _ _) eqn:E; [|reflexivity].
  apply BookingStatus.eqb_eq in E. contradiction.
Qed.

(** The operation would move a booking that is not in its source state. *)
Definition wrong_state (op : Op) (w : World) : Prop :=
  match op with
  | confirmRoom _ ids _ _ | bookingRefund _ ids _ =>
      exists id, id ∈ ids /\ status_of w id <> BookingStatus.booked
  | checkout _ ids =>
      exists id, id ∈ ids /\ status_of w id <> BookingStatus.confirmed
  | cancelRoom _ id _ _ _ => status_of w id <> BookingStatus.confirmed
  | _ => False
  end.

(** The call gets as far as the check of the state: the checks that the code
    makes before it (role, supplier, batch size, and in [confirmRoom] the
    owner of the bookings that precede in the batch) pass. *)
Definition reaches_state_check (sender : Z) (op : Op) (w : World) : Prop :=
  match op with
  | confirmRoom sid ids _ _ =>
      active w sid /\ Z.of_nat (length ids) <= MAX_UINT8
      /\ forall id, id ∈ ids -> status_of w id = BookingStatus.booked ->
                    Booking.owner (getB w id) = sender
  | bookingRefund sid ids _ =>
      is_admin w sender /\ active w sid /\ Z.of_nat (length ids) <= MAX_UINT8
  | checkout sid ids =>
      is_admin w sender /\ active w sid /\ Z.of_nat (length ids) < 11
  | cancelRoom sid _ _ _ _ => is_admin w sender /\ active w sid
  | _ => True
  end.

Lemma wrong_state_rejected sender now op w :
  wrong_state op w ->
  exists e,
    exec sender now op w = Revert e
    /\ (reaches_state_check sender op w -> error_class e = StateError).
Proof.
  intros Hw.
  assert (forall r w', exec sender now op w <> Ok (r, w')) as Hno.
  { intros r w' H. destruct op; simpl in Hw; try contradiction; simpl in H;
      apply done_Ok in H as [_ [a H]].
    - apply bookingRefund_Ok_inv in H as (_ & _ & Hv & _).
      destruct Hw as (id & Hin & Hst). apply Hst, (Hv id Hin).
    - apply confirmRoom_Ok_inv in H as (_ & Hv & _).
      destruct Hw as (id & Hin & Hst). apply Hst, (Hv id Hin).
    - apply checkout_Ok_inv in H as (_ & _ & _ & Hv & _).
      destruct Hw as (id & Hin & Hst). apply Hst, (Hv id Hin).
    - apply cancelRoom_Ok_inv in H as (_ & _ & Hst & _). contradiction. }
  destruct (exec sender now op w) as [[r w']|e] eqn:E; [exfalso; eapply Hno; eauto|].
  exists e. split; [reflexivity|]. intros Hr.
  destruct op; simpl in Hw; try contradiction; simpl in E, Hr.
  - destruct Hr as (Had & Ha & Hlen).
    rewrite (done_Revert _ _ _ (bookingRefund_wrong_state _ _ _ _ _ Had Ha Hlen Hw)) in E.
    injection E as <-. reflexivity.
  - destruct Hr as (Ha & Hlen & Hown).
    rewrite (done_Revert _ _ _ (confirmRoom_wrong_state _ _ _ _ _ _ Ha Hlen Hw Hown)) in E.
    injection E as <-. reflexivity.
  - destruct Hr as (Had & Ha & Hlen).
    rewrite (done_Revert _ _ _ (checkout_wrong_state _ _ _ _ Had Ha Hlen Hw)) in E.
    injection E as <-. reflexivity.
  - destruct Hr as (Had & Ha).
    rewrite (done_Revert _ _ _ (cancelRoom_wrong_state _ _ _ _ _ _ _ Had Ha Hw)) in E.
    injection E as <-. reflexivity.
Qed.

(** C5.  In a world that a sequence of transactions has reached, one more
    transaction changes the status of a booking only along
    booked->confirmed ([confirmRoom]), booked->cancelled ([bookingRefund]),
    confirmed->expired ([checkout]) and confirmed->cancelled ([cancelRoom]),
    or creates it, nil->booked ([bookRoom]).  An operation sent to a booking
    that is not in its source state reverts and changes nothing; the revert
    is the one of the state check, a StateError, whenever the call passes the
    checks that the code makes before that one. *)
Theorem status_moves_along_edges w tx k :
  reachable w ->
  let w' := step tx w in
  (status_of w' k <> status_of w k ->
     match tx_op tx with
     | bookRoom _ _ _ _ _ _ =>
         status_of w k = BookingStatus.nil /\ status_of w' k = BookingStatus.booked
     | confirmRoom _ ids _ _ =>
         k ∈ ids /\ status_of w k = BookingStatus.booked
         /\ status_of w' k = BookingStatus.confirmed
     | bookingRefund _ ids _ =>
         k ∈ ids /\ status_of w k = BookingStatus.booked
         /\ status_of w' k = BookingStatus.cancelled
     | checkout _ ids =>
         k ∈ ids /\ status_of w k = BookingStatus.confirmed
         /\ status_of w' k = BookingStatus.expired
     | cancelRoom _ id _ _ _ =>
         k = id /\ status_of w k = BookingStatus.confirmed
         /\ status_of w' k = BookingStatus.cancelled
     | _ => False
     end)
  /\ (wrong_state (tx_op tx) w ->
        w' = w
        /\ exists e,
             exec (tx_sender tx) (tx_timestamp tx) (tx_op tx) w = Revert e
             /\ (reaches_state_check (tx_sender tx) (tx_op tx) w ->
                 error_class e = StateError)).
Proof.
  intros Hr w'. split.
  - intros Hne. pose proof (reachable_counter_bounds w Hr) as Hcb.
    destruct (step_edges tx w Hcb) as [_ He]. subst w'.
    unfold status_of in *.
    destruct (He k) as [E | Hedge]; [rewrite E in Hne; contradiction|].
    destruct (tx_op tx); simpl in Hedge; try contradiction.
    + destruct Hedge as (-> & -> & _). auto.
    + destruct Hedge as (Hin & Hst & ->). auto.
    + destruct Hedge as (Hin & Hst & ->). auto.
    + destruct Hedge as (Hin & Hst & ->). auto.
    + destruct Hedge as (Hin & Hst & ->). auto.
  - intros Hw.
    destruct (wrong_state_rejected (tx_sender tx) (tx_timestamp tx) (tx_op tx) w Hw)
      as (e & E & Hc).
    split; [eapply step_Revert; exact E|]. exists e. auto.
Qed.

Lemma status_moves_along_edges_witness :
  let w := demo_confirmed in
  let tx := Demo.tx Demo.admin (checkout 1 [1; 2]) in
  let bad := Demo.tx Demo.admin (bookingRefund 1 [1] Demo.guest) in
  (status_of w 1 = BookingStatus.confirmed
   /\ status_of (step tx w) 1 = BookingStatus.expired)
  /\ step bad w = w
  /\ exists e,
       exec Demo.admin 1000 (bookingRefund 1 [1] Demo.guest) w = Revert e
       /\ error_class e = StateError.
Proof.
  cbv zeta. split.
  - refine (proj2 (proj1 (status_moves_along_edges demo_confirmed
                            (Demo.tx Demo.admin (checkout 1 [1; 2])) 1
                            reachable_demo_confirmed) _)).
    vm_compute. discriminate.
  - destruct (proj2 (status_moves_along_edges demo_confirmed
                       (Demo.tx Demo.admin (bookingRefund 1 [1] Demo.guest)) 1
                       reachable_demo_confirmed)) as (Hs & e & He & Hc).
    + exists 1. split; [apply list_elem_of_singleton; reflexivity|].
      vm_compute. discriminate.
    + split; [exact Hs|]. exists e. split; [exact He|]. apply Hc.
      split; [vm_compute; reflexivity|]. split; [vm_compute; reflexivity|].
      vm_compute. discriminate.
Defined.

(** * The ledgers of the registered suppliers *)

Module SC := Storage.SupplierContract.
Module UC := Storage.SupplierUtilityContract.

(** ** Calls that leave the world as it is *)

Definition reads_only {A} (m : M A) : Prop :=
  forall w a w', m w = Ok (a, w') -> w' = w.

Lemma reads_only_bind {A B} (m : M A) (k : A -> M B) :
  reads_only m -> (forall a, reads_only (k a)) -> reads_only (bind m k).
Proof.
  intros Hm Hk w b w' H. apply bind_Ok in H as (a & w1 & H1 & H2).
  apply Hm in H1 as ->. eapply Hk. exact H2.
Qed.

Lemma reads_only_ret {A} (a : A) : reads_only (ret a).
Proof. intros w a' w' [= <- <-]. reflexivity. Qed.

Lemma reads_only_revert {A} e : reads_only (@revert A e).
Proof. intros w a w' H. discriminate H. Qed.

Lemma reads_only_require c cls msg : reads_only (require c cls msg).
Proof. intros w a w' H. apply require_Ok in H as [_ ->]. reflexivity. Qed.

Lemma reads_only_onlyRole roles r a : reads_only (onlyRole roles r a).
Proof.
  unfold onlyRole. destruct (hasRole roles r a);
    [apply reads_only_ret | apply reads_only_revert].
Qed.

Lemma reads_only_checked_add a b : reads_only (checked_add a b).
Proof. intros w x w' H. apply checked_add_Ok in H as (_ & _ & ->). reflexivity. Qed.

Lemma reads_only_checked_sub a b : reads_only (checked_sub a b).
Proof. intros w x w' H. apply checked_sub_Ok in H as (_ & _ & ->). reflexivity. Qed.

Lemma reads_only_checked_mul a b : reads_only (checked_mul a b).
Proof. intros w x w' H. apply checked_mul_Ok in H as (_ & _ & ->). reflexivity. Qed.

Lemma reads_only_index {A} (l : list A) i : reads_only (index l i).
Proof. intros w x w' H. apply index_Ok in H as (_ & ->). reflexivity. Qed.

Lemma reads_only_get_buk : reads_only get_buk.
Proof. intros w x w' [= <- <-]. reflexivity. Qed.

Lemma reads_only_this : reads_only this.
Proof. intros w x w' [= <- <-]. reflexivity. Qed.

Lemma reads_only_acceptance to : reads_only (ERC1155._doSafeTransferAcceptanceCheck to).
Proof.
  intros w x w'. unfold ERC1155._doSafeTransferAcceptanceCheck.
  destruct (accepts_erc1155 _ _); [|discriminate].
  intros [= <- <-]. reflexivity.
Qed.

Create HintDb reads.
#[export] Hint Resolve reads_only_ret reads_only_revert reads_only_require
  reads_only_onlyRole reads_only_checked_add reads_only_checked_sub
  reads_only_checked_mul reads_only_index reads_only_get_buk reads_only_this
  reads_only_acceptance : reads.

Ltac reads_only :=
  repeat first
    [ solve [auto with reads]
    | apply reads_only_bind; [| intros ?]
    | match goal with
      | |- reads_only (if ?c then _ else _) => destruct c
      | |- reads_only (match ?x with _ => _ end) => destruct x
      | |- reads_only (let x := _ in _) => cbv zeta
      end ].

Lemma reads_only_mint bal to id amount : reads_only (ERC1155._mint bal to id amount).
Proof. unfold ERC1155._mint. reads_only. Qed.

Lemma reads_only_burn bal from id amount : reads_only (ERC1155._burn bal from id amount).
Proof. unfold ERC1155._burn. reads_only. Qed.

Lemma reads_only_transfer bal from to id amount :
  reads_only (ERC1155._safeTransferFrom bal from to id amount).
Proof. unfold ERC1155._safeTransferFrom. reads_only. Qed.

Lemma reads_only_transferEach ids : forall bal from to amounts,
  reads_only (ERC1155._transferEach bal from to ids amounts).
Proof.
  induction ids as [|id ids IH]; intros bal from to [|amount amounts]; simpl;
    try apply reads_only_ret.
  reads_only.
Qed.

Lemma reads_only_batchTransfer bal from to ids amounts :
  reads_only (ERC1155._safeBatchTransferFrom bal from to ids amounts).
Proof.
  unfold ERC1155._safeBatchTransferFrom.
  pose proof reads_only_transferEach. reads_only.
Qed.

Lemma reads_only_setApproval app o op b :
  reads_only (ERC1155._setApprovalForAll app o op b).
Proof. unfold ERC1155._setApprovalForAll. reads_only. Qed.

Lemma reads_only_onlyAdmin a : reads_only (BukTrips.onlyAdmin a).
Proof. unfold BukTrips.onlyAdmin. reads_only. Qed.

Lemma reads_only_checkAccess a k : reads_only (BukTrips.checkAccess a k).
Proof. unfold BukTrips.checkAccess. reads_only. Qed.

Lemma reads_only_supplierRegistered k : reads_only (BukTrips.supplierRegistered k).
Proof. unfold BukTrips.supplierRegistered. reads_only. Qed.

#[export] Hint Resolve reads_only_mint reads_only_burn reads_only_transfer
  reads_only_batchTransfer reads_only_setApproval reads_only_onlyAdmin
  reads_only_checkAccess reads_only_supplierRegistered : reads.

(** ** What a call keeps of the contracts *)

(** Nobody holds the admin role of the roles. *)
Definition no_admin (roles : gset (Role * address)) : Prop :=
  forall a, hasRole roles DEFAULT_ADMIN_ROLE a = false.

(** What a call sent by [x] keeps of a role table that has no admin: the
    table stays without admin, and every member but [x] keeps its roles. *)
Definition roles_kept (x : address) (R R' : gset (Role * address)) : Prop :=
  no_admin R ->
  no_admin R'
  /\ forall r a, a <> x -> hasRole R r a = true -> hasRole R' r a = true.

Lemma roles_kept_refl x R : roles_kept x R R.
Proof. intros H. split; [exact H | auto]. Qed.

Lemma roles_kept_trans x R1 R2 R3 :
  roles_kept x R1 R2 -> roles_kept x R2 R3 -> roles_kept x R1 R3.
Proof.
  intros H12 H23 H1. destruct (H12 H1) as [H2 K12]. destruct (H23 H2) as [H3 K23].
  split; [exact H3 | auto].
Qed.

Lemma hasRole_true roles r a : hasRole roles r a = true <-> (r, a) ∈ roles.
Proof. unfold hasRole. apply bool_decide_eq_true. Qed.

Lemma hasRole_false roles r a : hasRole roles r a = false <-> (r, a) ∉ roles.
Proof. unfold hasRole. apply bool_decide_eq_false. Qed.

Lemma roles_kept_grant x r a R :
  r <> DEFAULT_ADMIN_ROLE -> roles_kept x R (_grantRole r a R).
Proof.
  intros Hr Hn. split.
  - intros b. apply hasRole_false. specialize (Hn b). apply hasRole_false in Hn.
    unfold _grantRole. intros [Hin | Hin]%elem_of_union; [|contradiction].
    apply elem_of_singleton in Hin. congruence.
  - intros r' b _ H. apply hasRole_true. apply hasRole_true in H.
    unfold _grantRole. apply elem_of_union. right. exact H.
Qed.

Lemma roles_kept_revoke x r R : roles_kept x R (_revokeRole r x R).
Proof.
  intros Hn. split.
  - intros b. apply hasRole_false. specialize (Hn b). apply hasRole_false in Hn.
    unfold _revokeRole. intros [Hin _]%elem_of_difference. contradiction.
  - intros r' b Hb H. apply hasRole_true. apply hasRole_true in H.
    unfold _revokeRole. apply elem_of_difference. split; [exact H|].
    intros Hin%elem_of_singleton. congruence.
Qed.

(** What a call sent by [x] keeps of the contract at an address: its kind,
    the utility ledger that a supplier ledger points to, and the roles. *)
Definition contract_kept (x : address) (old : option Contract) (new : Contract) : Prop :=
  match old, new with
  | None, _ => True
  | Some (SupplierLedger s), SupplierLedger s' =>
      SC.utility_contract s' = SC.utility_contract s
      /\ roles_kept x (SC._roles s) (SC._roles s')
  | Some (UtilityLedger u), UtilityLedger u' => roles_kept x (UC._roles u) (UC._roles u')
  | Some (SupplierDeployer _), SupplierDeployer _ => True
  | Some (UtilityDeployer _), UtilityDeployer _ => True
  | _, _ => False
  end.

Definition ledgers_kept (x : address) (w w' : World) : Prop :=
  buk_address w' = buk_address w
  /\ forall a c, contracts w !! a = Some c ->
       exists c', contracts w' !! a = Some c' /\ contract_kept x (Some c) c'.

Definition keeps_ledgers {A} (x : address) (m : M A) : Prop :=
  forall w a w', m w = Ok (a, w') -> ledgers_kept x w w'.

Lemma contract_kept_refl x c : contract_kept x (Some c) c.
Proof. destruct c; simpl; auto using roles_kept_refl. Qed.

Lemma contract_kept_trans x c1 c2 c3 :
  contract_kept x (Some c1) c2 -> contract_kept x (Some c2) c3 ->
  contract_kept x (Some c1) c3.
Proof.
  destruct c1, c2, c3; simpl; try tauto.
  - intros [E1 H1] [E2 H2]. split; [congruence | eapply roles_kept_trans; eassumption].
  - apply roles_kept_trans.
Qed.

Lemma ledgers_kept_refl x w : ledgers_kept x w w.
Proof. split; [reflexivity|]. intros a c H. eauto using contract_kept_refl. Qed.

Lemma ledgers_kept_trans x w1 w2 w3 :
  ledgers_kept x w1 w2 -> ledgers_kept x w2 w3 -> ledgers_kept x w1 w3.
Proof.
  intros [A1 H1] [A2 H2]. split; [congruence|]. intros a c Hc.
  destruct (H1 a c Hc) as (c' & Hc' & K1). destruct (H2 a c' Hc') as (c'' & Hc'' & K2).
  eauto using contract_kept_trans.
Qed.

Lemma ledgers_kept_same x w w' :
  buk_address w' = buk_address w -> contracts w' = contracts w -> ledgers_kept x w w'.
Proof.
  intros Ha Hc. split; [exact Ha|]. intros a c H. rewrite Hc.
  eauto using contract_kept_refl.
Qed.

Lemma ledgers_kept_insert x a c w :
  contract_kept x (contracts w !! a) c ->
  ledgers_kept x w (set_contracts (<[a := c]> (contracts w)) w).
Proof.
  intros Hk. split; [reflexivity|]. intros a' c' H. simpl.
  destruct (decide (a = a')) as [<-|Hne].
  - rewrite lookup_insert_eq. rewrite H in Hk. eexists. split; [reflexivity | exact Hk].
  - rewrite lookup_insert_ne by exact Hne. eexists. split; [exact H|].
    apply contract_kept_refl.
Qed.

Lemma keeps_call {A} x (m : M A) w a w' :
  keeps_ledgers x m -> m w = Ok (a, w') -> ledgers_kept x w w'.
Proof. intros Hm H. eapply Hm. exact H. Qed.

Lemma reads_only_call {A} (m : M A) w a w' :
  reads_only m -> m w = Ok (a, w') -> w' = w.
Proof. intros Hm H. eapply Hm. exact H. Qed.

Lemma keeps_reads_only {A} x (m : M A) : reads_only m -> keeps_ledgers x m.
Proof. intros Hm w a w' H. apply Hm in H as ->. apply ledgers_kept_refl. Qed.

Lemma keeps_bind {A B} x (m : M A) (k : A -> M B) :
  keeps_ledgers x m -> (forall a, keeps_ledgers x (k a)) -> keeps_ledgers x (bind m k).
Proof.
  intros Hm Hk w b w' H. apply bind_Ok in H as (a & w1 & H1 & H2).
  eapply ledgers_kept_trans; [eapply Hm | eapply Hk]; eassumption.
Qed.

Lemma keeps_put_buk x b : keeps_ledgers x (put_buk b).
Proof. intros w u w' H. apply put_buk_Ok in H as ->. apply ledgers_kept_same; reflexivity. Qed.

Lemma keeps_external_call x callee c : keeps_ledgers x (external_call callee c).
Proof.
  intros w b w' H. apply external_call_Ok in H as (_ & _ & ->).
  apply ledgers_kept_same; reflexivity.
Qed.

Lemma keeps_for_uint8 {S} x len (body : Z -> S -> M S) s :
  (forall i s, keeps_ledgers x (body i s)) -> keeps_ledgers x (for_uint8 len body s).
Proof.
  intros Hb w s' w'. unfold for_uint8. generalize 256%nat 0. intros fuel.
  revert s w. induction fuel as [|fuel IH]; intros s w i; simpl.
  - destruct (i <? len); [discriminate|]. intros [= <- <-]. apply ledgers_kept_refl.
  - destruct (i <? len); [|intros [= <- <-]; apply ledgers_kept_refl].
    intros H. apply bind_Ok in H as (s1 & w1 & H1 & H2).
    destruct (i =? MAX_UINT8); [discriminate|].
    eapply ledgers_kept_trans; [eapply Hb; exact H1 | eapply IH; exact H2].
Qed.

Lemma keeps_new_contract x creator n c : keeps_ledgers x (new_contract creator n c).
Proof.
  intros w a w'. unfold new_contract.
  destruct (bool_decide _); [discriminate|].
  destruct (contracts w !! _) eqn:E; [discriminate|].
  intros [= <- <-]. apply ledgers_kept_insert. rewrite E. exact I.
Qed.

Create HintDb keeps.
#[export] Hint Resolve keeps_put_buk keeps_external_call keeps_new_contract : keeps.
#[export] Hint Extern 5 (keeps_ledgers _ _) =>
  (apply keeps_reads_only; solve [auto with reads]) : keeps.

Ltac keeps_ledgers :=
  repeat first
    [ solve [auto with keeps]
    | apply keeps_bind; [| intros ?]
    | apply keeps_for_uint8; intros ? ?
    | match goal with
      | |- keeps_ledgers _ (if ?c then _ else _) => destruct c
      | |- keeps_ledgers _ (match ?x with _ => _ end) => destruct x
      | |- keeps_ledgers _ (let x := _ in _) => cbv zeta
      end ].

(** *** The ledgers and the deployers *)

Lemma supplier_load_inv self w s w' :
  SupplierContract.load self w = Ok (s, w') ->
  contracts w !! self = Some (SupplierLedger s) /\ w' = w.
Proof.
  unfold SupplierContract.load.
  destruct (contracts w !! self) as [[]|]; try discriminate.
  intros [= <- <-]. auto.
Qed.

Lemma utility_load_inv self w s w' :
  SupplierUtilityContract.load self w = Ok (s, w') ->
  contracts w !! self = Some (UtilityLedger s) /\ w' = w.
Proof.
  unfold SupplierUtilityContract.load.
  destruct (contracts w !! self) as [[]|]; try discriminate.
  intros [= <- <-]. auto.
Qed.

Lemma deployer_load_inv self w s w' :
  BukSupplierDeployer.load self w = Ok (s, w') ->
  contracts w !! self = Some (SupplierDeployer s) /\ w' = w.
Proof.
  unfold BukSupplierDeployer.load.
  destruct (contracts w !! self) as [[]|]; try discriminate.
  intros [= <- <-]. auto.
Qed.

Lemma utility_deployer_load_inv self w s w' :
  BukSupplierUtilityDeployer.load self w = Ok (s, w') ->
  contracts w !! self = Some (UtilityDeployer s) /\ w' = w.
Proof.
  unfold BukSupplierUtilityDeployer.load.
  destruct (contracts w !! self) as [[]|]; try discriminate.
  intros [= <- <-]. auto.
Qed.

Lemma put_contract_keeps x a c w u w' :
  contract_kept x (contracts w !! a) c ->
  put_contract a c w = Ok (u, w') -> ledgers_kept x w w'.
Proof. intros Hk [= <- <-]. apply ledgers_kept_insert. exact Hk. Qed.

Lemma grantRole_roles x R sender role account w R' w' :
  AccessControl.grantRole R sender role account w = Ok (R', w') ->
  w' = w /\ roles_kept x R R'.
Proof.
  unfold AccessControl.grantRole, onlyRole, AccessControl.getRoleAdmin. intros H.
  apply bind_Ok in H as ([] & w1 & H1 & H2).
  destruct (hasRole R DEFAULT_ADMIN_ROLE sender) eqn:E; [|discriminate].
  injection H1 as <-. injection H2 as <- <-. split; [reflexivity|].
  intros Hn. rewrite (Hn sender) in E. discriminate.
Qed.

Lemma revokeRole_roles x R sender role account w R' w' :
  AccessControl.revokeRole R sender role account w = Ok (R', w') ->
  w' = w /\ roles_kept x R R'.
Proof.
  unfold AccessControl.revokeRole, onlyRole, AccessControl.getRoleAdmin. intros H.
  apply bind_Ok in H as ([] & w1 & H1 & H2).
  destruct (hasRole R DEFAULT_ADMIN_ROLE sender) eqn:E; [|discriminate].
  injection H1 as <-. injection H2 as <- <-. split; [reflexivity|].
  intros Hn. rewrite (Hn sender) in E. discriminate.
Qed.

Lemma renounceRole_roles R sender role account w R' w' :
  AccessControl.renounceRole R sender role account w = Ok (R', w') ->
  w' = w /\ roles_kept sender R R'.
Proof.
  unfold AccessControl.renounceRole. intros H.
  apply bind_Ok in H as ([] & w1 & H1 & H2). apply require_Ok in H1 as [E ->].
  apply bool_decide_eq_true_1 in E as ->. injection H2 as <- <-.
  split; [reflexivity | apply roles_kept_revoke].
Qed.

(** Discharges [contract_kept] for a store that follows a load at the same
    address. *)
Ltac kept_side :=
  match goal with
  | Hl : contracts ?w !! ?a = Some _ |- contract_kept _ (contracts ?w !! ?a) _ =>
      rewrite Hl; simpl;
      first [ exact I
            | assumption
            | apply roles_kept_refl
            | split; [reflexivity | first [assumption | apply roles_kept_refl]]
            | apply roles_kept_grant; discriminate ]
  | Hl : contracts ?w !! ?a = Some ?c, Hk : ledgers_kept _ ?w ?w1
    |- contract_kept _ (contracts ?w1 !! ?a) _ =>
      let c' := fresh "c" in
      let Hc := fresh "H" in
      let K := fresh "H" in
      destruct (proj2 Hk a c Hl) as (c' & Hc & K); rewrite Hc;
      destruct c'; simpl in K |- *; solve [contradiction | exact I]
  end.

(** Takes a call of a ledger or deployer function that returned apart, into
    the lookups of its loads and what each of its steps keeps. *)
Ltac ledger_inv x H :=
  cbv beta zeta in H;
  lazymatch type of H with
  | bind _ _ _ = Ok (_, _) =>
      let a := fresh "a" in
      let w := fresh "w" in
      let H1 := fresh "H" in
      let H2 := fresh "H" in
      apply bind_Ok in H; destruct H as (a & w & H1 & H2);
      ledger_inv x H1; ledger_inv x H2
  | (if ?c then _ else _) _ = Ok (_, _) => destruct c; ledger_inv x H
  | SupplierContract.load _ _ = Ok _ =>
      apply supplier_load_inv in H; destruct H as [H ->]
  | SupplierUtilityContract.load _ _ = Ok _ =>
      apply utility_load_inv in H; destruct H as [H ->]
  | BukSupplierDeployer.load _ _ = Ok _ =>
      apply deployer_load_inv in H; destruct H as [H ->]
  | BukSupplierUtilityDeployer.load _ _ = Ok _ =>
      apply utility_deployer_load_inv in H; destruct H as [H ->]
  | SupplierContract.store _ _ _ = Ok _ =>
      unfold SupplierContract.store in H; ledger_inv x H
  | SupplierUtilityContract.store _ _ _ = Ok _ =>
      unfold SupplierUtilityContract.store in H; ledger_inv x H
  | BukSupplierDeployer.store _ _ _ = Ok _ =>
      unfold BukSupplierDeployer.store in H; ledger_inv x H
  | BukSupplierUtilityDeployer.store _ _ _ = Ok _ =>
      unfold BukSupplierUtilityDeployer.store in H; ledger_inv x H
  | put_contract _ _ _ = Ok _ => apply (put_contract_keeps x) in H; [|kept_side]
  | AccessControl.grantRole _ _ _ _ _ = Ok _ =>
      apply (grantRole_roles x) in H; destruct H as [-> H]
  | AccessControl.revokeRole _ _ _ _ _ = Ok _ =>
      apply (revokeRole_roles x) in H; destruct H as [-> H]
  | AccessControl.renounceRole _ _ _ _ _ = Ok _ =>
      apply renounceRole_roles in H; destruct H as [-> H]
  | revert _ _ = Ok _ => discriminate H
  | ?m ?w = Ok (_, ?w') =>
      first [ apply reads_only_call in H;
                [match type of H with ?v = _ => subst v end | solve [auto with reads]]
            | apply (keeps_call x) in H; [| solve [auto with keeps]]
            | idtac ]
  end.

(** Chains what the steps keep. *)
Ltac kept_chain :=
  repeat first
    [ eassumption
    | apply ledgers_kept_refl
    | eapply ledgers_kept_trans; [eassumption|] ].

Ltac keeps_fun x f := intros ? ? ? H; unfold f in H; ledger_inv x H; kept_chain.

Module UtilityKeeps.
Import SupplierUtilityContract.
Lemma utility_grantSupplierRole_keeps x a b c : keeps_ledgers x (grantSupplierRole a b c).
Proof. keeps_fun x grantSupplierRole. Qed.
Lemma utility_setContractURI_keeps x a b c : keeps_ledgers x (setContractURI a b c).
Proof. keeps_fun x setContractURI. Qed.
Lemma utility_updateSupplierDetails_keeps x a b c :
  keeps_ledgers x (updateSupplierDetails a b c).
Proof. keeps_fun x updateSupplierDetails. Qed.
Lemma utility_setURI_keeps x a b c d : keeps_ledgers x (setURI a b c d).
Proof. keeps_fun x setURI. Qed.
Lemma utility_mint_keeps x a b c d e f : keeps_ledgers x (mint a b c d e f).
Proof. keeps_fun x mint. Qed.
Lemma utility_safeTransferFrom_keeps x a b c d e f :
  keeps_ledgers x (safeTransferFrom a b c d e f).
Proof. intros ? ? ? H. unfold safeTransferFrom, _safeTransferFrom in H. ledger_inv x H. Qed.
Lemma utility_safeBatchTransferFrom_keeps x a b c d e f :
  keeps_ledgers x (safeBatchTransferFrom a b c d e f).
Proof.
  intros ? ? ? H. unfold safeBatchTransferFrom, _safeBatchTransferFrom in H.
  ledger_inv x H.
Qed.
Lemma utility_setApprovalForAll_keeps x a b c d : keeps_ledgers x (setApprovalForAll a b c d).
Proof. keeps_fun x setApprovalForAll. Qed.
Lemma utility_grantRole_keeps x a b c d : keeps_ledgers x (grantRole a b c d).
Proof. keeps_fun x grantRole. Qed.
Lemma utility_revokeRole_keeps x a b c d : keeps_ledgers x (revokeRole a b c d).
Proof. keeps_fun x revokeRole. Qed.
Lemma utility_renounceRole_keeps a b c d : keeps_ledgers b (renounceRole a b c d).
Proof. keeps_fun b renounceRole. Qed.
End UtilityKeeps.

#[export] Hint Resolve UtilityKeeps.utility_grantSupplierRole_keeps
  UtilityKeeps.utility_setContractURI_keeps UtilityKeeps.utility_updateSupplierDetails_keeps
  UtilityKeeps.utility_setURI_keeps UtilityKeeps.utility_mint_keeps
  UtilityKeeps.utility_safeTransferFrom_keeps
  UtilityKeeps.utility_safeBatchTransferFrom_keeps
  UtilityKeeps.utility_setApprovalForAll_keeps UtilityKeeps.utility_grantRole_keeps
  UtilityKeeps.utility_revokeRole_keeps UtilityKeeps.utility_renounceRole_keeps : keeps.

Module SupplierKeeps.
Import SupplierContract.
Lemma supplier_setContractURI_keeps x a b c : keeps_ledgers x (setContractURI a b c).
Proof. keeps_fun x setContractURI. Qed.
Lemma supplier_updateSupplierDetails_keeps x a b c :
  keeps_ledgers x (updateSupplierDetails a b c).
Proof. keeps_fun x updateSupplierDetails. Qed.
Lemma supplier_setURI_keeps x a b c d : keeps_ledgers x (setURI a b c d).
Proof. keeps_fun x setURI. Qed.
Lemma supplier_toggleNFTStatus_keeps x a b c d : keeps_ledgers x (toggleNFTStatus a b c d).
Proof. keeps_fun x toggleNFTStatus. Qed.
Lemma supplier_mint_keeps x a b c d e f g : keeps_ledgers x (mint a b c d e f g).
Proof. keeps_fun x mint. Qed.
Lemma supplier_burn_keeps x a b c d e f : keeps_ledgers x (burn a b c d e f).
Proof. keeps_fun x burn. Qed.
Lemma supplier_safeTransferFrom_keeps x a b c d e f :
  keeps_ledgers x (safeTransferFrom a b c d e f).
Proof. keeps_fun x safeTransferFrom. Qed.
Lemma supplier_safeBatchTransferFrom_keeps x a b c d e f :
  keeps_ledgers x (safeBatchTransferFrom a b c d e f).
Proof. keeps_fun x safeBatchTransferFrom. Qed.
Lemma supplier_setApprovalForAll_keeps x a b c d :
  keeps_ledgers x (setApprovalForAll a b c d).
Proof. keeps_fun x setApprovalForAll. Qed.
Lemma supplier_grantRole_keeps x a b c d : keeps_ledgers x (grantRole a b c d).
Proof. keeps_fun x grantRole. Qed.
Lemma supplier_revokeRole_keeps x a b c d : keeps_ledgers x (revokeRole a b c d).
Proof. keeps_fun x revokeRole. Qed.
Lemma supplier_renounceRole_keeps a b c d : keeps_ledgers b (renounceRole a b c d).
Proof. keeps_fun b renounceRole. Qed.
End SupplierKeeps.

#[export] Hint Resolve SupplierKeeps.supplier_setContractURI_keeps
  SupplierKeeps.supplier_updateSupplierDetails_keeps SupplierKeeps.supplier_setURI_keeps
  SupplierKeeps.supplier_toggleNFTStatus_keeps SupplierKeeps.supplier_mint_keeps
  SupplierKeeps.supplier_burn_keeps SupplierKeeps.supplier_safeTransferFrom_keeps
  SupplierKeeps.supplier_safeBatchTransferFrom_keeps
  SupplierKeeps.supplier_setApprovalForAll_keeps SupplierKeeps.supplier_grantRole_keeps
  SupplierKeeps.supplier_revokeRole_keeps SupplierKeeps.supplier_renounceRole_keeps
  : keeps.

Module DeployerKeeps.
Lemma updateFactory_keeps x a b c : keeps_ledgers x (BukSupplierDeployer.updateFactory a b c).
Proof. keeps_fun x BukSupplierDeployer.updateFactory. Qed.
Lemma deploySupplier_keeps x a b c d e f g h :
  keeps_ledgers x (BukSupplierDeployer.deploySupplier a b c d e f g h).
Proof. keeps_fun x BukSupplierDeployer.deploySupplier. Qed.
Lemma utility_updateFactory_keeps x a b c :
  keeps_ledgers x (BukSupplierUtilityDeployer.updateFactory a b c).
Proof. keeps_fun x BukSupplierUtilityDeployer.updateFactory. Qed.
Lemma deploySupplierUtility_keeps x a b c d e :
  keeps_ledgers x (BukSupplierUtilityDeployer.deploySupplierUtility a b c d e).
Proof. keeps_fun x BukSupplierUtilityDeployer.deploySupplierUtility. Qed.
End DeployerKeeps.

#[export] Hint Resolve DeployerKeeps.updateFactory_keeps DeployerKeeps.deploySupplier_keeps
  DeployerKeeps.utility_updateFactory_keeps DeployerKeeps.deploySupplierUtility_keeps
  : keeps.

(** *** The orchestrator *)

Create HintDb orchestrator.
#[export] Hint Unfold BukTrips.setDeployers BukTrips.setTreasury
  BukTrips.updateSupplierDetails BukTrips.setCommission BukTrips.setTransferLock
  BukTrips.toggleNFTStatus BukTrips.registerSupplier BukTrips.bookRoom
  BukTrips.bookRoom_body BukTrips.bookingRefund BukTrips.confirmRoom BukTrips.checkout
  BukTrips.cancelRoom BukTrips.grantRole BukTrips.revokeRole BukTrips.renounceRole
  BukTrips.write_status BukTrips.write_tokenID done : orchestrator.

Lemma keeps_grantRole x R a r b : keeps_ledgers x (AccessControl.grantRole R a r b).
Proof. intros w R' w' H. apply (grantRole_roles x) in H as [-> _]. apply ledgers_kept_refl. Qed.

Lemma keeps_revokeRole x R a r b : keeps_ledgers x (AccessControl.revokeRole R a r b).
Proof. intros w R' w' H. apply (revokeRole_roles x) in H as [-> _]. apply ledgers_kept_refl. Qed.

Lemma keeps_renounceRole x R a r b : keeps_ledgers x (AccessControl.renounceRole R a r b).
Proof. intros w R' w' H. apply renounceRole_roles in H as [-> _]. apply ledgers_kept_refl. Qed.

#[export] Hint Resolve keeps_grantRole keeps_revokeRole keeps_renounceRole : keeps.

(** A transaction keeps the ledgers, but for the roles that its sender
    renounces. *)
Lemma exec_keeps sender now op : keeps_ledgers sender (exec sender now op).
Proof. destruct op; simpl; autounfold with orchestrator; keeps_ledgers. Qed.

(** ** The table of the suppliers *)

Definition suppliers_of (w : World) : gmap Z SupplierDetails.t :=
  Storage.BukTrips.Suppliers (buk w).

Lemma config_suppliers w w' : config (buk w') = config (buk w) -> suppliers_of w' = suppliers_of w.
Proof.
  intros H. unfold suppliers_of.
  change (Storage.BukTrips.Suppliers (config (buk w'))
          = Storage.BukTrips.Suppliers (config (buk w))).
  rewrite H. reflexivity.
Qed.

Lemma ledger_only_call {A} (m : M A) w a w' :
  ledger_only m -> m w = Ok (a, w') -> buk w' = buk w.
Proof. intros Hm H. apply Hm in H as (_ & _ & H & _). exact H. Qed.

(** Takes a call of a function of the orchestrator that returned apart, and
    reduces the calls into the ledgers to what they keep of the
    orchestrator. *)
Ltac buk_inv H :=
  inv_Ok H;
  repeat match goal with
  | H : BukTrips.onlyAdmin _ _ = Ok _ |- _ => apply onlyAdmin_Ok in H as [_ ->]
  | H : BukTrips.checkAccess _ _ _ = Ok _ |- _ => apply checkAccess_Ok in H as ->
  | H : (if ?c then _ else _) _ = Ok _ |- _ => destruct c; [inv_Ok H | discriminate]
  | H : ?m ?w = Ok (_, ?w') |- _ =>
      apply ledger_only_call in H; [| solve [auto with ledger]]
  end.

Lemma setters_keep_suppliers sender now op w r w' :
  exec sender now op w = Ok (r, w') ->
  match op with
  | registerSupplier _ _ _ _ | bookRoom _ _ _ _ _ _ | bookingRefund _ _ _
  | confirmRoom _ _ _ _ | checkout _ _ | cancelRoom _ _ _ _ _ => True
  | _ => suppliers_of w' = suppliers_of w
  end.
Proof.
  intros H. destruct op; try exact I; simpl in H; apply done_Ok in H as [_ [a H]];
    autounfold with orchestrator in H; unfold suppliers_of;
    try (apply ledger_only_call in H; [rewrite H; reflexivity | solve [auto with ledger]]);
    buk_inv H; simpl;
    repeat match goal with E : buk _ = _ |- _ => rewrite E; clear E end;
    reflexivity.
Qed.

Lemma bookRoom_keeps_suppliers sender sid count totals rates ci co w r w' :
  BukTrips.bookRoom sender sid count totals rates ci co w = Ok (r, w') ->
  suppliers_of w' = suppliers_of w.
Proof.
  intros H. apply bookRoom_Ok_inv in H as (_ & acc & w1 & rest & Hloop & Hb & _).
  unfold suppliers_of. rewrite Hb.
  destruct (Z.le_gt_cases 0 count) as [Hc | Hc].
  - apply bookRoom_loop_inv in Hloop as (_ & _ & _ & _ & (m & ->) & _); [|exact Hc].
    reflexivity.
  - rewrite for_uint8_negative in Hloop by lia. injection Hloop as <- <-. reflexivity.
Qed.

(** Every transaction but [registerSupplier] keeps the table. *)
Lemma exec_keeps_suppliers sender now op w r w' :
  exec sender now op w = Ok (r, w') ->
  match op with
  | registerSupplier _ _ _ _ => True
  | _ => suppliers_of w' = suppliers_of w
  end.
Proof.
  intros H. pose proof (setters_keep_suppliers sender now op w r w' H) as Hs.
  destruct op; try exact Hs; try exact I; simpl in H.
  - eapply bookRoom_keeps_suppliers. exact H.
  - apply done_Ok in H as [_ [a H]].
    apply bookingRefund_Ok_inv in H as (_ & _ & _ & [Hc _]). apply config_suppliers, Hc.
  - apply done_Ok in H as [_ [a H]].
    apply confirmRoom_Ok_inv in H as (_ & _ & _ & _ & [Hc _]). apply config_suppliers, Hc.
  - apply done_Ok in H as [_ [a H]].
    apply checkout_Ok_inv in H as (_ & _ & _ & _ & [Hc _]). apply config_suppliers, Hc.
  - apply done_Ok in H as [_ [a H]].
    apply cancelRoom_Ok_inv in H as (_ & _ & _ & [Hc _]). apply config_suppliers, Hc.
Qed.

(** ** [registerSupplier] *)

Lemma no_admin_empty : no_admin ∅.
Proof. intros a. apply hasRole_false. apply not_elem_of_empty. Qed.

Lemma no_admin_grant r a R :
  r <> DEFAULT_ADMIN_ROLE -> no_admin R -> no_admin (_grantRole r a R).
Proof. intros Hr Hn. apply (roles_kept_grant 0 r a R Hr Hn). Qed.

Lemma hasRole_grant r a R : hasRole (_grantRole r a R) r a = true.
Proof.
  apply hasRole_true. unfold _grantRole. apply elem_of_union. left.
  apply elem_of_singleton. reflexivity.
Qed.

Lemma hasRole_grant_mono r a R r' a' :
  hasRole R r' a' = true -> hasRole (_grantRole r a R) r' a' = true.
Proof.
  intros H. apply hasRole_true. apply hasRole_true in H.
  unfold _grantRole. apply elem_of_union. right. exact H.
Qed.

Lemma new_contract_Ok creator n c w a w' :
  new_contract creator n c w = Ok (a, w') ->
  contracts w !! a = None /\ w' = set_contracts (<[a := c]> (contracts w)) w.
Proof.
  unfold new_contract. destruct (bool_decide _); [discriminate|].
  destruct (contracts w !! _) eqn:E; [discriminate|].
  intros [= <- <-]. auto.
Qed.

Lemma put_contract_Ok a c w u w' :
  put_contract a c w = Ok (u, w') -> w' = set_contracts (<[a := c]> (contracts w)) w.
Proof. intros [= <- <-]. reflexivity. Qed.

(** The deployers create the ledger at a free address and keep the rest. *)
Lemma deploySupplierUtility_Ok self sender id name uri w a w' :
  BukSupplierUtilityDeployer.deploySupplierUtility self sender id name uri w = Ok (a, w') ->
  contracts w !! a = None
  /\ contracts w' !! a
     = Some (UtilityLedger (UC.constructor id name sender uri))
  /\ forall b, b <> a -> b <> self -> contracts w' !! b = contracts w !! b.
Proof.
  unfold BukSupplierUtilityDeployer.deploySupplierUtility. intros H.
  apply bind_Ok in H as (d & w1 & Hl & H). apply utility_deployer_load_inv in Hl as [Hl ->].
  apply bind_Ok in H as ([] & w1 & Hr & H). apply require_Ok in Hr as [Hr ->].
  apply bool_decide_eq_true_1 in Hr as ->.
  apply bind_Ok in H as (a' & w1 & Hn & H). apply new_contract_Ok in Hn as [Hfree ->].
  apply bind_Ok in H as ([] & w1 & Hs & H). apply put_contract_Ok in Hs as ->.
  injection H as <- <-. simpl.
  assert (self <> a') as Hne by (intros ->; congruence).
  split; [exact Hfree|]. split.
  - rewrite lookup_insert_ne by exact Hne. apply lookup_insert_eq.
  - intros b Hb1 Hb2. rewrite !lookup_insert_ne by congruence. reflexivity.
Qed.

Lemma deploySupplier_Ok self sender cn id name owner utility uri w a w' :
  BukSupplierDeployer.deploySupplier self sender cn id name owner utility uri w
    = Ok (a, w') ->
  contracts w !! a = None
  /\ contracts w' !! a
     = Some (SupplierLedger (SC.constructor id name owner utility sender uri))
  /\ forall b, b <> a -> b <> self -> contracts w' !! b = contracts w !! b.
Proof.
  unfold BukSupplierDeployer.deploySupplier. intros H.
  apply bind_Ok in H as (d & w1 & Hl & H). apply deployer_load_inv in Hl as [Hl ->].
  apply bind_Ok in H as ([] & w1 & Hr & H). apply require_Ok in Hr as [Hr ->].
  apply bool_decide_eq_true_1 in Hr as ->.
  apply bind_Ok in H as (a' & w1 & Hn & H). apply new_contract_Ok in Hn as [Hfree ->].
  apply bind_Ok in H as ([] & w1 & Hs & H). apply put_contract_Ok in Hs as ->.
  injection H as <- <-. simpl.
  assert (self <> a') as Hne by (intros ->; congruence).
  split; [exact Hfree|]. split.
  - rewrite lookup_insert_ne by exact Hne. apply lookup_insert_eq.
  - intros b Hb1 Hb2. rewrite !lookup_insert_ne by congruence. reflexivity.
Qed.

Lemma grantSupplierRole_Ok self sender a w u0 w' :
  SupplierUtilityContract.grantSupplierRole self sender a w = Ok (u0, w') ->
  exists u,
    contracts w !! self = Some (UtilityLedger u)
    /\ w' = set_contracts
              (<[self := UtilityLedger
                   (UC.set_roles (_grantRole SUPPLIER_CONTRACT_ROLE a (UC._roles u))
                      (UC.set_supplier_contract a u))]> (contracts w)) w.
Proof.
  unfold SupplierUtilityContract.grantSupplierRole. intros H.
  apply bind_Ok in H as (u & w1 & Hl & H). apply utility_load_inv in Hl as [Hl ->].
  apply bind_Ok in H as ([] & w1 & Hr & H). apply reads_only_onlyRole in Hr as ->.
  apply put_contract_Ok in H. eauto.
Qed.

(** The ledgers of the supplier [sid] are in place: the table points to a
    supplier ledger that grants the factory role to the orchestrator, the
    supplier ledger points to a utility ledger that grants the supplier role
    to the supplier ledger, and nobody can grant or revoke their roles. *)
Definition registered (w : World) (sid : Z) : Prop :=
  let L := SupplierDetails.supplier_contract (BukTrips.getSupplier (buk w) sid) in
  exists s u,
    contracts w !! L = Some (SupplierLedger s)
    /\ hasRole (SC._roles s) FACTORY_CONTRACT_ROLE (buk_address w) = true
    /\ no_admin (SC._roles s)
    /\ contracts w !! SC.utility_contract s = Some (UtilityLedger u)
    /\ hasRole (UC._roles u) SUPPLIER_CONTRACT_ROLE L = true
    /\ no_admin (UC._roles u).

Lemma registerSupplier_Ok_inv sender cn name owner uri w u0 w' :
  BukTrips.registerSupplier sender cn name owner uri w = Ok (u0, w') ->
  exists n d,
    suppliers_of w' = <[n := d]> (suppliers_of w)
    /\ SupplierDetails.status d = true
    /\ registered w' n.
Proof.
  unfold BukTrips.registerSupplier. intros H.
  apply bind_Ok in H as ([] & w1 & Ha & H). apply onlyAdmin_Ok in Ha as [_ ->].
  apply bind_Ok in H as (s & w1 & Hg & H). inv_Ok Hg.
  apply bind_Ok in H as (n & w1 & Hn & H). apply checked_add_Ok in Hn as (_ & -> & ->).
  apply bind_Ok in H as ([] & w1 & Hp & H). apply put_buk_Ok in Hp as ->.
  apply bind_Ok in H as (me & w1 & Hg & H). inv_Ok Hg.
  set (n := Storage.BukTrips._supplierIds (buk w) + 1) in *.
  set (w1 := set_buk (Storage.BukTrips.set_supplierIds n (buk w)) w) in *.
  apply bind_Ok in H as (U & w2 & HU & H).
  pose proof (DeployerFrame.deploySupplierUtility_frame _ _ _ _ _ _ _ _ HU)
    as (_ & Ha2 & Hb2 & _).
  apply deploySupplierUtility_Ok in HU as (HUfree & HU & _).
  apply bind_Ok in H as (L & w3 & HL & H).
  pose proof (DeployerFrame.deploySupplier_frame _ _ _ _ _ _ _ _ _ _ _ HL)
    as (_ & Ha3 & Hb3 & _).
  pose proof HL as HL'. apply deploySupplier_Ok in HL as (HLfree & HL & Hrest).
  assert (L <> U) as HLU by (intros ->; congruence).
  assert (contracts w3 !! U
          = Some (UtilityLedger (UC.constructor n name (buk_address w1) uri))) as HU3.
  { unfold BukSupplierDeployer.deploySupplier in HL'.
    apply bind_Ok in HL' as (d & w4 & Hl & _). apply deployer_load_inv in Hl as [Hl _].
    rewrite Hrest; [exact HU | congruence | intros ->; congruence]. }
  apply bind_Ok in H as ([] & w4 & Hgr & H).
  pose proof (UtilityFrame.utility_grantSupplierRole_frame _ _ _ _ _ _ Hgr)
    as (_ & Ha4 & Hb4 & _).
  apply grantSupplierRole_Ok in Hgr as (u & Hu & ->). rewrite HU3 in Hu.
  injection Hu as <-.
  apply bind_Ok in H as (s4 & w5 & Hg & H). inv_Ok Hg. apply put_buk_Ok in H as ->.
  exists n. eexists. split; [|split].
  - unfold suppliers_of. simpl. rewrite Hb3, Hb2. reflexivity.
  - reflexivity.
  - unfold registered. simpl. unfold BukTrips.getSupplier. simpl.
    rewrite lookup_insert_eq. simpl.
    eexists _, _. split; [|split; [|split; [|split; [|split]]]].
    + rewrite lookup_insert_ne by congruence. exact HL.
    + simpl. rewrite Ha3, Ha2. apply hasRole_grant_mono, hasRole_grant_mono, hasRole_grant.
    + simpl. repeat apply no_admin_grant; try discriminate. apply no_admin_empty.
    + simpl. apply lookup_insert_eq.
    + simpl. apply hasRole_grant.
    + simpl. repeat apply no_admin_grant; try discriminate. apply no_admin_empty.
Qed.

(** ** The invariant *)

(** Every active supplier has its ledgers in place, and every booking was
    made with an active supplier. *)
Definition suppliers_in_place (w : World) : Prop :=
  (forall sid, active w sid -> registered w sid)
  /\ (forall k, status_of w k <> BookingStatus.nil ->
                active w (Booking.supplierId (getB w k))).

Lemma getSupplier_suppliers w w' sid :
  suppliers_of w' = suppliers_of w ->
  BukTrips.getSupplier (buk w') sid = BukTrips.getSupplier (buk w) sid.
Proof. unfold suppliers_of, BukTrips.getSupplier. intros ->. reflexivity. Qed.

Lemma registered_kept x w w' sid :
  outside w x -> ledgers_kept x w w' ->
  BukTrips.getSupplier (buk w') sid = BukTrips.getSupplier (buk w) sid ->
  registered w sid -> registered w' sid.
Proof.
  intros [Hx1 Hx2] [Ha Hk] Hs (s & u & HL & Hf & Hn & HU & Hr & Hnu).
  unfold registered. rewrite Hs, Ha.
  destruct (Hk _ _ HL) as ([s'| | |] & HL' & K); simpl in K; try contradiction.
  destruct K as [EU K]. destruct (K Hn) as [Hn' Kr].
  destruct (Hk _ _ HU) as ([|u'| |] & HU' & K'); simpl in K'; try contradiction.
  destruct (K' Hnu) as [Hnu' Kr'].
  exists s', u'. rewrite EU.
  split; [exact HL'|]. split; [apply Kr; [congruence | exact Hf]|].
  split; [exact Hn'|]. split; [exact HU'|]. split; [|exact Hnu'].
  apply Kr'; [|exact Hr]. intros E. rewrite E in HL. congruence.
Qed.

(** A transaction keeps the supplier of every written booking, and books
    with an active supplier only. *)
Lemma exec_keeps_booking_supplier sender now op w r w' k :
  counter_bounds w ->
  exec sender now op w = Ok (r, w') ->
  status_of w' k <> BookingStatus.nil ->
  (status_of w k <> BookingStatus.nil
   /\ Booking.supplierId (getB w' k) = Booking.supplierId (getB w k))
  \/ active w (Booking.supplierId (getB w' k)).
Proof.
  intros Hcb H Hst. pose proof (exec_edges sender now op w r w' Hcb H) as [_ He].
  unfold status_of in *. destruct (He k) as [E | Hedge].
  - left. rewrite <- E. auto.
  - destruct op; simpl in Hedge; try contradiction.
    + right. simpl in H. pose proof H as H'.
      apply bookRoom_Ok_inv in H' as [Ha _].
      apply bookRoom_moves in H as (n & _ & _ & Hk). destruct Hedge as (Hz & _).
      rewrite Hk in Hst |- *. rewrite Hz in Hst.
      destruct ((_ <? k) && (k <=? _)); [exact Ha|].
      exfalso. apply Hst. reflexivity.
    + left. destruct Hedge as (_ & Hb & ->). rewrite Hb. split; [discriminate | reflexivity].
    + left. destruct Hedge as (_ & Hb & ->). rewrite Hb. split; [discriminate | reflexivity].
    + left. destruct Hedge as (_ & Hb & ->). rewrite Hb. split; [discriminate | reflexivity].
    + left. destruct Hedge as (_ & Hb & ->). rewrite Hb. split; [discriminate | reflexivity].
Qed.

Lemma exec_in_place sender now op w r w' :
  counter_bounds w -> suppliers_in_place w -> outside w sender ->
  exec sender now op w = Ok (r, w') -> suppliers_in_place w'.
Proof.
  intros Hcb [Hreg Hbk] Hout H.
  pose proof (exec_keeps sender now op w r w' H) as Hk.
  pose proof (exec_keeps_suppliers sender now op w r w' H) as Hs.
  assert (forall k, status_of w' k <> BookingStatus.nil ->
            exists sid, sid = Booking.supplierId (getB w' k) /\ active w sid) as Hbk'.
  { intros k Hst.
    destruct (exec_keeps_booking_supplier sender now op w r w' k Hcb H Hst)
      as [[Hst' E] | Ha]; eexists; (split; [reflexivity|]).
    - rewrite E. apply Hbk. exact Hst'.
    - exact Ha. }
  assert ((forall sid, BukTrips.getSupplier (buk w') sid = BukTrips.getSupplier (buk w) sid)
          \/ exists n d, suppliers_of w' = <[n := d]> (suppliers_of w)
                         /\ SupplierDetails.status d = true /\ registered w' n) as Hcase.
  { destruct op; try (left; intros sid; apply getSupplier_suppliers; exact Hs).
    right. simpl in H. apply done_Ok in H as [_ [a H]].
    eapply registerSupplier_Ok_inv. exact H. }
  destruct Hcase as [Hsame | (n & d & Hins & Hd & Hnew)].
  - split.
    + intros sid Ha. unfold active in Ha. rewrite Hsame in Ha.
      eapply registered_kept; eauto.
    + intros k Hst. destruct (Hbk' k Hst) as (sid & <- & Ha).
      unfold active. rewrite Hsame. exact Ha.
  - assert (forall sid, sid <> n ->
              BukTrips.getSupplier (buk w') sid = BukTrips.getSupplier (buk w) sid) as Hne.
    { intros sid Hsid. unfold BukTrips.getSupplier. fold (suppliers_of w').
      fold (suppliers_of w). rewrite Hins, lookup_insert_ne by congruence. reflexivity. }
    assert (active w' n) as Hn.
    { unfold active, BukTrips.getSupplier. fold (suppliers_of w').
      rewrite Hins, lookup_insert_eq. exact Hd. }
    split.
    + intros sid Ha. destruct (decide (sid = n)) as [->|Hsid]; [exact Hnew|].
      unfold active in Ha. rewrite (Hne sid Hsid) in Ha.
      eapply registered_kept; eauto.
    + intros k Hst. destruct (Hbk' k Hst) as (sid & <- & Ha).
      destruct (decide (sid = n)) as [->|Hsid]; [exact Hn|].
      unfold active. rewrite (Hne _ Hsid). exact Ha.
Qed.

Lemma reachable_in_place w : reachable w -> suppliers_in_place w.
Proof.
  induction 1 as [w (d & t & c & b & Hi) | w tx Hr IH Hout].
  - split.
    + intros sid Ha. unfold active, BukTrips.getSupplier in Ha. rewrite Hi in Ha.
      discriminate.
    + intros k Hst. exfalso. apply Hst. unfold status_of, getB. rewrite Hi. reflexivity.
  - unfold step.
    destruct (exec (tx_sender tx) (tx_timestamp tx) (tx_op tx) w) as [[r w']|e] eqn:E.
    + simpl. eapply exec_in_place; eauto using reachable_counter_bounds.
    + exact IH.
Qed.

(** In a world that transactions reach, the supplier ledger of an active
    supplier serves the orchestrator. *)
Lemma reachable_serves w sid :
  reachable w -> active w sid ->
  exists s,
    serves w (SupplierDetails.supplier_contract (BukTrips.getSupplier (buk w) sid)) s.
Proof.
  intros Hr Ha. destruct (reachable_in_place w Hr) as [Hreg _].
  destruct (Hreg sid Ha) as (s & u & HL & Hf & _). exists s. split; assumption.
Qed.

(** And the booking of a minted token was made with an active supplier. *)
Lemma reachable_token_supplier w k :
  reachable w -> tokenID_of w k <> 0 -> active w (Booking.supplierId (getB w k)).
Proof.
  intros Hr Ht. destruct (reachable_in_place w Hr) as [_ Hbk]. apply Hbk.
  pose proof (reachable_token_follows_status w Hr k) as Hinv.
  unfold token_follows_status in Hinv. intros E. rewrite E in Hinv. contradiction.
Qed.

(** * The transfer lock of [toggleNFTStatus] *)

(** C8.  In a world that transactions reach, a booking [id] has a minted
    token ([tokenID > 0]), check-in time [T] and lock
    [L = TimeLocks[supplierId][id]], and the caller is an admin or the owner
    of the booking.  Then [toggleNFTStatus] returns when the block time is
    strictly below [T - L], and sets the flag of the token on the ledger of
    the booking's supplier to [status]; it reverts when the block time is
    [T - L] or more (also when [L > T], where the subtraction underflows),
    and then the world, with the flag, is as before. *)
Theorem toggleNFTStatus_lock_boundary w sender now id st :
  let b := getB w id in
  let T := Booking.checkin b in
  let L := BukTrips.getTimeLock (buk w) (Booking.supplierId b) id in
  let ledger := SupplierDetails.supplier_contract
                  (BukTrips.getSupplier (buk w) (Booking.supplierId b)) in
  let r := BukTrips.toggleNFTStatus sender now id st w in
  reachable w ->
  0 <= now ->
  0 < Booking.tokenID b ->
  is_admin w sender \/ sender = Booking.owner b ->
  (now < T - L ->
     (exists w', r = Ok (tt, w'))
     /\ transferable_at (after r w) ledger id = st
     /\ buk (after r w) = buk w)
  /\ (T - L <= now ->
        (exists e, r = Revert e)
        /\ after r w = w
        /\ transferable_at (after r w) ledger id = transferable_at w ledger id).
Proof.
  intros b T L ledger r Hreach Hnow Htok Hacc.
  destruct (reachable_serves w (Booking.supplierId b) Hreach) as [s Hserves].
  { apply reachable_token_supplier; [exact Hreach|]. unfold tokenID_of. fold b. lia. }
  fold ledger in Hserves.
  assert (r = bind (checked_sub T L)
                (fun threshold =>
                   require (now <? threshold) StateError "NFT toggle not possible now";;
                   let* me := this in
                   SupplierContract.toggleNFTStatus ledger me id st) w)
    as Hr.
  { subst r. unfold BukTrips.toggleNFTStatus.
    rewrite (bind_step _ _ _ _ _ (checkAccess_pass _ _ _ Hacc)).
    unfold bind at 1. unfold get_buk. cbv zeta. fold (getB w id). fold b.
    rewrite (bind_step _ _ _ _ _ (require_true _ _ _ _ (proj2 (Z.ltb_lt _ _) Htok))).
    fold T. fold L. fold ledger. reflexivity. }
  clearbody r. subst r. split.
  - intros Hlt.
    assert (checked_sub T L w = Ok (T - L, w)) as Hsub.
    { apply checked_sub_Ok. repeat split. lia. }
    rewrite (bind_step _ _ _ _ _ Hsub).
    rewrite (bind_step _ _ _ _ _ (require_true _ _ _ _ (proj2 (Z.ltb_lt _ _) Hlt))).
    unfold bind, this. rewrite (supplier_toggle_Ok _ _ _ _ _ Hserves).
    split; [eauto|]. split; [|reflexivity].
    unfold transferable_at, after. simpl. rewrite lookup_insert_eq.
    unfold SupplierContract.is_transferable. simpl. rewrite lookup_insert_eq.
    reflexivity.
  - intros Hge. destruct (Z.leb_spec L T) as [HLT | HLT].
    + assert (checked_sub T L w = Ok (T - L, w)) as Hsub.
      { apply checked_sub_Ok. repeat split. lia. }
      rewrite (bind_step _ _ _ _ _ Hsub).
      rewrite (bind_fail _ _ _ _
                 (require_false _ StateError "NFT toggle not possible now" _
                    (proj2 (Z.ltb_ge _ _) Hge))).
      split; [eauto|]. split; reflexivity.
    + assert (checked_sub T L w = Revert (Panic ARITHMETIC)) as Hsub.
      { unfold checked_sub. destruct (Z.leb_spec L T); [lia | reflexivity]. }
      rewrite (bind_fail _ _ _ _ Hsub).
      split; [eauto|]. split; reflexivity.
Qed.

Lemma toggleNFTStatus_lock_boundary_witness :
  let r := BukTrips.toggleNFTStatus Demo.guest 4999 1 true demo_confirmed in
  (exists w', r = Ok (tt, w'))
  /\ transferable_at (after r demo_confirmed) 2001 1 = true
  /\ buk (after r demo_confirmed) = buk demo_confirmed.
Proof.
  refine (proj1 (toggleNFTStatus_lock_boundary demo_confirmed Demo.guest 4999 1 true
                   reachable_demo_confirmed _ _ _) _).
  - lia.
  - vm_compute. reflexivity.
  - right. vm_compute. reflexivity.
  - vm_compute. reflexivity.
Defined.

(** * The ledger calls of the orchestrator *)

(** The storage of the supplier ledger after [mint(id, account, 1, "", uri,
    st)]. *)
Definition mint_one (account : Z) (st : bool) (s : SC.t) (id : Z) (uri : string)
  : SC.t :=
  SupplierContract._setURI id uri
    (SC.set_balances
       (<[(id, account) := ERC1155.balanceOf (SC._balances s) account id + 1]>
          (SC._balances s))
       (SC.set_transferable (<[id := st]> (SC.transferable s)) s)).

(** The storage after one such mint per item of the batch, in order. *)
Definition mint_batch (account : Z) (st : bool) (s : SC.t)
    (items : list (Z * string)) : SC.t :=
  foldl (fun s item => mint_one account st s (fst item) (snd item)) s items.

(** How many times [id] occurs in the batch. *)
Fixpoint occurrences (id : Z) (ids : list Z) : Z :=
  match ids with
  | [] => 0
  | x :: rest => (if x =? id then 1 else 0) + occurrences id rest
  end.

Lemma acceptance_pass to w :
  accepts_erc1155 (env w) to = true ->
  ERC1155._doSafeTransferAcceptanceCheck to w = Ok (tt, w).
Proof. unfold ERC1155._doSafeTransferAcceptanceCheck. intros ->. reflexivity. Qed.

Lemma nonzero_check a : a <> 0 -> negb (a =? 0) = true.
Proof. intros H. apply negb_true_iff, Z.eqb_neq. exact H. Qed.

Lemma ERC1155_mint_Ok bal to id amount w :
  to <> 0 -> ERC1155.balanceOf bal to id + amount <= MAX_UINT256 ->
  accepts_erc1155 (env w) to = true ->
  ERC1155._mint bal to id amount w
    = Ok (<[(id, to) := ERC1155.balanceOf bal to id + amount]> bal, w).
Proof.
  intros Hto Hb Hacc. unfold ERC1155._mint.
  rewrite (bind_step _ _ _ _ _ (require_true _ _ _ _ (nonzero_check _ Hto))).
  rewrite (bind_step _ _ _ _ _ (proj2 (checked_add_Ok _ _ _ _ _)
             (conj Hb (conj eq_refl eq_refl)))).
  rewrite (bind_step _ _ _ _ _ (acceptance_pass _ _ Hacc)).
  reflexivity.
Qed.

Lemma ERC1155_burn_Ok bal from id amount w :
  from <> 0 -> amount <= ERC1155.balanceOf bal from id ->
  ERC1155._burn bal from id amount w
    = Ok (<[(id, from) := ERC1155.balanceOf bal from id - amount]> bal, w).
Proof.
  intros Hfrom Hb. unfold ERC1155._burn.
  rewrite (bind_step _ _ _ _ _ (require_true _ _ _ _ (nonzero_check _ Hfrom))).
  cbv zeta.
  rewrite (bind_step _ _ _ _ _ (require_true _ _ _ _ (proj2 (Z.leb_le _ _) Hb))).
  reflexivity.
Qed.

Lemma supplier_mint_Ok ledger s w id account uri st :
  serves w ledger s -> account <> 0 -> accepts_erc1155 (env w) account = true ->
  ERC1155.balanceOf (SC._balances s) account id + 1 <= MAX_UINT256 ->
  SupplierContract.mint ledger (buk_address w) id account 1 uri st w
    = Ok (id, set_contracts
                (<[ledger := SupplierLedger (mint_one account st s id uri)]>
                   (contracts w)) w).
Proof.
  intros [Hl Hr] Hacc Hok Hb. unfold SupplierContract.mint.
  rewrite (bind_step _ _ _ _ _ (supplier_load_Ok _ _ _ Hl)).
  rewrite (bind_step _ _ _ _ _ (onlyRole_pass _ _ _ _ Hr)).
  cbv zeta.
  rewrite (bind_step _ _ _ _ _ (ERC1155_mint_Ok _ _ _ _ _ Hacc Hb Hok)).
  reflexivity.
Qed.

Lemma balanceOf_insert bal id account x id' account' :
  ERC1155.balanceOf (<[(id, account) := x]> bal) account' id' =
  if decide ((id, account) = (id', account')) then x
  else ERC1155.balanceOf bal account' id'.
Proof.
  unfold ERC1155.balanceOf. rewrite lookup_insert.
  destruct (decide ((id, account) = (id', account'))); reflexivity.
Qed.

Lemma mint_one_balance account st s id uri id' :
  ERC1155.balanceOf (SC._balances (mint_one account st s id uri)) account id' =
  ERC1155.balanceOf (SC._balances s) account id' + (if id =? id' then 1 else 0).
Proof.
  unfold mint_one. simpl. rewrite balanceOf_insert.
  destruct (decide ((id, account) = (id', account))) as [E | E].
  - injection E as ->. rewrite Z.eqb_refl. reflexivity.
  - destruct (Z.eqb_spec id id') as [->|]; [contradiction | lia].
Qed.

Lemma mint_one_roles account st s id uri :
  SC._roles (mint_one account st s id uri) = SC._roles s.
Proof. reflexivity. Qed.


Lemma mint_batch_snoc account st s items id uri :
  mint_batch account st s (items ++ [(id, uri)]) =
  mint_one account st (mint_batch account st s items) id uri.
Proof. unfold mint_batch. rewrite foldl_app. reflexivity. Qed.

Lemma mint_batch_nil account st s : mint_batch account st s [] = s.
Proof. reflexivity. Qed.

Lemma mint_batch_cons account st s id uri items :
  mint_batch account st s ((id, uri) :: items) =
  mint_batch account st (mint_one account st s id uri) items.
Proof. reflexivity. Qed.

Lemma mint_batch_roles account st items : forall s,
  SC._roles (mint_batch account st s items) = SC._roles s.
Proof.
  induction items as [|[id uri] items IH]; intros s; [reflexivity|].
  rewrite mint_batch_cons, IH. apply mint_one_roles.
Qed.

Lemma mint_batch_balance account st id' items : forall s,
  ERC1155.balanceOf (SC._balances (mint_batch account st s items)) account id' =
  ERC1155.balanceOf (SC._balances s) account id' + occurrences id' (fst <$> items).
Proof.
  induction items as [|[id uri] items IH]; intros s.
  - rewrite mint_batch_nil. simpl. lia.
  - rewrite mint_batch_cons, IH, mint_one_balance.
    change (fst <$> (id, uri) :: items) with (id :: (fst <$> items)).
    cbn [occurrences]. destruct (id =? id'); lia.
Qed.


Lemma occurrences_nonneg id ids : 0 <= occurrences id ids.
Proof. induction ids as [|x ids IH]; simpl; [lia|]. destruct (x =? id); lia. Qed.

Lemma occurrences_le_length id ids : occurrences id ids <= Z.of_nat (length ids).
Proof. induction ids as [|x ids IH]; simpl; [lia|]. destruct (x =? id); lia. Qed.

Lemma occurrences_app id l1 l2 :
  occurrences id (l1 ++ l2) = occurrences id l1 + occurrences id l2.
Proof. induction l1 as [|x l1 IH]; simpl; [lia|]. rewrite IH. lia. Qed.

(** ** [confirmRoom] on a batch that passes its checks *)

Section ConfirmRoom.
Variables (sender sid : Z) (ids : list Z) (uris : list string) (st : bool).
Variable w : World.
Variable s : SC.t.

Let L := SupplierDetails.supplier_contract (BukTrips.getSupplier (buk w) sid).
Let N := Z.of_nat (length ids).

Hypothesis Hactive : active w sid.
Hypothesis Hvalid :
  forall id, id ∈ ids ->
    status_of w id = BookingStatus.booked /\ Booking.owner (getB w id) = sender.
Hypothesis Huris : length ids = length uris.
Hypothesis Hlimit : N < 11.
Hypothesis Hserves : serves w L s.
Hypothesis Hsender : sender <> 0.
Hypothesis Haccepts : accepts_erc1155 (env w) sender = true.
Hypothesis Hbalance :
  forall id, id ∈ ids ->
    ERC1155.balanceOf (SC._balances s) sender id + N <= MAX_UINT256.

(** The round [i] of the second loop of [confirmRoom]. *)
Let round (i : Z) (_ : unit) : M unit :=
  let* id := index ids i in
  BukTrips.write_status id BookingStatus.confirmed;;
  let* s1 := get_buk in
  let* u := index uris i in
  SupplierContract.mint L (buk_address w) id
    (Booking.owner (BukTrips.getBooking s1 id)) 1 u st;;
  BukTrips.write_tokenID id id.

(** The world after [j] rounds. *)
Let rounds_done (j : Z) (_ : unit) (w1 : World) : Prop :=
  0 <= j <= N
  /\ env w1 = env w /\ buk_address w1 = buk_address w /\ calls w1 = calls w
  /\ contracts w1 =
     <[L := SupplierLedger (mint_batch sender st s (take (Z.to_nat j) (zip ids uris)))]>
       (contracts w)
  /\ moves_all confirmed_record (take (Z.to_nat j) ids) w w1.

Lemma confirm_owner_kept j w1 id :
  moves_all confirmed_record (take (Z.to_nat j) ids) w w1 -> id ∈ ids ->
  Booking.owner (getB w1 id) = sender.
Proof.
  intros [_ Hk] Hin. rewrite Hk. destruct (decide _); simpl; apply (Hvalid id Hin).
Qed.

Lemma confirm_round j w1 id uri :
  rounds_done j tt w1 -> j < N ->
  ids !! Z.to_nat j = Some id -> uris !! Z.to_nat j = Some uri ->
  exists w2, round j tt w1 = Ok (tt, w2) /\ rounds_done (j + 1) tt w2.
Proof.
  intros ([Hj0 _] & He & Ha & Hcl & Hct & Hm) Hj Hid Huri.
  assert (id ∈ ids) as Hin by (apply list_elem_of_lookup; eauto).
  pose proof (confirm_owner_kept j w1 id Hm Hin) as Hown.
  set (sj := mint_batch sender st s (take (Z.to_nat j) (zip ids uris))) in *.
  set (w1' := set_buk (BukTrips.setBooking id
                (Booking.set_status BookingStatus.confirmed (getB w1 id)) (buk w1)) w1).
  assert (serves w1' L sj) as Hsv.
  { split.
    - simpl. rewrite Hct. apply lookup_insert_eq.
    - simpl. rewrite Ha. unfold sj. rewrite mint_batch_roles. apply Hserves. }
  assert (ERC1155.balanceOf (SC._balances sj) sender id + 1 <= MAX_UINT256) as Hb.
  { unfold sj. rewrite mint_batch_balance.
    pose proof (occurrences_le_length id (fst <$> take (Z.to_nat j) (zip ids uris))) as Ho.
    rewrite length_fmap, length_take in Ho.
    pose proof (Hbalance id Hin). subst N. lia. }
  assert (Booking.owner (BukTrips.getBooking (buk w1') id) = sender) as Hown'.
  { change (BukTrips.getBooking (buk w1') id) with (getB w1' id).
    unfold w1'. rewrite getB_setBooking, decide_True by reflexivity. exact Hown. }
  eexists. split.
  - unfold round.
    rewrite (bind_step _ _ _ _ _ (proj2 (index_Ok _ _ _ _ _) (conj Hid eq_refl))).
    rewrite (bind_step _ _ _ _ _ (write_status_eq _ _ _)). fold w1'.
    unfold bind at 1. unfold get_buk.
    rewrite (bind_step _ _ _ _ _ (proj2 (index_Ok _ _ _ _ _) (conj Huri eq_refl))).
    rewrite Hown'. replace (buk_address w) with (buk_address w1') by exact Ha.
    rewrite (bind_step _ _ _ _ _
               (supplier_mint_Ok L sj w1' id sender uri st Hsv Hsender
                  ltac:(simpl; rewrite He; exact Haccepts) Hb)).
    rewrite write_tokenID_eq. reflexivity.
  - split; [lia|]. simpl. repeat split; try assumption.
    + rewrite Hct, insert_insert_eq.
      replace (Z.to_nat (j + 1)) with (Datatypes.S (Z.to_nat j)) by lia.
      rewrite (take_S_r _ _ (id, uri)).
      * rewrite mint_batch_snoc. reflexivity.
      * apply lookup_zip_with_Some. eauto.
    + destruct Hm as [Hc _]. exact Hc.
    + intros k.
      replace (Z.to_nat (j + 1)) with (Datatypes.S (Z.to_nat j)) by lia.
      rewrite (take_S_r _ _ _ Hid).
      assert (moves_one confirmed_record id w1
                (set_buk (BukTrips.setBooking id
                   (Booking.set_tokenID id (getB w1' id)) (buk w1')) w1')) as Hone.
      { split; [reflexivity|]. intros k'. rewrite getB_setBooking.
        case_decide as Hk'; [|unfold w1'; rewrite getB_setBooking;
                               rewrite decide_False by exact Hk'; reflexivity].
        unfold w1'. rewrite getB_setBooking, decide_True by reflexivity.
        reflexivity. }
      assert (forall k b, confirmed_record k (confirmed_record k b) = confirmed_record k b)
        as Hidem by (intros ? []; reflexivity).
      destruct (moves_all_snoc _ _ _ _ _ _ Hidem Hm Hone) as [_ Hk].
      rewrite <- Hk. reflexivity.
Qed.

Lemma confirm_rounds :
  exists w',
    for_uint8 N round tt w = Ok (tt, w') /\ rounds_done N tt w'.
Proof.
  assert (rounds_done 0 tt w) as H0.
  { split; [subst N; lia|]. split; [reflexivity|]. split; [reflexivity|].
    split; [reflexivity|]. split; [|apply moves_all_nil].
    simpl. symmetry. apply insert_id. apply Hserves. }
  destruct (for_uint8_Ok N round rounds_done) with (s := tt) (w := w)
    as ([] & w' & H & HP); [| | unfold MAX_UINT8; subst N; lia | exact H0 | eauto].
  - intros j [] w1 [] w2 Hj HP Hb.
    destruct (lookup_lt_is_Some_2 ids (Z.to_nat j)) as [id Hid]; [subst N; lia|].
    destruct (lookup_lt_is_Some_2 uris (Z.to_nat j)) as [uri Huri];
      [rewrite <- Huris; subst N; lia|].
    destruct (confirm_round j w1 id uri HP) as (w3 & E & HP'); [lia | assumption..|].
    rewrite E in Hb. injection Hb as <-. exact HP'.
  - intros j [] w1 Hj HP.
    destruct (lookup_lt_is_Some_2 ids (Z.to_nat j)) as [id Hid]; [subst N; lia|].
    destruct (lookup_lt_is_Some_2 uris (Z.to_nat j)) as [uri Huri];
      [rewrite <- Huris; subst N; lia|].
    destruct (confirm_round j w1 id uri HP) as (w3 & E & HP'); [lia | assumption..|].
    eauto.
Qed.

Lemma confirmRoom_Ok :
  exists w',
    BukTrips.confirmRoom sender sid ids uris st w = Ok (tt, w')
    /\ moves_all confirmed_record ids w w'
    /\ contracts w' =
       <[L := SupplierLedger (mint_batch sender st s (zip ids uris))]> (contracts w)
    /\ env w' = env w /\ buk_address w' = buk_address w /\ calls w' = calls w.
Proof.
  destruct confirm_rounds as (w' & Hloop & (_ & He & Ha & Hcl & Hct & Hm)).
  exists w'. split.
  - unfold BukTrips.confirmRoom.
    rewrite (bind_step _ _ _ _ _ (supplierRegistered_pass _ _ Hactive)).
    erewrite (bind_step _ _ w tt w).
    2:{ apply (check_loop_pass ids
                 (fun id =>
                    let* s0 := get_buk in
                    require (BookingStatus.eqb
                               (Booking.status (BukTrips.getBooking s0 id))
                               BookingStatus.booked)
                            StateError "Check the Booking status";;
                    require (bool_decide
                               (Booking.owner (BukTrips.getBooking s0 id) = sender))
                            AuthorizationError "Only booking owner has access")).
        - unfold MAX_UINT8. subst N. lia.
        - intros id Hin. destruct (Hvalid id Hin) as [Hs Ho].
          unfold bind, get_buk.
          rewrite (require_true _ _ _ _ (proj2 (BookingStatus.eqb_eq _ _) Hs)).
          apply require_true. apply bool_decide_eq_true_2. exact Ho. }
    assert ((Z.of_nat (length ids) =? Z.of_nat (length uris)) = true) as Hsz
      by (apply Z.eqb_eq; lia).
    rewrite (bind_step _ _ _ _ _ (require_true _ _ _ _ Hsz)).
    rewrite (bind_step _ _ _ _ _ (require_true _ _ _ _ (proj2 (Z.ltb_lt _ _) Hlimit))).
    unfold bind at 1. unfold get_buk. cbv zeta.
    unfold bind at 1. unfold this.
    exact Hloop.
  - subst N. rewrite Nat2Z.id in Hct, Hm. rewrite firstn_all in Hm.
    rewrite take_ge in Hct by (rewrite length_zip_with; lia).
    split; [exact Hm|]. split; [exact Hct|]. auto.
Qed.
End ConfirmRoom.

(** The balance of [account] for token [id] on the supplier ledger at
    [ledger]. *)
Definition balance_at (w : World) (ledger account id : Z) : Z :=
  match contracts w !! ledger with
  | Some (SupplierLedger s) => ERC1155.balanceOf (SC._balances s) account id
  | _ => 0
  end.



Lemma reachable_demo_two_rooms : reachable demo_two_rooms.
Proof.
  apply (reachable_step (Demo.ready Demo.paying)
           (Demo.tx Demo.guest (bookRoom 1 2 [1000; 2000] [100; 200] 5000 6000))).
  - apply reachable_ready.
  - apply is_outside_true. vm_compute. reflexivity.
Qed.


(** ** Burning on the supplier ledger *)

(** The storage of the supplier ledger after [burn(account, id, 1, _)]. *)
Definition burn_one (account : Z) (s : SC.t) (id : Z) : SC.t :=
  SC.set_balances
    (<[(id, account) := ERC1155.balanceOf (SC._balances s) account id - 1]>
       (SC._balances s))
    (SC.set_bookingTickets (<[id := ""%string]> (SC.bookingTickets s)) s).

(** The storage of the utility ledger after [mint(account, id, 1, uri, "")]. *)
Definition utility_mint_one (account : Z) (u : UC.t) (id : Z) (uri : string) : UC.t :=
  SupplierUtilityContract._setURI id uri
    (UC.set_balances
       (<[(id, account) := ERC1155.balanceOf (UC._balances u) account id + 1]>
          (UC._balances u)) u).

(** The utility ledger of the supplier ledger [s] holds [u] and grants the
    supplier-contract role to the ledger at [ledger]. *)
Definition paired (w : World) (ledger : Z) (s : SC.t) (u : UC.t) : Prop :=
  contracts w !! SC.utility_contract s = Some (UtilityLedger u)
  /\ hasRole (UC._roles u) SUPPLIER_CONTRACT_ROLE ledger = true.

Lemma utility_load_Ok ledger u w :
  contracts w !! ledger = Some (UtilityLedger u) ->
  SupplierUtilityContract.load ledger w = Ok (u, w).
Proof. unfold SupplierUtilityContract.load. intros ->. reflexivity. Qed.

Lemma utility_mint_Ok ledger u w sender account id uri :
  contracts w !! ledger = Some (UtilityLedger u) ->
  hasRole (UC._roles u) SUPPLIER_CONTRACT_ROLE sender = true ->
  account <> 0 -> accepts_erc1155 (env w) account = true ->
  ERC1155.balanceOf (UC._balances u) account id + 1 <= MAX_UINT256 ->
  SupplierUtilityContract.mint ledger sender account id 1 uri w
    = Ok (tt, set_contracts
                (<[ledger := UtilityLedger (utility_mint_one account u id uri)]>
                   (contracts w)) w).
Proof.
  intros Hl Hr Hacc Hok Hb. unfold SupplierUtilityContract.mint.
  rewrite (bind_step _ _ _ _ _ (utility_load_Ok _ _ _ Hl)).
  rewrite (bind_step _ _ _ _ _ (onlyRole_pass _ _ _ _ Hr)).
  rewrite (bind_step _ _ _ _ _ (ERC1155_mint_Ok _ _ _ _ _ Hacc Hb Hok)).
  reflexivity.
Qed.

Lemma supplier_burn_plain_Ok ledger s w account id :
  serves w ledger s -> account <> 0 ->
  1 <= ERC1155.balanceOf (SC._balances s) account id ->
  SupplierContract.burn ledger (buk_address w) account id 1 false w
    = Ok (tt, set_contracts
                (<[ledger := SupplierLedger (burn_one account s id)]> (contracts w)) w).
Proof.
  intros [Hl Hr] Hacc Hb. unfold SupplierContract.burn.
  rewrite (bind_step _ _ _ _ _ (supplier_load_Ok _ _ _ Hl)).
  rewrite (bind_step _ _ _ _ _ (onlyRole_pass _ _ _ _ Hr)).
  cbv zeta. unfold SupplierContract.store at 1.
  unfold bind at 1. unfold put_contract at 1.
  unfold bind at 1. unfold ret at 1.
  rewrite (bind_step _ _ _ _ _ (supplier_load_Ok _ _ _ (lookup_insert_eq _ _ _))).
  rewrite (bind_step _ _ _ _ _ (ERC1155_burn_Ok _ _ _ _ _ Hacc Hb)).
  unfold SupplierContract.store, put_contract. simpl.
  rewrite insert_insert_eq. reflexivity.
Qed.

Lemma supplier_burn_utility_Ok ledger s u w account id :
  serves w ledger s -> paired w ledger s u -> account <> 0 ->
  accepts_erc1155 (env w) account = true ->
  1 <= ERC1155.balanceOf (SC._balances s) account id ->
  ERC1155.balanceOf (UC._balances u) account id + 1 <= MAX_UINT256 ->
  SupplierContract.burn ledger (buk_address w) account id 1 true w
    = Ok (tt, set_contracts
                (<[ledger := SupplierLedger (burn_one account s id)]>
                   (<[SC.utility_contract s :=
                        UtilityLedger
                          (utility_mint_one account u id (SupplierContract.uri s id))]>
                      (contracts w))) w).
Proof.
  intros [Hl Hr] [Hu Hur] Hacc Hok Hb Hub.
  assert (ledger <> SC.utility_contract s) as Hne by congruence.
  unfold SupplierContract.burn.
  rewrite (bind_step _ _ _ _ _ (supplier_load_Ok _ _ _ Hl)).
  rewrite (bind_step _ _ _ _ _ (onlyRole_pass _ _ _ _ Hr)).
  cbv zeta. unfold SupplierContract.store at 1.
  unfold bind at 1. unfold put_contract at 1.
  set (w1 := set_contracts
               (<[ledger := SupplierLedger
                    (SC.set_bookingTickets (<[id := ""%string]> (SC.bookingTickets s)) s)]>
                  (contracts w)) w).
  assert (contracts w1 !! SC.utility_contract s = Some (UtilityLedger u)) as Hu1.
  { unfold w1. simpl. rewrite lookup_insert_ne by exact Hne. exact Hu. }
  rewrite (bind_step _ _ _ _ _
             (utility_mint_Ok (SC.utility_contract s) u w1 ledger account id
                (SupplierContract.uri s id) Hu1 Hur Hacc Hok Hub)).
  set (w2 := set_contracts _ w1).
  assert (contracts w2 !! ledger
          = Some (SupplierLedger
                    (SC.set_bookingTickets (<[id := ""%string]> (SC.bookingTickets s)) s)))
    as Hl2.
  { unfold w2, w1. simpl. rewrite lookup_insert_ne by congruence.
    apply lookup_insert_eq. }
  rewrite (bind_step _ _ _ _ _ (supplier_load_Ok _ _ _ Hl2)).
  rewrite (bind_step _ _ _ _ _ (ERC1155_burn_Ok _ _ _ _ _ Hacc Hb)).
  unfold w2, w1.
  unfold SupplierContract.store, put_contract. simpl.
  rewrite (insert_insert_ne _ (SC.utility_contract s) ledger) by congruence.
  rewrite insert_insert_eq. reflexivity.
Qed.

Lemma for_uint8_one {S} (body : Z -> S -> M S) s w s' w' :
  body 0 s w = Ok (s', w') -> for_uint8 1 body s w = Ok (s', w').
Proof.
  intros H. unfold for_uint8. change 256%nat with (Datatypes.S 255).
  cbn [for_uint8_from]. change (0 <? 1) with true. cbv iota.
  rewrite (bind_step _ _ _ _ _ H). change (0 =? MAX_UINT8) with false. cbv iota.
  change 255%nat with (Datatypes.S 254). cbn [for_uint8_from].
  change (0 + 1 <? 1) with false. reflexivity.
Qed.

(** ** [checkout] and [cancelRoom] on one confirmed booking *)

(** The collaborators answer every call. *)
Definition answers (w : World) : Prop :=
  forall past c, answer (env w) past c <> reverts.

Lemma external_call_answers callee c w :
  outside w callee -> answers w ->
  exists b, external_call callee c w = Ok (b, set_calls (calls w ++ [c]) w).
Proof.
  intros Hout Hans. destruct (answer (env w) (calls w) c) as [b|] eqn:E.
  - exists b. apply external_call_returns; assumption.
  - exfalso. apply (Hans _ _ E).
Qed.

Section OneBooking.
Variables (admin sid id : Z).
Variable w : World.
Variable s : SC.t.

Let b := getB w id.
Let owner := Booking.owner b.
Let L := SupplierDetails.supplier_contract (BukTrips.getSupplier (buk w) sid).

Hypothesis Hadmin : is_admin w admin.
Hypothesis Hactive : active w sid.
Hypothesis Hconfirmed : status_of w id = BookingStatus.confirmed.
Hypothesis Hserves : serves w L s.
Hypothesis Howner : owner <> 0.
Hypothesis Hholds : 1 <= ERC1155.balanceOf (SC._balances s) owner id.

Lemma checkout_one_Ok u :
  paired w L s u ->
  accepts_erc1155 (env w) owner = true ->
  ERC1155.balanceOf (UC._balances u) owner id + 1 <= MAX_UINT256 ->
  BukTrips.checkout admin sid [id] w
    = Ok (tt,
          set_contracts
            (<[L := SupplierLedger (burn_one owner s id)]>
               (<[SC.utility_contract s :=
                    UtilityLedger
                      (utility_mint_one owner u id (SupplierContract.uri s id))]>
                  (contracts w)))
            (set_buk (BukTrips.setBooking id
                        (Booking.set_status BookingStatus.expired b) (buk w)) w)).
Proof.
  intros Hp Hacc Hub. unfold BukTrips.checkout.
  rewrite (bind_step _ _ _ _ _ (onlyAdmin_pass _ _ Hadmin)).
  rewrite (bind_step _ _ _ _ _ (supplierRegistered_pass _ _ Hactive)).
  change (Z.of_nat (length [id])) with 1.
  rewrite (bind_step _ _ _ _ _ (require_true (1 <? 11) _ _ _ eq_refl)).
  erewrite (bind_step _ _ w tt w).
  2:{ apply for_uint8_one.
      rewrite (bind_step _ _ _ _ _ (proj2 (index_Ok [id] 0 w id w) (conj eq_refl eq_refl))).
      unfold bind, get_buk. apply require_true. apply BookingStatus.eqb_eq.
      exact Hconfirmed. }
  unfold bind at 1. unfold this.
  erewrite for_uint8_one; [reflexivity|].
  rewrite (bind_step _ _ _ _ _ (proj2 (index_Ok [id] 0 w id w) (conj eq_refl eq_refl))).
  rewrite (bind_step _ _ _ _ _ (write_status_eq _ _ _)).
  unfold bind at 1. unfold get_buk.
  set (w1 := set_buk _ w).
  assert (Booking.owner (BukTrips.getBooking (buk w1) id) = owner) as ->.
  { change (BukTrips.getBooking (buk w1) id) with (getB w1 id).
    unfold w1. rewrite getB_setBooking, decide_True by reflexivity. reflexivity. }
  change (BukTrips.getSupplier (buk w1) sid) with (BukTrips.getSupplier (buk w) sid).
  fold L.
  exact (supplier_burn_utility_Ok L s u w1 owner id Hserves Hp Howner Hacc Hholds Hub).
Qed.

Lemma cancelRoom_one_Ok penalty refund charges :
  let treasury := Storage.BukTrips.treasury (buk w) in
  let c1 := cancelUSDCRefund treasury penalty
              (SupplierDetails.supplier_owner
                 (BukTrips.getSupplier (buk w) (Booking.supplierId b))) in
  let c2 := cancelUSDCRefund treasury refund owner in
  let c3 := cancelUSDCRefund treasury charges (Storage.BukTrips.buk_wallet (buk w)) in
  outside w treasury -> answers w ->
  BukTrips.cancelRoom admin sid id penalty refund charges w
    = Ok (tt,
          set_contracts
            (<[L := SupplierLedger (burn_one owner s id)]> (contracts w))
            (set_calls (calls w ++ [c1; c2; c3])
               (set_buk (BukTrips.setBooking id
                           (Booking.set_status BookingStatus.cancelled b) (buk w)) w))).
Proof.
  intros treasury c1 c2 c3 Hout Hans. unfold BukTrips.cancelRoom.
  rewrite (bind_step _ _ _ _ _ (onlyAdmin_pass _ _ Hadmin)).
  rewrite (bind_step _ _ _ _ _ (supplierRegistered_pass _ _ Hactive)).
  unfold bind at 1. unfold get_buk.
  rewrite (bind_step _ _ _ _ _
             (require_true _ _ _ _ (proj2 (BookingStatus.eqb_eq _ _) Hconfirmed))).
  cbv zeta.
  rewrite (bind_step _ _ _ _ _ (write_status_eq _ _ _)).
  unfold bind at 1. unfold get_buk.
  set (w1 := set_buk _ w).
  assert (BukTrips.getBooking (buk w1) id
          = Booking.set_status BookingStatus.cancelled b) as Eb.
  { change (BukTrips.getBooking (buk w1) id) with (getB w1 id).
    unfold w1. rewrite getB_setBooking, decide_True by reflexivity. reflexivity. }
  rewrite Eb. simpl Booking.supplierId. simpl Booking.owner.
  change (Storage.BukTrips.treasury (buk w1)) with treasury.
  change (Storage.BukTrips.buk_wallet (buk w1)) with (Storage.BukTrips.buk_wallet (buk w)).
  change (BukTrips.getSupplier (buk w1) (Booking.supplierId b))
    with (BukTrips.getSupplier (buk w) (Booking.supplierId b)).
  fold owner. fold c1. fold c2. fold c3.
  destruct (external_call_answers treasury c1 w1 Hout Hans) as (b1 & E1).
  rewrite (bind_step _ _ _ _ _ E1).
  destruct (external_call_answers treasury c2 (set_calls (calls w1 ++ [c1]) w1)
              Hout Hans) as (b2 & E2).
  rewrite (bind_step _ _ _ _ _ E2).
  destruct (external_call_answers treasury c3
              (set_calls (calls (set_calls (calls w1 ++ [c1]) w1) ++ [c2])
                 (set_calls (calls w1 ++ [c1]) w1)) Hout Hans) as (b3 & E3).
  rewrite (bind_step _ _ _ _ _ E3).
  unfold bind at 1. unfold this.
  set (w4 := set_calls _ _).
  fold L.
  rewrite (supplier_burn_plain_Ok L s w4 owner id Hserves Howner Hholds).
  unfold w4, w1. simpl. rewrite <- !app_assoc. reflexivity.
Qed.
End OneBooking.

Lemma for_uint8_one_Revert {S} (body : Z -> S -> M S) s w e :
  body 0 s w = Revert e -> for_uint8 1 body s w = Revert e.
Proof.
  intros H. unfold for_uint8. change 256%nat with (Datatypes.S 255).
  cbn [for_uint8_from]. change (0 <? 1) with true. cbv iota.
  apply bind_fail. exact H.
Qed.

Lemma ERC1155_burn_exceeds bal from id amount w :
  from <> 0 -> ERC1155.balanceOf bal from id < amount ->
  ERC1155._burn bal from id amount w
    = Revert (Require Fault "ERC1155: burn amount exceeds balance").
Proof.
  intros Hfrom Hb. unfold ERC1155._burn.
  rewrite (bind_step _ _ _ _ _ (require_true _ _ _ _ (nonzero_check _ Hfrom))).
  cbv zeta. apply bind_fail, require_false. apply Z.leb_gt. exact Hb.
Qed.

Lemma supplier_burn_plain_exceeds ledger s w account id :
  serves w ledger s -> account <> 0 ->
  ERC1155.balanceOf (SC._balances s) account id < 1 ->
  SupplierContract.burn ledger (buk_address w) account id 1 false w
    = Revert (Require Fault "ERC1155: burn amount exceeds balance").
Proof.
  intros [Hl Hr] Hacc Hb. unfold SupplierContract.burn.
  rewrite (bind_step _ _ _ _ _ (supplier_load_Ok _ _ _ Hl)).
  rewrite (bind_step _ _ _ _ _ (onlyRole_pass _ _ _ _ Hr)).
  cbv zeta. unfold SupplierContract.store at 1.
  unfold bind at 1. unfold put_contract at 1.
  unfold bind at 1. unfold ret at 1.
  rewrite (bind_step _ _ _ _ _ (supplier_load_Ok _ _ _ (lookup_insert_eq _ _ _))).
  apply bind_fail. apply ERC1155_burn_exceeds; assumption.
Qed.

Lemma supplier_burn_utility_exceeds ledger s u w account id :
  serves w ledger s -> paired w ledger s u -> account <> 0 ->
  accepts_erc1155 (env w) account = true ->
  ERC1155.balanceOf (SC._balances s) account id < 1 ->
  ERC1155.balanceOf (UC._balances u) account id + 1 <= MAX_UINT256 ->
  SupplierContract.burn ledger (buk_address w) account id 1 true w
    = Revert (Require Fault "ERC1155: burn amount exceeds balance").
Proof.
  intros [Hl Hr] [Hu Hur] Hacc Hok Hb Hub.
  assert (ledger <> SC.utility_contract s) as Hne by congruence.
  unfold SupplierContract.burn.
  rewrite (bind_step _ _ _ _ _ (supplier_load_Ok _ _ _ Hl)).
  rewrite (bind_step _ _ _ _ _ (onlyRole_pass _ _ _ _ Hr)).
  cbv zeta. unfold SupplierContract.store at 1.
  unfold bind at 1. unfold put_contract at 1.
  set (w1 := set_contracts
               (<[ledger := SupplierLedger
                    (SC.set_bookingTickets (<[id := ""%string]> (SC.bookingTickets s)) s)]>
                  (contracts w)) w).
  assert (contracts w1 !! SC.utility_contract s = Some (UtilityLedger u)) as Hu1.
  { unfold w1. simpl. rewrite lookup_insert_ne by exact Hne. exact Hu. }
  rewrite (bind_step _ _ _ _ _
             (utility_mint_Ok (SC.utility_contract s) u w1 ledger account id
                (SupplierContract.uri s id) Hu1 Hur Hacc Hok Hub)).
  set (w2 := set_contracts _ w1).
  assert (contracts w2 !! ledger
          = Some (SupplierLedger
                    (SC.set_bookingTickets (<[id := ""%string]> (SC.bookingTickets s)) s)))
    as Hl2.
  { unfold w2, w1. simpl. rewrite lookup_insert_ne by congruence.
    apply lookup_insert_eq. }
  rewrite (bind_step _ _ _ _ _ (supplier_load_Ok _ _ _ Hl2)).
  apply bind_fail. apply ERC1155_burn_exceeds; assumption.
Qed.

(** ** [checkout] and [cancelRoom] on a booking whose token is on another
    ledger *)

Section TokenElsewhere.
Variables (admin sid id : Z).
Variable w : World.
Variable s : SC.t.

Let b := getB w id.
Let owner := Booking.owner b.
Let L := SupplierDetails.supplier_contract (BukTrips.getSupplier (buk w) sid).

Hypothesis Hadmin : is_admin w admin.
Hypothesis Hactive : active w sid.
Hypothesis Hconfirmed : status_of w id = BookingStatus.confirmed.
Hypothesis Hserves : serves w L s.
Hypothesis Howner : owner <> 0.
Hypothesis Hnone : ERC1155.balanceOf (SC._balances s) owner id < 1.

Lemma checkout_one_exceeds u :
  paired w L s u ->
  accepts_erc1155 (env w) owner = true ->
  ERC1155.balanceOf (UC._balances u) owner id + 1 <= MAX_UINT256 ->
  BukTrips.checkout admin sid [id] w
    = Revert (Require Fault "ERC1155: burn amount exceeds balance").
Proof.
  intros Hp Hacc Hub. unfold BukTrips.checkout.
  rewrite (bind_step _ _ _ _ _ (onlyAdmin_pass _ _ Hadmin)).
  rewrite (bind_step _ _ _ _ _ (supplierRegistered_pass _ _ Hactive)).
  change (Z.of_nat (length [id])) with 1.
  rewrite (bind_step _ _ _ _ _ (require_true (1 <? 11) _ _ _ eq_refl)).
  erewrite (bind_step _ _ w tt w).
  2:{ apply for_uint8_one.
      rewrite (bind_step _ _ _ _ _ (proj2 (index_Ok [id] 0 w id w) (conj eq_refl eq_refl))).
      unfold bind, get_buk. apply require_true. apply BookingStatus.eqb_eq.
      exact Hconfirmed. }
  unfold bind at 1. unfold this.
  apply for_uint8_one_Revert.
  rewrite (bind_step _ _ _ _ _ (proj2 (index_Ok [id] 0 w id w) (conj eq_refl eq_refl))).
  rewrite (bind_step _ _ _ _ _ (write_status_eq _ _ _)).
  unfold bind at 1. unfold get_buk.
  set (w1 := set_buk _ w).
  assert (Booking.owner (BukTrips.getBooking (buk w1) id) = owner) as ->.
  { change (BukTrips.getBooking (buk w1) id) with (getB w1 id).
    unfold w1. rewrite getB_setBooking, decide_True by reflexivity. reflexivity. }
  change (BukTrips.getSupplier (buk w1) sid) with (BukTrips.getSupplier (buk w) sid).
  fold L.
  exact (supplier_burn_utility_exceeds L s u w1 owner id Hserves Hp Howner Hacc Hnone Hub).
Qed.

Lemma cancelRoom_one_exceeds penalty refund charges :
  outside w (Storage.BukTrips.treasury (buk w)) -> answers w ->
  BukTrips.cancelRoom admin sid id penalty refund charges w
    = Revert (Require Fault "ERC1155: burn amount exceeds balance").
Proof.
  intros Hout Hans. unfold BukTrips.cancelRoom.
  rewrite (bind_step _ _ _ _ _ (onlyAdmin_pass _ _ Hadmin)).
  rewrite (bind_step _ _ _ _ _ (supplierRegistered_pass _ _ Hactive)).
  unfold bind at 1. unfold get_buk.
  rewrite (bind_step _ _ _ _ _
             (require_true _ _ _ _ (proj2 (BookingStatus.eqb_eq _ _) Hconfirmed))).
  cbv zeta.
  rewrite (bind_step _ _ _ _ _ (write_status_eq _ _ _)).
  unfold bind at 1. unfold get_buk.
  set (w1 := set_buk _ w).
  assert (BukTrips.getBooking (buk w1) id
          = Booking.set_status BookingStatus.cancelled b) as Eb.
  { change (BukTrips.getBooking (buk w1) id) with (getB w1 id).
    unfold w1. rewrite getB_setBooking, decide_True by reflexivity. reflexivity. }
  rewrite Eb. simpl Booking.supplierId. simpl Booking.owner.
  change (Storage.BukTrips.treasury (buk w1)) with (Storage.BukTrips.treasury (buk w)).
  change (Storage.BukTrips.buk_wallet (buk w1)) with (Storage.BukTrips.buk_wallet (buk w)).
  change (BukTrips.getSupplier (buk w1) (Booking.supplierId b))
    with (BukTrips.getSupplier (buk w) (Booking.supplierId b)).
  fold owner.
  set (treasury := Storage.BukTrips.treasury (buk w)) in *.
  set (c1 := cancelUSDCRefund treasury penalty _).
  set (c2 := cancelUSDCRefund treasury refund owner).
  set (c3 := cancelUSDCRefund treasury charges _).
  destruct (external_call_answers treasury c1 w1 Hout Hans) as (b1 & E1).
  rewrite (bind_step _ _ _ _ _ E1).
  destruct (external_call_answers treasury c2 (set_calls (calls w1 ++ [c1]) w1)
              Hout Hans) as (b2 & E2).
  rewrite (bind_step _ _ _ _ _ E2).
  destruct (external_call_answers treasury c3
              (set_calls (calls (set_calls (calls w1 ++ [c1]) w1) ++ [c2])
                 (set_calls (calls w1 ++ [c1]) w1)) Hout Hans) as (b3 & E3).
  rewrite (bind_step _ _ _ _ _ E3).
  unfold bind at 1. unfold this.
  set (w4 := set_calls _ _).
  fold L.
  exact (supplier_burn_plain_exceeds L s w4 owner id Hserves Howner Hnone).
Qed.
End TokenElsewhere.

(** * The supplier argument is not checked against the booking *)

(** The demo deployment after the guest has confirmed the two bookings of
    supplier 1 with supplier 2 as argument. *)
Definition demo_crossed : World :=
  step (Demo.tx Demo.guest (confirmRoom 2 [1; 2] ["uriA"; "uriB"]%string true))
    demo_two_rooms.

(** The balance of [account] for token [id] on the utility ledger at
    [ledger]. *)
Definition utility_balance_at (w : World) (ledger account id : Z) : Z :=
  match contracts w !! ledger with
  | Some (UtilityLedger u) => ERC1155.balanceOf (UC._balances u) account id
  | _ => 0
  end.

(** C10 (as amended).  In a world that transactions reach, a booking [id]
    stores the supplier [supplierId b], and [S] is another supplier, active.
    None of [confirmRoom], [checkout] and [cancelRoom] compares [S] with the
    stored supplier.  [confirmRoom] called with [S] returns: it confirms the
    booking and mints its token on the ledger [L] of [S].  [checkout] and
    [cancelRoom] called with [S] burn on [L]: when the owner of the booking
    holds a token of [id] there they return, move the booking (to expired,
    to cancelled) and burn that token ([checkout] mints the proof of stay on
    the utility ledger of [S]); the stored supplier id stays, and
    [cancelRoom] sends the penalty to the owner of the stored supplier.  When
    the owner holds no token of [id] on [L], as after a [confirmRoom] under
    the stored supplier, they revert at the burn and change nothing. *)
Theorem supplierId_argument_unchecked w S id :
  let b := getB w id in
  let owner := Booking.owner b in
  let L := SupplierDetails.supplier_contract (BukTrips.getSupplier (buk w) S) in
  let U := SC.utility_contract (supplier_storage w L) in
  let treasury := Storage.BukTrips.treasury (buk w) in
  reachable w ->
  active w S ->
  Booking.supplierId b <> S ->
  owner <> 0 ->
  (forall uri st,
     status_of w id = BookingStatus.booked ->
     accepts_erc1155 (env w) owner = true ->
     balance_at w L owner id + 1 <= MAX_UINT256 ->
     exists w',
       BukTrips.confirmRoom owner S [id] [uri] st w = Ok (tt, w')
       /\ status_of w' id = BookingStatus.confirmed
       /\ tokenID_of w' id = id
       /\ Booking.supplierId (getB w' id) = Booking.supplierId b
       /\ balance_at w' L owner id = balance_at w L owner id + 1)
  /\ (forall admin,
        is_admin w admin ->
        status_of w id = BookingStatus.confirmed ->
        accepts_erc1155 (env w) owner = true ->
        1 <= balance_at w L owner id ->
        utility_balance_at w U owner id + 1 <= MAX_UINT256 ->
        exists w',
          BukTrips.checkout admin S [id] w = Ok (tt, w')
          /\ status_of w' id = BookingStatus.expired
          /\ Booking.supplierId (getB w' id) = Booking.supplierId b
          /\ balance_at w' L owner id = balance_at w L owner id - 1
          /\ utility_balance_at w' U owner id = utility_balance_at w U owner id + 1)
  /\ (forall admin penalty refund charges,
        is_admin w admin ->
        status_of w id = BookingStatus.confirmed ->
        1 <= balance_at w L owner id ->
        outside w treasury -> answers w ->
        exists w',
          BukTrips.cancelRoom admin S id penalty refund charges w = Ok (tt, w')
          /\ status_of w' id = BookingStatus.cancelled
          /\ Booking.supplierId (getB w' id) = Booking.supplierId b
          /\ balance_at w' L owner id = balance_at w L owner id - 1
          /\ calls w' = calls w ++
               [ cancelUSDCRefund treasury penalty
                   (SupplierDetails.supplier_owner
                      (BukTrips.getSupplier (buk w) (Booking.supplierId b)));
                 cancelUSDCRefund treasury refund owner;
                 cancelUSDCRefund treasury charges
                   (Storage.BukTrips.buk_wallet (buk w)) ])
  /\ (forall admin now,
        is_admin w admin ->
        status_of w id = BookingStatus.confirmed ->
        accepts_erc1155 (env w) owner = true ->
        balance_at w L owner id < 1 ->
        utility_balance_at w U owner id + 1 <= MAX_UINT256 ->
        BukTrips.checkout admin S [id] w
        = Revert (Require Fault "ERC1155: burn amount exceeds balance")
        /\ step {| tx_sender := admin; tx_timestamp := now; tx_op := checkout S [id] |} w
           = w)
  /\ (forall admin now penalty refund charges,
        is_admin w admin ->
        status_of w id = BookingStatus.confirmed ->
        balance_at w L owner id < 1 ->
        outside w treasury -> answers w ->
        BukTrips.cancelRoom admin S id penalty refund charges w
        = Revert (Require Fault "ERC1155: burn amount exceeds balance")
        /\ step {| tx_sender := admin; tx_timestamp := now;
                   tx_op := cancelRoom S id penalty refund charges |} w
           = w).
Proof.
  intros b owner L U treasury Hr Ha Hdiff Howner.
  destruct (reachable_in_place w Hr) as [Hreg _].
  destruct (Hreg S Ha) as (s & u & HL & Hf & _ & HU & Hur & _). fold L in HL, Hur.
  assert (serves w L s) as Hserves by (split; assumption).
  assert (supplier_storage w L = s) as Es.
  { unfold supplier_storage. rewrite HL. reflexivity. }
  assert (U = SC.utility_contract s) as EU by (unfold U; rewrite Es; reflexivity).
  clearbody U. subst U.
  assert (paired w L s u) as Hp by (split; assumption).
  assert (L <> SC.utility_contract s) as Hne by congruence.
  assert (balance_at w L owner id = ERC1155.balanceOf (SC._balances s) owner id) as Hbal.
  { unfold balance_at. rewrite HL. reflexivity. }
  assert (utility_balance_at w (SC.utility_contract s) owner id
          = ERC1155.balanceOf (UC._balances u) owner id) as Hubal.
  { unfold utility_balance_at. rewrite HU. reflexivity. }
  rewrite Hbal, Hubal.
  split; [|split; [|split; [|split]]].
  - intros uri st Hst Hacc Hb.
    destruct (confirmRoom_Ok owner S [id] [uri] st w s Ha) as (w' & E & [_ Hk] & Hct & _);
      try assumption.
    + intros id' Hin. apply list_elem_of_singleton in Hin as ->. auto.
    + reflexivity.
    + simpl. lia.
    + intros id' Hin. apply list_elem_of_singleton in Hin as ->. simpl. lia.
    + exists w'. split; [exact E|].
      assert (getB w' id = confirmed_record id b) as Eb.
      { rewrite Hk. rewrite decide_True by (apply list_elem_of_singleton; reflexivity).
        reflexivity. }
      unfold status_of, tokenID_of. rewrite Eb.
      split; [reflexivity|]. split; [reflexivity|]. split; [reflexivity|].
      unfold balance_at. fold L in Hct. rewrite Hct, lookup_insert_eq.
      change (mint_batch owner st s (zip [id] [uri])) with (mint_one owner st s id uri).
      rewrite mint_one_balance, Z.eqb_refl. reflexivity.
  - intros admin Had Hst Hacc Hh Hub.
    eexists. split.
    + apply (checkout_one_Ok admin S id w s Had Ha Hst Hserves Howner Hh u Hp Hacc Hub).
    + fold b. fold owner. fold L. unfold status_of.
      change (getB (set_contracts ?c ?w0) id) with (getB w0 id).
      rewrite getB_setBooking, decide_True by reflexivity.
      split; [reflexivity|]. split; [reflexivity|]. split.
      * unfold balance_at. simpl. rewrite lookup_insert_eq.
        unfold burn_one. simpl. rewrite balanceOf_insert, decide_True by reflexivity.
        reflexivity.
      * unfold utility_balance_at. simpl.
        rewrite lookup_insert_ne by exact Hne. rewrite lookup_insert_eq.
        unfold utility_mint_one. simpl.
        rewrite balanceOf_insert, decide_True by reflexivity. reflexivity.
  - intros admin penalty refund charges Had Hst Hh Hout Hans.
    eexists. split.
    + apply (cancelRoom_one_Ok admin S id w s Had Ha Hst Hserves Howner Hh
               penalty refund charges Hout Hans).
    + fold b. fold owner. fold L. fold treasury. unfold status_of.
      change (getB (set_contracts ?c (set_calls ?l ?w0)) id) with (getB w0 id).
      rewrite getB_setBooking, decide_True by reflexivity.
      split; [reflexivity|]. split; [reflexivity|]. split; [|reflexivity].
      unfold balance_at. simpl. rewrite lookup_insert_eq.
      unfold burn_one. simpl. rewrite balanceOf_insert, decide_True by reflexivity.
      reflexivity.
  - intros admin now Had Hst Hacc Hh Hub.
    pose proof (checkout_one_exceeds admin S id w s Had Ha Hst Hserves Howner Hh u Hp
                  Hacc Hub) as E.
    split; [exact E|]. eapply step_Revert. simpl. apply done_Revert. exact E.
  - intros admin now penalty refund charges Had Hst Hh Hout Hans.
    pose proof (cancelRoom_one_exceeds admin S id w s Had Ha Hst Hserves Howner Hh
                  penalty refund charges Hout Hans) as E.
    split; [exact E|]. eapply step_Revert. simpl. apply done_Revert. exact E.
Qed.

Lemma reachable_demo_crossed : reachable demo_crossed.
Proof.
  apply reachable_step; [apply reachable_demo_two_rooms|].
  apply is_outside_true. vm_compute. reflexivity.
Qed.

Lemma supplierId_argument_unchecked_witness :
  (exists w',
     BukTrips.confirmRoom Demo.guest 2 [1] ["uriA"%string] true demo_two_rooms
       = Ok (tt, w')
     /\ status_of w' 1 = BookingStatus.confirmed
     /\ tokenID_of w' 1 = 1
     /\ Booking.supplierId (getB w' 1) = 1
     /\ balance_at w' 2002 Demo.guest 1 = 0 + 1)
  /\ (exists w',
        BukTrips.checkout Demo.admin 2 [1] demo_crossed = Ok (tt, w')
        /\ status_of w' 1 = BookingStatus.expired
        /\ Booking.supplierId (getB w' 1) = 1
        /\ balance_at w' 2002 Demo.guest 1 = 1 - 1
        /\ utility_balance_at w' 3002 Demo.guest 1 = 0 + 1)
  /\ (exists w',
        BukTrips.cancelRoom Demo.admin 2 2 10 80 10 demo_crossed = Ok (tt, w')
        /\ status_of w' 2 = BookingStatus.cancelled
        /\ Booking.supplierId (getB w' 2) = 1
        /\ balance_at w' 2002 Demo.guest 2 = 1 - 1
        /\ calls w' = calls demo_crossed ++
             [ cancelUSDCRefund Demo.treasury 10 Demo.hotel;
               cancelUSDCRefund Demo.treasury 80 Demo.guest;
               cancelUSDCRefund Demo.treasury 10 Demo.wallet ])
  /\ (BukTrips.checkout Demo.admin 2 [2] demo_confirmed
      = Revert (Require Fault "ERC1155: burn amount exceeds balance")
      /\ step {| tx_sender := Demo.admin; tx_timestamp := 1000; tx_op := checkout 2 [2] |}
           demo_confirmed
         = demo_confirmed)
  /\ (BukTrips.cancelRoom Demo.admin 2 2 10 80 10 demo_confirmed
      = Revert (Require Fault "ERC1155: burn amount exceeds balance")
      /\ step {| tx_sender := Demo.admin; tx_timestamp := 1000;
                 tx_op := cancelRoom 2 2 10 80 10 |} demo_confirmed
         = demo_confirmed).
Proof.
  split; [|split; [|split; [|split]]].
  - destruct (supplierId_argument_unchecked demo_two_rooms 2 1
                reachable_demo_two_rooms) as (H & _).
    + vm_compute. reflexivity.
    + vm_compute. discriminate.
    + vm_compute. discriminate.
    + apply (H "uriA"%string true).
      * vm_compute. reflexivity.
      * reflexivity.
      * vm_compute. discriminate.
  - destruct (supplierId_argument_unchecked demo_crossed 2 1
                reachable_demo_crossed) as (_ & H & _).
    + vm_compute. reflexivity.
    + vm_compute. discriminate.
    + vm_compute. discriminate.
    + apply (H Demo.admin).
      * vm_compute. reflexivity.
      * vm_compute. reflexivity.
      * reflexivity.
      * vm_compute. discriminate.
      * vm_compute. discriminate.
  - destruct (supplierId_argument_unchecked demo_crossed 2 2
                reachable_demo_crossed) as (_ & _ & H & _).
    + vm_compute. reflexivity.
    + vm_compute. discriminate.
    + vm_compute. discriminate.
    + apply (H Demo.admin 10 80 10).
      * vm_compute. reflexivity.
      * vm_compute. reflexivity.
      * vm_compute. discriminate.
      * split; [vm_compute; discriminate | vm_compute; reflexivity].
      * intros past c. vm_compute. discriminate.
  - destruct (supplierId_argument_unchecked demo_confirmed 2 2
                reachable_demo_confirmed) as (_ & _ & _ & H & _).
    + vm_compute. reflexivity.
    + vm_compute. discriminate.
    + vm_compute. discriminate.
    + apply (H Demo.admin 1000).
      * vm_compute. reflexivity.
      * vm_compute. reflexivity.
      * reflexivity.
      * vm_compute. reflexivity.
      * vm_compute. discriminate.
  - destruct (supplierId_argument_unchecked demo_confirmed 2 2
                reachable_demo_confirmed) as (_ & _ & _ & _ & H).
    + vm_compute. reflexivity.
    + vm_compute. discriminate.
    + vm_compute. discriminate.
    + apply (H Demo.admin 1000 10 80 10).
      * vm_compute. reflexivity.
      * vm_compute. reflexivity.
      * vm_compute. reflexivity.
      * split; [vm_compute; discriminate | vm_compute; reflexivity].
      * intros past c. vm_compute. discriminate.
Defined.

(** C10 (as stated) fails for [checkout] and [cancelRoom]: in the demo
    deployment the guest has booked and confirmed booking 1 under supplier 1,
    so the ticket is on the ledger of supplier 1.  Supplier 2 is active, and
    the admin calls [checkout] and [cancelRoom] for booking 1 with supplier 2
    as argument: both reach the burn on the ledger of supplier 2, where the
    guest holds nothing, revert there and leave the world as it was; with
    supplier 1 as argument [checkout] returns. *)
Lemma checkout_and_cancelRoom_revert_under_another_supplier :
  let w := demo_confirmed in
  reachable w
  /\ active w 2
  /\ Booking.supplierId (getB w 1) = 1
  /\ status_of w 1 = BookingStatus.confirmed
  /\ balance_at w 2001 Demo.guest 1 = 1
  /\ balance_at w 2002 Demo.guest 1 = 0
  /\ BukTrips.checkout Demo.admin 2 [1] w
     = Revert (Require Fault "ERC1155: burn amount exceeds balance")
  /\ BukTrips.cancelRoom Demo.admin 2 1 10 80 10 w
     = Revert (Require Fault "ERC1155: burn amount exceeds balance")
  /\ step (Demo.tx Demo.admin (checkout 2 [1])) w = w
  /\ step (Demo.tx Demo.admin (cancelRoom 2 1 10 80 10)) w = w
  /\ exists w', BukTrips.checkout Demo.admin 1 [1] w = Ok (tt, w').
Proof.
  cbv zeta.
  assert (BukTrips.checkout Demo.admin 2 [1] demo_confirmed
          = Revert (Require Fault "ERC1155: burn amount exceeds balance")) as H1
    by (vm_compute; reflexivity).
  assert (BukTrips.cancelRoom Demo.admin 2 1 10 80 10 demo_confirmed
          = Revert (Require Fault "ERC1155: burn amount exceeds balance")) as H2
    by (vm_compute; reflexivity).
  split; [apply reachable_demo_confirmed|].
  split; [vm_compute; reflexivity|]. split; [vm_compute; reflexivity|].
  split; [vm_compute; reflexivity|]. split; [vm_compute; reflexivity|].
  split; [vm_compute; reflexivity|].
  split; [exact H1|]. split; [exact H2|].
  split; [eapply step_Revert; simpl; apply done_Revert; exact H1|].
  split; [eapply step_Revert; simpl; apply done_Revert; exact H2|].
  eexists. vm_compute. reflexivity.
Qed.

(** * Further properties of the ledgers, the deployers and the orchestrator *)

(** ** Transfers on the supplier ledger *)

Lemma supplier_transfer_Ok_inv self sender from to id amount w u w' :
  SupplierContract.safeTransferFrom self sender from to id amount w = Ok (u, w') ->
  exists s,
    contracts w !! self = Some (SupplierLedger s)
    /\ SupplierContract.is_transferable s id = true
    /\ (from = sender
        \/ ERC1155.isApprovedForAll (SC._operatorApprovals s) from sender = true)
    /\ to <> 0
    /\ amount <= ERC1155.balanceOf (SC._balances s) from id
    /\ accepts_erc1155 (env w) to = true.
Proof.
  unfold SupplierContract.safeTransferFrom. intros H.
  apply bind_Ok in H as (s & w1 & Hl & H). apply supplier_load_inv in Hl as [Hl ->].
  apply bind_Ok in H as ([] & w1 & Hf & H). apply require_Ok in Hf as [Hf ->].
  apply bind_Ok in H as ([] & w1 & Ho & H). apply require_Ok in Ho as [Ho ->].
  apply bind_Ok in H as (bal & w1 & Ht & _).
  unfold ERC1155._safeTransferFrom in Ht.
  apply bind_Ok in Ht as ([] & w2 & Hz & Ht). apply require_Ok in Hz as [Hz ->].
  cbv zeta in Ht.
  apply bind_Ok in Ht as ([] & w2 & Hb & Ht). apply require_Ok in Hb as [Hb ->].
  apply bind_Ok in Ht as (b & w2 & Ha & Ht). apply checked_add_Ok in Ha as (_ & _ & ->).
  apply bind_Ok in Ht as ([] & w2 & Hc & _).
  exists s. split; [exact Hl|]. split; [exact Hf|]. split.
  - apply orb_true_iff in Ho as [Ho | Ho]; [left | right; exact Ho].
    apply bool_decide_eq_true_1 in Ho. exact Ho.
  - split; [apply Z.eqb_neq, negb_true_iff; exact Hz|].
    split; [apply Z.leb_le; exact Hb|].
    unfold ERC1155._doSafeTransferAcceptanceCheck in Hc.
    destruct (accepts_erc1155 (env w) to); [reflexivity | discriminate].
Qed.

(** X1.  On a supplier ledger the transferability flag of the token is
    checked before the caller: while the flag of [id] is off, [safeTransferFrom]
    reverts with "This NFT is non transferable" for every caller, the holder
    included; with the flag on, a caller that is neither the holder [from] nor
    an operator that [from] approved is refused.  A transfer that returns had
    the flag on, came from the holder or an approved operator, went to a
    non-zero recipient that accepts the token, and was covered by the balance
    of [from]. *)
Theorem supplier_transfer_gate self sender from to id amount w s :
  contracts w !! self = Some (SupplierLedger s) ->
  (SupplierContract.is_transferable s id = false ->
     SupplierContract.safeTransferFrom self sender from to id amount w
     = Revert (Require TransferRejected "This NFT is non transferable"))
  /\ (SupplierContract.is_transferable s id = true ->
      from <> sender ->
      ERC1155.isApprovedForAll (SC._operatorApprovals s) from sender = false ->
      SupplierContract.safeTransferFrom self sender from to id amount w
      = Revert (Require AuthorizationError
                  "ERC1155: caller is not token owner or approved"))
  /\ (forall u w',
        SupplierContract.safeTransferFrom self sender from to id amount w = Ok (u, w') ->
        SupplierContract.is_transferable s id = true
        /\ (from = sender
            \/ ERC1155.isApprovedForAll (SC._operatorApprovals s) from sender = true)
        /\ to <> 0
        /\ amount <= ERC1155.balanceOf (SC._balances s) from id
        /\ accepts_erc1155 (env w) to = true).
Proof.
  intros Hl. split; [|split].
  - intros Hf. unfold SupplierContract.safeTransferFrom.
    rewrite (bind_step _ _ _ _ _ (supplier_load_Ok _ _ _ Hl)).
    apply bind_fail, require_false. exact Hf.
  - intros Hf Hne Hap. unfold SupplierContract.safeTransferFrom.
    rewrite (bind_step _ _ _ _ _ (supplier_load_Ok _ _ _ Hl)).
    rewrite (bind_step _ _ _ _ _ (require_true _ _ _ _ Hf)).
    apply bind_fail, require_false. rewrite Hap, orb_false_r.
    apply bool_decide_eq_false_2. exact Hne.
  - intros u w' H. apply supplier_transfer_Ok_inv in H as (s' & Hl' & H).
    rewrite Hl in Hl'. injection Hl' as <-. exact H.
Qed.

Lemma supplier_transfer_gate_witness :
  SupplierContract.safeTransferFrom 2001 Demo.guest Demo.guest Demo.hotel 1 1
    demo_confirmed
  = Revert (Require TransferRejected "This NFT is non transferable").
Proof.
  destruct (supplier_transfer_gate 2001 Demo.guest Demo.guest Demo.hotel 1 1
              demo_confirmed (supplier_storage demo_confirmed 2001)) as (H & _).
  - vm_compute. reflexivity.
  - apply H. vm_compute. reflexivity.
Defined.

(** The storage of the supplier ledger after a transfer that returns. *)
Definition transfer_one (from to : Z) (id amount : Z) (s : SC.t) : SC.t :=
  let bal := <[(id, from) := ERC1155.balanceOf (SC._balances s) from id - amount]>
               (SC._balances s) in
  SC.set_balances (<[(id, to) := ERC1155.balanceOf bal to id + amount]> bal) s.

Lemma supplier_transfer_Ok self sender from to id amount w s :
  contracts w !! self = Some (SupplierLedger s) ->
  SupplierContract.is_transferable s id = true ->
  from = sender \/ ERC1155.isApprovedForAll (SC._operatorApprovals s) from sender = true ->
  to <> 0 ->
  accepts_erc1155 (env w) to = true ->
  0 <= amount <= ERC1155.balanceOf (SC._balances s) from id ->
  ERC1155.balanceOf (SC._balances s) to id + amount <= MAX_UINT256 ->
  SupplierContract.safeTransferFrom self sender from to id amount w
  = Ok (tt, set_contracts
              (<[self := SupplierLedger (transfer_one from to id amount s)]>
                 (contracts w)) w).
Proof.
  intros Hl Hf Ho Hto Hacc Hb Hmax. unfold SupplierContract.safeTransferFrom.
  rewrite (bind_step _ _ _ _ _ (supplier_load_Ok _ _ _ Hl)).
  rewrite (bind_step _ _ _ _ _ (require_true _ _ _ _ Hf)).
  assert (bool_decide (from = sender)
          || ERC1155.isApprovedForAll (SC._operatorApprovals s) from sender = true) as Ho'.
  { apply orb_true_iff. destruct Ho as [Ho | Ho]; [left | right; exact Ho].
    apply bool_decide_eq_true_2. exact Ho. }
  rewrite (bind_step _ _ _ _ _ (require_true _ _ _ _ Ho')).
  unfold ERC1155._safeTransferFrom.
  rewrite (bind_step _ (fun bal => SupplierContract.store self (SC.set_balances bal s)) w
             (SC._balances (transfer_one from to id amount s)) w); [reflexivity|].
  rewrite (bind_step _ _ _ _ _ (require_true _ _ _ _ (nonzero_check _ Hto))).
  cbv zeta.
  rewrite (bind_step _ _ _ _ _ (require_true _ _ _ _ (proj2 (Z.leb_le _ _) (proj2 Hb)))).
  erewrite bind_step.
  2:{ apply checked_add_Ok. split; [|split; reflexivity].
      rewrite balanceOf_insert.
      destruct (decide ((id, from) = (id, to))) as [E | E]; [injection E as ->|]; lia. }
  rewrite (bind_step _ _ _ _ _ (acceptance_pass _ _ Hacc)).
  reflexivity.
Qed.

Lemma transfer_one_balance from to id amount s a k :
  ERC1155.balanceOf (SC._balances (transfer_one from to id amount s)) a k
  = ERC1155.balanceOf (SC._balances s) a k
    - (if decide ((k, a) = (id, from)) then amount else 0)
    + (if decide ((k, a) = (id, to)) then amount else 0).
Proof.
  unfold transfer_one. cbv zeta. simpl. rewrite !balanceOf_insert.
  destruct (decide ((id, to) = (k, a))) as [E1 | E1];
    destruct (decide ((id, from) = (k, a))) as [E2 | E2];
    destruct (decide ((k, a) = (id, from))) as [E3 | E3];
    destruct (decide ((k, a) = (id, to))) as [E4 | E4];
    destruct (decide ((id, from) = (id, to))) as [E5 | E5];
    try congruence; try lia.
  all: try (injection E1 as -> ->); try (injection E2 as -> ->); try lia; try congruence.
Qed.

(** X2.  A transfer on a supplier ledger that passes the gate (flag on,
    caller the holder or an approved operator, non-zero recipient that accepts
    the token, amount covered, no overflow of the recipient's balance)
    returns; it takes [amount] of the token from [from] and gives it to [to],
    so a transfer to oneself changes nothing, and every other balance, the
    flags, the URIs and the roles of the ledger, the other contracts, the
    orchestrator (the owner recorded in the booking included) and the calls
    sent to the collaborators are as before. *)
Theorem supplier_transfer_moves_balance self sender from to id amount w s :
  contracts w !! self = Some (SupplierLedger s) ->
  SupplierContract.is_transferable s id = true ->
  from = sender \/ ERC1155.isApprovedForAll (SC._operatorApprovals s) from sender = true ->
  to <> 0 ->
  accepts_erc1155 (env w) to = true ->
  0 <= amount <= ERC1155.balanceOf (SC._balances s) from id ->
  ERC1155.balanceOf (SC._balances s) to id + amount <= MAX_UINT256 ->
  exists w' s',
    SupplierContract.safeTransferFrom self sender from to id amount w = Ok (tt, w')
    /\ contracts w' !! self = Some (SupplierLedger s')
    /\ (forall a k,
          balance_at w' self a k
          = balance_at w self a k
            - (if decide ((k, a) = (id, from)) then amount else 0)
            + (if decide ((k, a) = (id, to)) then amount else 0))
    /\ SC.set_balances (SC._balances s) s' = s
    /\ (forall b, b <> self -> contracts w' !! b = contracts w !! b)
    /\ buk w' = buk w
    /\ calls w' = calls w.
Proof.
  intros Hl Hf Ho Hto Hacc Hb Hmax.
  eexists _, _. split; [apply supplier_transfer_Ok; eassumption|]. simpl.
  split; [apply lookup_insert_eq|]. split; [|split; [|split; [|split]]].
  - intros a k. unfold balance_at. simpl. rewrite lookup_insert_eq, Hl.
    apply transfer_one_balance.
  - destruct s. reflexivity.
  - intros b Hne. apply lookup_insert_ne. congruence.
  - reflexivity.
  - reflexivity.
Qed.

(** The demo deployment after the guest has confirmed two rooms with
    transferable tokens. *)
Definition demo_transferable : World :=
  step (Demo.tx Demo.guest (confirmRoom 1 [1; 2] ["uriA"; "uriB"]%string true))
    demo_two_rooms.

Lemma supplier_transfer_moves_balance_witness :
  exists w' s',
    SupplierContract.safeTransferFrom 2001 Demo.guest Demo.guest Demo.hotel 1 1
      demo_transferable = Ok (tt, w')
    /\ contracts w' !! 2001 = Some (SupplierLedger s')
    /\ (forall a k,
          balance_at w' 2001 a k
          = balance_at demo_transferable 2001 a k
            - (if decide ((k, a) = (1, Demo.guest)) then 1 else 0)
            + (if decide ((k, a) = (1, Demo.hotel)) then 1 else 0))
    /\ SC.set_balances (SC._balances (supplier_storage demo_transferable 2001)) s'
       = supplier_storage demo_transferable 2001
    /\ (forall b, b <> 2001 -> contracts w' !! b = contracts demo_transferable !! b)
    /\ buk w' = buk demo_transferable
    /\ calls w' = calls demo_transferable.
Proof.
  apply (supplier_transfer_moves_balance 2001 Demo.guest Demo.guest Demo.hotel 1 1
           demo_transferable (supplier_storage demo_transferable 2001)).
  - vm_compute. reflexivity.
  - vm_compute. reflexivity.
  - left. reflexivity.
  - discriminate.
  - reflexivity.
  - vm_compute. split; discriminate.
  - vm_compute. discriminate.
Defined.

Lemma forallb_false_elem {A} (f : A -> bool) (l : list A) x :
  x ∈ l -> f x = false -> forallb f l = false.
Proof.
  intros Hin Hx. destruct (forallb f l) eqn:E; [|reflexivity].
  rewrite forallb_forall in E. rewrite <- Hx. symmetry. apply E.
  apply list_elem_of_In. exact Hin.
Qed.

(** X3.  A batch transfer on a supplier ledger checks the size of the batch
    first and the flags next, before the caller: a batch of 11 ids or more is
    refused with "Exceeds max room booking limit"; a batch of at most 10 ids
    of which one has its flag off is refused with "One of these NFT is
    non-transferable", whoever calls; a batch that returns had at most 10
    ids, all with the flag on, as many amounts as ids, and came from the
    holder or an approved operator. *)
Theorem supplier_batch_transfer_gate self sender from to ids amounts w s :
  contracts w !! self = Some (SupplierLedger s) ->
  (11 <= Z.of_nat (length ids) ->
     SupplierContract.safeBatchTransferFrom self sender from to ids amounts w
     = Revert (Require ValidationError "Exceeds max room booking limit"))
  /\ (forall id,
        Z.of_nat (length ids) < 11 -> id ∈ ids ->
        SupplierContract.is_transferable s id = false ->
        SupplierContract.safeBatchTransferFrom self sender from to ids amounts w
        = Revert (Require TransferRejected "One of these NFT is non-transferable"))
  /\ (forall u w',
        SupplierContract.safeBatchTransferFrom self sender from to ids amounts w
        = Ok (u, w') ->
        Z.of_nat (length ids) < 11
        /\ (forall id, id ∈ ids -> SupplierContract.is_transferable s id = true)
        /\ length ids = length amounts
        /\ (from = sender
            \/ ERC1155.isApprovedForAll (SC._operatorApprovals s) from sender = true)).
Proof.
  intros Hl. split; [|split].
  - intros Hlen. unfold SupplierContract.safeBatchTransferFrom.
    rewrite (bind_step _ _ _ _ _ (supplier_load_Ok _ _ _ Hl)).
    apply bind_fail, require_false. apply Z.ltb_ge. exact Hlen.
  - intros id Hlen Hin Hf. unfold SupplierContract.safeBatchTransferFrom.
    rewrite (bind_step _ _ _ _ _ (supplier_load_Ok _ _ _ Hl)).
    rewrite (bind_step _ _ _ _ _ (require_true _ _ _ _ (proj2 (Z.ltb_lt _ _) Hlen))).
    apply bind_fail, require_false. eapply forallb_false_elem; eassumption.
  - intros u w'. unfold SupplierContract.safeBatchTransferFrom.
    rewrite (bind_step _ _ _ _ _ (supplier_load_Ok _ _ _ Hl)). intros H.
    apply bind_Ok in H as ([] & w1 & Hn & H). apply require_Ok in Hn as [Hn ->].
    apply bind_Ok in H as ([] & w1 & Hf & H). apply require_Ok in Hf as [Hf ->].
    apply bind_Ok in H as ([] & w1 & Ho & H). apply require_Ok in Ho as [Ho ->].
    apply bind_Ok in H as (bal & w1 & Ht & _).
    unfold ERC1155._safeBatchTransferFrom in Ht.
    apply bind_Ok in Ht as ([] & w2 & Hs & _). apply require_Ok in Hs as [Hs _].
    split; [apply Z.ltb_lt; exact Hn|]. split; [|split].
    + intros id Hin. rewrite forallb_forall in Hf. apply Hf.
      apply list_elem_of_In. exact Hin.
    + apply Nat.eqb_eq. exact Hs.
    + apply orb_true_iff in Ho as [Ho | Ho]; [left | right; exact Ho].
      apply bool_decide_eq_true_1 in Ho. exact Ho.
Qed.

Lemma supplier_batch_transfer_gate_witness :
  SupplierContract.safeBatchTransferFrom 2001 Demo.guest Demo.guest Demo.hotel
    [1; 2] [1; 1] demo_confirmed
  = Revert (Require TransferRejected "One of these NFT is non-transferable").
Proof.
  destruct (supplier_batch_transfer_gate 2001 Demo.guest Demo.guest Demo.hotel
              [1; 2] [1; 1] demo_confirmed (supplier_storage demo_confirmed 2001))
    as (_ & H & _).
  - vm_compute. reflexivity.
  - apply (H 2).
    + simpl. lia.
    + apply list_elem_of_In. simpl. auto.
    + vm_compute. reflexivity.
Defined.

(** ** The admin of the orchestrator *)

(** The functions of the orchestrator that [onlyRole(ADMIN_ROLE)] guards; the
    argument of [setCommission] has to decode as a [uint8] first. *)
Definition admin_only (op : Op) : Prop :=
  match op with
  | setDeployers _ _ | setTreasury _ | updateSupplierDetails _ _
  | setTransferLock _ _ _ | registerSupplier _ _ _ _ | bookingRefund _ _ _
  | checkout _ _ | cancelRoom _ _ _ _ _ => True
  | setCommission c => 0 <= c <= MAX_UINT8
  | _ => False
  end.

Lemma onlyAdmin_refuses sender w :
  ~ is_admin w sender -> BukTrips.onlyAdmin sender w = Revert (MissingRole sender).
Proof.
  unfold is_admin, BukTrips.onlyAdmin, bind, get_buk, onlyRole. intros H.
  destruct (hasRole _ _ _); [contradiction H; reflexivity | reflexivity].
Qed.

(** X4.  The nine functions of the orchestrator that are reserved to the
    admin ([setDeployers], [setTreasury], [updateSupplierDetails],
    [setCommission], [setTransferLock], [registerSupplier], [bookingRefund],
    [checkout], [cancelRoom]) check the role before anything else: sent by an
    account without [ADMIN_ROLE] they revert with the missing-role error of
    [AccessControl], an authorization error, whatever their arguments and the
    state of the bookings, and the world stays as it was. *)
Theorem orchestrator_admin_only sender now op w :
  admin_only op ->
  ~ is_admin w sender ->
  exec sender now op w = Revert (MissingRole sender)
  /\ error_class (MissingRole sender) = AuthorizationError
  /\ step {| tx_sender := sender; tx_timestamp := now; tx_op := op |} w = w.
Proof.
  intros Hop Hna.
  assert (exec sender now op w = Revert (MissingRole sender)) as E.
  { pose proof (onlyAdmin_refuses sender w Hna) as Hr.
    destruct op; simpl in Hop; try contradiction; simpl; apply done_Revert;
      autounfold with orchestrator;
      try (apply bind_fail; exact Hr).
    unfold BukTrips.setCommission.
    destruct (Z.leb_spec 0 _commission); [|lia].
    destruct (Z.leb_spec _commission MAX_UINT8); [|lia].
    cbn [andb]. rewrite (bind_step (ret tt) _ w tt w eq_refl).
    apply bind_fail. exact Hr. }
  split; [exact E|]. split; [reflexivity|].
  unfold step. simpl. rewrite E. reflexivity.
Qed.

Lemma orchestrator_admin_only_witness :
  exec Demo.guest 1000 (cancelRoom 1 1 0 100 0) demo_confirmed
  = Revert (MissingRole Demo.guest)
  /\ error_class (MissingRole Demo.guest) = AuthorizationError
  /\ step {| tx_sender := Demo.guest; tx_timestamp := 1000;
             tx_op := cancelRoom 1 1 0 100 0 |} demo_confirmed = demo_confirmed.
Proof.
  apply (orchestrator_admin_only Demo.guest 1000 (cancelRoom 1 1 0 100 0) demo_confirmed).
  - exact I.
  - vm_compute. discriminate.
Defined.

(** What a transaction does to the roles of the orchestrator. *)
Definition buk_roles (w : World) : gset (Role * address) :=
  Storage.BukTrips._roles (buk w).

Lemma config_roles w w' : config (buk w') = config (buk w) -> buk_roles w' = buk_roles w.
Proof.
  intros H. unfold buk_roles.
  change (Storage.BukTrips._roles (config (buk w'))
          = Storage.BukTrips._roles (config (buk w))).
  rewrite H. reflexivity.
Qed.

Lemma bookRoom_keeps_roles sender sid count totals rates ci co w r w' :
  BukTrips.bookRoom sender sid count totals rates ci co w = Ok (r, w') ->
  buk_roles w' = buk_roles w.
Proof.
  intros H. apply bookRoom_Ok_inv in H as (_ & acc & w1 & rest & Hloop & Hb & _).
  unfold buk_roles. rewrite Hb.
  destruct (Z.le_gt_cases 0 count) as [Hc | Hc].
  - apply bookRoom_loop_inv in Hloop as (_ & _ & _ & _ & (m & ->) & _); [|exact Hc].
    reflexivity.
  - rewrite for_uint8_negative in Hloop by lia. injection Hloop as <- <-. reflexivity.
Qed.

Lemma exec_buk_roles sender now op w r w' :
  exec sender now op w = Ok (r, w') ->
  no_admin (buk_roles w) ->
  no_admin (buk_roles w') /\ buk_roles w' ⊆ buk_roles w.
Proof.
  intros H Hn.
  assert (buk_roles w' = buk_roles w -> no_admin (buk_roles w') /\ buk_roles w' ⊆ buk_roles w)
    as Hsame by (intros ->; split; [exact Hn | reflexivity]).
  destruct op; simpl in H;
    try (apply bookRoom_keeps_roles in H; apply Hsame; exact H);
    apply done_Ok in H as [_ [a H]].
  all: try (apply Hsame; unfold buk_roles;
            apply ledger_only_call in H; [rewrite H; reflexivity | solve [auto with ledger]]).
  all: try (apply Hsame; autounfold with orchestrator in H; unfold buk_roles;
            buk_inv H; simpl;
            repeat match goal with E : buk _ = _ |- _ => rewrite E; clear E end;
            reflexivity).
  - apply Hsame. apply bookingRefund_Ok_inv in H as (_ & _ & _ & [Hc _]).
    apply config_roles, Hc.
  - apply Hsame. apply confirmRoom_Ok_inv in H as (_ & _ & _ & _ & [Hc _]).
    apply config_roles, Hc.
  - apply Hsame. apply checkout_Ok_inv in H as (_ & _ & _ & _ & [Hc _]).
    apply config_roles, Hc.
  - apply Hsame. apply cancelRoom_Ok_inv in H as (_ & _ & _ & [Hc _]).
    apply config_roles, Hc.
  - exfalso. unfold BukTrips.grantRole in H.
    apply bind_Ok in H as (s & w1 & Hg & H). inv_Ok Hg.
    apply bind_Ok in H as (R & w1 & Hr & _).
    unfold AccessControl.grantRole, AccessControl.getRoleAdmin, onlyRole in Hr.
    unfold buk_roles in Hn. rewrite (Hn sender) in Hr. discriminate.
  - exfalso. unfold BukTrips.revokeRole in H.
    apply bind_Ok in H as (s & w1 & Hg & H). inv_Ok Hg.
    apply bind_Ok in H as (R & w1 & Hr & _).
    unfold AccessControl.revokeRole, AccessControl.getRoleAdmin, onlyRole in Hr.
    unfold buk_roles in Hn. rewrite (Hn sender) in Hr. discriminate.
  - unfold BukTrips.renounceRole in H.
    apply bind_Ok in H as (s & w1 & Hg & H). inv_Ok Hg.
    apply bind_Ok in H as (R & w1 & Hr & H).
    unfold AccessControl.renounceRole in Hr.
    apply bind_Ok in Hr as ([] & w2 & _ & Hr). injection Hr as <- <-.
    apply put_buk_Ok in H as ->. unfold buk_roles. simpl.
    assert (_revokeRole role account (Storage.BukTrips._roles (buk w))
            ⊆ Storage.BukTrips._roles (buk w)) as Hsub.
    { unfold _revokeRole. intros p [Hp _]%elem_of_difference. exact Hp. }
    split; [|exact Hsub].
    intros b. apply hasRole_false. intros Hin. apply Hsub in Hin.
    specialize (Hn b). apply hasRole_false in Hn. contradiction.
Qed.

Lemma step_buk_roles tx w :
  no_admin (buk_roles w) ->
  no_admin (buk_roles (step tx w)) /\ buk_roles (step tx w) ⊆ buk_roles w.
Proof.
  intros Hn. unfold step.
  destruct (exec (tx_sender tx) (tx_timestamp tx) (tx_op tx) w) as [[r w']|e] eqn:E.
  - simpl. eapply exec_buk_roles; eassumption.
  - simpl. split; [exact Hn | reflexivity].
Qed.

(** The roles of the orchestrator are those its constructor granted, or
    fewer. *)
Definition roles_of_deployer (w : World) : Prop :=
  exists deployer, buk_roles w ⊆ {[ (ADMIN_ROLE, deployer) ]}.

Lemma roles_of_deployer_no_admin w : roles_of_deployer w -> no_admin (buk_roles w).
Proof.
  intros [d Hd] a. apply hasRole_false. intros Hin. apply Hd in Hin.
  apply elem_of_singleton in Hin. discriminate.
Qed.

Lemma reachable_roles_of_deployer w : reachable w -> roles_of_deployer w.
Proof.
  induction 1 as [w (d & t & c & b & Hi) | w tx Hr IH Hout].
  - exists d. unfold buk_roles. rewrite Hi. simpl. unfold _grantRole.
    intros p [Hp | Hp]%elem_of_union; [exact Hp|].
    apply not_elem_of_empty in Hp. contradiction.
  - destruct IH as [d Hd].
    destruct (step_buk_roles tx w (roles_of_deployer_no_admin w (ex_intro _ d Hd)))
      as [_ Hsub].
    exists d. intros p Hp. apply Hd, Hsub, Hp.
Qed.

(** X5.  The admin of the orchestrator is fixed at deployment.  In every
    world that transactions reach, at most one account, the one that deployed
    the orchestrator, holds [ADMIN_ROLE], nobody holds the role that
    administers it, and the orchestrator has granted no other role; no
    transaction makes an account admin that was not: [grantRole] and
    [revokeRole] revert for every caller, and an admin that renounces the
    role cannot be replaced. *)
Theorem orchestrator_admin_is_fixed w :
  reachable w ->
  (exists deployer,
     forall r a, hasRole (buk_roles w) r a = true -> r = ADMIN_ROLE /\ a = deployer)
  /\ (forall tx a, is_admin (step tx w) a -> is_admin w a)
  /\ (forall sender now r a,
        exec sender now (grantRole r a) w = Revert (MissingRole sender)
        /\ exec sender now (revokeRole r a) w = Revert (MissingRole sender)).
Proof.
  intros Hr. destruct (reachable_roles_of_deployer w Hr) as [d Hd].
  pose proof (roles_of_deployer_no_admin w (ex_intro _ d Hd)) as Hn.
  split; [|split].
  - exists d. intros r a H. apply hasRole_true in H. apply Hd in H.
    apply elem_of_singleton in H. injection H as -> ->. auto.
  - intros tx a. unfold is_admin. fold (buk_roles (step tx w)). fold (buk_roles w).
    intros H. apply hasRole_true. apply hasRole_true in H.
    destruct (step_buk_roles tx w Hn) as [_ Hsub]. apply Hsub, H.
  - intros sender now r a. simpl.
    unfold BukTrips.grantRole, BukTrips.revokeRole, AccessControl.grantRole,
      AccessControl.revokeRole, AccessControl.getRoleAdmin, onlyRole, done, bind, get_buk.
    unfold buk_roles in Hn. rewrite (Hn sender). split; reflexivity.
Qed.

Lemma orchestrator_admin_is_fixed_witness :
  (exists deployer,
     forall r a,
       hasRole (buk_roles demo_confirmed) r a = true -> r = ADMIN_ROLE /\ a = deployer)
  /\ exec Demo.admin 1000 (grantRole ADMIN_ROLE Demo.hotel) demo_confirmed
     = Revert (MissingRole Demo.admin).
Proof.
  destruct (orchestrator_admin_is_fixed demo_confirmed reachable_demo_confirmed)
    as (H1 & _ & H3).
  split; [exact H1|]. apply (H3 Demo.admin 1000 ADMIN_ROLE Demo.hotel).
Defined.

(** X6.  [toggleNFTStatus] of the orchestrator checks the caller, then the
    token, then the lock.  A caller that is neither an admin nor the account
    that made the booking is refused with "Caller does not have access",
    whatever the booking; the holder of the token as such has no access.  For
    a caller that has access, a booking without token id is refused with "NFT
    does not exist": in a world that transactions reach, this is every
    booking that is still [booked]. *)
Theorem toggleNFTStatus_refusals sender now id st w :
  (~ is_admin w sender -> sender <> Booking.owner (getB w id) ->
   BukTrips.toggleNFTStatus sender now id st w
   = Revert (Require AuthorizationError "Caller does not have access"))
  /\ (is_admin w sender \/ sender = Booking.owner (getB w id) ->
      tokenID_of w id <= 0 ->
      BukTrips.toggleNFTStatus sender now id st w
      = Revert (Require StateError "NFT does not exist"))
  /\ (reachable w ->
      is_admin w sender \/ sender = Booking.owner (getB w id) ->
      status_of w id = BookingStatus.booked ->
      BukTrips.toggleNFTStatus sender now id st w
      = Revert (Require StateError "NFT does not exist")).
Proof.
  assert (is_admin w sender \/ sender = Booking.owner (getB w id) ->
          tokenID_of w id <= 0 ->
          BukTrips.toggleNFTStatus sender now id st w
          = Revert (Require StateError "NFT does not exist")) as Hno.
  { intros Hacc Ht. unfold BukTrips.toggleNFTStatus.
    rewrite (bind_step _ _ _ _ _ (checkAccess_pass _ _ _ Hacc)).
    unfold bind at 1. unfold get_buk at 1. cbv zeta.
    apply bind_fail, require_false. apply Z.ltb_ge. exact Ht. }
  split; [|split; [exact Hno|]].
  - intros Hna Hno'. unfold BukTrips.toggleNFTStatus. apply bind_fail.
    unfold BukTrips.checkAccess, bind, get_buk. apply require_false.
    apply orb_false_iff. split.
    + unfold is_admin in Hna. destruct (hasRole _ _ _); [contradiction Hna|]; reflexivity.
    + apply bool_decide_eq_false_2. exact Hno'.
  - intros Hr Hacc Hst. apply Hno; [exact Hacc|].
    pose proof (reachable_token_follows_status w Hr id) as Hinv.
    unfold token_follows_status in Hinv. rewrite Hst in Hinv. lia.
Qed.

Lemma toggleNFTStatus_refusals_witness :
  BukTrips.toggleNFTStatus Demo.hotel 1000 1 true demo_confirmed
  = Revert (Require AuthorizationError "Caller does not have access")
  /\ BukTrips.toggleNFTStatus Demo.guest 1000 1 true demo_two_rooms
     = Revert (Require StateError "NFT does not exist").
Proof.
  split.
  - destruct (toggleNFTStatus_refusals Demo.hotel 1000 1 true demo_confirmed) as (H & _).
    apply H; vm_compute; discriminate.
  - destruct (toggleNFTStatus_refusals Demo.guest 1000 1 true demo_two_rooms)
      as (_ & _ & H).
    apply H.
    + apply reachable_demo_two_rooms.
    + right. vm_compute. reflexivity.
    + vm_compute. reflexivity.
Defined.

(** ** The deployers *)

Lemma deployer_load_Ok self d w :
  contracts w !! self = Some (SupplierDeployer d) ->
  BukSupplierDeployer.load self w = Ok (d, w).
Proof. unfold BukSupplierDeployer.load. intros ->. reflexivity. Qed.

Lemma utility_deployer_load_Ok self d w :
  contracts w !! self = Some (UtilityDeployer d) ->
  BukSupplierUtilityDeployer.load self w = Ok (d, w).
Proof. unfold BukSupplierUtilityDeployer.load. intros ->. reflexivity. Qed.

Lemma new_contract_free creator n c w :
  create_address (env w) creator n <> buk_address w ->
  contracts w !! create_address (env w) creator n = None ->
  new_contract creator n c w
  = Ok (create_address (env w) creator n,
        set_contracts (<[create_address (env w) creator n := c]> (contracts w)) w).
Proof.
  intros Hb Hf. unfold new_contract.
  rewrite bool_decide_eq_false_2 by exact Hb. rewrite Hf. reflexivity.
Qed.

Lemma new_contract_taken creator n c w :
  create_address (env w) creator n = buk_address w
  \/ contracts w !! create_address (env w) creator n <> None ->
  new_contract creator n c w = Revert (CallFailed (create_address (env w) creator n)).
Proof.
  intros H. unfold new_contract. case_bool_decide; [reflexivity|].
  destruct H as [H | H]; [contradiction|].
  destruct (contracts w !! _); [reflexivity | contradiction].
Qed.

(** X7.  The supplier deployer at [self], with admin [admin], factory
    [factory] and nonce [n].  [deploySupplier] is open to the factory only
    and [updateFactory] to the admin only; the admin's [updateFactory] names a
    new factory and moves nothing else.  A deployment by the factory creates
    the ledger at the address that the EVM derives from the deployer and its
    nonce, when that address is free: the ledger holds the storage of its
    constructor, with the factory role granted to the factory contract that
    the deployer names, the nonce advances, and every other contract is
    as before; when the address is taken the deployment reverts. *)
Theorem supplier_deployer_access_and_creation self d w :
  let admin := Storage.Deployer.admin d in
  let factory := Storage.Deployer.factory_contract d in
  let n := Storage.Deployer.nonce d in
  let a := create_address (env w) self n in
  contracts w !! self = Some (SupplierDeployer d) ->
  (forall x cn id name owner utility uri,
     x <> factory ->
     BukSupplierDeployer.deploySupplier self x cn id name owner utility uri w
     = Revert (Require AuthorizationError "Only Factory contract has the access"))
  /\ (forall x f',
        x <> admin ->
        BukSupplierDeployer.updateFactory self x f' w
        = Revert (Require AuthorizationError "Only Admin contract has the access"))
  /\ (forall f',
        BukSupplierDeployer.updateFactory self admin f' w
        = Ok (tt, set_contracts
                    (<[self := SupplierDeployer (Storage.Deployer.mk admin f' n)]>
                       (contracts w)) w))
  /\ (forall cn id name owner utility uri,
        a <> buk_address w -> contracts w !! a = None ->
        exists w',
          BukSupplierDeployer.deploySupplier self factory cn id name owner utility uri w
          = Ok (a, w')
          /\ contracts w' !! a
             = Some (SupplierLedger (SC.constructor id name owner utility factory uri))
          /\ contracts w' !! self
             = Some (SupplierDeployer (Storage.Deployer.mk admin factory (n + 1)))
          /\ (forall b, b <> a -> b <> self -> contracts w' !! b = contracts w !! b)
          /\ buk w' = buk w /\ calls w' = calls w)
  /\ (forall cn id name owner utility uri,
        a = buk_address w \/ contracts w !! a <> None ->
        BukSupplierDeployer.deploySupplier self factory cn id name owner utility uri w
        = Revert (CallFailed a)).
Proof.
  intros admin factory n a Hl.
  assert (forall x, x <> factory -> bool_decide (x = factory) = false) as Hno
    by (intros; apply bool_decide_eq_false_2; assumption).
  assert (bool_decide (factory = factory) = true) as Hyes
    by (apply bool_decide_eq_true_2; reflexivity).
  split; [|split; [|split; [|split]]].
  - intros x cn id name owner utility uri Hx.
    unfold BukSupplierDeployer.deploySupplier.
    rewrite (bind_step _ _ _ _ _ (deployer_load_Ok _ _ _ Hl)).
    apply bind_fail, require_false. apply Hno. exact Hx.
  - intros x f' Hx. unfold BukSupplierDeployer.updateFactory.
    rewrite (bind_step _ _ _ _ _ (deployer_load_Ok _ _ _ Hl)).
    apply bind_fail, require_false. apply bool_decide_eq_false_2. exact Hx.
  - intros f'. unfold BukSupplierDeployer.updateFactory.
    rewrite (bind_step _ _ _ _ _ (deployer_load_Ok _ _ _ Hl)).
    rewrite (bind_step _ _ _ _ _
               (require_true _ _ _ _ (bool_decide_eq_true_2 _ eq_refl))).
    reflexivity.
  - intros cn id name owner utility uri Hb Hf.
    assert (self <> a) as Hne by (intros E; rewrite <- E in Hf; congruence).
    eexists. split.
    + unfold BukSupplierDeployer.deploySupplier.
      rewrite (bind_step _ _ _ _ _ (deployer_load_Ok _ _ _ Hl)).
      rewrite (bind_step _ _ _ _ _ (require_true _ _ _ _ Hyes)).
      rewrite (bind_step _ _ _ _ _ (new_contract_free _ _ _ _ Hb Hf)).
      reflexivity.
    + simpl. split; [|split; [|split; [|split]]].
      * rewrite lookup_insert_ne by exact Hne. apply lookup_insert_eq.
      * apply lookup_insert_eq.
      * intros b Hb1 Hb2. unfold a in Hb1.
        rewrite !lookup_insert_ne by congruence. reflexivity.
      * reflexivity.
      * reflexivity.
  - intros cn id name owner utility uri Ht.
    unfold BukSupplierDeployer.deploySupplier.
    rewrite (bind_step _ _ _ _ _ (deployer_load_Ok _ _ _ Hl)).
    rewrite (bind_step _ _ _ _ _ (require_true _ _ _ _ Hyes)).
    apply bind_fail. apply new_contract_taken. exact Ht.
Qed.

Lemma supplier_deployer_access_and_creation_witness :
  BukSupplierDeployer.deploySupplier Demo.supplier_deployer Demo.admin "BUK" 3 "Cord"
    Demo.hotel 3003 "ipfs://cord" (Demo.ready Demo.paying)
  = Revert (Require AuthorizationError "Only Factory contract has the access")
  /\ exists w',
       BukSupplierDeployer.deploySupplier Demo.supplier_deployer Demo.orchestrator "BUK"
         3 "Cord" Demo.hotel 3003 "ipfs://cord" (Demo.ready Demo.paying)
       = Ok (2003, w').
Proof.
  destruct (supplier_deployer_access_and_creation Demo.supplier_deployer
              (Storage.Deployer.mk Demo.admin Demo.orchestrator 3)
              (Demo.ready Demo.paying)) as (H1 & _ & _ & H4 & _).
  - vm_compute. reflexivity.
  - split.
    + apply H1. vm_compute. discriminate.
    + destruct (H4 "BUK"%string 3 "Cord"%string Demo.hotel 3003 "ipfs://cord"%string)
        as (w' & E & _).
      * vm_compute. discriminate.
      * vm_compute. reflexivity.
      * exists w'. exact E.
Defined.

(** X8.  The utility deployer at [self] behaves as the supplier deployer
    does: [deploySupplierUtility] is open to the factory only and
    [updateFactory] to the admin only; a deployment by the factory creates a
    utility ledger at the address derived from the deployer and its nonce,
    when it is free, with the storage of its constructor (the factory role
    granted to the factory, no supplier contract yet, no balance), advances
    the nonce and keeps every other contract; it reverts when the address is
    taken. *)
Theorem utility_deployer_access_and_creation self d w :
  let admin := Storage.Deployer.admin d in
  let factory := Storage.Deployer.factory_contract d in
  let n := Storage.Deployer.nonce d in
  let a := create_address (env w) self n in
  contracts w !! self = Some (UtilityDeployer d) ->
  (forall x id name uri,
     x <> factory ->
     BukSupplierUtilityDeployer.deploySupplierUtility self x id name uri w
     = Revert (Require AuthorizationError "Only Factory contract has the access"))
  /\ (forall x f',
        x <> admin ->
        BukSupplierUtilityDeployer.updateFactory self x f' w
        = Revert (Require AuthorizationError "Only Admin contract has the access"))
  /\ (forall f',
        BukSupplierUtilityDeployer.updateFactory self admin f' w
        = Ok (tt, set_contracts
                    (<[self := UtilityDeployer (Storage.Deployer.mk admin f' n)]>
                       (contracts w)) w))
  /\ (forall id name uri,
        a <> buk_address w -> contracts w !! a = None ->
        exists w',
          BukSupplierUtilityDeployer.deploySupplierUtility self factory id name uri w
          = Ok (a, w')
          /\ contracts w' !! a
             = Some (UtilityLedger (UC.constructor id name factory uri))
          /\ contracts w' !! self
             = Some (UtilityDeployer (Storage.Deployer.mk admin factory (n + 1)))
          /\ (forall b, b <> a -> b <> self -> contracts w' !! b = contracts w !! b)
          /\ buk w' = buk w /\ calls w' = calls w)
  /\ (forall id name uri,
        a = buk_address w \/ contracts w !! a <> None ->
        BukSupplierUtilityDeployer.deploySupplierUtility self factory id name uri w
        = Revert (CallFailed a)).
Proof.
  intros admin factory n a Hl.
  assert (forall x, x <> factory -> bool_decide (x = factory) = false) as Hno
    by (intros; apply bool_decide_eq_false_2; assumption).
  assert (bool_decide (factory = factory) = true) as Hyes
    by (apply bool_decide_eq_true_2; reflexivity).
  split; [|split; [|split; [|split]]].
  - intros x id name uri Hx.
    unfold BukSupplierUtilityDeployer.deploySupplierUtility.
    rewrite (bind_step _ _ _ _ _ (utility_deployer_load_Ok _ _ _ Hl)).
    apply bind_fail, require_false. apply Hno. exact Hx.
  - intros x f' Hx. unfold BukSupplierUtilityDeployer.updateFactory.
    rewrite (bind_step _ _ _ _ _ (utility_deployer_load_Ok _ _ _ Hl)).
    apply bind_fail, require_false. apply bool_decide_eq_false_2. exact Hx.
  - intros f'. unfold BukSupplierUtilityDeployer.updateFactory.
    rewrite (bind_step _ _ _ _ _ (utility_deployer_load_Ok _ _ _ Hl)).
    rewrite (bind_step _ _ _ _ _
               (require_true _ _ _ _ (bool_decide_eq_true_2 _ eq_refl))).
    reflexivity.
  - intros id name uri Hb Hf.
    assert (self <> a) as Hne by (intros E; rewrite <- E in Hf; congruence).
    eexists. split.
    + unfold BukSupplierUtilityDeployer.deploySupplierUtility.
      rewrite (bind_step _ _ _ _ _ (utility_deployer_load_Ok _ _ _ Hl)).
      rewrite (bind_step _ _ _ _ _ (require_true _ _ _ _ Hyes)).
      rewrite (bind_step _ _ _ _ _ (new_contract_free _ _ _ _ Hb Hf)).
      reflexivity.
    + simpl. split; [|split; [|split; [|split]]].
      * rewrite lookup_insert_ne by exact Hne. apply lookup_insert_eq.
      * apply lookup_insert_eq.
      * intros b Hb1 Hb2. unfold a in Hb1.
        rewrite !lookup_insert_ne by congruence. reflexivity.
      * reflexivity.
      * reflexivity.
  - intros id name uri Ht.
    unfold BukSupplierUtilityDeployer.deploySupplierUtility.
    rewrite (bind_step _ _ _ _ _ (utility_deployer_load_Ok _ _ _ Hl)).
    rewrite (bind_step _ _ _ _ _ (require_true _ _ _ _ Hyes)).
    apply bind_fail. apply new_contract_taken. exact Ht.
Qed.

Lemma utility_deployer_access_and_creation_witness :
  BukSupplierUtilityDeployer.deploySupplierUtility Demo.utility_deployer Demo.admin 3
    "Cord" "ipfs://cord" (Demo.ready Demo.paying)
  = Revert (Require AuthorizationError "Only Factory contract has the access")
  /\ exists w',
       BukSupplierUtilityDeployer.deploySupplierUtility Demo.utility_deployer
         Demo.orchestrator 3 "Cord" "ipfs://cord" (Demo.ready Demo.paying)
       = Ok (3003, w').
Proof.
  destruct (utility_deployer_access_and_creation Demo.utility_deployer
              (Storage.Deployer.mk Demo.admin Demo.orchestrator 3)
              (Demo.ready Demo.paying)) as (H1 & _ & _ & H4 & _).
  - vm_compute. reflexivity.
  - split.
    + apply H1. vm_compute. discriminate.
    + destruct (H4 3 "Cord"%string "ipfs://cord"%string) as (w' & E & _).
      * vm_compute. discriminate.
      * vm_compute. reflexivity.
      * exists w'. exact E.
Defined.

(** ** The booking records *)

(** Every transaction but [bookRoom] keeps the counter of the bookings. *)
Lemma exec_keeps_counter sender now op w r w' :
  exec sender now op w = Ok (r, w') ->
  match op with
  | bookRoom _ _ _ _ _ _ => True
  | _ => Storage.BukTrips._bookingIds (buk w') = Storage.BukTrips._bookingIds (buk w)
  end.
Proof.
  intros H.
  destruct op; try exact I; simpl in H; apply done_Ok in H as [_ [a H]];
    try (apply (proj2 (A := Storage.BukTrips.BookingDetails (buk w')
                           = Storage.BukTrips.BookingDetails (buk w)));
         first [ eapply setDeployers_kept; eassumption
               | eapply setTreasury_kept; eassumption
               | eapply updateSupplierDetails_kept; eassumption
               | eapply setCommission_kept; eassumption
               | eapply setTransferLock_kept; eassumption
               | eapply toggleNFTStatus_kept; eassumption
               | eapply registerSupplier_kept; eassumption
               | eapply grantRole_kept; eassumption
               | eapply revokeRole_kept; eassumption
               | eapply renounceRole_kept; eassumption
               | eapply ledger_only_kept; [|eassumption]; solve [auto with ledger] ]).
  - apply bookingRefund_Ok_inv in H as (_ & _ & _ & [Hc _]). apply config_bookingIds, Hc.
  - apply confirmRoom_Ok_inv in H as (_ & _ & _ & _ & [Hc _]). apply config_bookingIds, Hc.
  - apply checkout_Ok_inv in H as (_ & _ & _ & _ & [Hc _]). apply config_bookingIds, Hc.
  - apply cancelRoom_Ok_inv in H as (_ & _ & _ & [Hc _]). apply config_bookingIds, Hc.
Qed.

(** The fields of a record that no function writes after [bookRoom]. *)
Definition same_booking (b b' : Booking.t) : Prop :=
  Booking.id b' = Booking.id b
  /\ Booking.owner b' = Booking.owner b
  /\ Booking.supplierId b' = Booking.supplierId b
  /\ Booking.checkin b' = Booking.checkin b
  /\ Booking.checkout b' = Booking.checkout b
  /\ Booking.total b' = Booking.total b
  /\ Booking.baseRate b' = Booking.baseRate b.

Lemma same_booking_refl b : same_booking b b.
Proof. repeat split. Qed.

(** A transaction that returns keeps every written record, but for its status
    and its token id. *)
Lemma exec_same_booking sender now op w r w' k :
  counter_bounds w ->
  exec sender now op w = Ok (r, w') ->
  status_of w k <> BookingStatus.nil ->
  status_of w' k <> BookingStatus.nil /\ same_booking (getB w k) (getB w' k).
Proof.
  intros Hcb H Hst. pose proof (exec_edges sender now op w r w' Hcb H) as [_ He].
  unfold status_of in *. destruct (He k) as [E | Hedge].
  - rewrite E. split; [exact Hst | apply same_booking_refl].
  - destruct op; simpl in Hedge; try contradiction.
    + destruct Hedge as (Hz & _). rewrite Hz in Hst. contradiction Hst. reflexivity.
    + destruct Hedge as (_ & _ & ->). split; [discriminate | repeat split].
    + destruct Hedge as (_ & _ & ->). split; [discriminate | repeat split].
    + destruct Hedge as (_ & _ & ->). split; [discriminate | repeat split].
    + destruct Hedge as (_ & _ & ->). split; [discriminate | repeat split].
Qed.

(** The ids up to the counter are those of the written records, and a record
    carries its own id. *)
Definition well_numbered (w : World) : Prop :=
  forall k, 1 <= k <= Storage.BukTrips._bookingIds (buk w) ->
            status_of w k <> BookingStatus.nil /\ Booking.id (getB w k) = k.

Lemma exec_well_numbered sender now op w r w' :
  counter_bounds w -> well_numbered w ->
  exec sender now op w = Ok (r, w') ->
  well_numbered w'
  /\ Storage.BukTrips._bookingIds (buk w) <= Storage.BukTrips._bookingIds (buk w').
Proof.
  intros Hcb Hwn H.
  assert (Storage.BukTrips._bookingIds (buk w') = Storage.BukTrips._bookingIds (buk w) ->
          well_numbered w'
          /\ Storage.BukTrips._bookingIds (buk w)
             <= Storage.BukTrips._bookingIds (buk w')) as Hsame.
  { intros En. split; [|lia]. intros k Hk. rewrite En in Hk.
    destruct (Hwn k Hk) as [Hst Hid].
    destruct (exec_same_booking sender now op w r w' k Hcb H Hst) as (Hst' & Hid' & _).
    split; [exact Hst' | congruence]. }
  pose proof (exec_keeps_counter sender now op w r w' H) as Hn.
  destruct op; try (apply Hsame; exact Hn).
  simpl in H. apply bookRoom_moves in H as (n & Hn0 & Hids & Hk). split; [|lia].
  intros k Hr. unfold status_of. rewrite Hk.
  destruct (Z.ltb_spec (Storage.BukTrips._bookingIds (buk w)) k),
    (Z.leb_spec k (Storage.BukTrips._bookingIds (buk w) + n)); simpl;
    try (split; [discriminate | reflexivity]); try (apply Hwn; lia); lia.
Qed.

Lemma reachable_well_numbered w : reachable w -> well_numbered w.
Proof.
  induction 1 as [w (d & t & c & b & Hi) | w tx Hr IH Hout].
  - intros k Hk. rewrite Hi in Hk. simpl in Hk. lia.
  - unfold step.
    destruct (exec (tx_sender tx) (tx_timestamp tx) (tx_op tx) w) as [[r w']|e] eqn:E.
    + simpl. eapply exec_well_numbered; eauto using reachable_counter_bounds.
    + exact IH.
Qed.

(** X9.  The booking records are numbered and permanent.  In every world that
    transactions reach, the written records are exactly those with an id
    from 1 to the counter [_bookingIds], and each carries its own id.  No
    transaction lowers the counter or erases a record, and a written record
    keeps its id, its owner, its supplier, its dates, its total and its base
    rate for ever: only its status and token id move. *)
Theorem booking_records_are_permanent w k :
  reachable w ->
  (status_of w k <> BookingStatus.nil
   <-> 1 <= k <= Storage.BukTrips._bookingIds (buk w))
  /\ (status_of w k <> BookingStatus.nil -> Booking.id (getB w k) = k)
  /\ forall tx,
       Storage.BukTrips._bookingIds (buk w)
       <= Storage.BukTrips._bookingIds (buk (step tx w))
       /\ (status_of w k <> BookingStatus.nil ->
           status_of (step tx w) k <> BookingStatus.nil
           /\ same_booking (getB w k) (getB (step tx w) k)).
Proof.
  intros Hr.
  pose proof (reachable_counter_bounds w Hr) as Hcb.
  pose proof (reachable_well_numbered w Hr) as Hwn.
  assert (status_of w k <> BookingStatus.nil
          -> 1 <= k <= Storage.BukTrips._bookingIds (buk w)) as Hin.
  { intros Hst. destruct Hcb as [_ Hz].
    destruct (Z.le_gt_cases k 0) as [H0 | H0];
      [exfalso; apply Hst; unfold status_of; rewrite Hz by lia; reflexivity|].
    destruct (Z.lt_ge_cases (Storage.BukTrips._bookingIds (buk w)) k) as [H1 | H1];
      [exfalso; apply Hst; unfold status_of; rewrite Hz by lia; reflexivity|].
    lia. }
  split; [|split].
  - split; [exact Hin | intros Hk; apply (Hwn k Hk)].
  - intros Hst. apply (Hwn k (Hin Hst)).
  - intros tx. unfold step.
    destruct (exec (tx_sender tx) (tx_timestamp tx) (tx_op tx) w) as [[r w']|e] eqn:E;
      simpl.
    + split.
      * eapply exec_well_numbered; eassumption.
      * intros Hst. eapply exec_same_booking; eassumption.
    + split; [lia|]. intros Hst. split; [exact Hst | apply same_booking_refl].
Qed.

Lemma booking_records_are_permanent_witness :
  (status_of demo_cancelled 1 <> BookingStatus.nil
   <-> 1 <= 1 <= Storage.BukTrips._bookingIds (buk demo_cancelled))
  /\ Booking.id (getB demo_cancelled 1) = 1.
Proof.
  destruct (booking_records_are_permanent demo_cancelled 1 reachable_demo_cancelled)
    as (H1 & H2 & _).
  split; [exact H1|]. apply H2. vm_compute. discriminate.
Defined.

(** ** The refund of [bookingRefund] *)

(** What [bookingRefund] pays back for the booking [id]: its total and the
    commission on its base rate, at the commission rate of the orchestrator
    now. *)
Definition refund_of (w : World) (id : Z) : Z :=
  Booking.total (getB w id)
  + room_commission (Storage.BukTrips.commission (buk w)) (Booking.baseRate (getB w id)).

Lemma config_commission s s' :
  config s' = config s ->
  Storage.BukTrips.commission s' = Storage.BukTrips.commission s.
Proof.
  intros H. change (Storage.BukTrips.commission (config s')
                    = Storage.BukTrips.commission (config s)).
  rewrite H. reflexivity.
Qed.

Lemma config_treasury s s' :
  config s' = config s ->
  Storage.BukTrips.treasury s' = Storage.BukTrips.treasury s.
Proof.
  intros H. change (Storage.BukTrips.treasury (config s')
                    = Storage.BukTrips.treasury (config s)).
  rewrite H. reflexivity.
Qed.

(** The loop of [bookingRefund] that cancels and sums. *)
Lemma bookingRefund_loop ids w total w' :
  for_uint8 (Z.of_nat (length ids))
    (fun i total =>
       let* id := index ids i in
       BukTrips.write_status id BookingStatus.cancelled;;
       let* s := get_buk in
       let b := BukTrips.getBooking s id in
       let* c := checked_mul (Booking.baseRate b) (Storage.BukTrips.commission s) in
       let* x := checked_add (Booking.total b) (c / 100) in
       checked_add total x) 0 w = Ok (total, w') ->
  total = sum_list (refund_of w <$> ids)
  /\ env w' = env w /\ buk_address w' = buk_address w /\ contracts w' = contracts w
  /\ calls w' = calls w /\ config (buk w') = config (buk w).
Proof.
  intros H.
  apply (for_uint8_inv _ _
           (fun j total w1 =>
              0 <= j
              /\ total = sum_list (refund_of w <$> take (Z.to_nat j) ids)
              /\ env w1 = env w /\ buk_address w1 = buk_address w
              /\ contracts w1 = contracts w /\ calls w1 = calls w
              /\ config (buk w1) = config (buk w)
              /\ forall k, Booking.total (getB w1 k) = Booking.total (getB w k)
                           /\ Booking.baseRate (getB w1 k) = Booking.baseRate (getB w k)))
    in H; [| | lia |].
  - destruct H as (_ & Ht & He & Ha & Hc & Hl & Hcf & _).
    rewrite Nat2Z.id, firstn_all in Ht. auto 10.
  - intros j t w1 t' w2 Hj (_ & Ht & He & Ha & Hc & Hl & Hcf & Hk) Hb.
    apply bind_Ok in Hb as (id & w3 & Hi & Hb). apply index_Ok in Hi as [Hid ->].
    rewrite (bind_step _ _ _ _ _ (write_status_eq _ _ _)) in Hb.
    apply bind_Ok in Hb as (s & w3 & Hg & Hb). inv_Ok Hg. cbv zeta in Hb.
    apply bind_Ok in Hb as (c & w3 & Hm & Hb). apply checked_mul_Ok in Hm as (_ & -> & ->).
    apply bind_Ok in Hb as (x & w3 & Hx & Hb). apply checked_add_Ok in Hx as (_ & -> & ->).
    apply checked_add_Ok in Hb as (_ & -> & ->).
    simpl. rewrite getBooking_setBooking, decide_True by reflexivity. simpl.
    split; [lia|]. split; [|split; [|split; [|split; [|split; [|split]]]]];
      try assumption.
    + replace (Z.to_nat (j + 1)) with (Datatypes.S (Z.to_nat j)) by lia.
      rewrite (take_S_r _ _ _ Hid), fmap_app, sum_list_app, Ht.
      unfold sum_list at 3. simpl. unfold refund_of, room_commission.
      destruct (Hk id) as [-> ->]. rewrite (config_commission _ _ Hcf). lia.
    + intros k. rewrite getB_setBooking.
      destruct (decide (id = k)) as [<-|]; [simpl|]; apply Hk.
  - split; [lia|]. repeat split; reflexivity.
Qed.

(** What [bookingRefund] sends when it returns. *)
Lemma bookingRefund_sends sender sid ids owner w u w' :
  BukTrips.bookingRefund sender sid ids owner w = Ok (u, w') ->
  let treasury := Storage.BukTrips.treasury (buk w) in
  calls w' = calls w
             ++ [cancelUSDCRefund treasury (sum_list (refund_of w <$> ids)) owner]
  /\ outside w treasury
  /\ contracts w' = contracts w.
Proof.
  intros H treasury. unfold BukTrips.bookingRefund in H.
  apply bind_Ok in H as ([] & w1 & Hs & H). apply onlyAdmin_Ok in Hs as [_ ->].
  apply bind_Ok in H as ([] & w1 & Hs & H). apply supplierRegistered_Ok in Hs as [_ ->].
  apply bind_Ok in H as ([] & w1 & Hc1 & H).
  apply (check_loop_Ok ids _ (fun _ _ => True)) in Hc1 as (-> & _ & _).
  2:{ intros id w2 u2 w3 Hc. inv_Ok Hc. auto. }
  apply bind_Ok in H as ([] & w1 & Hc2 & H).
  apply (check_loop_Ok ids _ (fun _ _ => True)) in Hc2 as (-> & _ & _).
  2:{ intros id w2 u2 w3 Hc. inv_Ok Hc. auto. }
  apply bind_Ok in H as (total & w1 & Hloop & H).
  apply bookingRefund_loop in Hloop as (-> & He & Ha & Hc & Hl & Hcf).
  apply bind_Ok in H as (s & w2 & Hg & H). inv_Ok Hg.
  apply bind_Ok in H as (b & w3 & Hcall & H). inv_Ok H.
  apply external_call_Ok in Hcall as ([Ho1 Ho2] & _ & ->). simpl.
  rewrite (config_treasury _ _ Hcf) in *. fold treasury in Ho1, Ho2 |- *.
  split; [rewrite Hl; reflexivity|]. split; [|exact Hc].
  split; [rewrite <- Ha; exact Ho1 | rewrite <- Hc; exact Ho2].
Qed.

(** X10.  When [bookingRefund] returns, the orchestrator has sent exactly one
    call, to the treasury it names: [cancelUSDCRefund] of the sum, over the
    ids of the list, of the total of the booking and the commission on its
    base rate at the commission rate of now (not the rate at which it was
    booked), to the owner given as argument.  The sum runs over the list as
    given: an id that occurs twice is refunded twice.  Every booking of the
    list was booked and owned by that owner, and is now cancelled with its
    token id unchanged; the ledgers are untouched. *)
Theorem bookingRefund_refund_amount sender sid ids owner w u w' :
  BukTrips.bookingRefund sender sid ids owner w = Ok (u, w') ->
  let treasury := Storage.BukTrips.treasury (buk w) in
  calls w' = calls w
             ++ [cancelUSDCRefund treasury (sum_list (refund_of w <$> ids)) owner]
  /\ outside w treasury
  /\ contracts w' = contracts w
  /\ forall id, id ∈ ids ->
       status_of w id = BookingStatus.booked
       /\ Booking.owner (getB w id) = owner
       /\ status_of w' id = BookingStatus.cancelled
       /\ tokenID_of w' id = tokenID_of w id.
Proof.
  intros H treasury.
  destruct (bookingRefund_sends sender sid ids owner w u w' H) as (Hc & Ho & Hk').
  apply bookingRefund_Ok_inv in H as (_ & _ & Hv & [_ Hk]).
  split; [exact Hc|]. split; [exact Ho|]. split; [exact Hk'|].
  intros id Hin. destruct (Hv id Hin) as [Hst Hown].
  split; [exact Hst|]. split; [exact Hown|].
  unfold status_of, tokenID_of. rewrite Hk, decide_True by exact Hin.
  split; reflexivity.
Qed.

(** The demo deployment (commission 5%) after a guest has booked two rooms:
    totals 1000 and 2000, base rates 100 and 200. *)
Lemma bookingRefund_refund_amount_witness :
  exists w',
    BukTrips.bookingRefund Demo.admin 1 [1; 1; 2] Demo.guest demo_two_rooms = Ok (tt, w')
    /\ calls w' = calls demo_two_rooms
                  ++ [cancelUSDCRefund Demo.treasury (1005 + 1005 + 2010) Demo.guest].
Proof.
  destruct (BukTrips.bookingRefund Demo.admin 1 [1; 1; 2] Demo.guest demo_two_rooms)
    as [[[] w']|e] eqn:E; [|vm_compute in E; discriminate E].
  exists w'. split; [reflexivity|].
  destruct (bookingRefund_refund_amount Demo.admin 1 [1; 1; 2] Demo.guest
              demo_two_rooms tt w' E) as (H & _).
  rewrite H. vm_compute. reflexivity.
Defined.

(** ** Burning a ticket *)

(** The storage of the supplier ledger after [burn(account, id, amount, _)],
    and of the utility ledger after [mint(account, id, amount, uri, "")]. *)
Definition burn_amount (account amount : Z) (s : SC.t) (id : Z) : SC.t :=
  SC.set_balances
    (<[(id, account) := ERC1155.balanceOf (SC._balances s) account id - amount]>
       (SC._balances s))
    (SC.set_bookingTickets (<[id := ""%string]> (SC.bookingTickets s)) s).

Definition utility_mint_amount (account amount : Z) (u : UC.t) (id : Z) (uri : string)
  : UC.t :=
  SupplierUtilityContract._setURI id uri
    (UC.set_balances
       (<[(id, account) := ERC1155.balanceOf (UC._balances u) account id + amount]>
          (UC._balances u)) u).

(** The storage of the utility ledger at [a]. *)
Definition utility_storage (w : World) (a : Z) : UC.t :=
  match contracts w !! a with
  | Some (UtilityLedger u) => u
  | _ => UC.constructor 0 "" 0 ""
  end.

(** The URI of token [id] on the ledger at [ledger]. *)
Definition uri_at (w : World) (ledger id : Z) : string :=
  match contracts w !! ledger with
  | Some (SupplierLedger s) => SupplierContract.uri s id
  | Some (UtilityLedger u) => SupplierUtilityContract.uri u id
  | _ => ""%string
  end.

Lemma ERC1155_mint_Ok_inv bal to id amount w bal' w' :
  ERC1155._mint bal to id amount w = Ok (bal', w') ->
  to <> 0 /\ ERC1155.balanceOf bal to id + amount <= MAX_UINT256
  /\ accepts_erc1155 (env w) to = true
  /\ bal' = <[(id, to) := ERC1155.balanceOf bal to id + amount]> bal /\ w' = w.
Proof.
  unfold ERC1155._mint. intros H.
  apply bind_Ok in H as ([] & w1 & Hz & H). apply require_Ok in Hz as [Hz ->].
  apply bind_Ok in H as (b & w1 & Ha & H). apply checked_add_Ok in Ha as (Ha & -> & ->).
  apply bind_Ok in H as ([] & w1 & Hc & H).
  unfold ERC1155._doSafeTransferAcceptanceCheck in Hc.
  destruct (accepts_erc1155 (env w) to) eqn:Hacc; [|discriminate].
  injection Hc as <-. injection H as <- <-.
  split; [apply Z.eqb_neq, negb_true_iff; exact Hz|]. auto.
Qed.

Lemma ERC1155_burn_Ok_inv bal from id amount w bal' w' :
  ERC1155._burn bal from id amount w = Ok (bal', w') ->
  from <> 0 /\ amount <= ERC1155.balanceOf bal from id
  /\ bal' = <[(id, from) := ERC1155.balanceOf bal from id - amount]> bal /\ w' = w.
Proof.
  unfold ERC1155._burn. intros H.
  apply bind_Ok in H as ([] & w1 & Hz & H). apply require_Ok in Hz as [Hz ->].
  cbv zeta in H.
  apply bind_Ok in H as ([] & w1 & Hb & H). apply require_Ok in Hb as [Hb ->].
  injection H as <- <-.
  split; [apply Z.eqb_neq, negb_true_iff; exact Hz|].
  split; [apply Z.leb_le; exact Hb|]. auto.
Qed.

Lemma onlyRole_Ok roles r a w u w' :
  onlyRole roles r a w = Ok (u, w') -> hasRole roles r a = true /\ w' = w.
Proof.
  unfold onlyRole. destruct (hasRole roles r a); [|discriminate].
  intros [= <-]. auto.
Qed.

Lemma utility_mint_Ok_inv ledger sender account id amount uri w u0 w' :
  SupplierUtilityContract.mint ledger sender account id amount uri w = Ok (u0, w') ->
  exists u,
    contracts w !! ledger = Some (UtilityLedger u)
    /\ hasRole (UC._roles u) SUPPLIER_CONTRACT_ROLE sender = true
    /\ account <> 0
    /\ ERC1155.balanceOf (UC._balances u) account id + amount <= MAX_UINT256
    /\ accepts_erc1155 (env w) account = true
    /\ w' = set_contracts
              (<[ledger := UtilityLedger (utility_mint_amount account amount u id uri)]>
                 (contracts w)) w.
Proof.
  unfold SupplierUtilityContract.mint. intros H.
  apply bind_Ok in H as (u & w1 & Hl & H). apply utility_load_inv in Hl as [Hl ->].
  apply bind_Ok in H as ([] & w1 & Hr & H). apply onlyRole_Ok in Hr as [Hr ->].
  apply bind_Ok in H as (bal & w1 & Hm & H).
  apply ERC1155_mint_Ok_inv in Hm as (Hz & Hb & Hacc & -> & ->).
  apply put_contract_Ok in H. exists u. auto 10.
Qed.

Lemma utility_mint_amount_Ok ledger u w sender account id amount uri :
  contracts w !! ledger = Some (UtilityLedger u) ->
  hasRole (UC._roles u) SUPPLIER_CONTRACT_ROLE sender = true ->
  account <> 0 -> accepts_erc1155 (env w) account = true ->
  ERC1155.balanceOf (UC._balances u) account id + amount <= MAX_UINT256 ->
  SupplierUtilityContract.mint ledger sender account id amount uri w
    = Ok (tt, set_contracts
                (<[ledger := UtilityLedger (utility_mint_amount account amount u id uri)]>
                   (contracts w)) w).
Proof.
  intros Hl Hr Hacc Hok Hb. unfold SupplierUtilityContract.mint.
  rewrite (bind_step _ _ _ _ _ (utility_load_Ok _ _ _ Hl)).
  rewrite (bind_step _ _ _ _ _ (onlyRole_pass _ _ _ _ Hr)).
  rewrite (bind_step _ _ _ _ _ (ERC1155_mint_Ok _ _ _ _ _ Hacc Hb Hok)).
  reflexivity.
Qed.

(** What a [burn] that returned did. *)
Lemma supplier_burn_Ok_inv self sender account id amount utility w u0 w' :
  SupplierContract.burn self sender account id amount utility w = Ok (u0, w') ->
  exists s,
    contracts w !! self = Some (SupplierLedger s)
    /\ hasRole (SC._roles s) FACTORY_CONTRACT_ROLE sender = true
    /\ account <> 0
    /\ amount <= ERC1155.balanceOf (SC._balances s) account id
    /\ if utility
       then exists u,
              contracts w !! SC.utility_contract s = Some (UtilityLedger u)
              /\ hasRole (UC._roles u) SUPPLIER_CONTRACT_ROLE self = true
              /\ ERC1155.balanceOf (UC._balances u) account id + amount <= MAX_UINT256
              /\ accepts_erc1155 (env w) account = true
              /\ w' = set_contracts
                        (<[self := SupplierLedger (burn_amount account amount s id)]>
                           (<[SC.utility_contract s :=
                                UtilityLedger
                                  (utility_mint_amount account amount u id
                                     (SupplierContract.uri s id))]>
                              (contracts w))) w
       else w' = set_contracts
                   (<[self := SupplierLedger (burn_amount account amount s id)]>
                      (contracts w)) w.
Proof.
  unfold SupplierContract.burn. intros H.
  apply bind_Ok in H as (s & w1 & Hl & H). apply supplier_load_inv in Hl as [Hl ->].
  apply bind_Ok in H as ([] & w1 & Hr & H). apply onlyRole_Ok in Hr as [Hr ->].
  cbv zeta in H.
  apply bind_Ok in H as ([] & w1 & Hs & H). apply put_contract_Ok in Hs as ->.
  apply bind_Ok in H as ([] & w2 & Hu & H).
  exists s. split; [exact Hl|]. split; [exact Hr|].
  destruct utility.
  - apply utility_mint_Ok_inv in Hu as (u & HU & Hur & Hz & Hb & Hacc & ->).
    simpl in HU.
    assert (self <> SC.utility_contract s) as Hne.
    { intros E. rewrite <- E, lookup_insert_eq in HU. discriminate. }
    rewrite lookup_insert_ne in HU by exact Hne.
    apply bind_Ok in H as (s1 & w3 & Hl1 & H). apply supplier_load_inv in Hl1 as [Hl1 ->].
    simpl in Hl1. rewrite lookup_insert_ne, lookup_insert_eq in Hl1 by congruence.
    injection Hl1 as <-.
    apply bind_Ok in H as (bal & w3 & Hb1 & H).
    apply ERC1155_burn_Ok_inv in Hb1 as (_ & Hle & -> & ->).
    apply put_contract_Ok in H as ->. simpl in *.
    split; [exact Hz|]. split; [exact Hle|].
    exists u. split; [exact HU|]. split; [exact Hur|]. split; [exact Hb|].
    split; [exact Hacc|].
    rewrite (insert_insert_ne _ (SC.utility_contract s) self) by congruence.
    rewrite insert_insert_eq. reflexivity.
  - unfold ret in Hu. injection Hu as <-.
    apply bind_Ok in H as (s1 & w3 & Hl1 & H). apply supplier_load_inv in Hl1 as [Hl1 ->].
    simpl in Hl1. rewrite lookup_insert_eq in Hl1. injection Hl1 as <-.
    apply bind_Ok in H as (bal & w3 & Hb1 & H).
    apply ERC1155_burn_Ok_inv in Hb1 as (Hz & Hle & -> & ->).
    apply put_contract_Ok in H as ->. simpl in *.
    split; [exact Hz|]. split; [exact Hle|].
    rewrite insert_insert_eq. reflexivity.
Qed.

Lemma supplier_burn_amount_plain_Ok self sender s w account id amount :
  contracts w !! self = Some (SupplierLedger s) ->
  hasRole (SC._roles s) FACTORY_CONTRACT_ROLE sender = true ->
  account <> 0 ->
  amount <= ERC1155.balanceOf (SC._balances s) account id ->
  SupplierContract.burn self sender account id amount false w
    = Ok (tt, set_contracts
                (<[self := SupplierLedger (burn_amount account amount s id)]>
                   (contracts w)) w).
Proof.
  intros Hl Hr Hacc Hb. unfold SupplierContract.burn.
  rewrite (bind_step _ _ _ _ _ (supplier_load_Ok _ _ _ Hl)).
  rewrite (bind_step _ _ _ _ _ (onlyRole_pass _ _ _ _ Hr)).
  cbv zeta. unfold SupplierContract.store at 1.
  unfold bind at 1. unfold put_contract at 1.
  unfold bind at 1. unfold ret at 1.
  rewrite (bind_step _ _ _ _ _ (supplier_load_Ok _ _ _ (lookup_insert_eq _ _ _))).
  rewrite (bind_step _ _ _ _ _ (ERC1155_burn_Ok _ _ _ _ _ Hacc Hb)).
  unfold SupplierContract.store, put_contract. simpl.
  rewrite insert_insert_eq. reflexivity.
Qed.

Lemma supplier_burn_amount_utility_Ok self sender s u w account id amount :
  contracts w !! self = Some (SupplierLedger s) ->
  hasRole (SC._roles s) FACTORY_CONTRACT_ROLE sender = true ->
  contracts w !! SC.utility_contract s = Some (UtilityLedger u) ->
  hasRole (UC._roles u) SUPPLIER_CONTRACT_ROLE self = true ->
  account <> 0 ->
  accepts_erc1155 (env w) account = true ->
  amount <= ERC1155.balanceOf (SC._balances s) account id ->
  ERC1155.balanceOf (UC._balances u) account id + amount <= MAX_UINT256 ->
  SupplierContract.burn self sender account id amount true w
    = Ok (tt, set_contracts
                (<[self := SupplierLedger (burn_amount account amount s id)]>
                   (<[SC.utility_contract s :=
                        UtilityLedger
                          (utility_mint_amount account amount u id
                             (SupplierContract.uri s id))]>
                      (contracts w))) w).
Proof.
  intros Hl Hr Hu Hur Hacc Hok Hb Hub.
  assert (self <> SC.utility_contract s) as Hne by congruence.
  unfold SupplierContract.burn.
  rewrite (bind_step _ _ _ _ _ (supplier_load_Ok _ _ _ Hl)).
  rewrite (bind_step _ _ _ _ _ (onlyRole_pass _ _ _ _ Hr)).
  cbv zeta. unfold SupplierContract.store at 1.
  unfold bind at 1. unfold put_contract at 1.
  set (w1 := set_contracts
               (<[self := SupplierLedger
                    (SC.set_bookingTickets (<[id := ""%string]> (SC.bookingTickets s)) s)]>
                  (contracts w)) w).
  assert (contracts w1 !! SC.utility_contract s = Some (UtilityLedger u)) as Hu1.
  { unfold w1. simpl. rewrite lookup_insert_ne by exact Hne. exact Hu. }
  rewrite (bind_step _ _ _ _ _
             (utility_mint_amount_Ok (SC.utility_contract s) u w1 self account id amount
                (SupplierContract.uri s id) Hu1 Hur Hacc Hok Hub)).
  set (w2 := set_contracts _ w1).
  assert (contracts w2 !! self
          = Some (SupplierLedger
                    (SC.set_bookingTickets (<[id := ""%string]> (SC.bookingTickets s)) s)))
    as Hl2.
  { unfold w2, w1. simpl. rewrite lookup_insert_ne by congruence.
    apply lookup_insert_eq. }
  rewrite (bind_step _ _ _ _ _ (supplier_load_Ok _ _ _ Hl2)).
  rewrite (bind_step _ _ _ _ _ (ERC1155_burn_Ok _ _ _ _ _ Hacc Hb)).
  unfold w2, w1.
  unfold SupplierContract.store, put_contract. simpl.
  rewrite (insert_insert_ne _ (SC.utility_contract s) self) by congruence.
  rewrite insert_insert_eq. reflexivity.
Qed.

(** X11.  [burn] on a supplier ledger, called by a holder of the factory
    role for an amount that the balance of [account] covers.  Without the
    utility flag it takes the amount from the balance, clears the URI of the
    token, and touches no other contract.  With the utility flag, when the
    utility ledger that the supplier ledger names grants it the supplier role
    and [account] can receive the tokens, it also mints the same amount of the
    same id to [account] on the utility ledger, and the URI that the ticket
    had becomes the URI of the utility token: the ticket is exchanged for a
    proof of stay that carries its URI.  The transferability flag of the id
    stays as it was, and the orchestrator is not written. *)
Theorem burn_exchanges_ticket_for_proof_of_stay self sender account id amount w s :
  let U := SC.utility_contract s in
  contracts w !! self = Some (SupplierLedger s) ->
  hasRole (SC._roles s) FACTORY_CONTRACT_ROLE sender = true ->
  account <> 0 ->
  amount <= ERC1155.balanceOf (SC._balances s) account id ->
  (exists w',
     SupplierContract.burn self sender account id amount false w = Ok (tt, w')
     /\ balance_at w' self account id = balance_at w self account id - amount
     /\ uri_at w' self id = ""%string
     /\ transferable_at w' self id = transferable_at w self id
     /\ (forall b, b <> self -> contracts w' !! b = contracts w !! b)
     /\ buk w' = buk w /\ calls w' = calls w)
  /\ (forall u,
        contracts w !! U = Some (UtilityLedger u) ->
        hasRole (UC._roles u) SUPPLIER_CONTRACT_ROLE self = true ->
        accepts_erc1155 (env w) account = true ->
        ERC1155.balanceOf (UC._balances u) account id + amount <= MAX_UINT256 ->
        exists w',
          SupplierContract.burn self sender account id amount true w = Ok (tt, w')
          /\ balance_at w' self account id = balance_at w self account id - amount
          /\ utility_balance_at w' U account id
             = utility_balance_at w U account id + amount
          /\ uri_at w' U id = uri_at w self id
          /\ uri_at w' self id = ""%string
          /\ transferable_at w' self id = transferable_at w self id
          /\ (forall b, b <> self -> b <> U -> contracts w' !! b = contracts w !! b)
          /\ buk w' = buk w /\ calls w' = calls w).
Proof.
  intros U Hl Hr Hacc Hb. split.
  - eexists. split; [apply supplier_burn_amount_plain_Ok; eassumption|].
    unfold balance_at, uri_at, transferable_at. simpl.
    rewrite !lookup_insert_eq, Hl. unfold burn_amount. simpl.
    split; [rewrite balanceOf_insert, decide_True by reflexivity; reflexivity|].
    split; [unfold SupplierContract.uri; simpl; rewrite lookup_insert_eq; reflexivity|].
    split; [reflexivity|].
    split; [intros b Hne; apply lookup_insert_ne; congruence|].
    split; reflexivity.
  - intros u Hu Hur Hok Hub. unfold U in *. clear U.
    assert (self <> SC.utility_contract s) as Hne by congruence.
    eexists. split; [apply supplier_burn_amount_utility_Ok; eassumption|].
    unfold balance_at, utility_balance_at, uri_at, transferable_at. simpl.
    rewrite !lookup_insert_eq, Hl, Hu.
    rewrite !(lookup_insert_ne _ self (SC.utility_contract s)) by exact Hne.
    rewrite !lookup_insert_eq.
    unfold burn_amount, utility_mint_amount. simpl.
    split; [rewrite balanceOf_insert, decide_True by reflexivity; reflexivity|].
    split; [rewrite balanceOf_insert, decide_True by reflexivity; reflexivity|].
    split; [unfold SupplierUtilityContract.uri; simpl; rewrite lookup_insert_eq;
            reflexivity|].
    split; [unfold SupplierContract.uri; simpl; rewrite lookup_insert_eq; reflexivity|].
    split; [reflexivity|].
    split; [intros b Hb1 Hb2; rewrite !lookup_insert_ne by congruence; reflexivity|].
    split; reflexivity.
Qed.

Lemma burn_exchanges_ticket_for_proof_of_stay_witness :
  exists w',
    SupplierContract.burn 2001 Demo.orchestrator Demo.guest 1 1 true demo_confirmed
    = Ok (tt, w')
    /\ balance_at w' 2001 Demo.guest 1 = balance_at demo_confirmed 2001 Demo.guest 1 - 1
    /\ utility_balance_at w' 3001 Demo.guest 1
       = utility_balance_at demo_confirmed 3001 Demo.guest 1 + 1
    /\ uri_at w' 3001 1 = "uriA"%string
    /\ uri_at w' 2001 1 = ""%string.
Proof.
  destruct (burn_exchanges_ticket_for_proof_of_stay 2001 Demo.orchestrator Demo.guest
              1 1 demo_confirmed (supplier_storage demo_confirmed 2001)) as (_ & H).
  - vm_compute. reflexivity.
  - vm_compute. reflexivity.
  - discriminate.
  - vm_compute. discriminate.
  - destruct (H (utility_storage demo_confirmed 3001))
      as (w' & E & H1 & H2 & H3 & H4 & _).
    + vm_compute. reflexivity.
    + vm_compute. reflexivity.
    + reflexivity.
    + vm_compute. discriminate.
    + exists w'. split; [exact E|]. split; [exact H1|]. split; [exact H2|].
      split; [|exact H4].
      transitivity (uri_at demo_confirmed 2001 1); [exact H3 | vm_compute; reflexivity].
Defined.

(** ** [checkout] and [cancelRoom] burn the token of the booking's owner *)

Lemma burn_amount_balance account amount s id a k :
  ERC1155.balanceOf (SC._balances (burn_amount account amount s id)) a k
  = ERC1155.balanceOf (SC._balances s) a k
    - (if decide ((id, account) = (k, a)) then amount else 0).
Proof.
  unfold burn_amount. simpl. rewrite balanceOf_insert.
  destruct (decide ((id, account) = (k, a))) as [E|]; [injection E as -> ->|]; lia.
Qed.

(** A [burn] of one token that returned found it, and raised no balance of
    the ledger. *)
Lemma supplier_burn_one_inv self sender account id utility w u0 w' :
  SupplierContract.burn self sender account id 1 utility w = Ok (u0, w') ->
  account <> 0
  /\ 1 <= balance_at w self account id
  /\ (forall a k, balance_at w' self a k <= balance_at w self a k)
  /\ buk w' = buk w /\ buk_address w' = buk_address w.
Proof.
  intros H. apply supplier_burn_Ok_inv in H as (s & Hl & _ & Hz & Hb & H).
  assert (w' = set_contracts (contracts w') w
          /\ contracts w' !! self = Some (SupplierLedger (burn_amount account 1 s id)))
    as [Ew Hl'].
  { destruct utility.
    - destruct H as (u & _ & _ & _ & _ & ->). simpl.
      split; [reflexivity | apply lookup_insert_eq].
    - subst w'. simpl. split; [reflexivity | apply lookup_insert_eq]. }
  split; [exact Hz|]. unfold balance_at. rewrite Hl, Hl'.
  split; [exact Hb|]. split.
  - intros a k. rewrite burn_amount_balance. destruct (decide _); lia.
  - rewrite Ew. split; reflexivity.
Qed.

Lemma cancelRoom_needs_token sender sid id penalty refund charges w u w' :
  BukTrips.cancelRoom sender sid id penalty refund charges w = Ok (u, w') ->
  let L := SupplierDetails.supplier_contract (BukTrips.getSupplier (buk w) sid) in
  Booking.owner (getB w id) <> 0
  /\ 1 <= balance_at w L (Booking.owner (getB w id)) id.
Proof.
  intros H L. unfold BukTrips.cancelRoom in H.
  apply bind_Ok in H as ([] & w1 & Hs & H). apply onlyAdmin_Ok in Hs as [_ ->].
  apply bind_Ok in H as ([] & w1 & Hs & H). apply supplierRegistered_Ok in Hs as [_ ->].
  apply bind_Ok in H as (s & w1 & Hg & H). inv_Ok Hg.
  apply bind_Ok in H as ([] & w1 & Hst & H). apply require_Ok in Hst as [_ ->].
  rewrite (bind_step _ _ _ _ _ (write_status_eq _ _ _)) in H.
  apply bind_Ok in H as (s1 & w1 & Hg & H). inv_Ok Hg.
  apply bind_Ok in H as (b1 & w1 & Hc1 & H). apply external_call_Ok in Hc1 as (_ & _ & ->).
  apply bind_Ok in H as (b2 & w2 & Hc2 & H). apply external_call_Ok in Hc2 as (_ & _ & ->).
  apply bind_Ok in H as (b3 & w3 & Hc3 & H). apply external_call_Ok in Hc3 as (_ & _ & ->).
  apply bind_Ok in H as (me & w4 & Hg & H). inv_Ok Hg.
  apply supplier_burn_one_inv in H as (Hz & Hb & _).
  simpl in Hz, Hb. rewrite getBooking_setBooking, decide_True in Hz, Hb by reflexivity.
  simpl in Hz, Hb. split; [exact Hz | exact Hb].
Qed.

Lemma checkout_needs_token sender sid ids w u w' :
  BukTrips.checkout sender sid ids w = Ok (u, w') ->
  let L := SupplierDetails.supplier_contract (BukTrips.getSupplier (buk w) sid) in
  forall id, id ∈ ids ->
    Booking.owner (getB w id) <> 0
    /\ 1 <= balance_at w L (Booking.owner (getB w id)) id.
Proof.
  intros H L. unfold BukTrips.checkout in H.
  apply bind_Ok in H as ([] & w1 & Hs & H). apply onlyAdmin_Ok in Hs as [_ ->].
  apply bind_Ok in H as ([] & w1 & Hs & H). apply supplierRegistered_Ok in Hs as [_ ->].
  apply bind_Ok in H as ([] & w1 & Hl & H). apply require_Ok in Hl as [_ ->].
  apply bind_Ok in H as ([] & w1 & Hv & H).
  apply (check_loop_Ok ids _ (fun _ _ => True)) in Hv as (-> & _ & _).
  2:{ intros id w2 u2 w3 Hc. inv_Ok Hc. auto. }
  apply bind_Ok in H as (me & w1 & Hg & H). inv_Ok Hg.
  apply (for_uint8_inv _ _
           (fun j (_ : unit) w1 =>
              0 <= j
              /\ BukTrips.getSupplier (buk w1) sid = BukTrips.getSupplier (buk w) sid
              /\ buk_address w1 = buk_address w
              /\ (forall k, Booking.owner (getB w1 k) = Booking.owner (getB w k))
              /\ (forall a k, balance_at w1 L a k <= balance_at w L a k)
              /\ forall i id, 0 <= i < j -> ids !! Z.to_nat i = Some id ->
                   Booking.owner (getB w id) <> 0
                   /\ 1 <= balance_at w L (Booking.owner (getB w id)) id))
    in H; [| | lia |].
  - destruct H as (_ & _ & _ & _ & _ & H). intros id Hin.
    apply list_elem_of_lookup in Hin as [n Hn].
    apply (H (Z.of_nat n)); [| rewrite Nat2Z.id; exact Hn].
    apply lookup_lt_Some in Hn. lia.
  - intros j [] w1 [] w2 Hj (_ & Hsup & Hme & Hown & Hbal & Hdone) Hb.
    apply bind_Ok in Hb as (id & w3 & Hi & Hb). apply index_Ok in Hi as [Hid ->].
    rewrite (bind_step _ _ _ _ _ (write_status_eq _ _ _)) in Hb.
    apply bind_Ok in Hb as (s1 & w3 & Hg & Hb). inv_Ok Hg.
    apply supplier_burn_one_inv in Hb as (Hz & Hb & Hle & Hbuk & Hadr).
    simpl in Hz, Hb, Hle, Hbuk, Hadr.
    assert (BukTrips.getSupplier
              (BukTrips.setBooking id
                 (Booking.set_status BookingStatus.expired (getB w1 id)) (buk w1)) sid
            = BukTrips.getSupplier (buk w) sid) as Hsup'.
    { rewrite <- Hsup. unfold BukTrips.getSupplier. destruct (buk w1). reflexivity. }
    rewrite Hsup' in Hb, Hle. fold L in Hb, Hle.
    rewrite getBooking_setBooking, decide_True in Hz, Hb by reflexivity.
    simpl in Hz, Hb. rewrite Hown in Hz, Hb.
    assert (forall a k,
              balance_at
                (set_buk (BukTrips.setBooking id
                            (Booking.set_status BookingStatus.expired (getB w1 id))
                            (buk w1)) w1) L a k
              = balance_at w1 L a k) as Hsame by reflexivity.
    split; [lia|]. split; [rewrite Hbuk; exact Hsup'|]. split; [congruence|].
    split; [|split].
    + intros k. unfold getB at 1. rewrite Hbuk. fold (getB w1 k).
      change (BukTrips.getBooking ?s k) with (getB (set_buk s w1) k).
      rewrite getB_setBooking. destruct (decide (id = k)) as [<-|]; [simpl|]; apply Hown.
    + intros a k. specialize (Hle a k). rewrite Hsame in Hle.
      specialize (Hbal a k). lia.
    + intros i id' Hi Hid'. destruct (Z.eq_dec i j) as [->|Hne].
      * assert (id' = id) as -> by congruence. split; [exact Hz|].
        rewrite Hsame in Hb. specialize (Hbal (Booking.owner (getB w id)) id). lia.
      * apply (Hdone i); [lia | exact Hid'].
  - split; [lia|]. split; [reflexivity|]. split; [reflexivity|].
    split; [reflexivity|]. split; [intros; lia|]. intros; lia.
Qed.

(** X12.  [checkout] and [cancelRoom] burn one token of each booking from the
    account recorded as its owner when it was booked, on the ledger of the
    supplier given as argument.  So a call that returns found, for each of
    its bookings, a non-zero owner holding at least one token of that id on
    that ledger; and when the recorded owner of a booking holds no token of
    its id there (it has transferred the ticket, or the supplier argument
    names another ledger), every [checkout] whose list contains the booking
    and every [cancelRoom] of it reverts, whoever calls and whatever the
    other arguments. *)
Theorem checkout_and_cancelRoom_need_the_owners_token sender sid w :
  let L := SupplierDetails.supplier_contract (BukTrips.getSupplier (buk w) sid) in
  (forall ids u w',
     BukTrips.checkout sender sid ids w = Ok (u, w') ->
     forall id, id ∈ ids ->
       Booking.owner (getB w id) <> 0
       /\ 1 <= balance_at w L (Booking.owner (getB w id)) id)
  /\ (forall id penalty refund charges u w',
        BukTrips.cancelRoom sender sid id penalty refund charges w = Ok (u, w') ->
        Booking.owner (getB w id) <> 0
        /\ 1 <= balance_at w L (Booking.owner (getB w id)) id)
  /\ (forall id,
        balance_at w L (Booking.owner (getB w id)) id <= 0 ->
        (forall ids, id ∈ ids -> exists e, BukTrips.checkout sender sid ids w = Revert e)
        /\ (forall penalty refund charges,
              exists e,
                BukTrips.cancelRoom sender sid id penalty refund charges w = Revert e)).
Proof.
  intros L. split; [|split].
  - intros ids u w' H. apply (checkout_needs_token sender sid ids w u w' H).
  - intros id penalty refund charges u w' H.
    apply (cancelRoom_needs_token sender sid id penalty refund charges w u w' H).
  - intros id Hb. split.
    + intros ids Hin.
      destruct (BukTrips.checkout sender sid ids w) as [[u w']|e] eqn:E; [|eauto].
      destruct (checkout_needs_token sender sid ids w u w' E id Hin) as [_ H].
      fold L in H. lia.
    + intros penalty refund charges.
      destruct (BukTrips.cancelRoom sender sid id penalty refund charges w)
        as [[u w']|e] eqn:E; [|eauto].
      destruct (cancelRoom_needs_token sender sid id penalty refund charges w u w' E)
        as [_ H].
      fold L in H. lia.
Qed.

(** X13.  A ticket that has left its booker blocks the booking.  The booking
    [id] names the account [owner]; on the ledger [L] of the supplier [sid]
    the token [id] is transferable and [owner] holds exactly one.  When
    [owner] transfers it to another account [to], the transfer returns and
    the orchestrator still names [owner] in the booking; in the world that
    the transfer leaves, [checkout] (of any list with [id]) and [cancelRoom]
    of the booking with supplier [sid] revert for every caller, and [to],
    when it is no admin, is refused by [toggleNFTStatus]. *)
Theorem transferred_ticket_blocks_the_booking w sid id to s :
  let L := SupplierDetails.supplier_contract (BukTrips.getSupplier (buk w) sid) in
  let owner := Booking.owner (getB w id) in
  contracts w !! L = Some (SupplierLedger s) ->
  SupplierContract.is_transferable s id = true ->
  ERC1155.balanceOf (SC._balances s) owner id = 1 ->
  to <> 0 -> to <> owner ->
  accepts_erc1155 (env w) to = true ->
  ERC1155.balanceOf (SC._balances s) to id + 1 <= MAX_UINT256 ->
  exists w',
    SupplierContract.safeTransferFrom L owner owner to id 1 w = Ok (tt, w')
    /\ balance_at w' L to id = balance_at w L to id + 1
    /\ getB w' id = getB w id
    /\ (forall sender ids,
          id ∈ ids -> exists e, BukTrips.checkout sender sid ids w' = Revert e)
    /\ (forall sender penalty refund charges,
          exists e,
            BukTrips.cancelRoom sender sid id penalty refund charges w' = Revert e)
    /\ (forall now st,
          ~ is_admin w to ->
          BukTrips.toggleNFTStatus to now id st w'
          = Revert (Require AuthorizationError "Caller does not have access")).
Proof.
  intros L owner Hl Hf Hbal Hto Hne Hacc Hmax.
  eexists. split.
  { apply (supplier_transfer_Ok L owner owner to id 1 w s Hl Hf); auto; lia. }
  set (w' := set_contracts _ w).
  assert (forall a k, balance_at w' L a k
                      = ERC1155.balanceOf (SC._balances (transfer_one owner to id 1 s)) a k)
    as Hb'.
  { intros a k. unfold balance_at, w'. simpl. rewrite lookup_insert_eq. reflexivity. }
  assert (balance_at w' L owner id <= 0) as Hzero.
  { rewrite Hb', transfer_one_balance, Hbal.
    rewrite decide_True by reflexivity.
    rewrite decide_False by (intros [= E]; congruence). lia. }
  split; [|split; [reflexivity|]].
  { rewrite Hb', transfer_one_balance. unfold balance_at. rewrite Hl.
    rewrite decide_False by (intros [= E]; congruence).
    rewrite decide_True by reflexivity. lia. }
  split; [|split].
  - intros sender ids Hin.
    destruct (BukTrips.checkout sender sid ids w') as [[u w'']|e] eqn:E; [|eauto].
    destruct (checkout_needs_token sender sid ids w' u w'' E id Hin) as [_ H].
    change (1 <= balance_at w' L owner id) in H. lia.
  - intros sender penalty refund charges.
    destruct (BukTrips.cancelRoom sender sid id penalty refund charges w')
      as [[u w'']|e] eqn:E; [|eauto].
    destruct (cancelRoom_needs_token sender sid id penalty refund charges w' u w'' E)
      as [_ H].
    change (1 <= balance_at w' L owner id) in H. lia.
  - intros now st Hna. unfold BukTrips.toggleNFTStatus. apply bind_fail.
    unfold BukTrips.checkAccess, bind, get_buk. apply require_false.
    apply orb_false_iff. split.
    + unfold is_admin in Hna. unfold w'. simpl.
      destruct (hasRole _ _ _); [contradiction Hna|]; reflexivity.
    + apply bool_decide_eq_false_2. exact Hne.
Qed.

Lemma transferred_ticket_blocks_the_booking_witness :
  exists w',
    SupplierContract.safeTransferFrom 2001 Demo.guest Demo.guest Demo.hotel 1 1
      demo_transferable = Ok (tt, w')
    /\ balance_at w' 2001 Demo.hotel 1 = 1
    /\ (exists e, BukTrips.checkout Demo.admin 1 [1] w' = Revert e)
    /\ (exists e, BukTrips.cancelRoom Demo.admin 1 1 10 80 10 w' = Revert e).
Proof.
  destruct (transferred_ticket_blocks_the_booking demo_transferable 1 1 Demo.hotel
              (supplier_storage demo_transferable 2001))
    as (w' & E & H1 & _ & H3 & H4 & _).
  - vm_compute. reflexivity.
  - vm_compute. reflexivity.
  - vm_compute. reflexivity.
  - discriminate.
  - vm_compute. discriminate.
  - reflexivity.
  - vm_compute. discriminate.
  - exists w'. split; [exact E|]. split; [|split].
    + etransitivity; [exact H1|]. vm_compute. reflexivity.
    + apply (H3 Demo.admin [1]). apply list_elem_of_singleton. reflexivity.
    + apply (H4 Demo.admin 10 80 10).
Defined.

(** ** The calls to the currency ledger and to the treasury *)

(** A call that sends nothing to the collaborators. *)
Definition silent {A} (m : M A) : Prop :=
  forall w a w', m w = Ok (a, w') -> calls w' = calls w.

Lemma silent_bind {A B} (m : M A) (k : A -> M B) :
  silent m -> (forall a, silent (k a)) -> silent (bind m k).
Proof.
  intros Hm Hk w b w' H. apply bind_Ok in H as (a & w1 & H1 & H2).
  rewrite (Hk _ _ _ _ H2). eapply Hm. exact H1.
Qed.

Lemma silent_reads_only {A} (m : M A) : reads_only m -> silent m.
Proof. intros Hm w a w' H. apply Hm in H as ->. reflexivity. Qed.

Lemma silent_ledger_only {A} (m : M A) : ledger_only m -> silent m.
Proof. intros Hm w a w' H. apply Hm in H as (_ & _ & _ & H). exact H. Qed.

Lemma silent_put_buk b : silent (put_buk b).
Proof. intros w u w' H. apply put_buk_Ok in H as ->. reflexivity. Qed.

Lemma silent_for_uint8 {S} len (body : Z -> S -> M S) s :
  (forall i s, silent (body i s)) -> silent (for_uint8 len body s).
Proof.
  intros Hb w s' w'. unfold for_uint8. generalize 256%nat 0. intros fuel.
  revert s w. induction fuel as [|fuel IH]; intros s w i; simpl.
  - destruct (i <? len); [discriminate|]. intros [= <- <-]. reflexivity.
  - destruct (i <? len); [|intros [= <- <-]; reflexivity].
    intros H. apply bind_Ok in H as (s1 & w1 & H1 & H2).
    destruct (i =? MAX_UINT8); [discriminate|].
    rewrite (IH _ _ _ H2). eapply Hb. exact H1.
Qed.

Create HintDb silent.
#[export] Hint Resolve silent_put_buk : silent.
#[export] Hint Extern 5 (silent _) =>
  (apply silent_reads_only; solve [auto with reads]) : silent.
#[export] Hint Extern 6 (silent _) =>
  (apply silent_ledger_only; solve [auto with ledger]) : silent.

Ltac silent :=
  repeat first
    [ solve [auto with silent]
    | apply silent_bind; [| intros ?]
    | apply silent_for_uint8; intros ? ?
    | match goal with
      | |- silent (if ?c then _ else _) => destruct c
      | |- silent (match ?x with _ => _ end) => destruct x
      | |- silent (let x := _ in _) => cbv zeta
      end ].

Lemma cancelRoom_calls sender sid id penalty refund charges w u w' :
  BukTrips.cancelRoom sender sid id penalty refund charges w = Ok (u, w') ->
  let treasury := Storage.BukTrips.treasury (buk w) in
  calls w' = calls w ++
    [ cancelUSDCRefund treasury penalty
        (SupplierDetails.supplier_owner
           (BukTrips.getSupplier (buk w) (Booking.supplierId (getB w id))));
      cancelUSDCRefund treasury refund (Booking.owner (getB w id));
      cancelUSDCRefund treasury charges (Storage.BukTrips.buk_wallet (buk w)) ].
Proof.
  intros H treasury. unfold BukTrips.cancelRoom in H.
  apply bind_Ok in H as ([] & w1 & Hs & H). apply onlyAdmin_Ok in Hs as [_ ->].
  apply bind_Ok in H as ([] & w1 & Hs & H). apply supplierRegistered_Ok in Hs as [_ ->].
  apply bind_Ok in H as (s & w1 & Hg & H). inv_Ok Hg.
  apply bind_Ok in H as ([] & w1 & Hst & H). apply require_Ok in Hst as [_ ->].
  rewrite (bind_step _ _ _ _ _ (write_status_eq _ _ _)) in H.
  apply bind_Ok in H as (s1 & w1 & Hg & H). inv_Ok Hg.
  apply bind_Ok in H as (b1 & w1 & Hc1 & H). apply external_call_Ok in Hc1 as (_ & _ & ->).
  apply bind_Ok in H as (b2 & w2 & Hc2 & H). apply external_call_Ok in Hc2 as (_ & _ & ->).
  apply bind_Ok in H as (b3 & w3 & Hc3 & H). apply external_call_Ok in Hc3 as (_ & _ & ->).
  apply bind_Ok in H as (me & w4 & Hg & H). inv_Ok Hg.
  apply SupplierFrame.supplier_burn_frame in H as (_ & _ & _ & ->). simpl.
  rewrite getBooking_setBooking, decide_True by reflexivity. simpl.
  rewrite <- !app_assoc. simpl.
  replace (BukTrips.getSupplier
             (BukTrips.setBooking id
                (Booking.set_status BookingStatus.cancelled (getB w id)) (buk w))
             (Booking.supplierId (getB w id)))
    with (BukTrips.getSupplier (buk w) (Booking.supplierId (getB w id)))
    by (unfold BukTrips.getSupplier; destruct (buk w); reflexivity).
  destruct (buk w); reflexivity.
Qed.

(** X14.  Money moves in three functions only.  A transaction that returns
    leaves the trace of the calls to the currency ledger and to the treasury
    as it was, unless it is a [bookRoom] (two to four token transfers on the
    currency ledger), a [bookingRefund] (one refund by the treasury, of the
    totals and commissions of the list) or a [cancelRoom]: three payments by
    the treasury, of the penalty to the owner of the supplier stored in the
    booking, of the refund to the owner of the booking and of the charges to
    the protocol wallet, in this order, with the amounts as the admin gave
    them.  In particular [confirmRoom] and [checkout] move no money. *)
Theorem money_moves_in_three_functions sender now op w r w' :
  exec sender now op w = Ok (r, w') ->
  let treasury := Storage.BukTrips.treasury (buk w) in
  let currency := Storage.BukTrips.currency (buk w) in
  match op with
  | bookRoom _ _ _ _ _ _ =>
      exists l,
        calls w' = calls w ++ l /\ (2 <= length l <= 4)%nat
        /\ Forall (fun c => exists a b n, c = transferFrom currency a b n) l
  | bookingRefund _ ids owner =>
      calls w' = calls w
                 ++ [cancelUSDCRefund treasury (sum_list (refund_of w <$> ids)) owner]
  | cancelRoom _ id penalty refund charges =>
      calls w' = calls w ++
        [ cancelUSDCRefund treasury penalty
            (SupplierDetails.supplier_owner
               (BukTrips.getSupplier (buk w) (Booking.supplierId (getB w id))));
          cancelUSDCRefund treasury refund (Booking.owner (getB w id));
          cancelUSDCRefund treasury charges (Storage.BukTrips.buk_wallet (buk w)) ]
  | _ => calls w' = calls w
  end.
Proof.
  intros H treasury currency.
  assert (silent (exec sender now op) -> calls w' = calls w) as Hs
    by (intros Hs; eapply Hs; exact H).
  destruct op;
    try (apply Hs; simpl; autounfold with orchestrator; unfold BukTrips.onlyAdmin;
         solve [silent]).
  - simpl in H. apply bookRoom_transfers in H.
    destruct H as [(_ & _ & _ & ->) | [(_ & _ & _ & ->) | (_ & _ & ->)]];
      eexists; (split; [reflexivity|]); (split; [simpl; lia|]);
      repeat constructor; eauto.
  - simpl in H. apply done_Ok in H as [_ [a H]].
    apply bookingRefund_sends in H as (H & _). exact H.
  - simpl in H. apply done_Ok in H as [_ [a H]].
    apply cancelRoom_calls in H. exact H.
Qed.

Lemma money_moves_in_three_functions_witness :
  exists w',
    exec Demo.admin 1000 (checkout 1 [1; 2]) demo_confirmed = Ok (true, w')
    /\ calls w' = calls demo_confirmed.
Proof.
  assert (exec Demo.admin 1000 (checkout 1 [1; 2]) demo_confirmed
          = Ok (true, step (Demo.tx Demo.admin (checkout 1 [1; 2])) demo_confirmed)) as E
    by (vm_compute; reflexivity).
  eexists. split; [exact E|].
  apply (money_moves_in_three_functions Demo.admin 1000 (checkout 1 [1; 2])
           demo_confirmed true _ E).
Defined.

(** ** Relating the contracts before and after a call *)

(** A relation [K old new] between the contract that an address held before a
    call and the one it holds after, reflexive and transitive. *)
Class Lawful (K : Contract -> Contract -> Prop) : Prop := {
  lawful_refl : forall c, K c c;
  lawful_trans : forall c1 c2 c3, K c1 c2 -> K c2 c3 -> K c1 c3
}.

Section Relation.
Variable K : Contract -> Contract -> Prop.
Context {HK : Lawful K}.

(** Every contract of [w] is still there in [w'], related by [K]. *)
Definition related (w w' : World) : Prop :=
  forall a c, contracts w !! a = Some c ->
    exists c', contracts w' !! a = Some c' /\ K c c'.

Definition relates {A} (m : M A) : Prop :=
  forall w a w', m w = Ok (a, w') -> related w w'.

Lemma related_refl w : related w w.
Proof. intros a c H. exists c. split; [exact H | apply lawful_refl]. Qed.

Lemma related_trans w1 w2 w3 : related w1 w2 -> related w2 w3 -> related w1 w3.
Proof.
  intros H1 H2 a c Hc.
  destruct (H1 a c Hc) as (c' & Hc' & K1). destruct (H2 a c' Hc') as (c'' & Hc'' & K2).
  exists c''. split; [exact Hc'' | eapply lawful_trans; eassumption].
Qed.

Lemma related_same w w' : contracts w' = contracts w -> related w w'.
Proof. intros E a c H. rewrite E. exists c. split; [exact H | apply lawful_refl]. Qed.

Lemma related_insert a c w :
  (forall c0, contracts w !! a = Some c0 -> K c0 c) ->
  related w (set_contracts (<[a := c]> (contracts w)) w).
Proof.
  intros Hk a' c' H. simpl. destruct (decide (a = a')) as [<-|Hne].
  - rewrite lookup_insert_eq. exists c. split; [reflexivity | apply Hk, H].
  - rewrite lookup_insert_ne by exact Hne. exists c'. split; [exact H | apply lawful_refl].
Qed.

Lemma put_contract_related a c w u w' :
  (forall c0, contracts w !! a = Some c0 -> K c0 c) ->
  put_contract a c w = Ok (u, w') -> related w w'.
Proof. intros Hk H. apply put_contract_Ok in H as ->. apply related_insert. exact Hk. Qed.

Lemma relates_call {A} (m : M A) w a w' : relates m -> m w = Ok (a, w') -> related w w'.
Proof. intros Hm H. eapply Hm. exact H. Qed.

Lemma relates_reads_only {A} (m : M A) : reads_only m -> relates m.
Proof. intros Hm w a w' H. apply Hm in H as ->. apply related_refl. Qed.

Lemma relates_bind {A B} (m : M A) (k : A -> M B) :
  relates m -> (forall a, relates (k a)) -> relates (bind m k).
Proof.
  intros Hm Hk w b w' H. apply bind_Ok in H as (a & w1 & H1 & H2).
  eapply related_trans; [eapply Hm | eapply Hk]; eassumption.
Qed.

Lemma relates_put_buk b : relates (put_buk b).
Proof. intros w u w' H. apply put_buk_Ok in H as ->. apply related_same. reflexivity. Qed.

Lemma relates_external_call callee c : relates (external_call callee c).
Proof.
  intros w b w' H. apply external_call_Ok in H as (_ & _ & ->).
  apply related_same. reflexivity.
Qed.

Lemma relates_for_uint8 {S} len (body : Z -> S -> M S) s :
  (forall i s, relates (body i s)) -> relates (for_uint8 len body s).
Proof.
  intros Hb w s' w'. unfold for_uint8. generalize 256%nat 0. intros fuel.
  revert s w. induction fuel as [|fuel IH]; intros s w i; simpl.
  - destruct (i <? len); [discriminate|]. intros [= <- <-]. apply related_refl.
  - destruct (i <? len); [|intros [= <- <-]; apply related_refl].
    intros H. apply bind_Ok in H as (s1 & w1 & H1 & H2).
    destruct (i =? MAX_UINT8); [discriminate|].
    eapply related_trans; [eapply Hb; exact H1 | eapply IH; exact H2].
Qed.

Lemma relates_new_contract creator n c : relates (new_contract creator n c).
Proof.
  intros w a w' H. apply new_contract_Ok in H as [Hfree ->].
  apply related_insert. intros c0 E. congruence.
Qed.
End Relation.

Arguments related K w w' : assert.
Arguments relates K {A} m : assert.

Lemma grantRole_Ok_inv R sender role account w R' w' :
  AccessControl.grantRole R sender role account w = Ok (R', w') ->
  hasRole R DEFAULT_ADMIN_ROLE sender = true /\ R' = _grantRole role account R /\ w' = w.
Proof.
  unfold AccessControl.grantRole, AccessControl.getRoleAdmin. intros H.
  apply bind_Ok in H as ([] & w1 & H1 & H2). apply onlyRole_Ok in H1 as [H1 ->].
  injection H2 as <- <-. auto.
Qed.

Lemma revokeRole_Ok_inv R sender role account w R' w' :
  AccessControl.revokeRole R sender role account w = Ok (R', w') ->
  hasRole R DEFAULT_ADMIN_ROLE sender = true /\ R' = _revokeRole role account R /\ w' = w.
Proof.
  unfold AccessControl.revokeRole, AccessControl.getRoleAdmin. intros H.
  apply bind_Ok in H as ([] & w1 & H1 & H2). apply onlyRole_Ok in H1 as [H1 ->].
  injection H2 as <- <-. auto.
Qed.

Lemma renounceRole_Ok_inv R sender role account w R' w' :
  AccessControl.renounceRole R sender role account w = Ok (R', w') ->
  R' = _revokeRole role account R /\ w' = w.
Proof.
  unfold AccessControl.renounceRole. intros H.
  apply bind_Ok in H as ([] & w1 & H1 & H2). apply require_Ok in H1 as [_ ->].
  injection H2 as <- <-. auto.
Qed.

Create HintDb relate.
#[export] Hint Extern 1 (relates _ (put_buk _)) =>
  (apply relates_put_buk; exact _) : relate.
#[export] Hint Extern 1 (relates _ (external_call _ _)) =>
  (apply relates_external_call; exact _) : relate.
#[export] Hint Extern 1 (relates _ (new_contract _ _ _)) =>
  (apply relates_new_contract; exact _) : relate.
#[export] Hint Extern 5 (relates _ _) =>
  (apply relates_reads_only; [exact _ | solve [auto with reads]]) : relate.

(** Takes a call of a ledger or deployer function that returned apart: the
    lookups of its loads, the checks it passed, and what each store relates;
    [side] proves that a store relates what the address held to what it
    holds, [known] the calls into other functions. *)
Ltac store_side side :=
  let c0 := fresh "c" in
  let E := fresh "E" in
  intros c0 E;
  match goal with
  | Hl : contracts ?w !! ?a = Some _, E : contracts ?w !! ?a = Some _ |- _ =>
      rewrite Hl in E; injection E as <-; simpl; side
  | Hl : contracts ?w !! ?a = Some ?c, Hk : related _ ?w ?w1,
    E : contracts ?w1 !! ?a = Some _ |- _ =>
      let c' := fresh "c" in
      let Hc := fresh "H" in
      let Kc := fresh "H" in
      destruct (Hk a c Hl) as (c' & Hc & Kc); rewrite Hc in E; injection E as <-;
      destruct c'; simpl in Kc |- *; solve [contradiction | exact I | side]
  end.

Ltac rel_inv K side known H :=
  cbv beta zeta in H;
  lazymatch type of H with
  | bind _ _ _ = Ok (_, _) =>
      let a := fresh "a" in
      let w := fresh "w" in
      let H1 := fresh "H" in
      let H2 := fresh "H" in
      apply bind_Ok in H; destruct H as (a & w & H1 & H2);
      rel_inv K side known H1; rel_inv K side known H2
  | (if ?c then _ else _) _ = Ok (_, _) => destruct c; rel_inv K side known H
  | SupplierContract.load _ _ = Ok _ =>
      apply supplier_load_inv in H; destruct H as [H ->]
  | SupplierUtilityContract.load _ _ = Ok _ =>
      apply utility_load_inv in H; destruct H as [H ->]
  | BukSupplierDeployer.load _ _ = Ok _ =>
      apply deployer_load_inv in H; destruct H as [H ->]
  | BukSupplierUtilityDeployer.load _ _ = Ok _ =>
      apply utility_deployer_load_inv in H; destruct H as [H ->]
  | SupplierContract.store _ _ _ = Ok _ =>
      unfold SupplierContract.store in H; rel_inv K side known H
  | SupplierUtilityContract.store _ _ _ = Ok _ =>
      unfold SupplierUtilityContract.store in H; rel_inv K side known H
  | BukSupplierDeployer.store _ _ _ = Ok _ =>
      unfold BukSupplierDeployer.store in H; rel_inv K side known H
  | BukSupplierUtilityDeployer.store _ _ _ = Ok _ =>
      unfold BukSupplierUtilityDeployer.store in H; rel_inv K side known H
  | put_contract _ _ _ = Ok _ =>
      apply (put_contract_related K) in H; [|store_side side]
  | new_contract _ _ _ _ = Ok _ => apply (relates_new_contract K) in H
  | onlyRole _ _ _ _ = Ok _ => apply onlyRole_Ok in H; destruct H as [H ->]
  | ERC1155._mint _ _ _ _ _ = Ok _ =>
      let H1 := fresh "H" in
      apply ERC1155_mint_Ok_inv in H; destruct H as (_ & _ & _ & H1 & ->);
      match type of H1 with ?v = _ => subst v end
  | AccessControl.grantRole _ _ _ _ _ = Ok _ =>
      let H1 := fresh "H" in
      apply grantRole_Ok_inv in H; destruct H as (H & H1 & ->);
      match type of H1 with ?v = _ => subst v end
  | AccessControl.revokeRole _ _ _ _ _ = Ok _ =>
      let H1 := fresh "H" in
      apply revokeRole_Ok_inv in H; destruct H as (H & H1 & ->);
      match type of H1 with ?v = _ => subst v end
  | AccessControl.renounceRole _ _ _ _ _ = Ok _ =>
      apply renounceRole_Ok_inv in H; destruct H as (H & ->);
      match type of H with ?v = _ => subst v end
  | revert _ _ = Ok _ => discriminate H
  | ?m ?w = Ok (_, ?w') =>
      first [ apply reads_only_call in H;
                [match type of H with ?v = _ => subst v end | solve [auto with reads]]
            | apply (relates_call K) in H; [| solve [known]]
            | idtac ]
  end.

Ltac rel_chain K :=
  repeat first
    [ eassumption
    | apply (related_refl K)
    | eapply (related_trans K); [eassumption|] ].

(** Splits a goal [relates K m] along the binds and the branches of [m]. *)
Ltac relates_split K known :=
  repeat first
    [ solve [known]
    | apply (relates_bind K); [| intros ?]
    | apply (relates_for_uint8 K); intros ? ?
    | match goal with
      | |- relates _ (if ?c then _ else _) => destruct c
      | |- relates _ (match ?x with _ => _ end) => destruct x
      | |- relates _ (let x := _ in _) => cbv zeta
      end ].

(** ** Proof-of-stay tokens stay *)

(** A ledger stays a ledger of its kind, and on a utility ledger no balance
    goes down. *)
Definition grows (old new : Contract) : Prop :=
  match old, new with
  | SupplierLedger _, SupplierLedger _ => True
  | UtilityLedger u, UtilityLedger u' =>
      forall a k, ERC1155.balanceOf (UC._balances u) a k
                  <= ERC1155.balanceOf (UC._balances u') a k
  | SupplierDeployer _, SupplierDeployer _ => True
  | UtilityDeployer _, UtilityDeployer _ => True
  | _, _ => False
  end.

#[export] Instance grows_lawful : Lawful grows.
Proof.
  split.
  - intros []; simpl; auto. intros; lia.
  - intros [] [] []; simpl; try tauto.
    intros H1 H2 a k. specialize (H1 a k). specialize (H2 a k). lia.
Qed.

Create HintDb grow.

Ltac grows_side :=
  first [ exact I
        | intros; simpl; lia
        | intros ? ?; simpl; rewrite balanceOf_insert; case_decide; simplify_eq; lia ].

Ltac grows_fun f :=
  intros ? ? ? H; unfold f in H;
  rel_inv grows grows_side ltac:(auto with relate grow) H; rel_chain grows.

Module UtilityGrows.
Import SupplierUtilityContract.
Lemma utility_grantSupplierRole_grows a b c : relates grows (grantSupplierRole a b c).
Proof. grows_fun grantSupplierRole. Qed.
Lemma utility_setContractURI_grows a b c : relates grows (setContractURI a b c).
Proof. grows_fun setContractURI. Qed.
Lemma utility_updateSupplierDetails_grows a b c : relates grows (updateSupplierDetails a b c).
Proof. grows_fun updateSupplierDetails. Qed.
Lemma utility_setURI_grows a b c d : relates grows (setURI a b c d).
Proof. grows_fun setURI. Qed.
Lemma utility_mint_grows a b c d amount f :
  0 <= amount -> relates grows (mint a b c d amount f).
Proof. intros Hamount. grows_fun mint. Qed.
Lemma utility_safeTransferFrom_grows a b c d e f : relates grows (safeTransferFrom a b c d e f).
Proof.
  intros ? ? ? H. unfold safeTransferFrom, _safeTransferFrom in H.
  rel_inv grows grows_side ltac:(auto with relate grow) H.
Qed.
Lemma utility_safeBatchTransferFrom_grows a b c d e f :
  relates grows (safeBatchTransferFrom a b c d e f).
Proof.
  intros ? ? ? H. unfold safeBatchTransferFrom, _safeBatchTransferFrom in H.
  rel_inv grows grows_side ltac:(auto with relate grow) H.
Qed.
Lemma utility_setApprovalForAll_grows a b c d : relates grows (setApprovalForAll a b c d).
Proof. grows_fun setApprovalForAll. Qed.
Lemma utility_grantRole_grows a b c d : relates grows (grantRole a b c d).
Proof. grows_fun grantRole. Qed.
Lemma utility_revokeRole_grows a b c d : relates grows (revokeRole a b c d).
Proof. grows_fun revokeRole. Qed.
Lemma utility_renounceRole_grows a b c d : relates grows (renounceRole a b c d).
Proof. grows_fun renounceRole. Qed.
End UtilityGrows.

#[export] Hint Resolve UtilityGrows.utility_grantSupplierRole_grows
  UtilityGrows.utility_setContractURI_grows UtilityGrows.utility_updateSupplierDetails_grows
  UtilityGrows.utility_setURI_grows UtilityGrows.utility_safeTransferFrom_grows
  UtilityGrows.utility_safeBatchTransferFrom_grows
  UtilityGrows.utility_setApprovalForAll_grows UtilityGrows.utility_grantRole_grows
  UtilityGrows.utility_revokeRole_grows UtilityGrows.utility_renounceRole_grows : grow.
#[export] Hint Extern 3 (relates grows (SupplierUtilityContract.mint _ _ _ _ _ _)) =>
  (apply UtilityGrows.utility_mint_grows; lia) : grow.

Module SupplierGrows.
Import SupplierContract.
Lemma supplier_setContractURI_grows a b c : relates grows (setContractURI a b c).
Proof. grows_fun setContractURI. Qed.
Lemma supplier_updateSupplierDetails_grows a b c : relates grows (updateSupplierDetails a b c).
Proof. grows_fun updateSupplierDetails. Qed.
Lemma supplier_setURI_grows a b c d : relates grows (setURI a b c d).
Proof. grows_fun setURI. Qed.
Lemma supplier_toggleNFTStatus_grows a b c d : relates grows (toggleNFTStatus a b c d).
Proof. grows_fun toggleNFTStatus. Qed.
Lemma supplier_mint_grows a b c d e f g : relates grows (mint a b c d e f g).
Proof. grows_fun mint. Qed.
Lemma supplier_burn_grows a b c d amount f :
  0 <= amount -> relates grows (burn a b c d amount f).
Proof. intros Hamount. grows_fun burn. Qed.
Lemma supplier_safeTransferFrom_grows a b c d e f : relates grows (safeTransferFrom a b c d e f).
Proof. grows_fun safeTransferFrom. Qed.
Lemma supplier_safeBatchTransferFrom_grows a b c d e f :
  relates grows (safeBatchTransferFrom a b c d e f).
Proof. grows_fun safeBatchTransferFrom. Qed.
Lemma supplier_setApprovalForAll_grows a b c d : relates grows (setApprovalForAll a b c d).
Proof. grows_fun setApprovalForAll. Qed.
Lemma supplier_grantRole_grows a b c d : relates grows (grantRole a b c d).
Proof. grows_fun grantRole. Qed.
Lemma supplier_revokeRole_grows a b c d : relates grows (revokeRole a b c d).
Proof. grows_fun revokeRole. Qed.
Lemma supplier_renounceRole_grows a b c d : relates grows (renounceRole a b c d).
Proof. grows_fun renounceRole. Qed.
End SupplierGrows.

#[export] Hint Resolve SupplierGrows.supplier_setContractURI_grows
  SupplierGrows.supplier_updateSupplierDetails_grows SupplierGrows.supplier_setURI_grows
  SupplierGrows.supplier_toggleNFTStatus_grows SupplierGrows.supplier_mint_grows
  SupplierGrows.supplier_safeTransferFrom_grows
  SupplierGrows.supplier_safeBatchTransferFrom_grows
  SupplierGrows.supplier_setApprovalForAll_grows SupplierGrows.supplier_grantRole_grows
  SupplierGrows.supplier_revokeRole_grows SupplierGrows.supplier_renounceRole_grows : grow.
#[export] Hint Extern 3 (relates grows (SupplierContract.burn _ _ _ _ _ _)) =>
  (apply SupplierGrows.supplier_burn_grows; lia) : grow.

Module DeployerGrows.
Lemma updateFactory_grows a b c : relates grows (BukSupplierDeployer.updateFactory a b c).
Proof. grows_fun BukSupplierDeployer.updateFactory. Qed.
Lemma deploySupplier_grows a b c d e f g h :
  relates grows (BukSupplierDeployer.deploySupplier a b c d e f g h).
Proof. grows_fun BukSupplierDeployer.deploySupplier. Qed.
Lemma utility_updateFactory_grows a b c :
  relates grows (BukSupplierUtilityDeployer.updateFactory a b c).
Proof. grows_fun BukSupplierUtilityDeployer.updateFactory. Qed.
Lemma deploySupplierUtility_grows a b c d e :
  relates grows (BukSupplierUtilityDeployer.deploySupplierUtility a b c d e).
Proof. grows_fun BukSupplierUtilityDeployer.deploySupplierUtility. Qed.
End DeployerGrows.

#[export] Hint Resolve DeployerGrows.updateFactory_grows DeployerGrows.deploySupplier_grows
  DeployerGrows.utility_updateFactory_grows DeployerGrows.deploySupplierUtility_grows
  : grow.

Lemma grows_grantRole R a r b : relates grows (AccessControl.grantRole R a r b).
Proof. intros w R' w' H. apply grantRole_Ok_inv in H as (_ & _ & ->). apply (related_refl grows). Qed.

Lemma grows_revokeRole R a r b : relates grows (AccessControl.revokeRole R a r b).
Proof. intros w R' w' H. apply revokeRole_Ok_inv in H as (_ & _ & ->). apply (related_refl grows). Qed.

Lemma grows_renounceRole R a r b : relates grows (AccessControl.renounceRole R a r b).
Proof. intros w R' w' H. apply renounceRole_Ok_inv in H as (_ & ->). apply (related_refl grows). Qed.

#[export] Hint Resolve grows_grantRole grows_revokeRole grows_renounceRole : grow.

(** The amounts of a transaction are unsigned integers. *)
Definition unsigned_amount (op : Op) : Prop :=
  match op with
  | utility_mint _ _ _ amount _ => 0 <= amount
  | ledger_burn _ _ _ amount _ => 0 <= amount
  | _ => True
  end.

Lemma exec_grows sender now op :
  unsigned_amount op -> relates grows (exec sender now op).
Proof.
  intros Hu. destruct op; simpl in Hu |- *; autounfold with orchestrator;
    relates_split grows ltac:(auto with relate grow).
Qed.

(** X15.  Proof-of-stay tokens stay.  Whatever transaction is sent, by
    whomever (its amounts being unsigned integers, as every [uint256] is), a
    utility ledger is still a utility ledger at its address afterwards, and
    no balance on it has gone down: the utility ledger has no function that
    burns or moves a token, and none of the other contracts can take one
    away. *)
Theorem proof_of_stay_is_permanent tx w ledger u :
  unsigned_amount (tx_op tx) ->
  contracts w !! ledger = Some (UtilityLedger u) ->
  exists u',
    contracts (step tx w) !! ledger = Some (UtilityLedger u')
    /\ forall account id,
         utility_balance_at w ledger account id
         <= utility_balance_at (step tx w) ledger account id.
Proof.
  intros Hu Hl. unfold step.
  destruct (exec (tx_sender tx) (tx_timestamp tx) (tx_op tx) w) as [[r w']|e] eqn:E;
    simpl.
  - destruct (exec_grows _ _ _ Hu w r w' E ledger _ Hl) as ([| u' | |] & Hl' & Hk);
      simpl in Hk; try contradiction.
    exists u'. split; [exact Hl'|]. intros account id.
    unfold utility_balance_at. rewrite Hl, Hl'. apply Hk.
  - exists u. split; [exact Hl|]. intros. lia.
Qed.

(** The guest of booking 1 has checked out and holds its proof of stay. *)
Definition demo_checked_out : World :=
  step (Demo.tx Demo.admin (checkout 1 [1])) demo_confirmed.

Lemma proof_of_stay_is_permanent_witness :
  utility_balance_at demo_checked_out 3001 Demo.guest 1 = 1
  /\ exists u',
       contracts
         (step (Demo.tx Demo.guest (utility_safeTransferFrom 3001 Demo.guest Demo.hotel 1 1))
            demo_checked_out) !! 3001
       = Some (UtilityLedger u')
       /\ forall account id,
            utility_balance_at demo_checked_out 3001 account id
            <= utility_balance_at
                 (step (Demo.tx Demo.guest
                          (utility_safeTransferFrom 3001 Demo.guest Demo.hotel 1 1))
                    demo_checked_out) 3001 account id.
Proof.
  split; [vm_compute; reflexivity|].
  apply (proof_of_stay_is_permanent
           (Demo.tx Demo.guest (utility_safeTransferFrom 3001 Demo.guest Demo.hotel 1 1))
           demo_checked_out 3001 (utility_storage demo_checked_out 3001)).
  - exact I.
  - vm_compute. reflexivity.
Defined.

(** ** The roles of the ledgers do not grow *)

(** What a call sent by [x] does to the roles of a ledger that has no admin:
    on a supplier ledger the roles shrink; on a utility ledger of which [x]
    does not hold the factory role the roles shrink and the supplier contract
    it names stays. *)
Definition shrinks (x : address) (old new : Contract) : Prop :=
  match old, new with
  | SupplierLedger s, SupplierLedger s' =>
      no_admin (SC._roles s) -> SC._roles s' ⊆ SC._roles s
  | UtilityLedger u, UtilityLedger u' =>
      no_admin (UC._roles u) ->
      hasRole (UC._roles u) FACTORY_CONTRACT_ROLE x = false ->
      UC._roles u' ⊆ UC._roles u /\ UC.supplier_contract u' = UC.supplier_contract u
  | SupplierDeployer _, SupplierDeployer _ => True
  | UtilityDeployer _, UtilityDeployer _ => True
  | _, _ => False
  end.

Lemma no_admin_subseteq (R R' : gset (Role * Z)) :
  R' ⊆ R -> no_admin R -> no_admin R'.
Proof.
  intros Hs Hn a. apply hasRole_false. intros Hin. apply Hs in Hin.
  specialize (Hn a). apply hasRole_false in Hn. contradiction.
Qed.

Lemma hasRole_subseteq (R R' : gset (Role * Z)) (r : Role) (a : Z) :
  R' ⊆ R -> hasRole R r a = false -> hasRole R' r a = false.
Proof.
  intros Hs Hn. apply hasRole_false. intros Hin. apply Hs in Hin.
  apply hasRole_false in Hn. contradiction.
Qed.

Lemma revokeRole_subseteq (r : Role) (a : Z) (R : gset (Role * Z)) :
  _revokeRole r a R ⊆ R.
Proof. unfold _revokeRole. intros p [Hp _]%elem_of_difference. exact Hp. Qed.

#[export] Instance shrinks_lawful x : Lawful (shrinks x).
Proof.
  split.
  - intros []; simpl; auto.
  - intros [s1|u1| |] [s2|u2| |] [s3|u3| |]; simpl; try tauto.
    + intros H1 H2 Hn. pose proof (H1 Hn) as H12.
      pose proof (H2 (no_admin_subseteq _ _ H12 Hn)) as H23.
      intros p Hp. apply H12, H23, Hp.
    + intros H1 H2 Hn Hf. destruct (H1 Hn Hf) as [H12 E12].
      destruct (H2 (no_admin_subseteq _ _ H12 Hn) (hasRole_subseteq _ _ _ _ H12 Hf))
        as [H23 E23].
      split; [|congruence]. intros p Hp. apply H12, H23, Hp.
Qed.

Create HintDb shrink.

Ltac shrinks_side :=
  first [ exact I
        | intros; split; reflexivity
        | intros; reflexivity
        | intros; apply revokeRole_subseteq
        | intros; split; [apply revokeRole_subseteq | reflexivity]
        | intros; exfalso;
          match goal with
          | H : hasRole ?R DEFAULT_ADMIN_ROLE ?s = true, Hn : no_admin ?R |- _ =>
              rewrite (Hn s) in H; discriminate H
          end
        | intros; exfalso; congruence ].

Ltac shrinks_fun x f :=
  intros ? ? ? H; unfold f in H;
  rel_inv (shrinks x) shrinks_side ltac:(auto with relate shrink) H;
  rel_chain (shrinks x).

Module UtilityShrinks.
Import SupplierUtilityContract.
Lemma utility_grantSupplierRole_shrinks x a c :
  relates (shrinks x) (grantSupplierRole a x c).
Proof. shrinks_fun x grantSupplierRole. Qed.
Lemma utility_setContractURI_shrinks x a b c : relates (shrinks x) (setContractURI a b c).
Proof. shrinks_fun x setContractURI. Qed.
Lemma utility_updateSupplierDetails_shrinks x a b c :
  relates (shrinks x) (updateSupplierDetails a b c).
Proof. shrinks_fun x updateSupplierDetails. Qed.
Lemma utility_setURI_shrinks x a b c d : relates (shrinks x) (setURI a b c d).
Proof. shrinks_fun x setURI. Qed.
Lemma utility_mint_shrinks x a b c d e f : relates (shrinks x) (mint a b c d e f).
Proof. shrinks_fun x mint. Qed.
Lemma utility_safeTransferFrom_shrinks x a b c d e f :
  relates (shrinks x) (safeTransferFrom a b c d e f).
Proof.
  intros ? ? ? H. unfold safeTransferFrom, _safeTransferFrom in H.
  rel_inv (shrinks x) shrinks_side ltac:(auto with relate shrink) H.
Qed.
Lemma utility_safeBatchTransferFrom_shrinks x a b c d e f :
  relates (shrinks x) (safeBatchTransferFrom a b c d e f).
Proof.
  intros ? ? ? H. unfold safeBatchTransferFrom, _safeBatchTransferFrom in H.
  rel_inv (shrinks x) shrinks_side ltac:(auto with relate shrink) H.
Qed.
Lemma utility_setApprovalForAll_shrinks x a b c d :
  relates (shrinks x) (setApprovalForAll a b c d).
Proof. shrinks_fun x setApprovalForAll. Qed.
Lemma utility_grantRole_shrinks x a b c d : relates (shrinks x) (grantRole a b c d).
Proof. shrinks_fun x grantRole. Qed.
Lemma utility_revokeRole_shrinks x a b c d : relates (shrinks x) (revokeRole a b c d).
Proof. shrinks_fun x revokeRole. Qed.
Lemma utility_renounceRole_shrinks x a b c d : relates (shrinks x) (renounceRole a b c d).
Proof. shrinks_fun x renounceRole. Qed.
End UtilityShrinks.

#[export] Hint Resolve UtilityShrinks.utility_grantSupplierRole_shrinks
  UtilityShrinks.utility_setContractURI_shrinks
  UtilityShrinks.utility_updateSupplierDetails_shrinks
  UtilityShrinks.utility_setURI_shrinks UtilityShrinks.utility_mint_shrinks
  UtilityShrinks.utility_safeTransferFrom_shrinks
  UtilityShrinks.utility_safeBatchTransferFrom_shrinks
  UtilityShrinks.utility_setApprovalForAll_shrinks UtilityShrinks.utility_grantRole_shrinks
  UtilityShrinks.utility_revokeRole_shrinks UtilityShrinks.utility_renounceRole_shrinks
  : shrink.

Module SupplierShrinks.
Import SupplierContract.
Lemma supplier_setContractURI_shrinks x a b c : relates (shrinks x) (setContractURI a b c).
Proof. shrinks_fun x setContractURI. Qed.
Lemma supplier_updateSupplierDetails_shrinks x a b c :
  relates (shrinks x) (updateSupplierDetails a b c).
Proof. shrinks_fun x updateSupplierDetails. Qed.
Lemma supplier_setURI_shrinks x a b c d : relates (shrinks x) (setURI a b c d).
Proof. shrinks_fun x setURI. Qed.
Lemma supplier_toggleNFTStatus_shrinks x a b c d :
  relates (shrinks x) (toggleNFTStatus a b c d).
Proof. shrinks_fun x toggleNFTStatus. Qed.
Lemma supplier_mint_shrinks x a b c d e f g : relates (shrinks x) (mint a b c d e f g).
Proof. shrinks_fun x mint. Qed.
Lemma supplier_burn_shrinks x a b c d e f : relates (shrinks x) (burn a b c d e f).
Proof. shrinks_fun x burn. Qed.
Lemma supplier_safeTransferFrom_shrinks x a b c d e f :
  relates (shrinks x) (safeTransferFrom a b c d e f).
Proof. shrinks_fun x safeTransferFrom. Qed.
Lemma supplier_safeBatchTransferFrom_shrinks x a b c d e f :
  relates (shrinks x) (safeBatchTransferFrom a b c d e f).
Proof. shrinks_fun x safeBatchTransferFrom. Qed.
Lemma supplier_setApprovalForAll_shrinks x a b c d :
  relates (shrinks x) (setApprovalForAll a b c d).
Proof. shrinks_fun x setApprovalForAll. Qed.
Lemma supplier_grantRole_shrinks x a b c d : relates (shrinks x) (grantRole a b c d).
Proof. shrinks_fun x grantRole. Qed.
Lemma supplier_revokeRole_shrinks x a b c d : relates (shrinks x) (revokeRole a b c d).
Proof. shrinks_fun x revokeRole. Qed.
Lemma supplier_renounceRole_shrinks x a b c d : relates (shrinks x) (renounceRole a b c d).
Proof. shrinks_fun x renounceRole. Qed.
End SupplierShrinks.

#[export] Hint Resolve SupplierShrinks.supplier_setContractURI_shrinks
  SupplierShrinks.supplier_updateSupplierDetails_shrinks
  SupplierShrinks.supplier_setURI_shrinks SupplierShrinks.supplier_toggleNFTStatus_shrinks
  SupplierShrinks.supplier_mint_shrinks SupplierShrinks.supplier_burn_shrinks
  SupplierShrinks.supplier_safeTransferFrom_shrinks
  SupplierShrinks.supplier_safeBatchTransferFrom_shrinks
  SupplierShrinks.supplier_setApprovalForAll_shrinks
  SupplierShrinks.supplier_grantRole_shrinks SupplierShrinks.supplier_revokeRole_shrinks
  SupplierShrinks.supplier_renounceRole_shrinks : shrink.

Module DeployerShrinks.
Lemma updateFactory_shrinks x a b c :
  relates (shrinks x) (BukSupplierDeployer.updateFactory a b c).
Proof. shrinks_fun x BukSupplierDeployer.updateFactory. Qed.
Lemma deploySupplier_shrinks x a b c d e f g h :
  relates (shrinks x) (BukSupplierDeployer.deploySupplier a b c d e f g h).
Proof. shrinks_fun x BukSupplierDeployer.deploySupplier. Qed.
Lemma utility_updateFactory_shrinks x a b c :
  relates (shrinks x) (BukSupplierUtilityDeployer.updateFactory a b c).
Proof. shrinks_fun x BukSupplierUtilityDeployer.updateFactory. Qed.
Lemma deploySupplierUtility_shrinks x a b c d e :
  relates (shrinks x) (BukSupplierUtilityDeployer.deploySupplierUtility a b c d e).
Proof. shrinks_fun x BukSupplierUtilityDeployer.deploySupplierUtility. Qed.
End DeployerShrinks.

#[export] Hint Resolve DeployerShrinks.updateFactory_shrinks
  DeployerShrinks.deploySupplier_shrinks DeployerShrinks.utility_updateFactory_shrinks
  DeployerShrinks.deploySupplierUtility_shrinks : shrink.

Lemma shrinks_grantRole x R a r b : relates (shrinks x) (AccessControl.grantRole R a r b).
Proof.
  intros w R' w' H. apply grantRole_Ok_inv in H as (_ & _ & ->).
  apply (related_refl (shrinks x)).
Qed.

Lemma shrinks_revokeRole x R a r b : relates (shrinks x) (AccessControl.revokeRole R a r b).
Proof.
  intros w R' w' H. apply revokeRole_Ok_inv in H as (_ & _ & ->).
  apply (related_refl (shrinks x)).
Qed.

Lemma shrinks_renounceRole x R a r b :
  relates (shrinks x) (AccessControl.renounceRole R a r b).
Proof.
  intros w R' w' H. apply renounceRole_Ok_inv in H as (_ & ->).
  apply (related_refl (shrinks x)).
Qed.

#[export] Hint Resolve shrinks_grantRole shrinks_revokeRole shrinks_renounceRole : shrink.

(** Every transaction but [registerSupplier], where the orchestrator itself
    grants a role on the ledger it has just created. *)
Lemma exec_shrinks sender now op :
  match op with registerSupplier _ _ _ _ => False | _ => True end ->
  relates (shrinks sender) (exec sender now op).
Proof.
  intros Hop. destruct op; try contradiction; simpl; autounfold with orchestrator;
    relates_split (shrinks sender) ltac:(auto with relate shrink).
Qed.

(** ** The registry of the suppliers *)

Lemma deploySupplierUtility_Ok_detail self sender id name uri w a w' :
  BukSupplierUtilityDeployer.deploySupplierUtility self sender id name uri w = Ok (a, w') ->
  exists d d',
    contracts w !! self = Some (UtilityDeployer d)
    /\ contracts w !! a = None
    /\ w' = set_contracts
              (<[self := UtilityDeployer d']>
                 (<[a := UtilityLedger (UC.constructor id name sender uri)]>
                    (contracts w))) w.
Proof.
  unfold BukSupplierUtilityDeployer.deploySupplierUtility. intros H.
  apply bind_Ok in H as (d & w1 & Hl & H). apply utility_deployer_load_inv in Hl as [Hl ->].
  apply bind_Ok in H as ([] & w1 & Hr & H). apply require_Ok in Hr as [Hr ->].
  apply bool_decide_eq_true_1 in Hr as ->.
  apply bind_Ok in H as (a' & w1 & Hn & H). apply new_contract_Ok in Hn as [Hfree ->].
  apply bind_Ok in H as ([] & w1 & Hs & H). apply put_contract_Ok in Hs as ->.
  injection H as <- <-. eexists _, _. split; [exact Hl|]. split; [exact Hfree|].
  reflexivity.
Qed.

Lemma deploySupplier_Ok_detail self sender cn id name owner utility uri w a w' :
  BukSupplierDeployer.deploySupplier self sender cn id name owner utility uri w
    = Ok (a, w') ->
  exists d d',
    contracts w !! self = Some (SupplierDeployer d)
    /\ contracts w !! a = None
    /\ w' = set_contracts
              (<[self := SupplierDeployer d']>
                 (<[a := SupplierLedger (SC.constructor id name owner utility sender uri)]>
                    (contracts w))) w.
Proof.
  unfold BukSupplierDeployer.deploySupplier. intros H.
  apply bind_Ok in H as (d & w1 & Hl & H). apply deployer_load_inv in Hl as [Hl ->].
  apply bind_Ok in H as ([] & w1 & Hr & H). apply require_Ok in Hr as [Hr ->].
  apply bool_decide_eq_true_1 in Hr as ->.
  apply bind_Ok in H as (a' & w1 & Hn & H). apply new_contract_Ok in Hn as [Hfree ->].
  apply bind_Ok in H as ([] & w1 & Hs & H). apply put_contract_Ok in Hs as ->.
  injection H as <- <-. eexists _, _. split; [exact Hl|]. split; [exact Hfree|].
  reflexivity.
Qed.

(** The utility ledger of a supplier, once the orchestrator has granted the
    supplier role on it. *)
Definition utility_of (n : Z) (name : string) (me L : Z) (uri : string) : UC.t :=
  UC.set_roles
    (_grantRole SUPPLIER_CONTRACT_ROLE L (UC._roles (UC.constructor n name me uri)))
    (UC.set_supplier_contract L (UC.constructor n name me uri)).

Definition is_ledger (c : Contract) : Prop :=
  match c with
  | SupplierLedger _ | UtilityLedger _ => True
  | _ => False
  end.

(** What [registerSupplier] does when it returns. *)
Lemma registerSupplier_Ok_detail sender cn name owner uri w u0 w' :
  BukTrips.registerSupplier sender cn name owner uri w = Ok (u0, w') ->
  let n := Storage.BukTrips._supplierIds (buk w) + 1 in
  let me := buk_address w in
  exists L U,
    contracts w !! L = None /\ contracts w !! U = None /\ L <> U
    /\ buk w' = Storage.BukTrips.set_Suppliers
                  (<[n := SupplierDetails.mk n true L owner U]>
                     (Storage.BukTrips.Suppliers (buk w)))
                  (Storage.BukTrips.set_supplierIds n (buk w))
    /\ contracts w' !! L = Some (SupplierLedger (SC.constructor n name owner U me uri))
    /\ contracts w' !! U = Some (UtilityLedger (utility_of n name me L uri))
    /\ (forall a c, contracts w !! a = Some c -> is_ledger c -> contracts w' !! a = Some c)
    /\ buk_address w' = me.
Proof.
  intros H n me. unfold BukTrips.registerSupplier in H.
  apply bind_Ok in H as ([] & w1 & Ha & H). apply onlyAdmin_Ok in Ha as [_ ->].
  apply bind_Ok in H as (s & w1 & Hg & H). inv_Ok Hg.
  apply bind_Ok in H as (n' & w1 & Hn & H). apply checked_add_Ok in Hn as (_ & -> & ->).
  apply bind_Ok in H as ([] & w1 & Hp & H). apply put_buk_Ok in Hp as ->.
  apply bind_Ok in H as (me' & w1 & Hg & H). inv_Ok Hg.
  fold n in H. simpl in H. fold me in H.
  apply bind_Ok in H as (U & w2 & HU & H).
  apply deploySupplierUtility_Ok_detail in HU as (d1 & d1' & HUD & HUfree & ->).
  simpl in HUD, HUfree.
  apply bind_Ok in H as (L & w3 & HL & H).
  apply deploySupplier_Ok_detail in HL as (d2 & d2' & HSD & HLfree & ->).
  simpl in HSD, HLfree.
  set (UD := Storage.BukTrips.utility_deployer (buk w)) in *.
  set (SD := Storage.BukTrips.supplier_deployer (buk w)) in *.
  assert (UD <> U) as HUDU by (intros E; rewrite E in HUD; congruence).
  assert (L <> UD) as HLUD.
  { intros E. rewrite E, lookup_insert_eq in HLfree. discriminate. }
  assert (L <> U) as HLU.
  { intros E. rewrite E, lookup_insert_ne, lookup_insert_eq in HLfree by exact HUDU.
    discriminate. }
  rewrite !lookup_insert_ne in HLfree by congruence.
  assert (SD <> UD) as HSDUD.
  { intros E. rewrite E, lookup_insert_eq in HSD. discriminate. }
  assert (SD <> U) as HSDU.
  { intros E. rewrite E, lookup_insert_ne, lookup_insert_eq in HSD by exact HUDU.
    discriminate. }
  rewrite !lookup_insert_ne in HSD by congruence.
  assert (SD <> L) as HSDL by (intros E; rewrite E in HSD; congruence).
  apply bind_Ok in H as ([] & w4 & Hgr & H).
  apply grantSupplierRole_Ok in Hgr as (u & Hu & ->). simpl in Hu.
  rewrite !lookup_insert_ne, lookup_insert_eq in Hu by congruence.
  injection Hu as <-.
  apply bind_Ok in H as (s4 & w5 & Hg & H). inv_Ok Hg. apply put_buk_Ok in H as ->.
  exists L, U. simpl.
  split; [exact HLfree|]. split; [exact HUfree|]. split; [exact HLU|].
  split; [reflexivity|]. split; [|split; [|split]].
  - rewrite !lookup_insert_ne by congruence. apply lookup_insert_eq.
  - apply lookup_insert_eq.
  - intros a c Hc Hled.
    assert (a <> U) by (intros E; rewrite E in Hc; congruence).
    assert (a <> L) by (intros E; rewrite E in Hc; congruence).
    assert (a <> UD) by (intros E; rewrite E, HUD in Hc; injection Hc as <-; exact Hled).
    assert (a <> SD) by (intros E; rewrite E, HSD in Hc; injection Hc as <-; exact Hled).
    rewrite !lookup_insert_ne by congruence. exact Hc.
  - reflexivity.
Qed.

(** Every transaction but [registerSupplier] keeps the counter of the
    suppliers. *)
Lemma setters_keep_supplierIds sender now op w r w' :
  exec sender now op w = Ok (r, w') ->
  match op with
  | registerSupplier _ _ _ _ | bookRoom _ _ _ _ _ _ | bookingRefund _ _ _
  | confirmRoom _ _ _ _ | checkout _ _ | cancelRoom _ _ _ _ _ => True
  | _ => Storage.BukTrips._supplierIds (buk w') = Storage.BukTrips._supplierIds (buk w)
  end.
Proof.
  intros H. destruct op; try exact I; simpl in H; apply done_Ok in H as [_ [a H]];
    autounfold with orchestrator in H;
    try (apply ledger_only_call in H; [rewrite H; reflexivity | solve [auto with ledger]]);
    buk_inv H; simpl;
    repeat match goal with E : buk _ = _ |- _ => rewrite E; clear E end;
    reflexivity.
Qed.

Lemma config_supplierIds s s' :
  config s' = config s ->
  Storage.BukTrips._supplierIds s' = Storage.BukTrips._supplierIds s.
Proof.
  intros H. change (Storage.BukTrips._supplierIds (config s')
                    = Storage.BukTrips._supplierIds (config s)).
  rewrite H. reflexivity.
Qed.

Lemma exec_keeps_supplierIds sender now op w r w' :
  exec sender now op w = Ok (r, w') ->
  match op with
  | registerSupplier _ _ _ _ => True
  | _ => Storage.BukTrips._supplierIds (buk w') = Storage.BukTrips._supplierIds (buk w)
  end.
Proof.
  intros H. pose proof (setters_keep_supplierIds sender now op w r w' H) as Hs.
  destruct op; try exact Hs; try exact I; simpl in H.
  - apply bookRoom_Ok_inv in H as (_ & acc & w1 & rest & Hloop & Hb & _). rewrite Hb.
    destruct (Z.le_gt_cases 0 _count) as [Hc | Hc].
    + apply bookRoom_loop_inv in Hloop as (_ & _ & _ & _ & (m & ->) & _); [|exact Hc].
      reflexivity.
    + rewrite for_uint8_negative in Hloop by lia. injection Hloop as <- <-. reflexivity.
  - apply done_Ok in H as [_ [a H]].
    apply bookingRefund_Ok_inv in H as (_ & _ & _ & [Hc _]). apply config_supplierIds, Hc.
  - apply done_Ok in H as [_ [a H]].
    apply confirmRoom_Ok_inv in H as (_ & _ & _ & _ & [Hc _]). apply config_supplierIds, Hc.
  - apply done_Ok in H as [_ [a H]].
    apply checkout_Ok_inv in H as (_ & _ & _ & _ & [Hc _]). apply config_supplierIds, Hc.
  - apply done_Ok in H as [_ [a H]].
    apply cancelRoom_Ok_inv in H as (_ & _ & _ & [Hc _]). apply config_supplierIds, Hc.
Qed.

(** The roles that the constructors and [registerSupplier] grant on the two
    ledgers of a supplier. *)
Definition supplier_roles (owner me : Z) : gset (Role * Z) :=
  SC._roles (SC.constructor 0 "" owner 0 me "").

Definition utility_roles (me L : Z) : gset (Role * Z) :=
  _grantRole SUPPLIER_CONTRACT_ROLE L (_grantRole FACTORY_CONTRACT_ROLE me ∅).

(** The entry [sid] of the table and its two ledgers: the record carries its
    id and is active; the ledgers are where it says, name each other, have no
    admin and hold no role beyond those they were created with. *)
Definition entry (w : World) (sid : Z) : Prop :=
  exists L owner U s u,
    suppliers_of w !! sid = Some (SupplierDetails.mk sid true L owner U)
    /\ contracts w !! L = Some (SupplierLedger s)
    /\ SC.utility_contract s = U
    /\ contracts w !! U = Some (UtilityLedger u)
    /\ UC.supplier_contract u = L
    /\ no_admin (SC._roles s) /\ no_admin (UC._roles u)
    /\ SC._roles s ⊆ supplier_roles owner (buk_address w)
    /\ UC._roles u ⊆ utility_roles (buk_address w) L.

Definition registry (w : World) : Prop :=
  let N := Storage.BukTrips._supplierIds (buk w) in
  0 <= N
  /\ (forall sid, sid < 1 \/ N < sid -> suppliers_of w !! sid = None)
  /\ (forall sid, 1 <= sid <= N -> entry w sid)
  /\ (forall sid sid' d d',
        suppliers_of w !! sid = Some d -> suppliers_of w !! sid' = Some d' ->
        sid <> sid' ->
        SupplierDetails.supplier_contract d <> SupplierDetails.supplier_contract d'
        /\ SupplierDetails.utility_contract d <> SupplierDetails.utility_contract d').

Lemma utility_roles_factory me L a :
  hasRole (utility_roles me L) FACTORY_CONTRACT_ROLE a = true -> a = me.
Proof.
  intros H. apply hasRole_true in H. unfold utility_roles, _grantRole in H.
  apply elem_of_union in H as [H | H]; [apply elem_of_singleton in H; discriminate|].
  apply elem_of_union in H as [H | H]; [apply elem_of_singleton in H; congruence|].
  apply not_elem_of_empty in H. contradiction.
Qed.

Lemma utility_roles_supplier me L a :
  hasRole (utility_roles me L) SUPPLIER_CONTRACT_ROLE a = true -> a = L.
Proof.
  intros H. apply hasRole_true in H. unfold utility_roles, _grantRole in H.
  apply elem_of_union in H as [H | H]; [apply elem_of_singleton in H; congruence|].
  apply elem_of_union in H as [H | H]; [apply elem_of_singleton in H; discriminate|].
  apply not_elem_of_empty in H. contradiction.
Qed.

Lemma supplier_roles_factory owner me a :
  hasRole (supplier_roles owner me) FACTORY_CONTRACT_ROLE a = true -> a = me.
Proof.
  intros H. apply hasRole_true in H.
  unfold supplier_roles, SC.constructor, _grantRole in H. simpl in H.
  repeat (apply elem_of_union in H as [H | H];
          [apply elem_of_singleton in H; first [discriminate | congruence]|]).
  apply not_elem_of_empty in H. contradiction.
Qed.

Lemma supplier_roles_update owner me a :
  hasRole (supplier_roles owner me) UPDATE_CONTRACT_ROLE a = true -> a = me \/ a = owner.
Proof.
  intros H. apply hasRole_true in H.
  unfold supplier_roles, SC.constructor, _grantRole in H. simpl in H.
  repeat (apply elem_of_union in H as [H | H];
          [apply elem_of_singleton in H;
           first [discriminate | left; congruence | right; congruence]|]).
  apply not_elem_of_empty in H. contradiction.
Qed.

Lemma hasRole_mono (R R' : gset (Role * Z)) (r : Role) (a : Z) :
  R' ⊆ R -> hasRole R' r a = true -> hasRole R r a = true.
Proof. intros Hs H. apply hasRole_true. apply Hs. apply hasRole_true. exact H. Qed.

(** A transaction from outside that is no [registerSupplier] keeps an
    entry. *)
Lemma entry_kept x now op w r w' sid :
  match op with registerSupplier _ _ _ _ => False | _ => True end ->
  outside w x ->
  exec x now op w = Ok (r, w') ->
  entry w sid -> entry w' sid.
Proof.
  intros Hop [Hx1 Hx2] H (L & owner & U & s & u & Hrec & HL & HsU & HU & HuL & Hns & Hnu
                          & Hrs & Hru).
  pose proof (exec_keeps x now op w r w' H) as [Ha Hk].
  pose proof (exec_shrinks x now op Hop w r w' H) as Hsh.
  pose proof (exec_keeps_suppliers x now op w r w' H) as Hsup.
  assert (suppliers_of w' = suppliers_of w) as Et by (destruct op; tauto).
  destruct (Hsh L _ HL) as ([s'| | |] & HL' & Ks); simpl in Ks; try contradiction.
  destruct (Hsh U _ HU) as ([|u'| |] & HU' & Ku); simpl in Ku; try contradiction.
  destruct (Hk L _ HL) as (c & Hc & Kc). rewrite HL' in Hc. injection Hc as <-.
  simpl in Kc. destruct Kc as [EU _].
  assert (hasRole (UC._roles u) FACTORY_CONTRACT_ROLE x = false) as Hfx.
  { destruct (hasRole (UC._roles u) FACTORY_CONTRACT_ROLE x) eqn:E; [|reflexivity].
    apply (hasRole_mono _ _ _ _ Hru) in E. apply utility_roles_factory in E.
    contradiction. }
  destruct (Ku Hnu Hfx) as [Hsub Esc]. specialize (Ks Hns).
  exists L, owner, U, s', u'. rewrite Et, Ha.
  split; [exact Hrec|]. split; [exact HL'|]. split; [congruence|].
  split; [exact HU'|]. split; [congruence|].
  split; [eapply no_admin_subseteq; eassumption|].
  split; [eapply no_admin_subseteq; eassumption|].
  split; [intros p Hp; apply Hrs, Ks, Hp | intros p Hp; apply Hru, Hsub, Hp].
Qed.

Lemma exec_registry x now op w r w' :
  registry w -> outside w x ->
  exec x now op w = Ok (r, w') -> registry w'.
Proof.
  intros (H0 & Hout & Hin & Hdis) Hx H.
  destruct (match op with registerSupplier _ _ _ _ => true | _ => false end) eqn:Eop.
  - destruct op; try discriminate. simpl in H. apply done_Ok in H as [_ [a H]].
    apply registerSupplier_Ok_detail in H
      as (L & U & HLfree & HUfree & HLU & Hbuk & HL & HU & Hold & Hme).
    set (N := Storage.BukTrips._supplierIds (buk w)) in *.
    assert (suppliers_of w'
            = <[N + 1 := SupplierDetails.mk (N + 1) true L _supplier_owner U]>
                (suppliers_of w)) as Et.
    { unfold suppliers_of. rewrite Hbuk. reflexivity. }
    assert (Storage.BukTrips._supplierIds (buk w') = N + 1) as EN
      by (rewrite Hbuk; reflexivity).
    unfold registry. rewrite EN, Et.
    split; [lia|]. split; [|split].
    + intros sid Hsid. rewrite lookup_insert_ne by lia. apply Hout. lia.
    + intros sid Hsid. destruct (decide (sid = N + 1)) as [->|Hne].
      * exists L, _supplier_owner, U. eexists _, _. rewrite Et, lookup_insert_eq, Hme.
        split; [reflexivity|]. split; [exact HL|]. split; [reflexivity|].
        split; [exact HU|]. split; [reflexivity|].
        split; [simpl; repeat apply no_admin_grant; try discriminate; apply no_admin_empty|].
        split; [simpl; repeat apply no_admin_grant; try discriminate; apply no_admin_empty|].
        split; reflexivity.
      * destruct (Hin sid) as (L0 & owner0 & U0 & s0 & u0 & Hrec & HL0 & HsU & HU0 & HuL
                               & Hns & Hnu & Hrs & Hru); [lia|].
        exists L0, owner0, U0, s0, u0. rewrite Et, lookup_insert_ne, Hme by congruence.
        split; [exact Hrec|]. split; [apply (Hold _ _ HL0 I)|]. split; [exact HsU|].
        split; [apply (Hold _ _ HU0 I)|]. auto 10.
    + assert (forall sid d, suppliers_of w !! sid = Some d ->
                SupplierDetails.supplier_contract d <> L
                /\ SupplierDetails.utility_contract d <> U) as Hfresh.
      { intros sid d Hd.
        destruct (Z.lt_ge_cases sid 1) as [Hlt|]; [rewrite Hout in Hd by lia; discriminate|].
        destruct (Z.lt_ge_cases N sid) as [Hlt|]; [rewrite Hout in Hd by lia; discriminate|].
        destruct (Hin sid) as (L0 & owner0 & U0 & s0 & u0 & Hrec & HL0 & _ & HU0 & _);
          [lia|].
        rewrite Hrec in Hd. injection Hd as <-. simpl.
        split; intros E; congruence. }
      intros sid sid' d d' Hd Hd' Hne.
      destruct (decide (sid = N + 1)) as [->|H1];
        destruct (decide (sid' = N + 1)) as [->|H2]; try contradiction.
      * rewrite lookup_insert_eq in Hd. rewrite lookup_insert_ne in Hd' by congruence.
        injection Hd as <-. simpl. destruct (Hfresh _ _ Hd') as [F1 F2].
        split; congruence.
      * rewrite lookup_insert_eq in Hd'. rewrite lookup_insert_ne in Hd by congruence.
        injection Hd' as <-. simpl. destruct (Hfresh _ _ Hd) as [F1 F2].
        split; congruence.
      * rewrite lookup_insert_ne in Hd, Hd' by congruence.
        apply (Hdis sid sid' d d' Hd Hd' Hne).
  - assert (match op with registerSupplier _ _ _ _ => False | _ => True end) as Hop
      by (destruct op; try exact I; discriminate).
    pose proof (exec_keeps_suppliers x now op w r w' H) as Hsup.
    pose proof (exec_keeps_supplierIds x now op w r w' H) as Hids.
    assert (suppliers_of w' = suppliers_of w) as Et by (destruct op; tauto).
    assert (Storage.BukTrips._supplierIds (buk w') = Storage.BukTrips._supplierIds (buk w))
      as EN by (destruct op; tauto).
    unfold registry. rewrite EN, Et.
    split; [exact H0|]. split; [exact Hout|]. split; [|exact Hdis].
    intros sid Hsid. eapply entry_kept; eauto.
Qed.

Lemma reachable_registry w : reachable w -> registry w.
Proof.
  induction 1 as [w (d & t & c & b & Hi) | w tx Hr IH Hout].
  - unfold registry, suppliers_of. rewrite Hi. simpl.
    split; [lia|]. split; [intros; apply lookup_empty|].
    split; [intros; lia|]. intros sid sid' d1 d2 Hd. rewrite lookup_empty in Hd.
    discriminate.
  - unfold step.
    destruct (exec (tx_sender tx) (tx_timestamp tx) (tx_op tx) w) as [[r w']|e] eqn:E.
    + simpl. eapply exec_registry; eassumption.
    + exact IH.
Qed.

Lemma active_lookup w sid :
  active w sid <->
  exists d, suppliers_of w !! sid = Some d /\ SupplierDetails.status d = true.
Proof.
  unfold active, BukTrips.getSupplier, suppliers_of. split.
  - destruct (Storage.BukTrips.Suppliers (buk w) !! sid) as [d|]; simpl;
      [eauto | discriminate].
  - intros (d & -> & H). exact H.
Qed.

Lemma getSupplier_lookup w sid d :
  suppliers_of w !! sid = Some d -> BukTrips.getSupplier (buk w) sid = d.
Proof. unfold BukTrips.getSupplier, suppliers_of. intros ->. reflexivity. Qed.

Lemma registry_active w sid :
  registry w -> (active w sid <-> 1 <= sid <= Storage.BukTrips._supplierIds (buk w)).
Proof.
  intros (H0 & Hout & Hin & _). split.
  - intros (d & Hd & _)%active_lookup.
    destruct (Z.lt_ge_cases sid 1) as [Hlt|]; [rewrite Hout in Hd by lia; discriminate|].
    destruct (Z.lt_ge_cases (Storage.BukTrips._supplierIds (buk w)) sid) as [Hlt|];
      [rewrite Hout in Hd by lia; discriminate|].
    lia.
  - intros Hsid. destruct (Hin sid Hsid) as (L & owner & U & s & u & Hrec & _).
    apply active_lookup. eexists. split; [exact Hrec | reflexivity].
Qed.

(** The table after any transaction: an active supplier keeps its record. *)
Lemma step_keeps_supplier tx w sid :
  registry w -> active w sid ->
  Storage.BukTrips._supplierIds (buk w)
    <= Storage.BukTrips._supplierIds (buk (step tx w))
    <= Storage.BukTrips._supplierIds (buk w) + 1
  /\ BukTrips.getSupplier (buk (step tx w)) sid = BukTrips.getSupplier (buk w) sid.
Proof.
  intros Hreg Ha. pose proof (proj1 (registry_active w sid Hreg) Ha) as Hsid.
  unfold step.
  destruct (exec (tx_sender tx) (tx_timestamp tx) (tx_op tx) w) as [[r w']|e] eqn:E;
    simpl; [|split; [lia | reflexivity]].
  pose proof (exec_keeps_suppliers _ _ _ _ _ _ E) as Hsup.
  pose proof (exec_keeps_supplierIds _ _ _ _ _ _ E) as Hids.
  destruct (tx_op tx);
    try (split; [lia | apply getSupplier_suppliers; exact Hsup]).
  simpl in E. apply done_Ok in E as [_ [a E]].
  apply registerSupplier_Ok_detail in E as (L & U & _ & _ & _ & Hbuk & _).
  rewrite Hbuk. simpl. split; [lia|].
  unfold BukTrips.getSupplier. simpl. rewrite lookup_insert_ne by lia. reflexivity.
Qed.

(** X16.  The registry of the suppliers.  In every world that transactions
    reach, the active suppliers are exactly those with an id from 1 to the
    counter [_supplierIds]; the record of each carries its id and names a
    supplier ledger and a utility ledger that exist and name each other; two
    suppliers share neither ledger.  No transaction removes, deactivates or
    rewrites the record of an active supplier, and one transaction adds at
    most one supplier. *)
Theorem supplier_registry_is_permanent w :
  reachable w ->
  let N := Storage.BukTrips._supplierIds (buk w) in
  (forall sid, active w sid <-> 1 <= sid <= N)
  /\ (forall sid,
        active w sid ->
        let d := BukTrips.getSupplier (buk w) sid in
        SupplierDetails.id d = sid
        /\ exists s u,
             contracts w !! SupplierDetails.supplier_contract d = Some (SupplierLedger s)
             /\ contracts w !! SupplierDetails.utility_contract d = Some (UtilityLedger u)
             /\ SC.utility_contract s = SupplierDetails.utility_contract d
             /\ UC.supplier_contract u = SupplierDetails.supplier_contract d)
  /\ (forall sid sid',
        active w sid -> active w sid' -> sid <> sid' ->
        let d := BukTrips.getSupplier (buk w) sid in
        let d' := BukTrips.getSupplier (buk w) sid' in
        SupplierDetails.supplier_contract d <> SupplierDetails.supplier_contract d'
        /\ SupplierDetails.utility_contract d <> SupplierDetails.utility_contract d')
  /\ (forall tx,
        N <= Storage.BukTrips._supplierIds (buk (step tx w)) <= N + 1
        /\ forall sid,
             active w sid ->
             BukTrips.getSupplier (buk (step tx w)) sid = BukTrips.getSupplier (buk w) sid).
Proof.
  intros Hr N. pose proof (reachable_registry w Hr) as Hreg.
  pose proof Hreg as (H0 & Hout & Hin & Hdis).
  split; [|split; [|split]].
  - intros sid. apply registry_active. exact Hreg.
  - intros sid Ha d. apply (registry_active w sid Hreg) in Ha.
    destruct (Hin sid Ha) as (L & owner & U & s & u & Hrec & HL & HsU & HU & HuL & _).
    unfold d. rewrite (getSupplier_lookup _ _ _ Hrec). simpl.
    split; [reflexivity|]. exists s, u. auto.
  - intros sid sid' Ha Ha' Hne d d'.
    apply active_lookup in Ha as (d0 & Hd0 & _). apply active_lookup in Ha' as (d1 & Hd1 & _).
    unfold d, d'. rewrite (getSupplier_lookup _ _ _ Hd0), (getSupplier_lookup _ _ _ Hd1).
    apply (Hdis sid sid' d0 d1 Hd0 Hd1 Hne).
  - intros tx. split.
    + unfold step.
      destruct (exec (tx_sender tx) (tx_timestamp tx) (tx_op tx) w) as [[r w']|e] eqn:E;
        simpl; [|lia].
      pose proof (exec_keeps_supplierIds _ _ _ _ _ _ E) as Hids.
      destruct (tx_op tx); try (fold N in Hids; lia).
      simpl in E. apply done_Ok in E as [_ [a E]].
      apply registerSupplier_Ok_detail in E as (L & U & _ & _ & _ & Hbuk & _).
      rewrite Hbuk. simpl. fold N. lia.
    + intros sid Ha. apply (step_keeps_supplier tx w sid Hreg Ha).
Qed.

Lemma supplier_registry_is_permanent_witness :
  (active demo_confirmed 2 <-> 1 <= 2 <= Storage.BukTrips._supplierIds (buk demo_confirmed))
  /\ SupplierDetails.supplier_contract (BukTrips.getSupplier (buk demo_confirmed) 1)
     <> SupplierDetails.supplier_contract (BukTrips.getSupplier (buk demo_confirmed) 2).
Proof.
  destruct (supplier_registry_is_permanent demo_confirmed reachable_demo_confirmed)
    as (H1 & _ & H3 & _).
  split; [apply H1|].
  apply (H3 1 2); [vm_compute; reflexivity | vm_compute; reflexivity | discriminate].
Defined.

(** ** Who may call the ledgers of a supplier *)

(** The ledger that a transaction is sent to and the role that its function
    asks of the caller first, for the functions of a supplier ledger and of a
    utility ledger that [onlyRole] guards; [grantRole] and [revokeRole] ask
    for the admin role of the role. *)
Definition supplier_guard (op : Op) : option (Z * Role) :=
  match op with
  | ledger_setContractURI l _ | ledger_setURI l _ _ | ledger_toggleNFTStatus l _ _
  | ledger_mint l _ _ _ _ _ | ledger_burn l _ _ _ _ => Some (l, FACTORY_CONTRACT_ROLE)
  | ledger_updateSupplierDetails l _ => Some (l, UPDATE_CONTRACT_ROLE)
  | ledger_grantRole l _ _ | ledger_revokeRole l _ _ => Some (l, DEFAULT_ADMIN_ROLE)
  | _ => None
  end.

Definition utility_guard (op : Op) : option (Z * Role) :=
  match op with
  | utility_grantSupplierRole l _ | utility_setURI l _ _ => Some (l, FACTORY_CONTRACT_ROLE)
  | utility_setContractURI l _ | utility_updateSupplierDetails l _
  | utility_mint l _ _ _ _ => Some (l, SUPPLIER_CONTRACT_ROLE)
  | utility_grantRole l _ _ | utility_revokeRole l _ _ => Some (l, DEFAULT_ADMIN_ROLE)
  | _ => None
  end.

Lemma onlyRole_refuses roles r a w :
  hasRole roles r a = false -> onlyRole roles r a w = Revert (MissingRole a).
Proof. unfold onlyRole. intros ->. reflexivity. Qed.

Lemma supplier_guard_refuses x now op w l role s :
  supplier_guard op = Some (l, role) ->
  contracts w !! l = Some (SupplierLedger s) ->
  hasRole (SC._roles s) role x = false ->
  exec x now op w = Revert (MissingRole x).
Proof.
  intros Hg Hl Hr.
  destruct op; simpl in Hg; try discriminate; injection Hg as -> <-; simpl;
    apply done_Revert;
    unfold SupplierContract.setContractURI, SupplierContract.updateSupplierDetails,
      SupplierContract.setURI, SupplierContract.toggleNFTStatus, SupplierContract.mint,
      SupplierContract.burn, SupplierContract.grantRole, SupplierContract.revokeRole,
      AccessControl.grantRole, AccessControl.revokeRole, AccessControl.getRoleAdmin;
    rewrite (bind_step _ _ _ _ _ (supplier_load_Ok _ _ _ Hl));
    repeat apply bind_fail; apply onlyRole_refuses; exact Hr.
Qed.

Lemma utility_guard_refuses x now op w l role u :
  utility_guard op = Some (l, role) ->
  contracts w !! l = Some (UtilityLedger u) ->
  hasRole (UC._roles u) role x = false ->
  exec x now op w = Revert (MissingRole x).
Proof.
  intros Hg Hl Hr.
  destruct op; simpl in Hg; try discriminate; injection Hg as -> <-; simpl;
    apply done_Revert;
    unfold SupplierUtilityContract.grantSupplierRole,
      SupplierUtilityContract.setContractURI,
      SupplierUtilityContract.updateSupplierDetails, SupplierUtilityContract.setURI,
      SupplierUtilityContract.mint, SupplierUtilityContract.grantRole,
      SupplierUtilityContract.revokeRole,
      AccessControl.grantRole, AccessControl.revokeRole, AccessControl.getRoleAdmin;
    rewrite (bind_step _ _ _ _ _ (utility_load_Ok _ _ _ Hl));
    repeat apply bind_fail; apply onlyRole_refuses; exact Hr.
Qed.

Lemma hasRole_not (R : gset (Role * Z)) (r : Role) (a : Z) :
  (hasRole R r a = true -> False) -> hasRole R r a = false.
Proof. destruct (hasRole R r a); [intros H; contradiction H; reflexivity | reflexivity]. Qed.

(** X17.  Only the orchestrator drives the ledgers of a supplier.  In every
    world that transactions reach, on the supplier ledger [L] of an active
    supplier the factory role is held by the orchestrator and by nobody else,
    and the update role by the orchestrator and the supplier's owner at most;
    on its utility ledger [U] the factory role is held by the orchestrator at
    most and the supplier role by [L] and by nobody else; neither ledger has
    an admin.  So [mint], [burn], [toggleNFTStatus], [setURI] and
    [setContractURI] sent to [L] by anyone but the orchestrator revert with
    the missing-role error, as do [mint], [setContractURI] and
    [updateSupplierDetails] sent to [U] by anyone but [L],
    [grantSupplierRole] and [setURI] sent to [U] by anyone but the
    orchestrator, and [grantRole] and [revokeRole] sent to either by
    anyone. *)
Theorem only_the_orchestrator_drives_the_ledgers w sid :
  reachable w -> active w sid ->
  let d := BukTrips.getSupplier (buk w) sid in
  let L := SupplierDetails.supplier_contract d in
  let U := SupplierDetails.utility_contract d in
  let me := buk_address w in
  exists s u,
    contracts w !! L = Some (SupplierLedger s)
    /\ contracts w !! U = Some (UtilityLedger u)
    /\ (forall a, hasRole (SC._roles s) FACTORY_CONTRACT_ROLE a = true <-> a = me)
    /\ (forall a, hasRole (SC._roles s) UPDATE_CONTRACT_ROLE a = true ->
                  a = me \/ a = SupplierDetails.supplier_owner d)
    /\ (forall a, hasRole (UC._roles u) FACTORY_CONTRACT_ROLE a = true -> a = me)
    /\ (forall a, hasRole (UC._roles u) SUPPLIER_CONTRACT_ROLE a = true <-> a = L)
    /\ no_admin (SC._roles s) /\ no_admin (UC._roles u)
    /\ (forall x now op,
          x <> me -> supplier_guard op = Some (L, FACTORY_CONTRACT_ROLE) ->
          exec x now op w = Revert (MissingRole x))
    /\ (forall x now op,
          x <> L -> utility_guard op = Some (U, SUPPLIER_CONTRACT_ROLE) ->
          exec x now op w = Revert (MissingRole x))
    /\ (forall x now op,
          x <> me -> utility_guard op = Some (U, FACTORY_CONTRACT_ROLE) ->
          exec x now op w = Revert (MissingRole x))
    /\ (forall x now op,
          supplier_guard op = Some (L, DEFAULT_ADMIN_ROLE)
          \/ utility_guard op = Some (U, DEFAULT_ADMIN_ROLE) ->
          exec x now op w = Revert (MissingRole x)).
Proof.
  intros Hr Ha d L U me.
  pose proof (reachable_registry w Hr) as Hreg.
  pose proof (proj1 (registry_active w sid Hreg) Ha) as Hsid.
  destruct Hreg as (_ & _ & Hin & _).
  destruct (Hin sid Hsid) as (L0 & owner & U0 & s & u & Hrec & HL & HsU & HU & HuL
                              & Hns & Hnu & Hrs & Hru).
  destruct (reachable_in_place w Hr) as [Hplace _].
  destruct (Hplace sid Ha) as (s' & u' & HL' & Hf & _ & HU' & Hsr & _).
  assert (d = SupplierDetails.mk sid true L0 owner U0) as Ed
    by (apply getSupplier_lookup; exact Hrec).
  assert (L = L0) as EL by (unfold L; rewrite Ed; reflexivity).
  assert (U = U0) as EU by (unfold U; rewrite Ed; reflexivity).
  fold d in HL'. fold L in HL'. rewrite EL, HL in HL'. injection HL' as <-.
  rewrite HsU, HU in HU'. injection HU' as <-.
  fold d in Hsr. fold L in Hsr. fold me in Hf, Hrs, Hru.
  clearbody L U. subst L U.
  assert (forall a, hasRole (SC._roles s) FACTORY_CONTRACT_ROLE a = true <-> a = me) as F1.
  { intros a. split; [|intros ->; exact Hf].
    intros H. apply (hasRole_mono _ _ _ _ Hrs) in H.
    apply supplier_roles_factory in H. exact H. }
  assert (forall a, hasRole (UC._roles u) FACTORY_CONTRACT_ROLE a = true -> a = me) as F2.
  { intros a H. apply (hasRole_mono _ _ _ _ Hru) in H.
    apply utility_roles_factory in H. exact H. }
  assert (forall a, hasRole (UC._roles u) SUPPLIER_CONTRACT_ROLE a = true <-> a = L0) as F3.
  { intros a. split; [|intros ->; exact Hsr].
    intros H. apply (hasRole_mono _ _ _ _ Hru) in H.
    apply utility_roles_supplier in H. exact H. }
  exists s, u. split; [exact HL|]. split; [exact HU|]. split; [exact F1|].
  split.
  { intros a H. apply (hasRole_mono _ _ _ _ Hrs) in H.
    apply supplier_roles_update in H. rewrite Ed. exact H. }
  split; [exact F2|]. split; [exact F3|]. split; [exact Hns|]. split; [exact Hnu|].
  split; [|split; [|split]].
  - intros x now op Hx Hg. eapply supplier_guard_refuses; [exact Hg | exact HL |].
    apply hasRole_not. intros H. apply F1 in H. contradiction.
  - intros x now op Hx Hg. eapply utility_guard_refuses; [exact Hg | exact HU |].
    apply hasRole_not. intros H. apply F3 in H. contradiction.
  - intros x now op Hx Hg. eapply utility_guard_refuses; [exact Hg | exact HU |].
    apply hasRole_not. intros H. apply F2 in H. contradiction.
  - intros x now op [Hg | Hg].
    + eapply supplier_guard_refuses; [exact Hg | exact HL | apply Hns].
    + eapply utility_guard_refuses; [exact Hg | exact HU | apply Hnu].
Qed.

Lemma only_the_orchestrator_drives_the_ledgers_witness :
  exec Demo.admin 1000 (ledger_mint 2001 7 Demo.admin 1 "forged" true) demo_confirmed
  = Revert (MissingRole Demo.admin)
  /\ exec Demo.hotel 1000 (ledger_burn 2001 Demo.guest 1 1 false) demo_confirmed
     = Revert (MissingRole Demo.hotel)
  /\ exec Demo.guest 1000 (utility_mint 3001 Demo.guest 9 1 "forged") demo_confirmed
     = Revert (MissingRole Demo.guest).
Proof.
  destruct (only_the_orchestrator_drives_the_ledgers demo_confirmed 1
              reachable_demo_confirmed)
    as (s & u & _ & _ & _ & _ & _ & _ & _ & _ & H1 & H2 & _).
  - vm_compute. reflexivity.
  - split; [|split].
    + apply H1; [vm_compute; discriminate | vm_compute; reflexivity].
    + apply H1; [vm_compute; discriminate | vm_compute; reflexivity].
    + apply H2; [vm_compute; discriminate | vm_compute; reflexivity].
Defined.

(** ** Renaming a supplier *)

(** The id and the name that the ledger at [a] gives for its supplier. *)
Definition details_at (w : World) (a : Z) : Z * string :=
  match contracts w !! a with
  | Some (SupplierLedger s) => SC.Details s
  | Some (UtilityLedger u) => UC.Details u
  | _ => (0, ""%string)
  end.

(** The orchestrator holds the update role on the ledger of every active
    supplier. *)
Definition orchestrator_updates (w : World) : Prop :=
  forall sid,
    active w sid ->
    exists s,
      contracts w !! SupplierDetails.supplier_contract (BukTrips.getSupplier (buk w) sid)
      = Some (SupplierLedger s)
      /\ hasRole (SC._roles s) UPDATE_CONTRACT_ROLE (buk_address w) = true.

Lemma exec_updates x now op w r w' :
  registry w -> orchestrator_updates w -> outside w x ->
  exec x now op w = Ok (r, w') -> orchestrator_updates w'.
Proof.
  intros Hreg Hup [Hx1 Hx2] H sid Ha'.
  destruct (match op with registerSupplier _ _ _ _ => true | _ => false end) eqn:Eop.
  - destruct op; try discriminate. simpl in H. apply done_Ok in H as [_ [a H]].
    apply registerSupplier_Ok_detail in H
      as (L & U & HLfree & HUfree & HLU & Hbuk & HL & HU & Hold & Hme).
    unfold active in Ha'. rewrite Hbuk in Ha' |- *. rewrite Hme.
    unfold BukTrips.getSupplier in Ha' |- *. simpl in Ha' |- *.
    destruct (decide (sid = Storage.BukTrips._supplierIds (buk w) + 1)) as [->|Hne].
    + rewrite lookup_insert_eq. simpl. eexists. split; [exact HL|].
      simpl. apply hasRole_grant.
    + rewrite lookup_insert_ne in Ha' |- * by congruence.
      destruct (Hup sid Ha') as (s & Hs & Hr). exists s.
      split; [apply (Hold _ _ Hs I) | exact Hr].
  - pose proof (exec_keeps_suppliers x now op w r w' H) as Hsup.
    assert (suppliers_of w' = suppliers_of w) as Et
      by (destruct op; try discriminate; exact Hsup).
    pose proof (exec_keeps x now op w r w' H) as [Hadr Hk].
    assert (active w sid) as Ha.
    { unfold active in *. rewrite <- (getSupplier_suppliers _ _ sid Et). exact Ha'. }
    rewrite (getSupplier_suppliers _ _ sid Et), Hadr.
    destruct (Hup sid Ha) as (s & Hs & Hr).
    pose proof (proj1 (registry_active w sid Hreg) Ha) as Hsid.
    destruct Hreg as (_ & _ & Hin & _).
    destruct (Hin sid Hsid) as (L & owner & U & s0 & u & Hrec & HL & _ & _ & _ & Hns & _).
    rewrite (getSupplier_lookup _ _ _ Hrec) in Hs |- *. simpl in Hs |- *.
    rewrite HL in Hs. injection Hs as <-.
    destruct (Hk _ _ HL) as ([s'| | |] & HL' & K); simpl in K; try contradiction.
    destruct K as [_ K]. destruct (K Hns) as [_ Kr].
    exists s'. split; [exact HL'|]. apply Kr; [congruence | exact Hr].
Qed.

Lemma reachable_updates w : reachable w -> orchestrator_updates w.
Proof.
  induction 1 as [w (d & t & c & b & Hi) | w tx Hr IH Hout].
  - intros sid Ha. unfold active, BukTrips.getSupplier in Ha. rewrite Hi in Ha.
    discriminate.
  - unfold step.
    destruct (exec (tx_sender tx) (tx_timestamp tx) (tx_op tx) w) as [[r w']|e] eqn:E.
    + simpl. eapply exec_updates; eauto using reachable_registry.
    + exact IH.
Qed.

(** X18.  Renaming a supplier reaches both of its ledgers.  In every world
    that transactions reach, [updateSupplierDetails] of the orchestrator,
    called by an admin for an active supplier, returns: the supplier ledger
    and, through it, the utility ledger of the supplier carry the new name
    and keep their supplier id; nothing else of the two ledgers, no other
    contract and nothing of the orchestrator changes, and no call is sent to
    the collaborators. *)
Theorem updateSupplierDetails_reaches_both_ledgers w admin sid name :
  reachable w -> active w sid -> is_admin w admin ->
  let d := BukTrips.getSupplier (buk w) sid in
  let L := SupplierDetails.supplier_contract d in
  let U := SupplierDetails.utility_contract d in
  exists w' s u,
    BukTrips.updateSupplierDetails admin sid name w = Ok (tt, w')
    /\ contracts w !! L = Some (SupplierLedger s)
    /\ contracts w !! U = Some (UtilityLedger u)
    /\ contracts w' !! L = Some (SupplierLedger (SC.set_Details (fst (SC.Details s), name) s))
    /\ contracts w' !! U = Some (UtilityLedger (UC.set_Details (fst (UC.Details u), name) u))
    /\ details_at w' L = (fst (details_at w L), name)
    /\ details_at w' U = (fst (details_at w U), name)
    /\ (forall a, a <> L -> a <> U -> contracts w' !! a = contracts w !! a)
    /\ buk w' = buk w /\ calls w' = calls w.
Proof.
  intros Hr Ha Had d L U.
  pose proof (reachable_registry w Hr) as Hreg.
  pose proof (proj1 (registry_active w sid Hreg) Ha) as Hsid.
  destruct Hreg as (_ & _ & Hin & _).
  destruct (Hin sid Hsid) as (L0 & owner & U0 & s & u & Hrec & HL & HsU & HU & HuL & _).
  destruct (reachable_in_place w Hr) as [Hplace _].
  destruct (Hplace sid Ha) as (s' & u' & HL' & _ & _ & HU' & Hsr & _).
  destruct (reachable_updates w Hr sid Ha) as (s'' & HL'' & Hup).
  assert (d = SupplierDetails.mk sid true L0 owner U0) as Ed
    by (apply getSupplier_lookup; exact Hrec).
  fold d in HL', Hsr, HL''. rewrite Ed in HL', Hsr, HL''. simpl in HL', Hsr, HL''.
  rewrite HL in HL', HL''. injection HL' as <-. injection HL'' as <-.
  rewrite HsU, HU in HU'. injection HU' as <-.
  assert (L = L0) as -> by (unfold L; rewrite Ed; reflexivity).
  assert (U = U0) as -> by (unfold U; rewrite Ed; reflexivity).
  assert (L0 <> U0) as Hne by congruence.
  set (w1 := set_contracts
               (<[L0 := SupplierLedger (SC.set_Details (fst (SC.Details s), name) s)]>
                  (contracts w)) w).
  assert (contracts w1 !! U0 = Some (UtilityLedger u)) as HU1.
  { unfold w1. simpl. rewrite lookup_insert_ne by exact Hne. exact HU. }
  exists (set_contracts
            (<[U0 := UtilityLedger (UC.set_Details (fst (UC.Details u), name) u)]>
               (contracts w1)) w1), s, u.
  split.
  { unfold BukTrips.updateSupplierDetails.
    rewrite (bind_step _ _ _ _ _ (onlyAdmin_pass _ _ Had)).
    unfold bind at 1. unfold get_buk at 1. unfold bind at 1. unfold this at 1.
    fold d. rewrite Ed. simpl SupplierDetails.supplier_contract.
    unfold SupplierContract.updateSupplierDetails.
    rewrite (bind_step _ _ _ _ _ (supplier_load_Ok _ _ _ HL)).
    rewrite (bind_step _ _ _ _ _ (onlyRole_pass _ _ _ _ Hup)).
    unfold SupplierContract.store at 1. unfold bind at 1. unfold put_contract at 1.
    fold w1. rewrite HsU.
    unfold SupplierUtilityContract.updateSupplierDetails.
    rewrite (bind_step _ _ _ _ _ (utility_load_Ok _ _ _ HU1)).
    rewrite (bind_step _ _ _ _ _ (onlyRole_pass _ _ _ _ Hsr)).
    reflexivity. }
  split; [exact HL|]. split; [exact HU|]. simpl.
  split; [rewrite lookup_insert_ne by congruence; apply lookup_insert_eq|].
  split; [apply lookup_insert_eq|].
  unfold details_at. simpl.
  rewrite lookup_insert_eq, (lookup_insert_ne _ U0 L0), lookup_insert_eq, HL, HU
    by congruence.
  split; [reflexivity|]. split; [reflexivity|].
  split; [|split; reflexivity].
  intros a Ha1 Ha2. rewrite !lookup_insert_ne by congruence. reflexivity.
Qed.

Lemma updateSupplierDetails_reaches_both_ledgers_witness :
  exists w',
    BukTrips.updateSupplierDetails Demo.admin 1 "Acme Hotels" demo_confirmed = Ok (tt, w')
    /\ details_at w' 2001 = (1, "Acme Hotels"%string)
    /\ details_at w' 3001 = (1, "Acme Hotels"%string).
Proof.
  destruct (updateSupplierDetails_reaches_both_ledgers demo_confirmed Demo.admin 1
              "Acme Hotels" reachable_demo_confirmed)
    as (w' & s & u & E & _ & _ & _ & _ & H1 & H2 & _).
  - vm_compute. reflexivity.
  - vm_compute. reflexivity.
  - exists w'. split; [exact E|]. split.
    + etransitivity; [exact H1|]. vm_compute. reflexivity.
    + etransitivity; [exact H2|]. vm_compute. reflexivity.
Defined.

(** ** The transfer lock *)

Lemma getTimeLock_set s sid id lock s' k :
  BukTrips.getTimeLock
    (Storage.BukTrips.set_TimeLocks (<[(sid, id) := lock]> (Storage.BukTrips.TimeLocks s)) s)
    s' k
  = if decide ((sid, id) = (s', k)) then lock else BukTrips.getTimeLock s s' k.
Proof.
  unfold BukTrips.getTimeLock. simpl. rewrite lookup_insert.
  destruct (decide ((sid, id) = (s', k))); reflexivity.
Qed.

(** X19.  [setTransferLock], called by an admin with a lock of [hours] hours
    for the token [id] under the supplier [sid], stores [3600 * hours]
    seconds under the pair [(sid, id)] and leaves the other locks, the
    bookings, the suppliers, the ledgers and the calls as they were; it
    reverts with an arithmetic panic when the product overflows.  When [sid]
    is the supplier stored in the booking [id], [toggleNFTStatus] of a caller
    with access to the booking, which has a token, is then refused from
    [3600 * hours] seconds before check-in on: with "NFT toggle not possible
    now", or with an arithmetic panic when the lock is longer than the
    check-in time. *)
Theorem setTransferLock_closes_the_window admin sid id hours w :
  is_admin w admin ->
  (MAX_UINT256 < 3600 * hours ->
   BukTrips.setTransferLock admin sid id hours w = Revert (Panic ARITHMETIC))
  /\ (3600 * hours <= MAX_UINT256 ->
      exists w',
        BukTrips.setTransferLock admin sid id hours w = Ok (tt, w')
        /\ (forall s k,
              BukTrips.getTimeLock (buk w') s k
              = if decide ((sid, id) = (s, k)) then 3600 * hours
                else BukTrips.getTimeLock (buk w) s k)
        /\ bookings_kept w w' /\ suppliers_of w' = suppliers_of w
        /\ contracts w' = contracts w /\ calls w' = calls w
        /\ (forall sender now st,
              Booking.supplierId (getB w id) = sid ->
              is_admin w sender \/ sender = Booking.owner (getB w id) ->
              0 < tokenID_of w id ->
              Booking.checkin (getB w id) - 3600 * hours <= now ->
              BukTrips.toggleNFTStatus sender now id st w'
              = Revert (if 3600 * hours <=? Booking.checkin (getB w id)
                        then Require StateError "NFT toggle not possible now"
                        else Panic ARITHMETIC))).
Proof.
  intros Had. split.
  - intros Hov. unfold BukTrips.setTransferLock.
    rewrite (bind_step _ _ _ _ _ (onlyAdmin_pass _ _ Had)).
    apply bind_fail. unfold checked_mul.
    destruct (Z.leb_spec (3600 * hours) MAX_UINT256); [lia | reflexivity].
  - intros Hok. eexists. split.
    { unfold BukTrips.setTransferLock.
      rewrite (bind_step _ _ _ _ _ (onlyAdmin_pass _ _ Had)).
      rewrite (bind_step _ _ _ _ _ (proj2 (checked_mul_Ok _ _ _ _ _)
                 (conj Hok (conj eq_refl eq_refl)))).
      reflexivity. }
    simpl. split; [intros s k; apply getTimeLock_set|].
    split; [split; reflexivity|]. split; [reflexivity|].
    split; [reflexivity|]. split; [reflexivity|].
    intros sender now st Hsid Hacc Htok Hnow.
    set (w' := set_buk _ w).
    assert (getB w' id = getB w id) as Eb by reflexivity.
    assert (is_admin w' sender \/ sender = Booking.owner (getB w' id)) as Hacc'
      by (rewrite Eb; exact Hacc).
    unfold BukTrips.toggleNFTStatus.
    rewrite (bind_step _ _ _ _ _ (checkAccess_pass _ _ _ Hacc')).
    unfold bind at 1. unfold get_buk at 1. cbv zeta.
    change (BukTrips.getBooking (buk w') id) with (getB w id).
    rewrite (bind_step _ _ _ _ _ (require_true _ _ _ _ (proj2 (Z.ltb_lt _ _) Htok))).
    unfold w'. simpl buk. rewrite getTimeLock_set, Hsid, decide_True by reflexivity.
    unfold checked_sub.
    destruct (Z.leb_spec (3600 * hours) (Booking.checkin (getB w id))).
    + rewrite (bind_step (ret _) _ _ _ _ eq_refl).
      apply bind_fail, require_false. apply Z.ltb_ge. exact Hnow.
    + reflexivity.
Qed.

Lemma setTransferLock_closes_the_window_witness :
  exists w',
    BukTrips.setTransferLock Demo.admin 1 1 1 demo_confirmed = Ok (tt, w')
    /\ BukTrips.toggleNFTStatus Demo.guest 1400 1 true w'
       = Revert (Require StateError "NFT toggle not possible now").
Proof.
  destruct (setTransferLock_closes_the_window Demo.admin 1 1 1 demo_confirmed)
    as (_ & H).
  - vm_compute. reflexivity.
  - destruct H as (w' & E & _ & _ & _ & _ & _ & H).
    + vm_compute. discriminate.
    + exists w'. split; [exact E|].
      apply (H Demo.guest 1400 true).
      * vm_compute. reflexivity.
      * right. vm_compute. reflexivity.
      * vm_compute. reflexivity.
      * vm_compute. discriminate.
Defined.
